(** * Schema recognition, normalisation and duplicate detection of the
      e-invoices analysis engine: a shallow embedding and its properties.

    The development follows [utils/file_handler.py],
    [services/quick_analysis_engine.py], [services/report_collector.py] and
    the header row of [services/data_processor.py].  Each Python function is embedded as
    a Rocq function of the same name; pandas and [datetime] operations are
    embedded by the functions of the modules [Text], [Calendar] and [Frame].

    Modelling conventions.
    - Text is a byte string ([string]): a Python [str] is taken in its UTF-8
      encoding.  Case mapping covers the ASCII letters and the two-byte
      Latin-1 letters (the only ones of the month table); white space and
      digits are the ASCII ones; every byte above 127 counts as a word
      character.
    - A numeric cell holds an exact integer; floating point rounding is only
      modelled where the date parser converts its argument ([Pyfloat]).  The
      properties that depend on arithmetic are stated where the integers of
      the embedding and the numbers of pandas agree: cells of absolute value
      at most [2^53] for the exchange of signs ([Transforms.numeric_columns]),
      sums of absolute values at most [2^24] for the totals
      ([Totals.exact_sums]), which are exact in [int64], [float64] and
      [float32] alike.
    - A missing cell ([CNull]) stands for [NaN], [None] and [NaT]; the
      properties that compare cells with numbers take columns without
      missing cells, or numeric columns, where a missing cell is [NaN].
    - The accessor [.str] is refused ([AttributeError]) on a column that is
      not an object column of text ([Analysis.str_accessor]).
    - A raised exception is a value [Raise e] of the type [result]. *)

From Stdlib Require Import ZArith List String Ascii Bool Lia Arith.
From Stdlib Require Import Numbers.DecimalString Numbers.DecimalZ Numbers.DecimalPos.
From Stdlib Require Import QArith.
From Stdlib Require Import Sorting.Permutation Sorting.Sorted.
Import ListNotations.

Close Scope Q_scope.
Open Scope string_scope.
Open Scope list_scope.

(** ** Results of fallible Python code *)

Inductive exn : Type :=
| KeyError
| ValueError
| TypeError
| OverflowError
| AttributeError.

Inductive result (A : Type) : Type :=
| Return (a : A)
| Raise (e : exn).

Arguments Return {A} a.
Arguments Raise {A} e.

Definition bind {A B : Type} (m : result A) (k : A -> result B) : result B :=
  match m with
  | Return a => k a
  | Raise e => Raise e
  end.

Notation "x <- m ;; k" := (bind m (fun x => k))
  (at level 61, m at next level, right associativity).

(** ** Text: the [str] methods the engine calls *)

Module Text.

Definition code (c : ascii) : nat := nat_of_ascii c.

Definition between (lo hi n : nat) : bool := (lo <=? n)%nat && (n <=? hi)%nat.

(** [str.isspace] on ASCII: TAB..CR, FS..US and the blank. *)
Definition is_space (c : ascii) : bool :=
  between 9 13 (code c) || between 28 32 (code c).

Definition is_digit (c : ascii) : bool := between 48 57 (code c).

(** [\w] of the [re] module: letters, digits and the underscore. *)
Definition is_word (c : ascii) : bool :=
  between 97 122 (code c) || between 65 90 (code c) || is_digit c
  || (code c =? 95)%nat || (128 <=? code c)%nat.

(** Upper case of one byte; [after_c3] says that the byte before was the
    UTF-8 lead byte of U+00C0..U+00FF, where the letters a-grave..thorn
    (continuation bytes A0..BE, the division sign B7 apart) have their capital
    32 places below. *)
Definition upper_byte (after_c3 : bool) (c : ascii) : ascii :=
  let n := code c in
  if after_c3 then
    if between 160 190 n && negb (n =? 183)%nat then ascii_of_nat (n - 32) else c
  else if between 97 122 n then ascii_of_nat (n - 32) else c.

Fixpoint upper_from (after_c3 : bool) (s : string) : string :=
  match s with
  | EmptyString => EmptyString
  | String c r => String (upper_byte after_c3 c) (upper_from (code c =? 195)%nat r)
  end.

(** [str.upper] *)
Definition upper (s : string) : string := upper_from false s.

Fixpoint lstrip (s : string) : string :=
  match s with
  | EmptyString => EmptyString
  | String c r => if is_space c then lstrip r else s
  end.

Fixpoint rstrip (s : string) : string :=
  match s with
  | EmptyString => EmptyString
  | String c r =>
      let r' := rstrip r in
      if is_space c && (r' =? EmptyString) then EmptyString else String c r'
  end.

(** [str.strip] *)
Definition strip (s : string) : string := rstrip (lstrip s).

Fixpoint all_chars (p : ascii -> bool) (s : string) : bool :=
  match s with
  | EmptyString => true
  | String c r => p c && all_chars p r
  end.

(** [str.isdigit]: at least one character, all of them digits.  The digits
    are the ASCII ones: on a text with other characters that Python counts as
    digits (superscripts and the like) the embedding answers [false] where
    Python answers [true]; the properties of the date parser are stated on
    ASCII text ([Letters.ascii_text]) where they depend on it. *)
Definition isdigit (s : string) : bool :=
  negb (s =? EmptyString) && all_chars is_digit s.

(** [pat in s] on two strings. *)
Fixpoint contains (pat s : string) : bool :=
  String.prefix pat s ||
  match s with
  | EmptyString => false
  | String _ r => contains pat r
  end.

(** [x in lst] on a list of strings. *)
Definition mem (x : string) (l : list string) : bool := existsb (String.eqb x) l.

Fixpoint skip (n : nat) (s : string) : string :=
  match n, s with
  | O, _ => s
  | S k, String _ r => skip k r
  | S _, EmptyString => EmptyString
  end.

Fixpoint take (n : nat) (s : string) : string :=
  match n, s with
  | S k, String c r => String c (take k r)
  | _, _ => EmptyString
  end.

(** [str(n)] and [int(s)] for an integer. *)
Definition str_of_int (n : Z) : string := NilZero.string_of_int (Z.to_int n).

Definition int_of_str (s : string) : result Z :=
  match NilZero.int_of_string s with
  | Some d => Return (Z.of_int d)
  | None => Raise ValueError
  end.

(** Decimal of a natural number on at least [w] digits ([%02d], [%04d]). *)
Fixpoint zeros (n : nat) : string :=
  match n with
  | O => EmptyString
  | S k => String "0" (zeros k)
  end.

Definition pad_int (w : nat) (n : Z) : string :=
  let s := str_of_int n in
  zeros (w - String.length s) ++ s.

End Text.

(** ** Calendar: the proleptic Gregorian calendar of Python's [datetime] *)

Module Calendar.

Open Scope Z_scope.

(** A [datetime] is its day number ([toordinal]: 1 is 0001-01-01) and the
    microsecond of that day. *)
Record datetime : Type := mkDatetime { ordinal : Z; micro : Z }.

Definition MINORD : Z := 1.
Definition MAXORD : Z := 3652059.

Definition is_leap (y : Z) : bool :=
  (y mod 4 =? 0) && (negb (y mod 100 =? 0) || (y mod 400 =? 0)).

Definition days_before_year (year : Z) : Z :=
  let y := year - 1 in
  y * 365 + y / 4 - y / 100 + y / 400.

Definition DAYS_IN_MONTH : list Z := [-1; 31; 28; 31; 30; 31; 30; 31; 31; 30; 31; 30; 31].
Definition DAYS_BEFORE_MONTH : list Z :=
  [-1; 0; 31; 59; 90; 120; 151; 181; 212; 243; 273; 304; 334].

Definition b2z (b : bool) : Z := if b then 1 else 0.

Definition days_before_month (year month : Z) : Z :=
  nth (Z.to_nat month) DAYS_BEFORE_MONTH 0 + b2z ((2 <? month) && is_leap year).

Definition ymd2ord (year month day : Z) : Z :=
  days_before_year year + days_before_month year month + day.

Definition DI400Y : Z := 146097.
Definition DI100Y : Z := 36524.
Definition DI4Y : Z := 1461.

Definition ord2ymd (n0 : Z) : Z * Z * Z :=
  let n := n0 - 1 in
  let n400 := n / DI400Y in
  let n := n mod DI400Y in
  let year := n400 * 400 + 1 in
  let n100 := n / DI100Y in
  let n := n mod DI100Y in
  let n4 := n / DI4Y in
  let n := n mod DI4Y in
  let n1 := n / 365 in
  let n := n mod 365 in
  let year := year + n100 * 100 + n4 * 4 + n1 in
  if (n1 =? 4) || (n100 =? 4) then (year - 1, 12, 31)
  else
    let leapyear := (n1 =? 3) && (negb (n4 =? 24) || (n100 =? 3)) in
    let month := Z.shiftr (n + 50) 5 in
    let preceding :=
      nth (Z.to_nat month) DAYS_BEFORE_MONTH 0 + b2z ((2 <? month) && leapyear) in
    if n <? preceding then
      let month := month - 1 in
      let preceding :=
        preceding - (nth (Z.to_nat month) DAYS_IN_MONTH 0
                     + b2z ((month =? 2) && leapyear)) in
      (year, month, n - preceding + 1)
    else (year, month, n - preceding + 1).

Definition year_of (d : datetime) : Z := fst (fst (ord2ymd (ordinal d))).

(** [datetime(1899, 12, 30)] *)
Definition excel_epoch : datetime := mkDatetime (ymd2ord 1899 12 30) 0.

(** [d + timedelta(days=n)]: the [timedelta] constructor refuses more than
    999999999 days, the sum refuses a date outside [MINORD..MAXORD]. *)
Definition add_days (d : datetime) (n : Z) : result datetime :=
  if 999999999 <? Z.abs n then Raise OverflowError
  else
    let o := ordinal d + n in
    if (MINORD <=? o) && (o <=? MAXORD) then Return (mkDatetime o (micro d))
    else Raise OverflowError.

Definition dt_eqb (a b : datetime) : bool :=
  (ordinal a =? ordinal b) && (micro a =? micro b).

Definition dt_leb (a b : datetime) : bool :=
  (ordinal a <? ordinal b) || ((ordinal a =? ordinal b) && (micro a <=? micro b)).

Definition dt_min (a b : datetime) : datetime := if dt_leb a b then a else b.
Definition dt_max (a b : datetime) : datetime := if dt_leb a b then b else a.

Definition MONTH_ABBR : list string :=
  ["Jan"; "Feb"; "Mar"; "Apr"; "May"; "Jun"; "Jul"; "Aug"; "Sep"; "Oct"; "Nov"; "Dec"].

(** [d.strftime('%d-%b-%Y')] in the C locale. *)
Definition strftime_d_b_Y (d : datetime) : string :=
  let '(y, m, dd) := ord2ymd (ordinal d) in
  (Text.pad_int 2 dd ++ "-" ++ nth (Z.to_nat (m - 1)) MONTH_ABBR "" ++ "-"
   ++ Text.pad_int 4 y)%string.

(** [str(d)]: the ISO form with a blank between date and time. *)
Definition str_of_datetime (d : datetime) : string :=
  let '(y, m, dd) := ord2ymd (ordinal d) in
  let s := micro d / 1000000 in
  let us := micro d mod 1000000 in
  (Text.pad_int 4 y ++ "-" ++ Text.pad_int 2 m ++ "-" ++ Text.pad_int 2 dd ++ " "
   ++ Text.pad_int 2 (s / 3600) ++ ":" ++ Text.pad_int 2 ((s / 60) mod 60) ++ ":"
   ++ Text.pad_int 2 (s mod 60)
   ++ (if (us =? 0)%Z then "" else "." ++ Text.pad_int 6 us))%string.

End Calendar.

(** ** Frame: the pandas tables the engine works on *)

Module Frame.

Import Calendar.

(** A cell of a table: missing ([NaN], [None], [NaT]), a number, a text or a
    time stamp. *)
Inductive cell : Type :=
| CNull
| CNum (z : Z)
| CStr (s : string)
| CDate (d : datetime).

Definition cell_eqb (a b : cell) : bool :=
  match a, b with
  | CNull, CNull => true
  | CNum x, CNum y => (x =? y)%Z
  | CStr x, CStr y => (x =? y)%string
  | CDate x, CDate y => dt_eqb x y
  | _, _ => false
  end.

(** [str(cell)] *)
Definition str_of_cell (c : cell) : string :=
  match c with
  | CNull => "nan"
  | CNum z => Text.str_of_int z
  | CStr s => s
  | CDate d => str_of_datetime d
  end.

Inductive dtype : Type := DNumeric | DDatetime | DObject.

Record column : Type := mkColumn { col_name : string; col_dtype : dtype }.

Definition row : Type := list cell.

(** A [DataFrame]: its columns in order and its rows in order, the cells of a
    row in the order of the columns.  A cell a row is too short for reads as
    missing. *)
Record DataFrame : Type := mkDataFrame { columns : list column; rows : list row }.

(** [pd.DataFrame()] *)
Definition empty_frame : DataFrame := mkDataFrame [] [].

(** [df.columns.tolist()] *)
Definition column_names (df : DataFrame) : list string := map col_name (columns df).

(** [df.empty]: no column or no row. *)
Definition df_empty (df : DataFrame) : bool :=
  match columns df, rows df with
  | [], _ => true
  | _, [] => true
  | _, _ => false
  end.

(** Position of the first column of a given name. *)
Fixpoint index_of (name : string) (names : list string) : option nat :=
  match names with
  | [] => None
  | n :: r => if (name =? n)%string then Some O
              else option_map S (index_of name r)
  end.

(** [col in df.columns] *)
Definition has_column (df : DataFrame) (name : string) : bool :=
  Text.mem name (column_names df).

(** [row[name]] *)
Definition get_cell (df : DataFrame) (r : row) (name : string) : cell :=
  match index_of name (column_names df) with
  | Some i => nth i r CNull
  | None => CNull
  end.

(** [df[name].dtype], as far as the engine tells the types apart. *)
Definition column_dtype (df : DataFrame) (name : string) : dtype :=
  match index_of name (column_names df) with
  | Some i => col_dtype (nth i (columns df) (mkColumn name DObject))
  | None => DObject
  end.

(** [df[name].tolist()] *)
Definition column_values (df : DataFrame) (name : string) : list cell :=
  map (fun r => get_cell df r name) (rows df).

(** The row with the cell at position [i] replaced, missing cells before it
    filled in. *)
Definition set_nth (i : nat) (v : cell) (r : row) : row :=
  firstn i (r ++ repeat CNull (i - List.length r)) ++ v :: skipn (S i) r.

Fixpoint map2 {A B C : Type} (f : A -> B -> C) (l : list A) (m : list B) : list C :=
  match l, m with
  | a :: l', b :: m' => f a b :: map2 f l' m'
  | _, _ => []
  end.

(** [df[name] = values]: an existing column is overwritten in place, a new
    one is appended as the last column. *)
Definition set_column (df : DataFrame) (name : string) (dt : dtype)
    (values : list cell) : DataFrame :=
  match index_of name (column_names df) with
  | Some i =>
      mkDataFrame
        (firstn i (columns df) ++ mkColumn name dt :: skipn (S i) (columns df))
        (map2 (fun r v => set_nth i v r) (rows df) values)
  | None =>
      mkDataFrame
        (columns df ++ [mkColumn name dt])
        (map2 (fun r v => set_nth (List.length (columns df)) v r) (rows df) values)
  end.

(** [df.loc[mask, name] = value] on an existing column. *)
Definition loc_assign (df : DataFrame) (mask : list bool) (name : string)
    (value : cell) : DataFrame :=
  match index_of name (column_names df) with
  | Some i =>
      mkDataFrame (columns df)
        (map2 (fun r (b : bool) => if b then set_nth i value r else r) (rows df) mask)
  | None => df
  end.

(** [df[mask]] *)
Fixpoint select {A : Type} (l : list A) (mask : list bool) : list A :=
  match l, mask with
  | a :: l', b :: m' => if b then a :: select l' m' else select l' m'
  | _, _ => []
  end.

Definition filter_rows (df : DataFrame) (p : row -> bool) : DataFrame :=
  mkDataFrame (columns df) (filter p (rows df)).

End Frame.

(** ** The store of tables: references, copies and in-place updates *)

Module Store.

Import Frame.

Definition ref : Type := nat.
Definition store : Type := list DataFrame.

(** A computation on the store. *)
Definition State (A : Type) : Type := store -> A * store.

Definition ret {A : Type} (a : A) : State A := fun st => (a, st).

Definition bindS {A B : Type} (m : State A) (k : A -> State B) : State B :=
  fun st => let '(a, st') := m st in k a st'.

Definition deref (r : ref) : State DataFrame :=
  fun st => (nth r st empty_frame, st).

(** A new table; its reference is the next free one. *)
Definition alloc (df : DataFrame) : State ref :=
  fun st => (List.length st, st ++ [df]).

Fixpoint update_at (r : ref) (f : DataFrame -> DataFrame) (st : store) : store :=
  match st, r with
  | [], _ => []
  | d :: st', O => f d :: st'
  | d :: st', S r' => d :: update_at r' f st'
  end.

(** An update in place of the table behind [r]. *)
Definition modify (r : ref) (f : DataFrame -> DataFrame) : State unit :=
  fun st => (tt, update_at r f st).

End Store.

Declare Scope state_scope.
Delimit Scope state_scope with state.
Notation "x <~ m ;; k" := (Store.bindS m (fun x => k))
  (at level 61, m at next level, right associativity) : state_scope.
Notation "m ;;; k" := (Store.bindS m (fun _ => k))
  (at level 61, right associativity) : state_scope.

(** ** Schema matcher: [fn_find_matching_category] *)

Module Matcher.

Import Frame.

(** A sheet of the parameter file ([FileHeaders], [FindapHeaders]): for each
    category, in the order of the sheet's columns, the cells of its column. *)
Definition headers_table : Type := list (string * list cell).

(** [table[category]] *)
Fixpoint table_get (t : headers_table) (category : string) : result (list cell) :=
  match t with
  | [] => Raise KeyError
  | (c, cells) :: t' => if (category =? c)%string then Return cells
                        else table_get t' category
  end.

(** [str(x).upper().strip()] *)
Definition normalize (c : cell) : string := Text.strip (Text.upper (str_of_cell c)).

(** [df[df[category] != ''][category].tolist()] *)
Definition nonblank (cells : list cell) : list cell :=
  filter (fun c => negb (cell_eqb c (CStr ""))) cells.

Definition lst_currentheaders (cells : list cell) : list string :=
  map normalize (nonblank cells).

Definition lst_mycurrentrow (r : row) : list string := map normalize r.

(** [set(a).issubset(set(b))] and [set(a) == set(b)] *)
Definition issubset (a b : list string) : bool := forallb (fun x => Text.mem x b) a.
Definition set_equal (a b : list string) : bool := issubset a b && issubset b a.

(** Python's truth value of a cell ([if new_head]). *)
Definition truthy (c : cell) : bool :=
  match c with
  | CStr s => negb (s =? "")%string
  | CNum z => negb (z =? 0)%Z
  | _ => true
  end.

(** [[idx for idx, header in enumerate(row) if header in headers]] *)
Fixpoint positions_from (i : nat) (headers rowv : list string) : list nat :=
  match rowv with
  | [] => []
  | h :: r => if Text.mem h headers then i :: positions_from (S i) headers r
              else positions_from (S i) headers r
  end.

(** The five values the matcher returns. *)
Record matching : Type := mkMatching {
  str_filetype : string;
  int_myheaderrow : option nat;
  currentheaders : list string;
  currentheaders_idx : list nat;
  lst_Findapnewheaders : list cell
}.

Definition UNKNOWN : matching := mkMatching "UNKNOWN" None [] [] [].

(** The body of the two loops once the test of a row against a category has
    succeeded. *)
Definition accept (newheaders : headers_table) (i : nat) (r : row)
    (entry : string * list cell) : result matching :=
  let headers := lst_currentheaders (snd entry) in
  new <- table_get newheaders (fst entry) ;;
  Return (mkMatching (fst entry) (Some i) headers
            (positions_from 0 headers (lst_mycurrentrow r))
            (filter truthy new)).

Definition exact_test (r : row) (entry : string * list cell) : bool :=
  set_equal (lst_currentheaders (snd entry)) (lst_mycurrentrow r).

Definition subset_test (r : row) (entry : string * list cell) : bool :=
  issubset (lst_currentheaders (snd entry)) (lst_mycurrentrow r).

(** A [for] loop left by its first [return]. *)
Fixpoint first_return {A B : Type} (body : A -> option B) (l : list A) : option B :=
  match l with
  | [] => None
  | a :: l' => match body a with
               | Some b => Some b
               | None => first_return body l'
               end
  end.

(** One pass: the rows in order, for each row the categories in order. *)
Definition pass (test : row -> string * list cell -> bool)
    (original newheaders : headers_table) (sheet : list row) (max_iterations : nat)
    : option (result matching) :=
  first_return (fun i =>
    let r := nth i sheet [] in
    first_return (fun entry =>
      if test r entry then Some (accept newheaders i r entry) else None) original)
    (seq 0 max_iterations).

(** [fn_find_matching_category(df_mydf, max_iterations=25)], with the two
    sheets of the parameter file it reads. *)
Definition fn_find_matching_category (original newheaders : headers_table)
    (df_mydf : list row) (max_iterations : nat) : result matching :=
  let max_iterations := Nat.min (List.length df_mydf) max_iterations in
  match pass exact_test original newheaders df_mydf max_iterations with
  | Some res => res
  | None =>
      match pass subset_test original newheaders df_mydf max_iterations with
      | Some res => res
      | None => Return UNKNOWN
      end
  end.

(** The (row, category) pairs in the order the loops visit them. *)
Definition candidates (original : headers_table) (sheet : list row)
    (max_iterations : nat) : list (nat * (string * list cell)) :=
  flat_map (fun i => map (pair i) original)
    (seq 0 (Nat.min (List.length sheet) max_iterations)).

End Matcher.

(** ** Floating point numbers as far as the date parser converts them *)

Module Pyfloat.

Open Scope Z_scope.

(** A binary64 value: not a number, an infinity, or the finite [m * 2^e]. *)
Inductive pyfloat : Type :=
| FNan
| FInf (negative : bool)
| FFinite (m e : Z).

(** A natural number rounded to 53 significant bits, ties to even: the pair
    [(m, e)] stands for [m * 2^e]. *)
Definition round53 (a : Z) : Z * Z :=
  let bits := Z.log2 a + 1 in
  if bits <=? 53 then (a, 0)
  else
    let k := bits - 53 in
    let q := Z.shiftr a k in
    let r := a - Z.shiftl q k in
    let half := Z.shiftl 1 (k - 1) in
    if (half <? r) || ((r =? half) && Z.odd q) then (q + 1, k) else (q, k).

Definition overflows (me : Z * Z) : bool := 2 ^ 1024 <=? fst me * 2 ^ snd me.

(** [float(n)] for an [int]: too large a value raises. *)
Definition float_of_int (n : Z) : result pyfloat :=
  let me := round53 (Z.abs n) in
  if overflows me then Raise OverflowError
  else Return (FFinite (Z.sgn n * fst me) (snd me)).

(** [float(s)] for a string of digits of value [n]: too large a value is
    infinite. *)
Definition float_of_digits (n : Z) : pyfloat :=
  let me := round53 n in
  if overflows me then FInf false else FFinite (fst me) (snd me).

(** [int(f)]: truncation toward zero. *)
Definition int_of_float (f : pyfloat) : result Z :=
  match f with
  | FNan => Raise ValueError
  | FInf _ => Raise OverflowError
  | FFinite m e => if 0 <=? e then Return (m * 2 ^ e)
                   else Return (Z.quot m (2 ^ (- e)))
  end.

End Pyfloat.

(** ** Date parser: [fn_replace_months] and [fn_parse_dates_multipleformats] *)

Module Dates.

Import Calendar Pyfloat.

(** The values a cell handed to the parser can be. *)
Inductive pyval : Type :=
| VNone
| VNaT
| VInt (n : Z)
| VFloat (f : pyfloat)
| VStr (s : string)
| VDatetime (d : datetime).

(** [dic_month_map], in the order of the dictionary display. *)
Definition dic_month_map : list (string * string) :=
  [("Jan", "01"); ("January", "01"); ("JANUARY", "01"); ("JAN", "01"); ("MUTARAMA", "01");
   ("Feb", "02"); ("Februar", "02"); ("February", "02"); ("Février", "02"); ("Fév", "02");
   ("Fev", "02"); ("Febrero", "02"); ("FEB", "02"); ("FEBRUARY", "02"); ("FÉVRIER", "02");
   ("FÉV", "02"); ("FEV", "02"); ("FEBRERO", "02"); ("FEBRUAR", "02"); ("GASHYANTARE", "02");
   ("Mar", "03"); ("March", "03"); ("März", "03"); ("Mars", "03"); ("Marzo", "03");
   ("MAR", "03"); ("MARCH", "03"); ("MÄRZ", "03"); ("MARS", "03"); ("MARZO", "03");
   ("WERURWE", "03");
   ("Apr", "04"); ("April", "04"); ("Avril", "04"); ("Abril", "04"); ("APR", "04");
   ("APRIL", "04"); ("AVRIL", "04"); ("ABRIL", "04"); ("MATA", "04");
   ("May", "05"); ("Mai", "05"); ("Mayo", "05"); ("MAY", "05"); ("MAI", "05");
   ("MAYO", "05"); ("GICURASI", "05");
   ("Jun", "06"); ("June", "06"); ("Juni", "06"); ("Juin", "06"); ("Junio", "06");
   ("JUN", "06"); ("JUNE", "06"); ("JUNI", "06"); ("JUIN", "06"); ("JUNIO", "06");
   ("KAMENA", "06");
   ("Jul", "07"); ("July", "07"); ("Juli", "07"); ("Juillet", "07"); ("Julio", "07");
   ("JUL", "07"); ("JULY", "07"); ("JULI", "07"); ("JUILLET", "07"); ("JULIO", "07");
   ("NYAKANGA", "07");
   ("Aug", "08"); ("August", "08"); ("Août", "08"); ("Agosto", "08"); ("Aou", "08");
   ("AUG", "08"); ("AUGUST", "08"); ("AOÛT", "08"); ("AGOSTO", "08"); ("KANAMA", "08");
   ("Sep", "09"); ("September", "09"); ("Septembre", "09"); ("Sept", "09");
   ("Setiembre", "09"); ("Septiembre", "09"); ("SEP", "09"); ("SEPTEMBER", "09");
   ("SEPTEMBRE", "09"); ("SEPT", "09"); ("SETIEMBRE", "09"); ("SEPTIEMBRE", "09");
   ("NZERI", "09"); ("NZELI", "09");
   ("Oct", "10"); ("October", "10"); ("Oktober", "10"); ("Octobre", "10"); ("Octubre", "10");
   ("OCT", "10"); ("OCTOBER", "10"); ("OKTOBER", "10"); ("OCTOBRE", "10"); ("OCTUBRE", "10");
   ("UKWAKIRA", "10");
   ("Nov", "11"); ("November", "11"); ("Novembre", "11"); ("Noviembre", "11"); ("NOV", "11");
   ("NOVEMBER", "11"); ("NOVEMBRE", "11"); ("NOVIEMBRE", "11"); ("UGUSHYINGO", "11");
   ("Dec", "12"); ("December", "12"); ("Dezember", "12"); ("Décembre", "12");
   ("Diciembre", "12"); ("Déc", "12"); ("Dez", "12"); ("DIC", "12"); ("DEC", "12");
   ("DECEMBER", "12"); ("DEZEMBER", "12"); ("DÉCEMBRE", "12"); ("DÉC", "12"); ("DEZ", "12");
   ("DICIEMBRE", "12"); ("UKUBOZA", "12")].

(** [dic[key]] *)
Fixpoint dict_get (d : list (string * string)) (k : string) : result string :=
  match d with
  | [] => Raise KeyError
  | (k', v) :: d' => if (k =? k')%string then Return v else dict_get d' k
  end.

(** [\b]: the characters on the two sides differ in being word characters;
    the two ends of the string count as not a word character. *)
Definition word_boundary (before after : bool) : bool := xorb before after.

Definition next_is_word (s : string) : bool :=
  match s with
  | EmptyString => false
  | String c _ => Text.is_word c
  end.

Fixpoint last_is_word (before : bool) (s : string) : bool :=
  match s with
  | EmptyString => before
  | String c r => last_is_word (Text.is_word c) r
  end.

(** One alternative of [month_pattern] matches at the head of [s], whatever
    the case, and a word boundary follows it. *)
Definition alternative_matches (prev_word : bool) (s k : string) : bool :=
  let n := String.length k in
  let m := Text.take n s in
  (String.length m =? n)%nat
  && (Text.upper m =? Text.upper k)%string
  && word_boundary (last_is_word prev_word m) (next_is_word (Text.skip n s)).

(** [month_pattern] at the head of [s]: a word boundary, then the first
    alternative, in the order of the dictionary, that matches. *)
Definition month_match (prev_word : bool) (s : string) : option string :=
  if word_boundary prev_word (next_is_word s) then
    option_map (fun k => Text.take (String.length k) s)
      (find (alternative_matches prev_word s) (map fst dic_month_map))
  else None.

(** [month_pattern.sub(lambda x: dic_month_map[x.group().upper()], s)], read
    from the left; [inside] counts the characters of the current match still
    to be passed over. *)
Fixpoint sub_months (prev_word : bool) (inside : nat) (s : string) : result string :=
  match s with
  | EmptyString => Return EmptyString
  | String c r =>
      match inside with
      | S k => sub_months (Text.is_word c) k r
      | O =>
          match month_match prev_word s with
          | Some group =>
              v <- dict_get dic_month_map (Text.upper group) ;;
              rest <- sub_months (Text.is_word c) (String.length group - 1) r ;;
              Return (v ++ rest)%string
          | None =>
              rest <- sub_months (Text.is_word c) 0 r ;;
              Return (String c rest)
          end
      end
  end.

Definition fn_replace_months (dte_mydate : string) : result string :=
  sub_months false 0 dte_mydate.

Definition EXCEL_LIMIT : Z := 2958466.

Section Parser.

(** [datetime.strptime(text, format)]: [None] stands for its [ValueError]. *)
Variable strptime : string -> string -> option datetime.

(** [lst_dates_regex]: the formats of the parameter file, in its order. *)
Variable lst_dates_regex : list string.

(** The loop over the formats: the first one that parses wins. *)
Fixpoint try_formats (dte_mydate : string) (formats : list string) : option datetime :=
  match formats with
  | [] => None
  | str_myformat :: rest =>
      match strptime (Text.strip dte_mydate) (Text.strip str_myformat) with
      | Some d => Some d
      | None => try_formats dte_mydate rest
      end
  end.

(** The end of the parser, from the month substitution on. *)
Definition parse_text (dte_mydate : string) : result pyval :=
  replaced <- fn_replace_months dte_mydate ;;
  match try_formats replaced lst_dates_regex with
  | Some d => Return (VDatetime d)
  | None => Return (VStr replaced)
  end.

(** The branch of the numbers: [f] is [float(dte_mydate)]. *)
Definition parse_number (f : result pyfloat) : result pyval :=
  x <- f ;;
  n <- int_of_float x ;;
  let dte_mydate := Text.str_of_int n in
  serial <- Text.int_of_str dte_mydate ;;
  if (serial <? EXCEL_LIMIT)%Z then
    d <- add_days excel_epoch serial ;;
    Return (VDatetime d)
  else parse_text dte_mydate.

Definition fn_parse_dates_multipleformats (dte_mydate : pyval) : result pyval :=
  match dte_mydate with
  | VDatetime _ => Return dte_mydate
  | VNone | VNaT | VFloat FNan => Return dte_mydate
  | VInt n => parse_number (float_of_int n)
  | VFloat f => parse_number (Return f)
  | VStr s =>
      if Text.mem s [""; "NaN"; "NaT"] then Return dte_mydate
      else if Text.isdigit s then
        parse_number (v <- Text.int_of_str s ;; Return (float_of_digits v))
      else parse_text s
  end.

End Parser.


(** The integer a serial date stands for: an [int] itself, a finite [float]
    truncated, a string of digits read in base ten. *)
Definition serial_value (x : pyval) : option Z :=
  match x with
  | VInt n => Some n
  | VFloat f => match int_of_float f with
                | Return v => Some v
                | Raise _ => None
                end
  | VStr s => if Text.isdigit s then
                match Text.int_of_str s with
                | Return v => Some v
                | Raise _ => None
                end
              else None
  | _ => None
  end.

End Dates.

(** ** Aggregation engine: [get_numeric_columns], [get_date_range] and
       [QuickAnalysisEngine] *)

Module Analysis.

Import Calendar Frame.

(** *** Numeric field configuration *)

(** The sheet [NUMERIC_FIELDS_CONFIG]: its rows as (ACTION, FIELD_PATTERN). *)
Definition numeric_config : Type := list (string * string).

Definition DEFAULT_INCLUDE : list string :=
  ["AMOUNT"; "VAT"; "TOTAL"; "TAXABLE"; "TAX"; "GROSS"; "NET"].

Definition DEFAULT_EXCLUDE : list string :=
  ["ID"; "LINE NUMBER"; "INVOICE NUMBER"; "RECEIPT NUMBER";
   "YEAR"; "MONTH"; "DAY"; "LINE_NUMBER"].

(** [ComparisonRulesManager.get_numeric_field_config()]: the include and the
    exclude patterns. *)
Definition get_numeric_field_config (cfg : numeric_config) : list string * list string :=
  match cfg with
  | [] => (DEFAULT_INCLUDE, DEFAULT_EXCLUDE)
  | _ => (map snd (filter (fun r => (fst r =? "INCLUDE")%string) cfg),
          map snd (filter (fun r => (fst r =? "EXCLUDE")%string) cfg))
  end.

(** The part of a [QuickAnalysisEngine] the analyses read. *)
Record QuickAnalysisEngine : Type := mkEngine { exclude_patterns : list string }.

(** [QuickAnalysisEngine.__init__]:
    [_, self.exclude_patterns = ComparisonRulesManager.get_numeric_field_config()] *)
Definition init (cfg : numeric_config) : QuickAnalysisEngine :=
  let '(_, exclude) := get_numeric_field_config cfg in
  mkEngine exclude.

Definition is_numeric_dtype (d : dtype) : bool :=
  match d with
  | DNumeric => true
  | _ => false
  end.

(** [get_numeric_columns(df, exclude_patterns)] *)
Definition get_numeric_columns (df : DataFrame) (exclude_patterns : option (list string))
    : list string :=
  let exclude_patterns :=
    match exclude_patterns with
    | None => DEFAULT_EXCLUDE
    | Some l => l
    end in
  map col_name
    (filter (fun col =>
       is_numeric_dtype (col_dtype col)
       && negb (existsb (fun pattern =>
                  Text.contains (Text.upper pattern) (Text.upper (col_name col)))
                exclude_patterns))
     (columns df)).

(** *** Keys of a grouping *)

Definition is_null (c : cell) : bool :=
  match c with
  | CNull => true
  | _ => false
  end.

Definition same_kind (a b : cell) : bool :=
  match a, b with
  | CNull, CNull | CNum _, CNum _ | CStr _, CStr _ | CDate _, CDate _ => true
  | _, _ => false
  end.

(** Python can order the values of a list when they are of one kind. *)
Definition homogeneous (l : list cell) : bool :=
  match l with
  | [] => true
  | a :: r => forallb (same_kind a) r
  end.

Definition cell_leb (a b : cell) : bool :=
  match a, b with
  | CNum x, CNum y => (x <=? y)%Z
  | CStr x, CStr y => String.leb x y
  | CDate x, CDate y => dt_leb x y
  | _, _ => true
  end.

Fixpoint insert_sorted (x : cell) (l : list cell) : list cell :=
  match l with
  | [] => [x]
  | y :: r => if cell_leb x y then x :: l else y :: insert_sorted x r
  end.

(** [sorted(l)] *)
Definition sort_cells (l : list cell) : list cell := fold_right insert_sorted [] l.

Definition cell_mem (x : cell) (l : list cell) : bool := existsb (cell_eqb x) l.

(** [.unique()]: the values in the order of their first appearance. *)
Fixpoint unique_from (seen : list cell) (l : list cell) : list cell :=
  match l with
  | [] => []
  | x :: r => if cell_mem x seen then unique_from seen r
              else x :: unique_from (x :: seen) r
  end.

Definition unique (l : list cell) : list cell := unique_from [] l.

Definition dropna (l : list cell) : list cell := filter (fun c => negb (is_null c)) l.

(** *** The [.str] accessor *)

Definition is_text (c : cell) : bool :=
  match c with
  | CStr _ => true
  | _ => false
  end.

(** The [.str] accessor exists on an object column whose values are texts
    or of mixed kinds (or all missing); it raises [AttributeError] on a
    numeric or a date column and on an object column that holds numbers
    only or time stamps only. *)
Definition str_accessor (dt : dtype) (cells : list cell) : bool :=
  match dt with
  | DObject =>
      match dropna cells with
      | [] => true
      | v :: vals => existsb is_text (v :: vals) || negb (forallb (same_kind v) vals)
      end
  | _ => false
  end.

(** *** Sums *)

(** [.sum()] of a numeric column: missing cells are skipped. *)
Definition sum_cells (l : list cell) : Z :=
  fold_right (fun c acc => match c with
                           | CNum z => (z + acc)%Z
                           | _ => acc
                           end) 0%Z l.

Definition sum_Z (l : list Z) : Z := fold_right Z.add 0%Z l.

(** *** Date range *)

Definition is_column_named (upper_name : string) (col : string) : bool :=
  (Text.strip (Text.upper col) =? upper_name)%string.

(** [pd.to_datetime(column, errors='coerce').dropna()] on a column of time
    stamps: the time stamps of the column (a cell that is not a time stamp is
    read as missing). *)
Definition valid_dates (cells : list cell) : list datetime :=
  flat_map (fun c => match c with
                     | CDate d => [d]
                     | _ => []
                     end) cells.

Definition format_date_for_display (d : datetime) : string := strftime_d_b_Y d.

(** [get_date_range(df)] *)
Definition get_date_range (df : DataFrame) : string * string :=
  match find (is_column_named "TRANSACTION DATE") (column_names df) with
  | None => ("N/A", "N/A")
  | Some date_col =>
      match valid_dates (column_values df date_col) with
      | [] => ("N/A", "N/A")
      | d :: ds => (format_date_for_display (fold_left dt_min ds d),
                    format_date_for_display (fold_left dt_max ds d))
      end
  end.

(** *** Yearly summary *)

Definition YEAR : string := "YEAR".
Definition DATE_RANGE : string := "Date Range".

(** The rows of a table whose [YEAR] is [year] ([df[df['YEAR'] == year]]). *)
Definition year_rows (df : DataFrame) (year : cell) : DataFrame :=
  filter_rows df (fun r => cell_eqb (get_cell df r YEAR) year).

(** The keys of [df.groupby('YEAR')]: the years of the table, missing ones
    left out, in ascending order. *)
Definition year_keys (df : DataFrame) : list cell :=
  sort_cells (unique (dropna (column_values df YEAR))).

(** [f"{start} to {end}"] for the date range of a table. *)
Definition range_text (df : DataFrame) : string :=
  let '(start, stop) := get_date_range df in start ++ " to " ++ stop.

(** The sum of a column over the rows of a year. *)
Definition year_sum (df : DataFrame) (year : cell) (c : string) : Z :=
  sum_cells (column_values (year_rows df year) c).

(** The line of a year: the year, its date range and the sums.  (The
    assignment to [Date Range] overwrites a summed column of that name.) *)
Definition summary_row (df : DataFrame) (numeric_cols : list string) (year : cell) : row :=
  year :: CStr (range_text (year_rows df year))
       :: map (fun c => if (c =? DATE_RANGE)%string
                        then CStr (range_text (year_rows df year))
                        else CNum (year_sum df year c)) numeric_cols.

(** [QuickAnalysisEngine._generate_yearly_summary(df, category)].  The [try]
    block fails, and the empty table is returned, when [YEAR] is itself among
    the summed columns ([reset_index] cannot insert it a second time) or when
    the years cannot be ordered ([sort_values]). *)
Definition _generate_yearly_summary (self : QuickAnalysisEngine) (df : DataFrame)
    (category : string) : DataFrame :=
  if negb (has_column df YEAR) then empty_frame
  else
    let numeric_cols := get_numeric_columns df (Some (exclude_patterns self)) in
    match numeric_cols with
    | [] => empty_frame
    | _ =>
        if Text.mem YEAR numeric_cols
           || negb (homogeneous (dropna (column_values df YEAR)))
        then empty_frame
        else
          mkDataFrame
            (mkColumn YEAR (column_dtype df YEAR) :: mkColumn DATE_RANGE DObject
               :: map (fun c => mkColumn c DNumeric) numeric_cols)
            (map (summary_row df numeric_cols) (year_keys df))
    end.

(** *** Concentration ("Top-N") analysis *)

(** One line of [top_analysis_table]; the percentage is kept as the exact
    quotient, before its display with one decimal. *)
Record top_row : Type := mkTopRow {
  top_YEAR : cell;
  top_X : string;
  top_Total_Amount : Z;
  top_Percentage : Q
}.

Record top_analysis : Type := mkTopAnalysis {
  top_analysis_table : list top_row;
  partner_type : string
}.

(** [df[dup_col].str.upper().isin(['NO DUPLICATES', 'HAS DUPLICATES'])] for
    one cell: a cell that is not a text is never in the list. *)
Definition is_clean_status (c : cell) : bool :=
  match c with
  | CStr s => Text.mem (Text.upper s) ["NO DUPLICATES"; "HAS DUPLICATES"]
  | _ => false
  end.

(** [df_clean]: the clean records, or all the records of a table without a
    status column. *)
Definition clean_records (df : DataFrame) : DataFrame :=
  match find (is_column_named "DUPLICATE STATUS") (column_names df) with
  | Some dup_col => filter_rows df (fun r => is_clean_status (get_cell df r dup_col))
  | None => df
  end.

(** The loop that looks for the partner column: the column and the name of
    the partners. *)
Fixpoint find_partner (group_upper : string) (cols : list string)
    : option (string * string) :=
  match cols with
  | [] => None
  | col :: rest =>
      let col_upper := Text.upper col in
      if Text.contains "SUPPLIER NAME" col_upper then
        Some (col, if Text.contains "SALES" group_upper
                      || Text.contains "REVENUE" group_upper
                   then "Clients" else "Suppliers")
      else if Text.contains "BUYER NAME" col_upper then Some (col, "Clients")
      else if Text.contains "CLIENT NAME" col_upper
              || Text.contains "CUSTOMER NAME" col_upper then Some (col, "Clients")
      else find_partner group_upper rest
  end.

(** A record as the grouping reads it: year, partner and [Total_Amount], the
    sum of its numeric fields. *)
Definition entry : Type := cell * cell * Z.

Definition entry_year (e : entry) : cell := fst (fst e).
Definition entry_partner (e : entry) : cell := snd (fst e).
Definition entry_amount (e : entry) : Z := snd e.

Definition entries_of (df : DataFrame) (numeric_cols : list string) (partner_col : string)
    : list entry :=
  map (fun r => (get_cell df r YEAR, get_cell df r partner_col,
                 sum_cells (map (get_cell df r) numeric_cols)))
      (rows df).

(** [groupby] leaves out a record whose year or partner is missing. *)
Definition grouped (es : list entry) : list entry :=
  filter (fun e => negb (is_null (entry_year e)) && negb (is_null (entry_partner e))) es.

Definition in_year (year : cell) (e : entry) : bool := cell_eqb (entry_year e) year.

(** The partners of a year. *)
Definition partners_of (es : list entry) (year : cell) : list cell :=
  unique (map entry_partner (filter (in_year year) es)).

(** [partner_yearly[partner_yearly['YEAR'] == year]['Total_Amount']]: one
    amount for each partner of the year.  (pandas lists the partners in
    ascending order; the amounts are sorted next, so that the order here has
    no influence.) *)
Definition partner_totals (es : list entry) (year : cell) : list Z :=
  map (fun p =>
         sum_Z (map entry_amount
                  (filter (fun e => in_year year e && cell_eqb (entry_partner e) p) es)))
      (partners_of es year).

Fixpoint insert_desc (x : Z) (l : list Z) : list Z :=
  match l with
  | [] => [x]
  | y :: r => if (y <=? x)%Z then x :: l else y :: insert_desc x r
  end.

(** [sort_values('Total_Amount', ascending=False)] on the amounts. *)
Definition sort_desc (l : list Z) : list Z := fold_right insert_desc [] l.

Definition TOP_SIZES : list nat := [5; 10; 20]%nat.

Definition top_label (top_n : nat) : string :=
  "Top " ++ Text.str_of_int (Z.of_nat top_n).

(** [(top_amount / year_total * 100) if year_total > 0 else 0], as the exact
    quotient. *)
Definition percentage_of (top_amount year_total : Z) : Q :=
  if (0 <? year_total)%Z then Qmake (top_amount * 100) (Z.to_pos year_total)
  else 0%Q.

(** The line of a year for one size. *)
Definition top_row_of (es : list entry) (year : cell) (top_n : nat) : top_row :=
  let year_data := sort_desc (partner_totals es year) in
  let top_amount := sum_Z (firstn top_n year_data) in
  mkTopRow year (top_label top_n) top_amount
    (percentage_of top_amount (sum_Z (partner_totals es year))).

(** The body of the loop over the years. *)
Definition top_rows_of_year (es : list entry) (year : cell) : list top_row :=
  let year_data := sort_desc (partner_totals es year) in
  flat_map (fun top_n =>
    if (top_n <=? List.length year_data)%nat then [top_row_of es year top_n]
    else []) TOP_SIZES.

(** [df[dup_col].str] exists: the first column named like the status column,
    when there is one, is a column the accessor accepts. *)
Definition status_accessor (df : DataFrame) : bool :=
  match find (is_column_named "DUPLICATE STATUS") (column_names df) with
  | Some dup_col => str_accessor (column_dtype df dup_col) (column_values df dup_col)
  | None => true
  end.

(** [QuickAnalysisEngine._generate_top_analysis(df, group_name)]; [None] is
    the empty dictionary.  The status column is read before the [try] block,
    so that the [AttributeError] of its accessor leaves the function.  The
    [try] block fails when the years cannot be ordered ([sorted]). *)
Definition _generate_top_analysis (self : QuickAnalysisEngine) (df : DataFrame)
    (group_name : string) : result (option top_analysis) :=
  if negb (has_column df YEAR) then Return None
  else if negb (status_accessor df) then Raise AttributeError
  else
    let df_clean := clean_records df in
    if df_empty df_clean then Return None
    else
      match get_numeric_columns df_clean (Some (exclude_patterns self)) with
      | [] => Return None
      | numeric_cols =>
          match find_partner (Text.upper group_name) (column_names df_clean) with
          | None => Return None
          | Some (partner_col, partner_type) =>
              let es := grouped (entries_of df_clean numeric_cols partner_col) in
              let years := unique (map entry_year es) in
              if homogeneous years then
                Return (Some (mkTopAnalysis
                                (flat_map (top_rows_of_year es) (sort_cells years))
                                partner_type))
              else Return None
          end
      end.

(** *** The date columns [generate_quick_analysis] adds *)

Definition date_part (f : datetime -> cell) (c : cell) : cell :=
  match c with
  | CDate d => f d
  | _ => CNull
  end.

Definition strftime_b (d : datetime) : string :=
  let '(_, m, _) := ord2ymd (ordinal d) in nth (Z.to_nat (m - 1)) MONTH_ABBR "".

Definition strftime_d (d : datetime) : string :=
  let '(_, _, dd) := ord2ymd (ordinal d) in Text.pad_int 2 dd.

Definition strftime_Y_m (d : datetime) : string :=
  let '(y, m, _) := ord2ymd (ordinal d) in
  (Text.pad_int 4 y ++ "-" ++ Text.pad_int 2 m)%string.

(** The four assignments after the duplicate detection; the [.dt] accessor
    exists on a column of time stamps only. *)
Definition add_date_columns (df : DataFrame) : result DataFrame :=
  if Text.mem "TRANSACTION DATE" (column_names df) then
    match column_dtype df "TRANSACTION DATE" with
    | DDatetime =>
        let dates := column_values df "TRANSACTION DATE" in
        let df := set_column df YEAR DNumeric
                    (map (date_part (fun d => CNum (year_of d))) dates) in
        let df := set_column df "MONTH" DObject
                    (map (date_part (fun d => CStr (strftime_b d))) dates) in
        let df := set_column df "DAY" DObject
                    (map (date_part (fun d => CStr (strftime_d d))) dates) in
        Return (set_column df "YEAR-MONTH" DObject
                  (map (date_part (fun d => CStr (strftime_Y_m d))) dates))
    | _ => Raise AttributeError
    end
  else Return df.


(** *** Notions the properties of the analyses are stated with *)

(** [d] is the earliest (the latest) of the dates. *)
Definition earliest (dates : list datetime) (d : datetime) : Prop :=
  In d dates /\ forall x, In x dates -> dt_leb d x = true.

Definition latest (dates : list datetime) (d : datetime) : Prop :=
  In d dates /\ forall x, In x dates -> dt_leb x d = true.

(** The transaction dates of a table: the time stamps of its first column
    named TRANSACTION DATE, whatever the case. *)
Definition transaction_dates (df : DataFrame) : list datetime :=
  match find (is_column_named "TRANSACTION DATE") (column_names df) with
  | Some date_col => valid_dates (column_values df date_col)
  | None => []
  end.

(** A column of the table is numeric and no exclude pattern occurs in its
    name. *)
Definition summed_column (df : DataFrame) (exclude : list string) (c : string) : Prop :=
  exists col, In col (columns df) /\ col_name col = c /\ col_dtype col = DNumeric
              /\ forall pattern, In pattern exclude ->
                   Text.contains (Text.upper pattern) (Text.upper c) = false.

(** The status of a row says that it repeats an earlier row. *)
Definition is_duplicate_row (df : DataFrame) (r : row) : bool :=
  match find (is_column_named "DUPLICATE STATUS") (column_names df) with
  | Some dup_col =>
      match get_cell df r dup_col with
      | CStr s => (Text.upper s =? "IS DUPLICATE")%string
      | _ => false
      end
  | None => false
  end.

End Analysis.

(** ** Duplicate detector: [fn_check_duplicatedrecords] *)

Module Duplicates.

Import Frame Store Analysis.

(** The sheet [Check_duplicates] of the parameter file: a table with one
    column for each category, the cells of the column being the names of the
    key fields of the category. *)
Definition duplicate_params : Type := DataFrame.

(** [params.get(category, pd.Series())]: the column of the category, or an
    empty column (of objects, as pandas 2 makes it) when the sheet has no
    such column. *)
Definition params_get (p : duplicate_params) (category : string) : list cell :=
  if has_column p category then column_values p category else [].

Definition params_dtype (p : duplicate_params) (category : string) : dtype :=
  if has_column p category then column_dtype p category else DObject.

(** [.dropna().str]: the accessor is asked of the column of the category,
    its missing cells dropped; pandas refuses it with [AttributeError] on a
    column that is not one of texts. *)
Definition accepts_str (p : duplicate_params) (category : string) : bool :=
  str_accessor (params_dtype p category) (params_get p category).

(** [.dropna().str.strip().tolist()], once the accessor is there: a missing
    cell is dropped, a text is stripped, any other cell becomes [NaN]. *)
Definition dropna_strip (cells : list cell) : list cell :=
  flat_map (fun c => match c with
                     | CNull => []
                     | CStr s => [CStr (Text.strip s)]
                     | _ => [CNull]
                     end) cells.

(** [[col for col in lst if col in df.columns]] *)
Definition present_columns (df : DataFrame) (lst : list cell) : list string :=
  flat_map (fun c => match c with
                     | CStr s => if has_column df s then [s] else []
                     | _ => []
                     end) lst.

(** The key columns: the configured ones the table has, or (Python's [or] on
    an empty list) all the columns of the table. *)
Definition lst_Criteriacolumns (p : duplicate_params) (df : DataFrame)
    (category : string) : list string :=
  match present_columns df (dropna_strip (params_get p category)) with
  | [] => column_names df
  | l => l
  end.

Definition key : Type := list cell.

Fixpoint key_eqb (a b : key) : bool :=
  match a, b with
  | [], [] => true
  | x :: a', y :: b' => cell_eqb x y && key_eqb a' b'
  | _, _ => false
  end.

(** The key of a row over a subset of the columns. *)
Definition row_key (df : DataFrame) (subset : list string) (r : row) : key :=
  map (get_cell df r) subset.

Definition keys_of (df : DataFrame) (subset : list string) : list key :=
  map (row_key df subset) (rows df).

(** [df.duplicated(subset, keep='first')]: a row is marked when an earlier
    row has its key. *)
Fixpoint duplicated_first_from (seen : list key) (ks : list key) : list bool :=
  match ks with
  | [] => []
  | k :: ks' => existsb (key_eqb k) seen :: duplicated_first_from (k :: seen) ks'
  end.

Definition duplicated_first (ks : list key) : list bool := duplicated_first_from [] ks.

Definition count (k : key) (ks : list key) : nat :=
  List.length (filter (key_eqb k) ks).

(** [df.duplicated(subset, keep=False)]: a row is marked when another row has
    its key. *)
Definition duplicated_all (ks : list key) : list bool :=
  map (fun k => (1 <? count k ks)%nat) ks.

Definition DUPLICATE_STATUS : string := "Duplicate Status".
Definition NO_DUPLICATES : cell := CStr "NO duplicates".
Definition HAS_DUPLICATES : cell := CStr "HAS duplicates".
Definition IS_DUPLICATE : cell := CStr "IS duplicate".

Open Scope state_scope.

(** [fn_check_duplicatedrecords(df_dataset, str_datasetcategory)]: the
    argument and the result are references to tables of the store.  The copy
    is made before the key fields are read, so that it is in the store also
    when the accessor [.str] raises. *)
Definition fn_check_duplicatedrecords (p : duplicate_params) (df_dataset : ref)
    (str_datasetcategory : string) : State (result ref) :=
  df <~ deref df_dataset ;;
  if df_empty df then
    empty <~ alloc empty_frame ;;
    ret (Return empty)
  else
    df_mydataset <~ alloc df ;;
    if negb (accepts_str p str_datasetcategory) then ret (Raise AttributeError)
    else
      cur <~ deref df_mydataset ;;
      let criteria := lst_Criteriacolumns p cur str_datasetcategory in
      let var_duplicate_mask := duplicated_first (keys_of cur criteria) in
      let var_all_duplicates_mask := duplicated_all (keys_of cur criteria) in
      modify df_mydataset (fun d =>
        set_column d DUPLICATE_STATUS DObject
          (repeat NO_DUPLICATES (List.length (rows d)))) ;;;
      modify df_mydataset (fun d =>
        loc_assign d (map2 andb var_all_duplicates_mask (map negb var_duplicate_mask))
          DUPLICATE_STATUS HAS_DUPLICATES) ;;;
      modify df_mydataset (fun d =>
        loc_assign d var_duplicate_mask DUPLICATE_STATUS IS_DUPLICATE) ;;;
      ret (Return df_mydataset).

Close Scope state_scope.

(** What the detector does for a table [df], run on a store that holds [df]
    alone: the table it returns, or the exception it raises. *)
Definition detect (p : duplicate_params) (df : DataFrame) (category : string)
    : result DataFrame :=
  let '(res, st) := fn_check_duplicatedrecords p 0 category [df] in
  r <- res ;; Return (nth r st empty_frame).

(** The status column of a table. *)
Definition statuses (df : DataFrame) : list cell := column_values df DUPLICATE_STATUS.


(** The three assignments to the status column, on the copy. *)
Definition tagged (p : duplicate_params) (df : DataFrame) (category : string)
    : DataFrame :=
  let criteria := lst_Criteriacolumns p df category in
  let var_duplicate_mask := duplicated_first (keys_of df criteria) in
  let var_all_duplicates_mask := duplicated_all (keys_of df criteria) in
  loc_assign
    (loc_assign
       (set_column df DUPLICATE_STATUS DObject
          (repeat NO_DUPLICATES (List.length (rows df))))
       (map2 andb var_all_duplicates_mask (map negb var_duplicate_mask))
       DUPLICATE_STATUS HAS_DUPLICATES)
    var_duplicate_mask DUPLICATE_STATUS IS_DUPLICATE.

(** The status the two masks give a row. *)
Definition status_of (in_all is_later : bool) : cell :=
  if is_later then IS_DUPLICATE
  else if in_all then HAS_DUPLICATES else NO_DUPLICATES.

(** The statuses of a group in the order of its rows: [n] is its size. *)
Definition group_statuses (n : nat) : list cell :=
  match n with
  | O => []
  | S O => [NO_DUPLICATES]
  | S (S m) => HAS_DUPLICATES :: repeat IS_DUPLICATE (S m)
  end.

(** The position of the status column in the result. *)
Definition status_index (df : DataFrame) : nat :=
  match index_of DUPLICATE_STATUS (column_names df) with
  | Some i => i
  | None => List.length (columns df)
  end.

End Duplicates.

(** ** Category post-processing: [fn_exchange_negativesign] and
       [fn_insert_missingdates] *)

Module Transforms.

Import Calendar Frame.

(** [row[name] = v] *)
Definition set_cell (df : DataFrame) (r : row) (name : string) (v : cell) : row :=
  match index_of name (column_names df) with
  | Some i => set_nth i v r
  | None => r
  end.

Fixpoint mapM {A B : Type} (f : A -> result B) (l : list A) : result (list B) :=
  match l with
  | [] => Return []
  | a :: l' => b <- f a ;; bs <- mapM f l' ;; Return (b :: bs)
  end.

(** [fn_process_exchange(row)]: the comparison with 0 and [abs] are defined
    on numbers ([NaN] included) only.  A missing cell is read as [NaN], the
    missing value of a numeric column; a number is read as the integer it
    is, which [int64] and [float64] hold alike up to 2^53 (the properties of
    the exchange are stated within these limits). *)
Definition fn_process_exchange (df : DataFrame) (str_fromcolumn str_tocolumn : string)
    (r : row) : result row :=
  match get_cell df r str_fromcolumn with
  | CNum p =>
      if (p <? 0)%Z then
        match get_cell df r str_tocolumn with
        | CNum q =>
            Return (set_cell df (set_cell df r str_fromcolumn (CNum (Z.abs p)))
                      str_tocolumn (CNum (- Z.abs q)))
        | CNull =>
            Return (set_cell df (set_cell df r str_fromcolumn (CNum (Z.abs p)))
                      str_tocolumn CNull)
        | _ => Raise TypeError
        end
      else Return r
  | CNull => Return r
  | _ => Raise TypeError
  end.

(** The row [r] with the two cells of the row [r'] that [apply] has produced
    for it. *)
Definition written_back (df : DataFrame) (str_fromcolumn str_tocolumn : string)
    (r r' : row) : row :=
  set_cell df (set_cell df r str_fromcolumn (get_cell df r' str_fromcolumn))
    str_tocolumn (get_cell df r' str_tocolumn).

(** [fn_exchange_negativesign(df_dataset, str_fromcolumn, str_tocolumn)]: the
    two columns of the rows [apply] has produced are written back. *)
Definition fn_exchange_negativesign (df_dataset : DataFrame)
    (str_fromcolumn str_tocolumn : string) : result DataFrame :=
  if negb (has_column df_dataset str_fromcolumn)
     || negb (has_column df_dataset str_tocolumn) then Raise KeyError
  else
    applied <- mapM (fn_process_exchange df_dataset str_fromcolumn str_tocolumn)
                 (rows df_dataset) ;;
    Return (mkDataFrame (columns df_dataset)
              (map2 (written_back df_dataset str_fromcolumn str_tocolumn)
                    (rows df_dataset) applied)).

(** *** Missing dates *)

Definition index_key (df : DataFrame) (index_cols : list string) (r : row) : list cell :=
  map (get_cell df r) index_cols.

(** [df.drop_duplicates(subset=index_cols)]: the first row of each key. *)
Definition drop_duplicates (df : DataFrame) (index_cols : list string) : list row :=
  select (rows df)
    (map negb (Duplicates.duplicated_first (map (index_key df index_cols) (rows df)))).

(** [pd.date_range(start, end, freq='D')]: [start], then one day more as long
    as [end] is not passed. *)
Definition date_range (start stop : datetime) : list cell :=
  let days :=
    (ordinal stop - ordinal start + (if (micro start <=? micro stop)%Z then 1 else 0))%Z in
  map (fun k => CDate (mkDatetime (ordinal start + Z.of_nat k) (micro start)))
      (seq 0 (Z.to_nat days)).

(** [pd.MultiIndex.from_product(levels)]: the first level varies slowest. *)
Fixpoint from_product (levels : list (list cell)) : list (list cell) :=
  match levels with
  | [] => [[]]
  | l :: rest => flat_map (fun x => map (cons x) (from_product rest)) l
  end.

(** [df.reindex(index)] for one key of the new index, a [MultiIndex]: the
    data of the row that has this key, missing values when there is none.
    The index [set_index] makes of a single column is no [MultiIndex]: its
    labels are the dates themselves and none of them is a key of the new
    index, so that no row is found. *)
Definition reindex_row (df : DataFrame) (index_cols data_cols : list string)
    (rs : list row) (k : list cell) : list cell :=
  match index_cols with
  | [_] => map (fun _ => CNull) data_cols
  | _ =>
      match find (fun r => Duplicates.key_eqb (index_key df index_cols r) k) rs with
      | Some r => map (get_cell df r) data_cols
      | None => map (fun _ => CNull) data_cols
      end
  end.

(** [df.ffill()]: in each column a missing cell takes the last value above
    it; [last] holds these values. *)
Fixpoint ffill_from (last : list cell) (rs : list (list cell)) : list (list cell) :=
  match rs with
  | [] => []
  | r :: rest =>
      let r' := map2 (fun c l => if Analysis.is_null c then l else c) r last in
      r' :: ffill_from r' rest
  end.

Definition is_date_cell (c : cell) : bool :=
  match c with
  | CDate _ | CNull => true
  | _ => false
  end.

(** [fn_insert_missingdates(df_dataset, str_datecolumn, lst_othercolumns)] on
    a table whose date column holds time stamps, which [pd.to_datetime]
    leaves as they are.  (The parsing of texts and numbers by
    [pd.to_datetime] is not embedded: a date column with a cell of another
    kind is outside the embedding, and refused here.) *)
Definition fn_insert_missingdates (df_dataset : DataFrame) (str_datecolumn : string)
    (lst_othercolumns : list string) : result DataFrame :=
  let index_cols := str_datecolumn :: lst_othercolumns in
  if negb (forallb (has_column df_dataset) index_cols) then Raise KeyError
  else
    let rs := drop_duplicates df_dataset index_cols in
    let dates := map (fun r => get_cell df_dataset r str_datecolumn) rs in
    if negb (forallb is_date_cell dates) then Raise ValueError
    else
      match Analysis.valid_dates dates with
      | [] => Raise ValueError
      | d :: ds =>
          let var_datesfullrange :=
            date_range (fold_left dt_min ds d) (fold_left dt_max ds d) in
          let levels :=
            map (fun col =>
                   Analysis.unique (map (fun r => get_cell df_dataset r col) rs))
                lst_othercolumns in
          let data_cols :=
            filter (fun c => negb (Text.mem c index_cols)) (column_names df_dataset) in
          let new_index := from_product (var_datesfullrange :: levels) in
          let reindexed :=
            map (reindex_row df_dataset index_cols data_cols rs) new_index in
          let filled :=
            ffill_from (map (fun _ => CNull) data_cols) reindexed in
          Return (mkDataFrame
                    (map (fun c => mkColumn c (column_dtype df_dataset c))
                         (index_cols ++ data_cols))
                    (map2 (fun k data => k ++ data) new_index filled))
      end.


(** What the sign exchange does to a row [r], read on the row [r'] that
    replaces it: a negative price [p] becomes [-p] and a quantity [q] becomes
    [-|q|], the other cells stay; a row whose price is not negative keeps all
    its cells. *)
Definition exchanged (df : DataFrame) (str_fromcolumn str_tocolumn : string)
    (r r' : row) : Prop :=
  match get_cell df r str_fromcolumn with
  | CNum p =>
      if (p <? 0)%Z then
        get_cell df r' str_fromcolumn = CNum (- p)
        /\ get_cell df r' str_tocolumn
           = match get_cell df r str_tocolumn with
             | CNum q => CNum (- Z.abs q)
             | c => c
             end
        /\ (forall c, c <> str_fromcolumn -> c <> str_tocolumn ->
                      get_cell df r' c = get_cell df r c)
      else forall c, get_cell df r' c = get_cell df r c
  | _ => forall c, get_cell df r' c = get_cell df r c
  end.

(** A number or a missing value. *)
Definition is_number (c : cell) : bool :=
  match c with
  | CNum _ | CNull => true
  | _ => false
  end.

(** An integer that [int64] and [float64] both hold exactly, so that
    neither the conversion of a row to floating point nor [abs] changes its
    magnitude. *)
Definition exact_integer (z : Z) : bool := (Z.abs z <=? 2 ^ 53)%Z.

(** A cell of a numeric column within these limits: such an integer, or
    [NaN]. *)
Definition is_exact_number (c : cell) : bool :=
  match c with
  | CNum z => exact_integer z
  | CNull => true
  | _ => false
  end.

(** The two columns of the exchange are numeric columns whose cells are
    within these limits. *)
Definition numeric_columns (df : DataFrame) (str_fromcolumn str_tocolumn : string)
    : Prop :=
  column_dtype df str_fromcolumn = DNumeric
  /\ column_dtype df str_tocolumn = DNumeric
  /\ Forall (fun r => is_exact_number (get_cell df r str_fromcolumn) = true
                      /\ is_exact_number (get_cell df r str_tocolumn) = true)
            (rows df).

(** No cell of the two columns of the exchange is missing. *)
Definition no_missing (df : DataFrame) (str_fromcolumn str_tocolumn : string) : Prop :=
  Forall (fun r => get_cell df r str_fromcolumn <> CNull
                   /\ get_cell df r str_tocolumn <> CNull) (rows df).

(** The price of a row is a negative number. *)
Definition negative (df : DataFrame) (name : string) (r : row) : Prop :=
  exists p, get_cell df r name = CNum p /\ (p < 0)%Z.

End Transforms.

(** ** Classes of characters the properties of the date parser speak of *)

Module Letters.

(** A letter of the ASCII alphabet. *)
Definition is_letter (c : ascii) : bool :=
  Text.between 97 122 (Text.code c) || Text.between 65 90 (Text.code c).

(** A text without a letter of the ASCII alphabet. *)
Definition no_letter (s : string) : bool :=
  Text.all_chars (fun c => negb (is_letter c)) s.

(** A text of ASCII characters only, on which the model of [str.isdigit],
    of the case mapping and of the word characters is that of Python. *)
Definition ascii_text (s : string) : bool :=
  Text.all_chars (fun c => (Text.code c <? 128)%nat) s.

(** The first character of a text is a letter of the ASCII alphabet. *)
Definition starts_with_letter (s : string) : bool :=
  match s with
  | EmptyString => false
  | String c _ => is_letter c
  end.

End Letters.

(** ** Results of the date parser the properties speak of *)

Module DateResults.

Import Calendar Dates.

(** What the loop over the formats makes of a text: the date of the first
    format that parses it, the text itself when none does. *)
Definition formats_or_text (strptime : string -> string -> option datetime)
    (lst_dates_regex : list string) (s : string) : pyval :=
  match try_formats strptime s lst_dates_regex with
  | Some d => VDatetime d
  | None => VStr s
  end.

(** The month substitution turns the text [k] into the text [v]. *)
Definition replaced_by (k v : string) : bool :=
  match fn_replace_months k with
  | Return s => (s =? v)%string
  | Raise _ => false
  end.

End DateResults.

(** ** Rows the sign exchange refuses *)

Module Refusals.

Import Frame Transforms.

(** The cells of a row that Python cannot compare with 0 or take the absolute
    value of: a price that is a text or a time stamp, or a quantity that is
    one next to a negative price. *)
Definition refused (df : DataFrame) (str_fromcolumn str_tocolumn : string)
    (r : row) : bool :=
  match get_cell df r str_fromcolumn with
  | CNum p => (p <? 0)%Z && negb (is_number (get_cell df r str_tocolumn))
  | CNull => false
  | _ => true
  end.

(** Two rows have the same cells under the columns of a table. *)
Definition same_cells (df : DataFrame) (r r' : row) : Prop :=
  forall c, get_cell df r' c = get_cell df r c.

End Refusals.

(** ** Notions the further properties of the analyses are stated with *)

Module Totals.

Import Frame Analysis.

(** The number a cell adds to a sum: a missing cell adds nothing. *)
Definition amount_of (c : cell) : Z :=
  match c with
  | CNum z => z
  | _ => 0%Z
  end.

(** The records of a table that have a year. *)
Definition dated_rows (df : DataFrame) : list row :=
  filter (fun r => negb (is_null (get_cell df r YEAR))) (rows df).

(** A cell of a numeric column: a number or [NaN]. *)
Definition is_amount (c : cell) : bool :=
  match c with
  | CNum _ | CNull => true
  | _ => false
  end.

(** The absolute values of the amounts add up to at most 2^24, so that
    every sum of some of them, taken in any order, is the same number in
    each type pandas adds numbers in ([int64], [float64], [float32]): no
    sum is rounded and none wraps around. *)
Definition exact_sums (l : list Z) : Prop := (sum_Z (map Z.abs l) <= 2 ^ 24)%Z.

(** The amounts are in descending order. *)
Definition descending (l : list Z) : Prop := StronglySorted (fun a b => (b <= a)%Z) l.

End Totals.

(** ** Duplicate summaries: [QuickAnalysisEngine._get_duplicate_summary] and
       [ReportDataCollector.add_duplicate_summary] *)

Module Summaries.

Import Frame Duplicates Analysis.

(** [Series.value_counts()]: each value that is not missing with the number
    of its occurrences.  (pandas lists the values by decreasing count; the
    values are listed here in the order of their first appearance, and the
    code reads the counts by key or adds them up.) *)
Definition value_counts (cells : list cell) : list (cell * nat) :=
  let vals := dropna cells in
  map (fun v => (v, List.length (filter (cell_eqb v) vals))) (unique vals).

(** [counts.get(key, 0)] *)
Fixpoint counts_get (counts : list (cell * nat)) (key : cell) : nat :=
  match counts with
  | [] => 0
  | (v, n) :: rest => if cell_eqb key v then n else counts_get rest key
  end.

(** [Series.str.upper()]: a value that is not a text becomes missing. *)
Definition str_upper (c : cell) : cell :=
  match c with
  | CStr s => CStr (Text.upper s)
  | _ => CNull
  end.

Record duplicate_summary : Type := mkSummary {
  has_duplicates : nat;
  is_duplicate : nat;
  no_duplicates : nat;
  status : string
}.

(** [QuickAnalysisEngine._get_duplicate_summary(df)] *)
Definition _get_duplicate_summary (df : DataFrame) : duplicate_summary :=
  match find (is_column_named "DUPLICATE STATUS") (column_names df) with
  | None => mkSummary 0 0 (List.length (rows df)) "not_checked"
  | Some dup_col =>
      if str_accessor (column_dtype df dup_col) (column_values df dup_col) then
        let status_counts := value_counts (map str_upper (column_values df dup_col)) in
        mkSummary (counts_get status_counts (CStr "HAS DUPLICATES"))
                  (counts_get status_counts (CStr "IS DUPLICATE"))
                  (counts_get status_counts (CStr "NO DUPLICATES"))
                  "checked"
      else mkSummary 0 0 (List.length (rows df)) "error"
  end.

(** [str(status).strip().upper()] *)
Definition normalized_status (c : cell) : string :=
  Text.upper (Text.strip (str_of_cell c)).

(** [d[key] = d.get(key, 0) + count] on a dictionary of counts. *)
Fixpoint dict_add (d : list (string * nat)) (key : string) (count : nat)
    : list (string * nat) :=
  match d with
  | [] => [(key, count)]
  | (k, n) :: rest => if (key =? k)%string then (k, n + count) :: rest
                      else (k, n) :: dict_add rest key count
  end.

(** The loop over [dup_counts.items()]: the normalised counts and the number
    of duplicates. *)
Definition count_duplicates (dup_counts : list (cell * nat))
    : list (string * nat) * nat :=
  fold_left (fun acc item =>
               let normalized := normalized_status (fst item) in
               (dict_add (fst acc) normalized (snd item),
                if (normalized =? "IS DUPLICATE")%string then snd acc + snd item
                else snd acc))
            dup_counts ([], 0).

(** An entry of [results['duplicates']]; the percentage is kept as the exact
    quotient, before it is rounded to two decimals. *)
Record duplicate_entry : Type := mkEntry {
  entry_group : string;
  entry_category : string;
  total_records : nat;
  duplicate_counts : list (cell * nat);
  normalized_counts : list (string * nat);
  total_duplicates : nat;
  duplicate_percentage : Q;
  unique_records : Z
}.

(** [d[key] = value] *)
Fixpoint dict_set {V : Type} (d : list (string * V)) (key : string) (value : V)
    : list (string * V) :=
  match d with
  | [] => [(key, value)]
  | (k, v) :: rest => if (key =? k)%string then (k, value) :: rest
                      else (k, v) :: dict_set rest key value
  end.

(** [d.get(key)] *)
Fixpoint dict_find {V : Type} (d : list (string * V)) (key : string) : option V :=
  match d with
  | [] => None
  | (k, v) :: rest => if (key =? k)%string then Some v else dict_find rest key
  end.

(** [ReportDataCollector.add_duplicate_summary(group_name, category, df)] on
    the dictionary [results['duplicates']]. *)
Definition add_duplicate_summary (duplicates : list (string * duplicate_entry))
    (group_name category : string) (df : DataFrame)
    : list (string * duplicate_entry) :=
  if negb (has_column df DUPLICATE_STATUS) then duplicates
  else
    let dup_counts := value_counts (column_values df DUPLICATE_STATUS) in
    let '(normalized, total) := count_duplicates dup_counts in
    let len := List.length (rows df) in
    dict_set duplicates (group_name ++ "::" ++ category)
      (mkEntry group_name category len dup_counts normalized total
         (if (0 <? len)%nat then Qmake (Z.of_nat total * 100) (Pos.of_nat len) else 0%Q)
         (Z.of_nat len - Z.of_nat total)%Z).

(** The keys of a table without their repetitions: the key of each record
    that repeats no earlier one. *)
Definition distinct_keys (ks : list key) : list key :=
  select ks (map negb (duplicated_first ks)).

(** The number of occurrences of a key among the keys of a table is more
    than one, or one. *)
Definition repeated (ks : list key) (k : key) : bool := (1 <? count k ks)%nat.
Definition single (ks : list key) (k : key) : bool := negb (repeated ks k).

(** The number of the cells of a column whose normalised status is IS
    DUPLICATE. *)
Definition marked_duplicate (cells : list cell) : nat :=
  List.length (filter (fun c => negb (is_null c)
                                && (normalized_status c =? "IS DUPLICATE")%string)
                 cells).

End Summaries.

(** ** The categories of the sheets of a file:
       [fn_get_Uploadedfile_Sheetscategories] and the header row
       [fn_get_metadata_and_stdzed_dfs] hands to the converter *)

Module Sheets.

Import Frame Matcher.

(** The key of a sheet in the dictionaries of a file: its name, its number
    (a CSV file is the sheet 0), or [None]. *)
Inductive sheet_key : Type :=
| SheetName (s : string)
| SheetIndex (i : nat)
| SheetNone.

Definition sheet_key_eqb (a b : sheet_key) : bool :=
  match a, b with
  | SheetName x, SheetName y => (x =? y)%string
  | SheetIndex x, SheetIndex y => (x =? y)%nat
  | SheetNone, SheetNone => true
  | _, _ => false
  end.

(** [dic[key] = value] *)
Fixpoint sheets_set {V : Type} (d : list (sheet_key * V)) (key : sheet_key) (value : V)
    : list (sheet_key * V) :=
  match d with
  | [] => [(key, value)]
  | (k, v) :: rest => if sheet_key_eqb key k then (k, value) :: rest
                      else (k, v) :: sheets_set rest key value
  end.

(** The loop over the sheets: the first exception leaves it. *)
Fixpoint categorise (original newheaders : headers_table)
    (dic_myfile_dfs : list (sheet_key * list row))
    (dic_myfile_categories : list (sheet_key * matching))
    : result (list (sheet_key * matching)) :=
  match dic_myfile_dfs with
  | [] => Return dic_myfile_categories
  | (sheet_name, df_mysheetdata) :: rest =>
      m <- fn_find_matching_category original newheaders df_mysheetdata 25 ;;
      categorise original newheaders rest
        (sheets_set dic_myfile_categories sheet_name m)
  end.

(** [fn_get_Uploadedfile_Sheetscategories(str_Folderpath, obj_file)] on the
    sheets read from the file: the [except] clause answers any exception with
    the one entry [{None: ['UNKNOWN', None, [], [], []]}]. *)
Definition fn_get_Uploadedfile_Sheetscategories (original newheaders : headers_table)
    (dic_myfile_dfs : list (sheet_key * list row)) : list (sheet_key * matching) :=
  match categorise original newheaders dic_myfile_dfs [] with
  | Return dic_myfile_categories => dic_myfile_categories
  | Raise _ => [(SheetNone, UNKNOWN)]
  end.

(** The header row [fn_get_metadata_and_stdzed_dfs] hands to the converter:
    [if str_Filecategory.upper() in ['UNKNOWN', None, '']: int_myheaderrow = 0]. *)
Definition header_row_for_conversion (m : matching) : option nat :=
  if Text.mem (Text.upper (str_filetype m)) ["UNKNOWN"; ""] then Some 0
  else int_myheaderrow m.

End Sheets.

(** ** Categories and their financial statement groups:
       [get_financial_statement_groups] and [get_categories_by_group] *)

Module Groups.

Import Frame.

Definition CATEGORY : string := "CATEGORY".
Definition FINANCIAL_STATEMENT_GROUP : string := "FINANCIAL STATEMENT GROUP".

(** [d[key] = value] on a dictionary whose keys are cells. *)
Fixpoint cells_set (d : list (cell * cell)) (key value : cell) : list (cell * cell) :=
  match d with
  | [] => [(key, value)]
  | (k, v) :: rest => if cell_eqb key k then (k, value) :: rest
                      else (k, v) :: cells_set rest key value
  end.

(** [d.get(key)] *)
Fixpoint cells_get (d : list (cell * cell)) (key : cell) : option cell :=
  match d with
  | [] => None
  | (k, v) :: rest => if cell_eqb key k then Some v else cells_get rest key
  end.

(** [dict(zip(keys, values))]: a later pair replaces the value of an earlier
    pair with the same key. *)
Definition dict_zip (keys values : list cell) : list (cell * cell) :=
  fold_left (fun d kv => cells_set d (fst kv) (snd kv)) (combine keys values) [].

(** [get_financial_statement_groups()] on the sheet of the categories. *)
Definition get_financial_statement_groups (df_Categoriesparams : DataFrame)
    : result (list (cell * cell)) :=
  if df_empty df_Categoriesparams then Return []
  else if negb (has_column df_Categoriesparams FINANCIAL_STATEMENT_GROUP) then Return []
  else if negb (has_column df_Categoriesparams CATEGORY) then Raise KeyError
  else Return (dict_zip (column_values df_Categoriesparams CATEGORY)
                 (column_values df_Categoriesparams FINANCIAL_STATEMENT_GROUP)).

(** [get_categories_by_group(group_name)] *)
Definition get_categories_by_group (df_Categoriesparams : DataFrame)
    (group_name : string) : result (list cell) :=
  if df_empty df_Categoriesparams then Return []
  else if negb (has_column df_Categoriesparams FINANCIAL_STATEMENT_GROUP) then Return []
  else
    let mask r := cell_eqb (get_cell df_Categoriesparams r FINANCIAL_STATEMENT_GROUP)
                    (CStr group_name) in
    if negb (has_column df_Categoriesparams CATEGORY) then Raise KeyError
    else Return (map (fun r => get_cell df_Categoriesparams r CATEGORY)
                   (filter mask (rows df_Categoriesparams))).

End Groups.

(** ** Invoice details completed from the invoice summaries:
       [fn_update_invoicedetailsfromsummary] *)

Module Invoices.

Import Frame Transforms.

(** The exceptions of this function: one of [exn], or [IndexError]. *)
Inductive error : Type :=
| Builtin (e : exn)
| IndexError.

Inductive outcome (A : Type) : Type :=
| Done (a : A)
| Failed (e : error).

Arguments Done {A} a.
Arguments Failed {A} e.

Definition and_then {A B : Type} (m : outcome A) (k : A -> outcome B) : outcome B :=
  match m with
  | Done a => k a
  | Failed e => Failed e
  end.

Fixpoint for_each {A B : Type} (f : A -> outcome B) (l : list A) : outcome (list B) :=
  match l with
  | [] => Done []
  | a :: l' => and_then (f a) (fun b => and_then (for_each f l') (fun bs => Done (b :: bs)))
  end.

(** A dictionary of column names, in the order of its items. *)
Definition fields : Type := list (string * string).

(** [series == value] for one cell: a missing value equals nothing. *)
Definition py_eq (a b : cell) : bool :=
  match a, b with
  | CNull, _ | _, CNull => false
  | _, _ => cell_eqb a b
  end.

(** The first loop: [df_Invoicedetails[str_details_col] = '-'] for the
    columns the details do not have. *)
Definition add_missing_columns (df_Invoicedetails : DataFrame) (dic_fields2add : fields)
    : DataFrame :=
  fold_left (fun d kv =>
               if has_column d (snd kv) then d
               else set_column d (snd kv) DObject
                      (repeat (CStr "-") (List.length (rows d))))
            dic_fields2add df_Invoicedetails.

(** All the conditions of a row of the details hold for a row of the
    summaries. *)
Definition matches (df_Invoicesummary df_Invoicedetails : DataFrame)
    (dic_key_fields2add : fields) (var_Row : row) (s : row) : bool :=
  forallb (fun kv => py_eq (get_cell df_Invoicesummary s (fst kv))
                           (get_cell df_Invoicedetails var_Row (snd kv)))
          dic_key_fields2add.

(** [df_Invoicedetails.at[var_Idx, str_details_col] =
     var_matching_rows.iloc[0][str_summary_col]] for each field. *)
Fixpoint copy_fields (df_Invoicesummary df_Invoicedetails : DataFrame)
    (dic_fields2add : fields) (first : row) (var_Row : row) : outcome row :=
  match dic_fields2add with
  | [] => Done var_Row
  | (str_summary_col, str_details_col) :: rest =>
      if has_column df_Invoicesummary str_summary_col then
        copy_fields df_Invoicesummary df_Invoicedetails rest first
          (set_cell df_Invoicedetails var_Row str_details_col
             (get_cell df_Invoicesummary first str_summary_col))
      else Failed (Builtin KeyError)
  end.

(** The body of the loop over the rows of the details. *)
Definition update_row (df_Invoicesummary df_Invoicedetails : DataFrame)
    (dic_key_fields2add dic_fields2add : fields) (var_Row : row) : outcome row :=
  match dic_key_fields2add with
  | [] => Failed IndexError
  | _ =>
      match find (matches df_Invoicesummary df_Invoicedetails dic_key_fields2add var_Row)
                 (rows df_Invoicesummary) with
      | Some first =>
          copy_fields df_Invoicesummary df_Invoicedetails dic_fields2add first var_Row
      | None => Done var_Row
      end
  end.

(** [fn_update_invoicedetailsfromsummary(df_Invoicesummary, df_Invoicedetails,
     dic_key_fields2add, dic_fields2add)] *)
Definition fn_update_invoicedetailsfromsummary (df_Invoicesummary df_Invoicedetails : DataFrame)
    (dic_key_fields2add dic_fields2add : fields) : outcome DataFrame :=
  let bln_key_fields_exist :=
    forallb (fun kv => has_column df_Invoicesummary (fst kv)
                       && has_column df_Invoicedetails (snd kv))
            dic_key_fields2add in
  if bln_key_fields_exist then
    let details := add_missing_columns df_Invoicedetails dic_fields2add in
    and_then
      (for_each (update_row df_Invoicesummary details dic_key_fields2add dic_fields2add)
         (rows details))
      (fun updated => Done (mkDataFrame (columns details) updated))
  else Done df_Invoicedetails.

(** *** What the completed details hold *)

(** The summary column a column of the details is completed from. *)
Definition source_of (dic_fields2add : fields) (c : string) : option string :=
  option_map fst (find (fun kv => (snd kv =? c)%string) dic_fields2add).

(** The cell of the column [c] of the completed details, for the row [r] of
    the details: the cell of the first matching summary when the column is
    one to complete and a summary matches, the cell the row had otherwise,
    and a dash in a column the details did not have. *)
Definition completed_cell (df_Invoicesummary df_Invoicedetails : DataFrame)
    (dic_key_fields2add dic_fields2add : fields) (c : string) (r : row) : cell :=
  let kept := if has_column df_Invoicedetails c then get_cell df_Invoicedetails r c
              else CStr "-" in
  match source_of dic_fields2add c with
  | Some str_summary_col =>
      match find (matches df_Invoicesummary df_Invoicedetails dic_key_fields2add r)
                 (rows df_Invoicesummary) with
      | Some first => get_cell df_Invoicesummary first str_summary_col
      | None => kept
      end
  | None => get_cell df_Invoicedetails r c
  end.

End Invoices.

(** ** One category of the quick analysis: [_analyze_single_category] and
       the body of the loop of [generate_quick_analysis] *)

Module QuickAnalysis.

Import Frame Store Duplicates Analysis Summaries.

(** The dictionary [_analyze_single_category] returns. *)
Record category_analysis : Type := mkAnalysis {
  analysis_category : string;
  analysis_total_records : nat;
  analysis_date_range : string * string;
  analysis_yearly_summary : DataFrame;
  analysis_duplicate_summary : duplicate_summary;
  analysis_top_analysis : option top_analysis
}.

(** [QuickAnalysisEngine._analyze_single_category(category, df, group_name)] *)
Definition _analyze_single_category (self : QuickAnalysisEngine) (category : string)
    (df : DataFrame) (group_name : string) : result category_analysis :=
  top <- _generate_top_analysis self df group_name ;;
  Return (mkAnalysis category (List.length (rows df)) (get_date_range df)
            (_generate_yearly_summary self df category)
            (_get_duplicate_summary df)
            top).

(** [f"{group_name}_{category}"] *)
Definition storage_key (group_name category : string) : string :=
  group_name ++ "_" ++ category.

Open Scope state_scope.

(** The body of the loop of [generate_quick_analysis] for one category:
    the detector returns a new table, which is stored under the storage key
    and then given the date columns in place; the analysis reads the table
    after that.  The result is the reference stored in
    [processed_dataframes] with its key, and the analysis. *)
Definition analyse_category (p : duplicate_params) (self : QuickAnalysisEngine)
    (group_name category : string) (df : ref)
    : State (result (string * ref * category_analysis)) :=
  detected <~ fn_check_duplicatedrecords p df category ;;
  match detected with
  | Raise e => ret (Raise e)
  | Return df_with_dups =>
      cur <~ deref df_with_dups ;;
      match add_date_columns cur with
      | Raise e => ret (Raise e)
      | Return dated =>
          modify df_with_dups (fun _ => dated) ;;;
          final <~ deref df_with_dups ;;
          ret (category_analysis <-
                 _analyze_single_category self category final group_name ;;
               Return (storage_key group_name category, df_with_dups,
                       category_analysis))
      end
  end.

Close Scope state_scope.

(** What the step makes of the table [out] the detector has returned, on a
    store [st] extended by this table: the result and the store. *)
Definition dated_analysis (self : QuickAnalysisEngine) (group_name category : string)
    (st : store) (out : DataFrame)
    : result (string * ref * category_analysis) * store :=
  match add_date_columns out with
  | Raise e => (Raise e, st ++ [out])
  | Return dated =>
      (category_analysis <- _analyze_single_category self category dated group_name ;;
       Return (storage_key group_name category, List.length st, category_analysis),
       st ++ [dated])
  end.

End QuickAnalysis.

(** ** The tables of the quick analysis by group and category:
       [QuickAnalysisEngine._organize_by_groups] *)

Module Organize.

Import Frame Analysis Invoices Groups.

(** [pd.concat([a, b], ignore_index=True)]: the columns of [a], then the
    columns [b] has besides; the rows of [a], then the rows of [b], a cell
    missing where a table has no such column.  A column the two tables do
    not give the same type becomes an object column. *)
Definition dtype_eqb (x y : dtype) : bool :=
  match x, y with
  | DNumeric, DNumeric | DDatetime, DDatetime | DObject, DObject => true
  | _, _ => false
  end.

Definition concat_dtype (a b : DataFrame) (c : string) : dtype :=
  if has_column a c then
    if has_column b c then
      if dtype_eqb (column_dtype a c) (column_dtype b c) then column_dtype a c
      else DObject
    else column_dtype a c
  else column_dtype b c.

Definition concat (a b : DataFrame) : DataFrame :=
  let names :=
    column_names a
    ++ filter (fun c => negb (Text.mem c (column_names a))) (column_names b) in
  mkDataFrame (map (fun c => mkColumn c (concat_dtype a b c)) names)
    (map (fun r => map (get_cell a r) names) (rows a)
     ++ map (fun r => map (get_cell b r) names) (rows b)).

(** Dictionaries, with the equality of their keys. *)
Fixpoint alist_get {K V : Type} (eqb : K -> K -> bool) (d : list (K * V)) (key : K)
    : option V :=
  match d with
  | [] => None
  | (k, v) :: rest => if eqb key k then Some v else alist_get eqb rest key
  end.

Fixpoint alist_set {K V : Type} (eqb : K -> K -> bool) (d : list (K * V)) (key : K)
    (value : V) : list (K * V) :=
  match d with
  | [] => [(key, value)]
  | (k, v) :: rest => if eqb key k then (k, value) :: rest
                      else (k, v) :: alist_set eqb rest key value
  end.

(** [data_groups]: for each group, for each category, a table. *)
Definition categories : Type := list (string * DataFrame).
Definition groups : Type := list (cell * categories).

Definition SOURCE_FILE : string := "Source File".
Definition OTHER_FINANCIAL_DATA : cell := CStr "Other Financial Data".

(** [df["Source File"] = file_name] *)
Definition with_source (df : DataFrame) (file_name : string) : DataFrame :=
  set_column df SOURCE_FILE DObject (repeat (CStr file_name) (List.length (rows df))).

(** The table of a category of a group is set, or extended when the group
    has a table of the category already. *)
Definition add_table (data_groups : groups) (group : cell) (category : string)
    (df_group : DataFrame) : groups :=
  let of_group :=
    match alist_get cell_eqb data_groups group with
    | Some cats => cats
    | None => []
    end in
  let table :=
    match alist_get String.eqb of_group category with
    | Some existing => concat existing df_group
    | None => df_group
    end in
  alist_set cell_eqb data_groups group (alist_set String.eqb of_group category table).

(** The body of the loop for one sheet: [category] is [values[0]] and
    [df_cleaned] the copy of [values[5]]. *)
Definition organize_sheet (data_groups : groups) (file_name category : string)
    (df_cleaned : DataFrame) : groups :=
  if Text.mem (Text.upper category) ["UNKNOWN"; ""] then data_groups
  else if has_column df_cleaned FINANCIAL_STATEMENT_GROUP then
    fold_left (fun dg group =>
                 add_table dg group category
                   (with_source
                      (filter_rows df_cleaned
                         (fun r => py_eq (get_cell df_cleaned r FINANCIAL_STATEMENT_GROUP)
                                         group))
                      file_name))
              (unique (column_values df_cleaned FINANCIAL_STATEMENT_GROUP))
              data_groups
  else add_table data_groups OTHER_FINANCIAL_DATA category
         (with_source df_cleaned file_name).

(** [file_metadata]: for each file, for each sheet, the category and the
    cleaned table of the sheet. *)
Definition metadata : Type := list (string * list (string * (string * DataFrame))).

(** [QuickAnalysisEngine._organize_by_groups()] *)
Definition _organize_by_groups (file_metadata : metadata) : groups :=
  fold_left (fun dg file =>
               fold_left (fun dg sheet =>
                            organize_sheet dg (fst file) (fst (snd sheet))
                              (snd (snd sheet)))
                         (snd file) dg)
            file_metadata [].

(** *** Counting records *)

(** The records of all the tables of the groups. *)
Definition records_of_categories (cats : categories) : nat :=
  list_sum (map (fun kv => List.length (rows (snd kv))) cats).

Definition records_of_groups (data_groups : groups) : nat :=
  list_sum (map (fun kv => records_of_categories (snd kv)) data_groups).

(** The records of a sheet the analysis takes: none of a sheet whose
    category is unknown, those with a group when the sheet has a column of
    groups, all of them otherwise. *)
Definition records_taken (category : string) (df_cleaned : DataFrame) : nat :=
  if Text.mem (Text.upper category) ["UNKNOWN"; ""] then 0
  else if has_column df_cleaned FINANCIAL_STATEMENT_GROUP then
    List.length (filter (fun r => negb (is_null (get_cell df_cleaned r
                                                  FINANCIAL_STATEMENT_GROUP)))
                   (rows df_cleaned))
  else List.length (rows df_cleaned).

Definition records_of_metadata (file_metadata : metadata) : nat :=
  list_sum (map (fun file =>
                   list_sum (map (fun sheet => records_taken (fst (snd sheet))
                                                 (snd (snd sheet)))
                               (snd file)))
              file_metadata).

(** *** The records of a table *)

(** [data_groups[group][category]], the empty table when the group or the
    category has none. *)
Definition table_of (data_groups : groups) (group : cell) (category : string)
    : DataFrame :=
  match alist_get cell_eqb data_groups group with
  | Some cats =>
      match alist_get String.eqb cats category with
      | Some table => table
      | None => empty_frame
      end
  | None => empty_frame
  end.

(** The cell of a record of a sheet in a column of the tables: the name of
    the file in the column [Source File], its own cell elsewhere. *)
Definition record_cell (file_name : string) (df_cleaned : DataFrame) (col : string)
    (r : row) : cell :=
  if (col =? SOURCE_FILE)%string then CStr file_name else get_cell df_cleaned r col.

(** The records of a sheet that belong to a group and a category: none of
    a sheet of another category or of unknown category; the records of the
    group when the sheet has a column of groups; all the records, for the
    group of the other financial data, when it has none. *)
Definition records_for (group : cell) (category : string) (sheet_category : string)
    (df_cleaned : DataFrame) : list row :=
  if Text.mem (Text.upper sheet_category) ["UNKNOWN"; ""] then []
  else if negb (sheet_category =? category)%string then []
  else if has_column df_cleaned FINANCIAL_STATEMENT_GROUP then
    filter (fun r => py_eq (get_cell df_cleaned r FINANCIAL_STATEMENT_GROUP) group)
      (rows df_cleaned)
  else if cell_eqb group OTHER_FINANCIAL_DATA then rows df_cleaned
  else [].

(** The cells of a column of the table of a group and a category, as the
    sheets give them: file after file, sheet after sheet. *)
Definition cells_of_metadata (file_metadata : metadata) (group : cell)
    (category col : string) : list cell :=
  flat_map (fun file =>
              flat_map (fun sheet =>
                          map (record_cell (fst file) (snd (snd sheet)) col)
                            (records_for group category (fst (snd sheet))
                               (snd (snd sheet))))
                       (snd file))
           file_metadata.

End Organize.

(** * Properties *)

(** ** Equality tests and positions in a table *)

Module FrameFacts.

Import Calendar Frame.

Lemma dt_eqb_eq (a b : datetime) : dt_eqb a b = true <-> a = b.
Proof.
  destruct a as [oa ma], b as [ob mb]; unfold dt_eqb; simpl.
  rewrite andb_true_iff, !Z.eqb_eq. split.
  - intros [-> ->]; reflexivity.
  - intros H; inversion H; auto.
Qed.

Lemma cell_eqb_eq (a b : cell) : cell_eqb a b = true <-> a = b.
Proof.
  destruct a, b; simpl; split; intros H; try reflexivity; try discriminate.
  - apply Z.eqb_eq in H; congruence.
  - inversion H; apply Z.eqb_refl.
  - apply String.eqb_eq in H; congruence.
  - inversion H; apply String.eqb_refl.
  - apply dt_eqb_eq in H; congruence.
  - inversion H; apply dt_eqb_eq; reflexivity.
Qed.

Lemma cell_eqb_refl (a : cell) : cell_eqb a a = true.
Proof. apply cell_eqb_eq; reflexivity. Qed.

Lemma index_of_lt (name : string) (names : list string) (i : nat) :
  index_of name names = Some i -> (i < List.length names)%nat.
Proof.
  revert i; induction names as [|n names IH]; simpl; intros i H; [discriminate|].
  destruct (name =? n)%string.
  - inversion H; lia.
  - destruct (index_of name names) as [j|]; [|discriminate].
    inversion H; subst. specialize (IH j eq_refl). lia.
Qed.

Lemma index_of_nth (name : string) (names : list string) (i : nat) :
  index_of name names = Some i -> nth i names EmptyString = name.
Proof.
  revert i; induction names as [|n names IH]; simpl; intros i H; [discriminate|].
  destruct (name =? n)%string eqn:E.
  - inversion H. apply String.eqb_eq in E. auto.
  - destruct (index_of name names) as [j|]; [|discriminate].
    inversion H; subst. apply IH; reflexivity.
Qed.

Lemma index_of_none (name : string) (names : list string) :
  index_of name names = None <-> Text.mem name names = false.
Proof.
  unfold Text.mem. induction names as [|n names IH]; simpl; [tauto|].
  destruct (name =? n)%string; simpl.
  - split; discriminate.
  - rewrite <- IH. destruct (index_of name names); simpl; split; congruence.
Qed.

Lemma index_of_app_new (name : string) (names : list string) :
  index_of name names = None ->
  index_of name (names ++ [name]) = Some (List.length names).
Proof.
  induction names as [|n names IH]; simpl; intros H.
  - rewrite String.eqb_refl; reflexivity.
  - destruct (name =? n)%string; [discriminate|].
    destruct (index_of name names); [discriminate|].
    rewrite IH; reflexivity.
Qed.

Lemma index_of_app_old (name other : string) (names : list string) (i : nat) :
  index_of name names = Some i -> index_of name (names ++ [other]) = Some i.
Proof.
  revert i; induction names as [|n names IH]; simpl; intros i H; [discriminate|].
  destruct (name =? n)%string; [assumption|].
  destruct (index_of name names) as [j|]; [|discriminate].
  rewrite (IH j eq_refl); assumption.
Qed.

(** Replacing the column at the position of [name] by one of the same name
    leaves every position as it was. *)
Lemma index_of_replace (name x : string) (cols : list column) (i : nat) (dt : dtype) :
  index_of name (map col_name cols) = Some i ->
  index_of x (map col_name (firstn i cols ++ mkColumn name dt :: skipn (S i) cols))
  = index_of x (map col_name cols).
Proof.
  revert i; induction cols as [|c cols IH]; intros i H; simpl in H; [discriminate|].
  destruct (name =? col_name c)%string eqn:E.
  - inversion H; subst; simpl. apply String.eqb_eq in E; rewrite E; reflexivity.
  - destruct (index_of name (map col_name cols)) as [j|] eqn:Ej; [|discriminate].
    inversion H; subst. specialize (IH j eq_refl).
    cbn [firstn skipn app map index_of col_name] in *.
    rewrite IH; reflexivity.
Qed.

Lemma nth_set_nth_same (i : nat) (v : cell) (r : row) :
  nth i (set_nth i v r) CNull = v.
Proof.
  unfold set_nth.
  assert (L : List.length (firstn i (r ++ repeat CNull (i - List.length r))) = i).
  { rewrite length_firstn, length_app, repeat_length. lia. }
  rewrite app_nth2; rewrite L; [|lia]. rewrite Nat.sub_diag; reflexivity.
Qed.

Lemma nth_set_nth_other (i j : nat) (v : cell) (r : row) :
  i <> j -> nth j (set_nth i v r) CNull = nth j r CNull.
Proof.
  intros Hij. unfold set_nth.
  assert (L : List.length (firstn i (r ++ repeat CNull (i - List.length r))) = i).
  { rewrite length_firstn, length_app, repeat_length. lia. }
  destruct (Nat.ltb_spec j i) as [Hlt|Hge].
  - rewrite app_nth1 by lia. rewrite nth_firstn.
    replace (j <? i)%nat with true by (symmetry; apply Nat.ltb_lt; lia).
    destruct (Nat.ltb_spec j (List.length r)).
    + rewrite app_nth1 by lia; reflexivity.
    + rewrite app_nth2 by lia. rewrite nth_repeat.
      rewrite nth_overflow by lia; reflexivity.
  - rewrite app_nth2 by lia. rewrite L.
    destruct (j - i)%nat as [|d] eqn:E; [lia|]. cbn [nth].
    rewrite nth_skipn. f_equal; lia.
Qed.

Lemma map2_length {A B C : Type} (f : A -> B -> C) (l : list A) (m : list B) :
  List.length l = List.length m -> List.length (map2 f l m) = List.length l.
Proof.
  revert m; induction l as [|a l IH]; intros [|b m]; simpl; intros H; try discriminate; auto.
Qed.

Lemma map2_repeat {A B C : Type} (f : A -> B -> C) (l : list A) (b : B) :
  map2 f l (repeat b (List.length l)) = map (fun a => f a b) l.
Proof. induction l as [|a l IH]; simpl; [|rewrite IH]; reflexivity. Qed.

End FrameFacts.

(** ** The duplicate detector *)

Module DuplicateFacts.

Import Frame Store Duplicates FrameFacts.

Lemma names_replace (name : string) (cols : list column) (i : nat) (dt : dtype) :
  index_of name (map col_name cols) = Some i ->
  map col_name (firstn i cols ++ mkColumn name dt :: skipn (S i) cols)
  = map col_name cols.
Proof.
  revert i; induction cols as [|c cols IH]; intros i H; simpl in H; [discriminate|].
  destruct (name =? col_name c)%string eqn:E.
  - inversion H; subst; simpl. apply String.eqb_eq in E; rewrite E; reflexivity.
  - destruct (index_of name (map col_name cols)) as [j|] eqn:Ej; [|discriminate].
    inversion H; subst. specialize (IH j eq_refl).
    cbn [firstn skipn app map col_name] in *.
    rewrite IH; reflexivity.
Qed.

Lemma key_eqb_eq (a b : key) : key_eqb a b = true <-> a = b.
Proof.
  revert b; induction a as [|x a IH]; intros [|y b]; simpl; split; intros H;
    try reflexivity; try discriminate.
  - apply andb_true_iff in H as [H1 H2].
    apply cell_eqb_eq in H1. apply IH in H2. congruence.
  - inversion H; subst. rewrite cell_eqb_refl. simpl. apply IH; reflexivity.
Qed.

Lemma key_eqb_refl (a : key) : key_eqb a a = true.
Proof. apply key_eqb_eq; reflexivity. Qed.

Lemma key_eqb_sym (a b : key) : key_eqb a b = key_eqb b a.
Proof.
  destruct (key_eqb a b) eqn:E1, (key_eqb b a) eqn:E2; try reflexivity.
  - apply key_eqb_eq in E1; subst. rewrite key_eqb_refl in E2; discriminate.
  - apply key_eqb_eq in E2; subst. rewrite key_eqb_refl in E1; discriminate.
Qed.

(** *** The run on the store *)

Lemma nth_fresh (st : store) (d : DataFrame) :
  nth (List.length st) (st ++ [d]) empty_frame = d.
Proof. rewrite app_nth2 by lia. rewrite Nat.sub_diag; reflexivity. Qed.

Lemma update_at_fresh (st : store) (d : DataFrame) (f : DataFrame -> DataFrame) :
  update_at (List.length st) f (st ++ [d]) = st ++ [f d].
Proof. induction st as [|x st IH]; simpl; [|rewrite IH]; reflexivity. Qed.

(** The detector allocates one table and writes to no other: the empty
    table for an empty input; otherwise the copy of the input, which is
    tagged when the accessor [.str] accepts the configured column and left
    as it is when the accessor raises. *)
Lemma fn_check_duplicatedrecords_run (p : duplicate_params) (r : ref)
    (category : string) (st : store) :
  fn_check_duplicatedrecords p r category st =
  if df_empty (nth r st empty_frame) then (Return (List.length st), st ++ [empty_frame])
  else if accepts_str p category
       then (Return (List.length st), st ++ [tagged p (nth r st empty_frame) category])
       else (Raise AttributeError, st ++ [nth r st empty_frame]).
Proof.
  unfold fn_check_duplicatedrecords, bindS, deref.
  destruct (df_empty (nth r st empty_frame)) eqn:E; [reflexivity|].
  unfold alloc, modify, ret.
  destruct (accepts_str p category); [|reflexivity].
  cbn [negb]. rewrite nth_fresh.
  rewrite !update_at_fresh. reflexivity.
Qed.

Lemma detect_eq (p : duplicate_params) (df : DataFrame) (category : string) :
  detect p df category =
  if df_empty df then Return empty_frame
  else if accepts_str p category then Return (tagged p df category)
       else Raise AttributeError.
Proof.
  unfold detect. rewrite fn_check_duplicatedrecords_run.
  change (nth 0 [df] empty_frame) with df.
  destruct (df_empty df); [reflexivity|].
  destruct (accepts_str p category); reflexivity.
Qed.

(** The sheet without a column for the category: the accessor is asked of
    an empty column of objects, and accepts it. *)
Lemma accepts_str_no_column (p : duplicate_params) (category : string) :
  has_column p category = false -> accepts_str p category = true.
Proof.
  intros H. unfold accepts_str, params_dtype, params_get. rewrite H. reflexivity.
Qed.

(** *** The status column of the result *)

Lemma status_index_set (df : DataFrame) (vs : list cell) :
  index_of DUPLICATE_STATUS
    (column_names (set_column df DUPLICATE_STATUS DObject vs))
  = Some (status_index df).
Proof.
  unfold set_column, status_index, column_names.
  destruct (index_of DUPLICATE_STATUS (map col_name (columns df))) as [i|] eqn:E; simpl.
  - rewrite (index_of_replace _ _ _ _ _ E). exact E.
  - rewrite map_app. simpl.
    rewrite <- (length_map col_name). apply index_of_app_new. exact E.
Qed.

Lemma rows_set_column (df : DataFrame) (name : string) (dt : dtype) (vs : list cell) :
  rows (set_column df name dt vs) =
  map2 (fun r v => set_nth (match index_of name (column_names df) with
                            | Some i => i
                            | None => List.length (columns df)
                            end) v r) (rows df) vs.
Proof. unfold set_column. destruct (index_of name (column_names df)); reflexivity. Qed.

Lemma columns_loc_assign (df : DataFrame) (mask : list bool) (name : string) (v : cell) :
  columns (loc_assign df mask name v) = columns df.
Proof. unfold loc_assign. destruct (index_of name (column_names df)); reflexivity. Qed.

Lemma rows_loc_assign (df : DataFrame) (mask : list bool) (name : string) (v : cell)
    (i : nat) :
  index_of name (column_names df) = Some i ->
  rows (loc_assign df mask name v) =
  map2 (fun r (b : bool) => if b then set_nth i v r else r) (rows df) mask.
Proof. unfold loc_assign. intros ->. reflexivity. Qed.

Lemma columns_tagged (p : duplicate_params) (df : DataFrame) (category : string) :
  columns (tagged p df category) =
  columns (set_column df DUPLICATE_STATUS DObject
             (repeat NO_DUPLICATES (List.length (rows df)))).
Proof. unfold tagged. rewrite !columns_loc_assign. reflexivity. Qed.

Lemma status_index_tagged (p : duplicate_params) (df : DataFrame) (category : string) :
  index_of DUPLICATE_STATUS (column_names (tagged p df category))
  = Some (status_index df).
Proof.
  unfold column_names. rewrite columns_tagged. apply status_index_set.
Qed.

Lemma rows_tagged (p : duplicate_params) (df : DataFrame) (category : string) :
  let ks := keys_of df (lst_Criteriacolumns p df category) in
  let i := status_index df in
  rows (tagged p df category) =
  map2 (fun r (b : bool) => if b then set_nth i IS_DUPLICATE r else r)
    (map2 (fun r (b : bool) => if b then set_nth i HAS_DUPLICATES r else r)
       (map (set_nth i NO_DUPLICATES) (rows df))
       (map2 andb (duplicated_all ks) (map negb (duplicated_first ks))))
    (duplicated_first ks).
Proof.
  intros ks i. unfold tagged.
  rewrite (rows_loc_assign _ _ _ _ i).
  2:{ unfold column_names. rewrite columns_loc_assign. apply status_index_set. }
  rewrite (rows_loc_assign _ _ _ _ i) by apply status_index_set.
  rewrite rows_set_column. fold (status_index df). rewrite map2_repeat.
  reflexivity.
Qed.

Lemma duplicated_first_from_length (seen ks : list key) :
  List.length (duplicated_first_from seen ks) = List.length ks.
Proof.
  revert seen; induction ks as [|k ks IH]; intros seen; simpl; [|rewrite IH]; reflexivity.
Qed.

(** Cell by cell: what the three assignments leave in the status column and
    in the other columns. *)
Lemma tagged_cells (i : nat) (rs : list row) (m1 m2 : list bool) :
  List.length m1 = List.length rs -> List.length m2 = List.length rs ->
  forall j,
  map (fun r => nth j r CNull)
    (map2 (fun r (b : bool) => if b then set_nth i IS_DUPLICATE r else r)
       (map2 (fun r (b : bool) => if b then set_nth i HAS_DUPLICATES r else r)
          (map (set_nth i NO_DUPLICATES) rs) (map2 andb m1 (map negb m2)))
       m2)
  = if (i =? j)%nat then map2 status_of m1 m2
    else map (fun r => nth j r CNull) rs.
Proof.
  revert m1 m2; induction rs as [|r rs IH]; intros [|b1 m1] [|b2 m2] H1 H2 j;
    simpl in *; try discriminate.
  - destruct (i =? j)%nat; reflexivity.
  - specialize (IH m1 m2 ltac:(lia) ltac:(lia) j).
    rewrite IH. destruct (Nat.eqb_spec i j) as [->|Hne].
    + f_equal. unfold status_of.
      destruct b1, b2; simpl; rewrite ?nth_set_nth_same; reflexivity.
    + f_equal.
      destruct b1, b2; simpl; rewrite ?nth_set_nth_other by assumption; reflexivity.
Qed.

Lemma masks_length (df : DataFrame) (criteria : list string) :
  List.length (duplicated_all (keys_of df criteria)) = List.length (rows df)
  /\ List.length (duplicated_first (keys_of df criteria)) = List.length (rows df).
Proof.
  unfold duplicated_all, duplicated_first, keys_of.
  rewrite duplicated_first_from_length, !length_map. split; reflexivity.
Qed.

Lemma rows_tagged_length (p : duplicate_params) (df : DataFrame) (category : string) :
  List.length (rows (tagged p df category)) = List.length (rows df).
Proof.
  rewrite rows_tagged.
  destruct (masks_length df (lst_Criteriacolumns p df category)) as [L1 L2].
  assert (L3 : List.length (map2 andb
                 (duplicated_all (keys_of df (lst_Criteriacolumns p df category)))
                 (map negb (duplicated_first (keys_of df (lst_Criteriacolumns p df category)))))
               = List.length (rows df)).
  { rewrite map2_length; rewrite ?length_map; congruence. }
  assert (L4 : forall (f : row -> bool -> row) (l : list row) (m : list bool),
             List.length l = List.length (rows df) ->
             List.length m = List.length (rows df) ->
             List.length (map2 f l m) = List.length (rows df)).
  { intros f l m Hl Hm. rewrite map2_length; congruence. }
  apply L4; [apply L4|]; rewrite ?length_map; auto.
Qed.

Lemma map_const {A B : Type} (b : B) (l : list A) :
  map (fun _ => b) l = repeat b (List.length l).
Proof. induction l as [|a l IH]; simpl; [|rewrite IH]; reflexivity. Qed.

Lemma statuses_tagged (p : duplicate_params) (df : DataFrame) (category : string) :
  let ks := keys_of df (lst_Criteriacolumns p df category) in
  statuses (tagged p df category) =
  map2 status_of (duplicated_all ks) (duplicated_first ks).
Proof.
  intros ks. unfold statuses, column_values, get_cell.
  rewrite status_index_tagged, rows_tagged.
  destruct (masks_length df (lst_Criteriacolumns p df category)) as [L1 L2].
  unfold ks.
  rewrite tagged_cells by assumption.
  rewrite Nat.eqb_refl. reflexivity.
Qed.

(** A column other than the status column keeps its cells. *)
Lemma other_column_tagged (p : duplicate_params) (df : DataFrame) (category c : string) :
  c <> DUPLICATE_STATUS ->
  column_values (tagged p df category) c = column_values df c.
Proof.
  intros Hc. unfold column_values, get_cell.
  assert (E : index_of c (column_names (tagged p df category))
              = match index_of c (column_names df) with
                | Some j => Some j
                | None => None
                end).
  { unfold column_names. rewrite columns_tagged. unfold set_column, column_names.
    destruct (index_of DUPLICATE_STATUS (map col_name (columns df))) as [i|] eqn:E;
      simpl.
    - rewrite (index_of_replace _ _ _ _ _ E). destruct (index_of c _); reflexivity.
    - rewrite map_app. simpl.
      destruct (index_of c (map col_name (columns df))) as [j|] eqn:Ej.
      + apply index_of_app_old; assumption.
      + clear E. induction (map col_name (columns df)) as [|n l IH]; simpl in *.
        * destruct (String.eqb_spec c DUPLICATE_STATUS); [contradiction|reflexivity].
        * destruct (c =? n)%string; [discriminate|].
          destruct (index_of c l); [discriminate|]. rewrite IH; reflexivity. }
  rewrite E. destruct (index_of c (column_names df)) as [j|] eqn:Ej.
  - rewrite rows_tagged.
    destruct (masks_length df (lst_Criteriacolumns p df category)) as [L1 L2].
    rewrite tagged_cells by assumption.
    destruct (Nat.eqb_spec (status_index df) j) as [Hij|Hij]; [|reflexivity].
    exfalso. apply Hc. pose proof (index_of_nth _ _ _ Ej) as Hn. rewrite <- Hn.
    unfold status_index in Hij.
    destruct (index_of DUPLICATE_STATUS (column_names df)) as [i|] eqn:Ei.
    + apply index_of_nth in Ei. subst; assumption.
    + apply index_of_lt in Ej. unfold column_names in Ej.
      rewrite length_map in Ej. lia.
  - rewrite !map_const. f_equal. apply rows_tagged_length.
Qed.

(** *** The statuses of a group *)

(** The statuses the masks give, read along the rows: [seen] holds the keys
    of the rows before, [total] all the keys. *)
Lemma group_selection (total : list key) (k : key) (ks seen : list key) :
  select (map2 status_of (map (fun k' => (1 <? count k' total)%nat) ks)
            (duplicated_first_from seen ks))
         (map (key_eqb k) ks)
  = if existsb (key_eqb k) seen then repeat IS_DUPLICATE (count k ks)
    else match count k ks with
         | O => []
         | S m => status_of (1 <? count k total)%nat false :: repeat IS_DUPLICATE m
         end.
Proof.
  revert seen; induction ks as [|k' ks IH]; intros seen; simpl.
  - destruct (existsb (key_eqb k) seen); reflexivity.
  - unfold count in *. simpl. rewrite (IH (k' :: seen)). simpl.
    destruct (key_eqb k k') eqn:E.
    + apply key_eqb_eq in E; subst k'. simpl.
      destruct (existsb (key_eqb k) seen); reflexivity.
    + simpl. reflexivity.
Qed.

Lemma group_statuses_selected (ks : list key) (k : key) :
  select (map2 status_of (duplicated_all ks) (duplicated_first ks))
         (map (key_eqb k) ks)
  = group_statuses (count k ks).
Proof.
  unfold duplicated_all, duplicated_first. rewrite group_selection. simpl.
  destruct (count k ks) as [|[|m]]; reflexivity.
Qed.

Lemma status_of_cases (a b : bool) :
  status_of a b = NO_DUPLICATES \/ status_of a b = HAS_DUPLICATES
  \/ status_of a b = IS_DUPLICATE.
Proof. destruct a, b; simpl; auto. Qed.

Lemma map2_status_cases (m1 m2 : list bool) :
  Forall (fun s => s = NO_DUPLICATES \/ s = HAS_DUPLICATES \/ s = IS_DUPLICATE)
    (map2 status_of m1 m2).
Proof.
  revert m2; induction m1 as [|a m1 IH]; intros [|b m2]; simpl; constructor.
  - apply status_of_cases.
  - apply IH.
Qed.

(** *** The claims on the detector *)

(** C1.  After the detector has run, the rows that share a key (the tuple of
    their cells in the resolved key columns) carry, in the order of the
    input: the single status NO duplicates when they are one row; HAS
    duplicates on the first row and IS duplicate on the [n-1] others when they
    are [n > 1] rows.  Every row has one status, one of the three (distinct)
    values.  An empty input has no row to tag.  The detector returns its
    table for every input but one: on a table that is not empty it raises
    [AttributeError], and tags nothing, when the accessor [.str] refuses the
    column configured for the category. *)
Theorem duplicate_groups_tagged (p : duplicate_params) (df : DataFrame)
    (category : string) (k : key) :
  let ks := keys_of df (lst_Criteriacolumns p df category) in
  match detect p df category with
  | Return out =>
      if df_empty df then rows out = []
      else
        List.length (statuses out) = List.length (rows df)
        /\ Forall (fun s => s = NO_DUPLICATES \/ s = HAS_DUPLICATES \/ s = IS_DUPLICATE)
             (statuses out)
        /\ NoDup [NO_DUPLICATES; HAS_DUPLICATES; IS_DUPLICATE]
        /\ select (statuses out) (map (key_eqb k) ks) = group_statuses (count k ks)
  | Raise e =>
      e = AttributeError /\ df_empty df = false /\ accepts_str p category = false
  end.
Proof.
  intros ks. rewrite detect_eq.
  destruct (df_empty df); [reflexivity|].
  destruct (accepts_str p category); [|repeat split].
  rewrite statuses_tagged. fold ks.
  destruct (masks_length df (lst_Criteriacolumns p df category)) as [L1 L2].
  fold ks in L1, L2.
  repeat split.
  - rewrite map2_length; congruence.
  - apply map2_status_cases.
  - repeat constructor; simpl; intuition discriminate.
  - apply group_statuses_selected.
Qed.

Lemma present_columns_none (df : DataFrame) (cells : list cell) :
  (forall s, In (CStr s) cells -> has_column df (Text.strip s) = false) ->
  present_columns df (dropna_strip cells) = [].
Proof.
  induction cells as [|c cells IH]; intros H; [reflexivity|].
  unfold dropna_strip in *. simpl.
  unfold present_columns in *. rewrite flat_map_app.
  rewrite IH by (intros s Hs; apply H; right; assumption).
  rewrite app_nil_r. destruct c; try reflexivity.
  simpl. rewrite (H s) by (left; reflexivity). reflexivity.
Qed.

(** When no configured key field of the category (there may be none) is a
    column of the table, the key columns the detector resolves are all the
    columns of the table, and the rows are grouped by all their cells.  The
    detector then gives what it gives without any configuration, when the
    accessor [.str] accepts the configured column; when the accessor refuses
    it, the detector raises [AttributeError] on every table that is not
    empty. *)
Lemma fallback_to_all_columns (p : duplicate_params) (df : DataFrame)
    (category : string) :
  (forall s, In (CStr s) (params_get p category) ->
             has_column df (Text.strip s) = false) ->
  lst_Criteriacolumns p df category = column_names df
  /\ keys_of df (lst_Criteriacolumns p df category)
     = map (fun r => map (get_cell df r) (column_names df)) (rows df)
  /\ (accepts_str p category = true ->
      forall (st : store) (r : ref),
        nth r st empty_frame = df ->
        fn_check_duplicatedrecords p r category st
        = fn_check_duplicatedrecords empty_frame r category st)
  /\ (accepts_str p category = false -> df_empty df = false ->
      detect p df category = Raise AttributeError).
Proof.
  intros H.
  assert (E : lst_Criteriacolumns p df category = column_names df).
  { unfold lst_Criteriacolumns. rewrite present_columns_none by assumption.
    reflexivity. }
  split; [exact E|]. split; [rewrite E; reflexivity|]. split.
  - intros Ha st r Hr. rewrite !fn_check_duplicatedrecords_run, Hr, Ha.
    rewrite (accepts_str_no_column empty_frame category) by reflexivity.
    unfold tagged. rewrite E. reflexivity.
  - intros Ha He. rewrite detect_eq, He, Ha. reflexivity.
Qed.

(** C5.  A column of the sheet [Check_duplicates] that holds numbers only
    names no column of the table, and yet the detector does not fall back
    to the columns of the table: the accessor [.str] refuses the column and
    the detector raises [AttributeError].  With a column of texts none of
    which names a column of the table the detector falls back, and gives
    what it gives when the sheet has no column for the category.  In
    general, when no configured text names a column of the table, the key
    columns are all the columns of the table; the detector gives what it
    gives without configuration when the accessor accepts the configured
    column, and raises [AttributeError] on a table that is not empty when
    the accessor refuses it. *)
Theorem configuration_without_text_raises :
  let df := mkDataFrame [mkColumn "ITEM" DObject; mkColumn "PRICE" DNumeric]
              [[CStr "tea"; CNum 5]; [CStr "tea"; CNum 5]; [CStr "tea"; CNum 7]] in
  let numbers := mkDataFrame [mkColumn "EBM SALES" DNumeric] [[CNum 5]; [CNum 7]] in
  let texts := mkDataFrame [mkColumn "EBM SALES" DObject]
                 [[CStr " INVOICE NUMBER "]; [CStr ""]] in
  present_columns df (dropna_strip (params_get numbers "EBM SALES")) = []
  /\ detect numbers df "EBM SALES" = Raise AttributeError
  /\ present_columns df (dropna_strip (params_get texts "EBM SALES")) = []
  /\ lst_Criteriacolumns texts df "EBM SALES" = ["ITEM"; "PRICE"]
  /\ detect texts df "EBM SALES" = detect empty_frame df "EBM SALES"
  /\ (exists out,
        detect empty_frame df "EBM SALES" = Return out
        /\ statuses out = [HAS_DUPLICATES; IS_DUPLICATE; NO_DUPLICATES])
  /\ (forall (p : duplicate_params) (table : DataFrame) (category : string),
         (forall s, In (CStr s) (params_get p category) ->
                    has_column table (Text.strip s) = false) ->
         lst_Criteriacolumns p table category = column_names table
         /\ (accepts_str p category = true ->
             detect p table category = detect empty_frame table category)
         /\ (accepts_str p category = false -> df_empty table = false ->
             detect p table category = Raise AttributeError)).
Proof.
  intros df numbers texts.
  split; [reflexivity|]. split; [reflexivity|]. split; [reflexivity|].
  split; [reflexivity|]. split; [reflexivity|].
  split; [eexists; split; reflexivity|].
  intros p table category H.
  destruct (fallback_to_all_columns p table category H) as [E [_ [Same Refused]]].
  split; [exact E|]. split; [|exact Refused].
  intros Ha. unfold detect.
  rewrite (Same Ha [table] 0 eq_refl). reflexivity.
Qed.

(** C10, as the claim states it, fails on a table that already has a column
    [Duplicate Status]: no column is added and the cells of that column are
    not kept. *)
Lemma existing_status_column_overwritten :
  let df := mkDataFrame [mkColumn "Duplicate Status" DObject; mkColumn "ITEM" DObject]
              [[CStr "seen"; CStr "tea"]; [CStr "seen"; CStr "tea"]] in
  match detect empty_frame df "EBM SALES" with
  | Return out =>
      column_names out = column_names df
      /\ column_names out <> column_names df ++ ["Duplicate Status"]
      /\ column_values df "Duplicate Status" = [CStr "seen"; CStr "seen"]
      /\ column_values out "Duplicate Status" = [HAS_DUPLICATES; IS_DUPLICATE]
  | Raise _ => False
  end.
Proof. repeat split. discriminate. Qed.

(** C10, amended.  The detector writes to a new table only: every table the
    store held, the input included, is as before, also when the detector
    raises.  Its result is a fresh reference.  For an empty input the result
    is the empty table.  Otherwise the result has the rows of the input in
    their order, every column other than [Duplicate Status] with its cells
    unchanged, and the columns of the input followed by [Duplicate Status]
    (when the input has no such column; when it has one, that column is
    overwritten in place).  The detector returns for every input but one: on
    a table that is not empty it raises [AttributeError] when the accessor
    [.str] refuses the column configured for the category. *)
Theorem detector_frame_effect (p : duplicate_params) (st : store) (r : ref)
    (category : string) :
  let df := nth r st empty_frame in
  let res := fn_check_duplicatedrecords p r category st in
  firstn (List.length st) (snd res) = st
  /\ match fst res with
     | Return new =>
         let out := nth new (snd res) empty_frame in
         new = List.length st
         /\ (if df_empty df then out = empty_frame
             else
               List.length (rows out) = List.length (rows df)
               /\ (forall c, c <> DUPLICATE_STATUS ->
                             column_values out c = column_values df c)
               /\ column_names out
                  = if has_column df DUPLICATE_STATUS then column_names df
                    else column_names df ++ [DUPLICATE_STATUS])
     | Raise e =>
         e = AttributeError /\ df_empty df = false /\ accepts_str p category = false
     end.
Proof.
  intros df res. unfold res. rewrite fn_check_duplicatedrecords_run. fold df.
  assert (F : forall d, firstn (List.length st) (st ++ [d]) = st).
  { intros d. rewrite firstn_app, Nat.sub_diag, firstn_all. simpl. apply app_nil_r. }
  destruct (df_empty df) eqn:Ee.
  { cbn [fst snd]. rewrite nth_fresh. split; [apply F|]. split; reflexivity. }
  destruct (accepts_str p category) eqn:Ea; cbn [fst snd].
  2:{ split; [apply F|]. repeat split. }
  rewrite nth_fresh. split; [apply F|]. split; [reflexivity|].
  - split; [apply rows_tagged_length|]. split.
    + intros c Hc. apply other_column_tagged; assumption.
    + unfold column_names at 1. rewrite columns_tagged.
      unfold set_column, has_column.
      destruct (index_of DUPLICATE_STATUS (column_names df)) as [i|] eqn:E.
      * assert (M : Text.mem DUPLICATE_STATUS (column_names df) = true).
        { destruct (Text.mem DUPLICATE_STATUS (column_names df)) eqn:M; [reflexivity|].
          apply index_of_none in M. congruence. }
        rewrite M. simpl. apply names_replace. exact E.
      * apply index_of_none in E. rewrite E. simpl. rewrite map_app. reflexivity.
Qed.

End DuplicateFacts.

(** ** The schema matcher *)

Module MatcherFacts.

Import Frame Matcher.

Section FirstReturn.

Context {A B : Type}.

Lemma first_return_flat_map {C : Type} (body : C -> option B) (g : A -> list C)
    (l : list A) :
  first_return body (flat_map g l)
  = first_return (fun a => first_return body (g a)) l.
Proof.
  induction l as [|a l IH]; simpl; [reflexivity|].
  rewrite <- IH. clear IH.
  induction (g a) as [|c cs IHc]; simpl; [reflexivity|].
  destruct (body c); [reflexivity|]. exact IHc.
Qed.

Lemma first_return_map {C : Type} (body : C -> option B) (f : A -> C) (l : list A) :
  first_return body (map f l) = first_return (fun a => body (f a)) l.
Proof.
  induction l as [|a l IH]; simpl; [reflexivity|].
  destruct (body (f a)); [reflexivity|]. exact IH.
Qed.

Lemma first_return_ext (f g : A -> option B) (l : list A) :
  (forall a, In a l -> f a = g a) -> first_return f l = first_return g l.
Proof.
  induction l as [|a l IH]; intros H; simpl; [reflexivity|].
  rewrite (H a) by (left; reflexivity).
  destruct (g a); [reflexivity|]. apply IH. intros; apply H; right; assumption.
Qed.

(** A guarded loop returns at the first element that passes the guard. *)
Lemma first_return_first (test : A -> bool) (k : A -> B) (before after : list A) (a : A) :
  (forall x, In x before -> test x = false) -> test a = true ->
  first_return (fun x => if test x then Some (k x) else None) (before ++ a :: after)
  = Some (k a).
Proof.
  intros Hb Ha. induction before as [|x before IH]; simpl.
  - rewrite Ha; reflexivity.
  - rewrite (Hb x) by (left; reflexivity). apply IH.
    intros; apply Hb; right; assumption.
Qed.

Lemma first_return_none (test : A -> bool) (k : A -> B) (l : list A) :
  (forall x, In x l -> test x = false) ->
  first_return (fun x => if test x then Some (k x) else None) l = None.
Proof.
  intros H. induction l as [|x l IH]; simpl; [reflexivity|].
  rewrite (H x) by (left; reflexivity). apply IH.
  intros; apply H; right; assumption.
Qed.

End FirstReturn.

(** A pass is one loop over the candidates. *)
Lemma pass_candidates (test : row -> string * list cell -> bool)
    (original newheaders : headers_table) (sheet : list row) (max_iterations : nat) :
  pass test original newheaders sheet (Nat.min (List.length sheet) max_iterations)
  = first_return
      (fun c => if test (nth (fst c) sheet []) (snd c)
                then Some (accept newheaders (fst c) (nth (fst c) sheet []) (snd c))
                else None)
      (candidates original sheet max_iterations).
Proof.
  unfold pass, candidates. rewrite first_return_flat_map.
  apply first_return_ext. intros i _. rewrite first_return_map. reflexivity.
Qed.

(** C2, as the claim states it, fails on a sheet no category matches: the
    header row is then [None], not 0. *)
Lemma unknown_sheet_has_no_header_row :
  let original := [("EBM SALES", [CStr "Invoice No"; CStr "Date"; CStr ""])] in
  let newheaders := [("EBM SALES", [CStr "INVOICE NUMBER"; CStr "TRANSACTION DATE"])] in
  let sheet := [[CStr "Monthly report"; CNull]; [CStr "Item"; CStr "Price"]] in
  fn_find_matching_category original newheaders sheet 25
  = Return (mkMatching "UNKNOWN" None [] [] [])
  /\ fn_find_matching_category original newheaders sheet 25
     <> Return (mkMatching "UNKNOWN" (Some 0%nat) [] [] []).
Proof. split; [reflexivity | discriminate]. Qed.

(** C2, amended.  The candidates are the pairs of a row below
    [min(len(sheet), max_iterations)] and a category, row by row and, in a
    row, in the order of the categories.  The matcher accepts the first
    candidate whose normalised non-blank headers and normalised row cells are
    equal as sets; when there is none, the first candidate whose headers are
    a subset of the row cells; when there is none either, it returns UNKNOWN
    with no header row ([None]) and empty lists. *)
Theorem matcher_two_passes (original newheaders : headers_table) (sheet : list row)
    (max_iterations : nat) :
  let cands := candidates original sheet max_iterations in
  let exact c := exact_test (nth (fst c) sheet []) (snd c) in
  let subset c := subset_test (nth (fst c) sheet []) (snd c) in
  let accepted c := accept newheaders (fst c) (nth (fst c) sheet []) (snd c) in
  let found := fn_find_matching_category original newheaders sheet max_iterations in
  (forall before c after,
      cands = before ++ c :: after ->
      (forall x, In x before -> exact x = false) -> exact c = true ->
      found = accepted c)
  /\ (forall before c after,
      (forall x, In x cands -> exact x = false) ->
      cands = before ++ c :: after ->
      (forall x, In x before -> subset x = false) -> subset c = true ->
      found = accepted c)
  /\ ((forall x, In x cands -> subset x = false) -> found = Return UNKNOWN)
  /\ (forall c m, accepted c = Return m ->
                  str_filetype m = fst (snd c) /\ int_myheaderrow m = Some (fst c)).
Proof.
  intros cands exact subset accepted found.
  unfold found, fn_find_matching_category. rewrite !pass_candidates. fold cands.
  split; [|split; [|split]].
  - intros before c after E Hb Hc. rewrite E.
    rewrite (first_return_first exact accepted) by assumption. reflexivity.
  - intros before c after Hn E Hb Hc.
    rewrite (first_return_none exact accepted) by assumption.
    rewrite E. rewrite (first_return_first subset accepted) by assumption.
    reflexivity.
  - intros Hn.
    rewrite (first_return_none exact accepted).
    + rewrite (first_return_none subset accepted) by assumption. reflexivity.
    + intros x Hx. specialize (Hn x Hx). unfold exact, subset in *.
      unfold exact_test, subset_test, set_equal in *. rewrite Hn. reflexivity.
  - intros c m H. unfold accepted, accept, bind in H.
    destruct (table_get newheaders (fst (snd c))); inversion H; split; reflexivity.
Qed.

(** The two passes at work: the row that equals the headers of a category
    wins over an earlier row that only contains them; without such a row the
    earlier one is taken. *)
Example matcher_exact_over_subset :
  let original := [("EBM SALES", [CStr "Invoice No"; CStr "Date"; CStr ""]);
                   ("BANK", [CStr "Date"; CStr ""; CStr ""])] in
  let newheaders := [("EBM SALES", [CStr "INVOICE NUMBER"; CStr "TRANSACTION DATE"; CStr ""]);
                     ("BANK", [CStr "TRANSACTION DATE"; CStr ""; CStr ""])] in
  fn_find_matching_category original newheaders
    [[CStr "report"; CNull]; [CStr " date"; CStr "invoice no "; CStr "total"];
     [CStr "Date"; CStr "INVOICE NO"]] 25
  = Return (mkMatching "EBM SALES" (Some 2%nat) ["INVOICE NO"; "DATE"] [0; 1]%nat
              [CStr "INVOICE NUMBER"; CStr "TRANSACTION DATE"])
  /\ fn_find_matching_category original newheaders
       [[CStr "report"; CNull]; [CStr " date"; CStr "invoice no "; CStr "total"]] 25
     = Return (mkMatching "EBM SALES" (Some 1%nat) ["INVOICE NO"; "DATE"] [0; 1]%nat
                 [CStr "INVOICE NUMBER"; CStr "TRANSACTION DATE"]).
Proof. split; reflexivity. Qed.

End MatcherFacts.

(** ** The date parser *)

Module DateFacts.

Import Calendar Pyfloat Dates.

Open Scope Z_scope.

Lemma int_of_str_str_of_int (n : Z) : Text.int_of_str (Text.str_of_int n) = Return n.
Proof.
  unfold Text.int_of_str, Text.str_of_int.
  rewrite NilZero.isi.
  - rewrite DecimalZ.of_to. reflexivity.
  - destruct n; simpl; try discriminate.
    intros H; inversion H. apply (DecimalPos.Unsigned.to_uint_nonnil p); assumption.
  - destruct n; simpl; try discriminate.
    intros H; inversion H. apply (DecimalPos.Unsigned.to_uint_nonnil p); assumption.
Qed.

Lemma round53_small (a : Z) : a < 2 ^ 53 -> round53 a = (a, 0).
Proof.
  intros H. unfold round53.
  assert (L : Z.log2 a + 1 <= 53).
  { destruct (Z.ltb_spec 0 a) as [Hp|Hn].
    - apply Z.log2_lt_pow2 in H; [lia|assumption].
    - rewrite Z.log2_nonpos by lia. lia. }
  apply Z.leb_le in L. rewrite L. reflexivity.
Qed.

Lemma no_overflow_small (a : Z) : a < 2 ^ 53 -> overflows (a, 0) = false.
Proof.
  intros H. unfold overflows. cbn [fst snd]. apply Z.leb_gt.
  rewrite Z.pow_0_r, Z.mul_1_r.
  assert (2 ^ 53 < 2 ^ 1024) by (apply Z.pow_lt_mono_r; lia).
  lia.
Qed.

Lemma float_of_int_small (n : Z) :
  Z.abs n < 2 ^ 53 -> float_of_int n = Return (FFinite n 0).
Proof.
  intros H. unfold float_of_int.
  rewrite round53_small, no_overflow_small by assumption.
  cbn [fst snd]. rewrite Z.mul_comm, Z.abs_sgn. reflexivity.
Qed.

Lemma float_of_digits_small (v : Z) :
  v < 2 ^ 53 -> float_of_digits v = FFinite v 0.
Proof.
  intros H. unfold float_of_digits.
  rewrite round53_small, no_overflow_small by assumption. reflexivity.
Qed.

Lemma int_of_float_integer (v : Z) : int_of_float (FFinite v 0) = Return v.
Proof. unfold int_of_float. cbn [Z.leb Z.compare]. rewrite Z.pow_0_r, Z.mul_1_r. reflexivity. Qed.

Lemma excel_epoch_ordinal : ordinal excel_epoch = 693594.
Proof. reflexivity. Qed.

Section Parser.

Variable strptime : string -> string -> option datetime.
Variable lst_dates_regex : list string.

(** The serial branch on a float whose truncation is a day of the calendar. *)
Lemma parse_number_serial (f : pyfloat) (v : Z) :
  int_of_float f = Return v -> -693593 <= v < EXCEL_LIMIT ->
  parse_number strptime lst_dates_regex (Return f)
  = Return (VDatetime (mkDatetime (ordinal excel_epoch + v) 0)).
Proof.
  unfold EXCEL_LIMIT. intros Hf Hv. unfold parse_number. cbn [bind].
  rewrite Hf. cbn [bind]. rewrite int_of_str_str_of_int. cbn [bind].
  replace (v <? EXCEL_LIMIT) with true by (symmetry; apply Z.ltb_lt; unfold EXCEL_LIMIT; lia).
  unfold add_days. rewrite excel_epoch_ordinal.
  replace (999999999 <? Z.abs v) with false by (symmetry; apply Z.ltb_ge; lia).
  unfold MINORD, MAXORD.
  replace (1 <=? 693594 + v) with true by (symmetry; apply Z.leb_le; lia).
  replace (693594 + v <=? 3652059) with true by (symmetry; apply Z.leb_le; lia).
  reflexivity.
Qed.

Lemma isdigit_not_null_text (s : string) :
  Text.isdigit s = true -> Text.mem s [""; "NaN"; "NaT"]%string = false.
Proof.
  intros H. unfold Text.mem. cbn [existsb].
  destruct (String.eqb_spec s ""%string) as [->|_]; [discriminate|].
  destruct (String.eqb_spec s "NaN"%string) as [->|_]; [discriminate|].
  destruct (String.eqb_spec s "NaT"%string) as [->|_]; [discriminate|].
  reflexivity.
Qed.

End Parser.

(** A time stamp and a missing value come back as they are. *)
Lemma parser_returns_as_is (strptime : string -> string -> option datetime)
    (lst_dates_regex : list string) (x : pyval) :
  In x [VNone; VNaT; VFloat FNan; VStr ""; VStr "NaN"; VStr "NaT"]%string
  \/ (exists d, x = VDatetime d) ->
  fn_parse_dates_multipleformats strptime lst_dates_regex x = Return x.
Proof.
  intros [H|[d ->]]; [|reflexivity].
  simpl in H. repeat (destruct H as [<-|H]; [reflexivity|]). destruct H.
Qed.

(** The formats are tried in their order: the first that parses wins. *)
Lemma try_formats_first (strptime : string -> string -> option datetime)
    (text f : string) (before after : list string) (d : datetime) :
  (forall g, In g before -> strptime (Text.strip text) (Text.strip g) = None) ->
  strptime (Text.strip text) (Text.strip f) = Some d ->
  try_formats strptime text (before ++ f :: after) = Some d.
Proof.
  intros Hb Hf. induction before as [|g before IH]; simpl.
  - rewrite Hf. reflexivity.
  - rewrite (Hb g) by (left; reflexivity). apply IH.
    intros; apply Hb; right; assumption.
Qed.

(** C3, as the claim states it, fails on an integer so far below zero that
    the date would lie before the first day of the calendar (0001-01-01 is
    693593 days before 1899-12-30): the parser raises. *)
Lemma serial_before_calendar_raises :
  serial_value (VInt (-693594)) = Some (-693594)
  /\ -693594 < EXCEL_LIMIT
  /\ fn_parse_dates_multipleformats (fun _ _ => None) [] (VInt (-693594))
     = Raise OverflowError.
Proof. repeat split. Qed.

(** C3, amended.  For an integer, a float or a string of digits whose
    integer value [v] is below 2958466 and not below -693593, the parser
    returns the date 1899-12-30 plus [v] days; the serial value 44197 gives
    2021-01-01. *)
Theorem serial_dates (strptime : string -> string -> option datetime)
    (lst_dates_regex : list string) (x : pyval) (v : Z) :
  serial_value x = Some v -> -693593 <= v < EXCEL_LIMIT ->
  fn_parse_dates_multipleformats strptime lst_dates_regex x
  = Return (VDatetime (mkDatetime (ordinal excel_epoch + v) 0))
  /\ ord2ymd (ordinal excel_epoch) = (1899, 12, 30)
  /\ ord2ymd (ordinal excel_epoch + 44197) = (2021, 1, 1).
Proof.
  intros Hx Hv. split; [|split; reflexivity].
  assert (B : v < 2 ^ 53 /\ Z.abs v < 2 ^ 53).
  { unfold EXCEL_LIMIT in Hv.
    assert (2958466 < 2 ^ 53) by reflexivity. lia. }
  destruct x as [| |n|f|s|d]; simpl in Hx; try discriminate.
  - inversion Hx; subst n. cbn [fn_parse_dates_multipleformats].
    rewrite float_of_int_small by tauto.
    apply parse_number_serial; [apply int_of_float_integer|assumption].
  - destruct (int_of_float f) as [w|e] eqn:Hf; [|discriminate].
    inversion Hx; subst w.
    destruct f as [|neg|m e]; try discriminate.
    cbn [fn_parse_dates_multipleformats].
    apply parse_number_serial; assumption.
  - destruct (Text.isdigit s) eqn:Hd; [|discriminate].
    destruct (Text.int_of_str s) as [w|e] eqn:Hs; [|discriminate].
    inversion Hx; subst w.
    cbn [fn_parse_dates_multipleformats].
    rewrite isdigit_not_null_text, Hd by assumption.
    rewrite Hs. cbn [bind]. rewrite float_of_digits_small by tauto.
    apply parse_number_serial; [apply int_of_float_integer|assumption].
Qed.

Lemma serial_dates_witness :
  fn_parse_dates_multipleformats (fun _ _ => None) ["%d/%m/%Y"%string] (VStr "44197")
  = Return (VDatetime (mkDatetime 737791 0))
  /\ ord2ymd 737791 = (2021, 1, 1).
Proof.
  split; [|reflexivity].
  apply (serial_dates (fun _ _ => None) ["%d/%m/%Y"%string] (VStr "44197") 44197).
  - reflexivity.
  - unfold EXCEL_LIMIT; lia.
Defined.

(** C4: what the parser does on three inputs the claim covers.  A month name
    the pattern matches but whose upper case is no key of the dictionary
    ("Aou") raises [KeyError]; an integer too far below zero raises
    [OverflowError]; a text no format parses comes back with its month
    replaced, not as it was given. *)
Theorem parser_raises_and_rewrites (strptime : string -> string -> option datetime)
    (lst_dates_regex : list string) :
  fn_parse_dates_multipleformats strptime lst_dates_regex (VStr "15 Aou 2022")
  = Raise KeyError
  /\ fn_parse_dates_multipleformats strptime lst_dates_regex (VInt (-693594))
     = Raise OverflowError
  /\ fn_parse_dates_multipleformats strptime [] (VStr "15 March 2022")
     = Return (VStr "15 03 2022")
  /\ fn_parse_dates_multipleformats strptime [] (VStr "N/A") = Return (VStr "N/A").
Proof. repeat split. Qed.

End DateFacts.

(** ** The post-processing transforms *)

Module TransformFacts.

Import Calendar Frame FrameFacts Transforms.

Lemma has_column_index (df : DataFrame) (name : string) :
  has_column df name = true -> exists i, index_of name (column_names df) = Some i.
Proof.
  unfold has_column. intros H.
  destruct (index_of name (column_names df)) as [i|] eqn:E; [eauto|].
  apply index_of_none in E. congruence.
Qed.

Lemma get_set_cell_same (df : DataFrame) (r : row) (name : string) (v : cell) :
  has_column df name = true -> get_cell df (set_cell df r name v) name = v.
Proof.
  intros H. destruct (has_column_index df name H) as [i E].
  unfold get_cell, set_cell. rewrite E. apply nth_set_nth_same.
Qed.

Lemma get_set_cell_other (df : DataFrame) (r : row) (name c : string) (v : cell) :
  c <> name -> get_cell df (set_cell df r name v) c = get_cell df r c.
Proof.
  intros Hc. unfold get_cell, set_cell.
  destruct (index_of name (column_names df)) as [i|] eqn:Ei; [|reflexivity].
  destruct (index_of c (column_names df)) as [j|] eqn:Ej; [|reflexivity].
  apply nth_set_nth_other. intros ->. apply Hc.
  apply index_of_nth in Ei, Ej. congruence.
Qed.

(** Writing a cell back into its own place changes no cell. *)
Lemma get_set_cell_id (df : DataFrame) (r : row) (name c : string) :
  get_cell df (set_cell df r name (get_cell df r name)) c = get_cell df r c.
Proof.
  destruct (String.eqb_spec c name) as [->|Hc].
  - unfold get_cell at 1, set_cell.
    destruct (index_of name (column_names df)) as [i|] eqn:E.
    + rewrite nth_set_nth_same. unfold get_cell. rewrite E. reflexivity.
    + unfold get_cell. rewrite E. reflexivity.
  - apply get_set_cell_other; assumption.
Qed.

Section Exchange.

Variable df : DataFrame.
Variables str_fromcolumn str_tocolumn : string.
Hypothesis distinct : str_fromcolumn <> str_tocolumn.
Hypothesis has_from : has_column df str_fromcolumn = true.
Hypothesis has_to : has_column df str_tocolumn = true.

Let written_back := Transforms.written_back df str_fromcolumn str_tocolumn.

Lemma written_back_cells (r r' : row) (c : string) :
  get_cell df (written_back r r') c
  = if (c =? str_tocolumn)%string then get_cell df r' str_tocolumn
    else if (c =? str_fromcolumn)%string then get_cell df r' str_fromcolumn
    else get_cell df r c.
Proof.
  unfold written_back, Transforms.written_back.
  destruct (String.eqb_spec c str_tocolumn) as [->|Ht].
  - apply get_set_cell_same; assumption.
  - rewrite get_set_cell_other by assumption.
    destruct (String.eqb_spec c str_fromcolumn) as [->|Hf].
    + apply get_set_cell_same; assumption.
    + apply get_set_cell_other; assumption.
Qed.

Lemma process_exchanged (r : row) :
  is_number (get_cell df r str_fromcolumn) = true ->
  is_number (get_cell df r str_tocolumn) = true ->
  exists r', fn_process_exchange df str_fromcolumn str_tocolumn r = Return r'
             /\ exchanged df str_fromcolumn str_tocolumn r (written_back r r').
Proof.
  intros Hp Hq. unfold fn_process_exchange, exchanged.
  assert (Same : forall c, get_cell df (written_back r r) c = get_cell df r c).
  { intros c. rewrite written_back_cells.
    destruct (String.eqb_spec c str_tocolumn) as [->|_]; [reflexivity|].
    destruct (String.eqb_spec c str_fromcolumn) as [->|_]; reflexivity. }
  destruct (get_cell df r str_fromcolumn) as [|p| |] eqn:Ep; try discriminate.
  - exists r. split; [reflexivity|]. exact Same.
  - destruct (Z.ltb_spec p 0) as [Hneg|Hpos].
    + assert (Ab : Z.abs p = (- p)%Z) by lia.
      destruct (get_cell df r str_tocolumn) as [|q| |] eqn:Eq; try discriminate;
        eexists; (split; [reflexivity|]); rewrite !written_back_cells;
        rewrite String.eqb_refl;
        (replace (str_fromcolumn =? str_tocolumn)%string with false
           by (symmetry; apply String.eqb_neq; assumption));
        rewrite String.eqb_refl;
        rewrite ?get_set_cell_same by assumption;
        rewrite ?get_set_cell_other by assumption;
        rewrite ?get_set_cell_same by assumption;
        rewrite ?Ab; (split; [reflexivity|]); (split; [reflexivity|]);
        intros c Hf Ht; rewrite written_back_cells;
        (replace (c =? str_tocolumn)%string with false
           by (symmetry; apply String.eqb_neq; assumption));
        (replace (c =? str_fromcolumn)%string with false
           by (symmetry; apply String.eqb_neq; assumption));
        reflexivity.
    + exists r. split; [reflexivity|]. exact Same.
Qed.


Lemma apply_rows (rs : list row) :
  Forall (fun r => is_number (get_cell df r str_fromcolumn) = true
                   /\ is_number (get_cell df r str_tocolumn) = true) rs ->
  exists applied,
    mapM (fn_process_exchange df str_fromcolumn str_tocolumn) rs = Return applied
    /\ Forall2 (exchanged df str_fromcolumn str_tocolumn) rs
         (map2 written_back rs applied).
Proof.
  induction 1 as [|r rs [Hp Hq] _ IH]; simpl.
  - exists []. split; [reflexivity|constructor].
  - destruct (process_exchanged r Hp Hq) as [r' [E X]].
    destruct IH as [applied [Ea Xa]].
    exists (r' :: applied). rewrite E, Ea. simpl. split; [reflexivity|].
    constructor; assumption.
Qed.

End Exchange.


(** The cells of numeric columns within the limits are numbers or missing. *)
Lemma numeric_columns_numbers (df : DataFrame) (str_fromcolumn str_tocolumn : string) :
  numeric_columns df str_fromcolumn str_tocolumn ->
  Forall (fun r => is_number (get_cell df r str_fromcolumn) = true
                   /\ is_number (get_cell df r str_tocolumn) = true) (rows df).
Proof.
  intros [_ [_ H]]. induction H as [|r rs [H1 H2] _ IH]; constructor; [|exact IH].
  split.
  - destruct (get_cell df r str_fromcolumn); try discriminate H1; reflexivity.
  - destruct (get_cell df r str_tocolumn); try discriminate H2; reflexivity.
Qed.



(** C8: a table of rates with two currencies, the second one without a rate
    on the second day.  The missing rate is filled with the rate of the
    first currency on that same day (the row just above in the new index),
    not with the rate the second currency had the day before. *)
Theorem missing_dates_filled_across_groups :
  let day1 := CDate (mkDatetime 738000 0) in
  let day2 := CDate (mkDatetime 738001 0) in
  let df := mkDataFrame [mkColumn "TRANSACTION DATE" DDatetime;
                         mkColumn "CURRENCY" DObject; mkColumn "RATE" DNumeric]
              [[day1; CStr "USD"; CNum 10]; [day1; CStr "EUR"; CNum 20];
               [day2; CStr "USD"; CNum 30]] in
  fn_insert_missingdates df "TRANSACTION DATE" ["CURRENCY"]
  = Return (mkDataFrame (columns df)
              [[day1; CStr "USD"; CNum 10]; [day1; CStr "EUR"; CNum 20];
               [day2; CStr "USD"; CNum 30]; [day2; CStr "EUR"; CNum 30]]).
Proof. reflexivity. Qed.

End TransformFacts.

(** ** The aggregation engine *)

Module AnalysisFacts.

Import Calendar Frame FrameFacts Analysis.

(** *** Order of the time stamps *)

Lemma dt_leb_refl (a : datetime) : dt_leb a a = true.
Proof.
  unfold dt_leb. rewrite Z.eqb_refl, Z.leb_refl, orb_true_r. reflexivity.
Qed.

Lemma dt_leb_total (a b : datetime) : dt_leb a b = false -> dt_leb b a = true.
Proof.
  unfold dt_leb. intros H. apply orb_false_iff in H as [H1 H2].
  apply Z.ltb_ge in H1.
  destruct (Z.eqb_spec (ordinal a) (ordinal b)) as [E|N].
  - simpl in H2. apply Z.leb_gt in H2.
    rewrite E, Z.eqb_refl. simpl.
    replace (micro b <=? micro a)%Z with true by (symmetry; apply Z.leb_le; lia).
    apply orb_true_r.
  - replace (ordinal b <? ordinal a)%Z with true by (symmetry; apply Z.ltb_lt; lia).
    reflexivity.
Qed.

Lemma dt_leb_trans (a b c : datetime) :
  dt_leb a b = true -> dt_leb b c = true -> dt_leb a c = true.
Proof.
  unfold dt_leb. intros H1 H2.
  apply orb_true_iff in H1. apply orb_true_iff in H2. apply orb_true_iff.
  rewrite !andb_true_iff, !Z.ltb_lt, !Z.eqb_eq, !Z.leb_le in *. lia.
Qed.

Lemma fold_min_earliest (ds : list datetime) (d : datetime) :
  earliest (d :: ds) (fold_left dt_min ds d).
Proof.
  revert d; induction ds as [|a ds IH]; intros d; simpl.
  - split; [left; reflexivity|]. intros x [<-|[]]. apply dt_leb_refl.
  - destruct (IH (dt_min d a)) as [Hin Hle].
    assert (Hd : dt_leb (dt_min d a) d = true /\ dt_leb (dt_min d a) a = true).
    { unfold dt_min. destruct (dt_leb d a) eqn:E.
      - split; [apply dt_leb_refl | assumption].
      - split; [apply dt_leb_total; assumption | apply dt_leb_refl]. }
    assert (Hm : dt_min d a = d \/ dt_min d a = a).
    { unfold dt_min. destruct (dt_leb d a); auto. }
    pose proof (Hle (dt_min d a) (or_introl eq_refl)) as Hlo.
    split.
    + destruct Hin as [Hin|Hin]; [|right; right; assumption].
      rewrite <- Hin. destruct Hm as [->| ->]; [left | right; left]; reflexivity.
    + intros x [<-|[<-|Hx]].
      * apply (dt_leb_trans _ (dt_min d a)); tauto.
      * apply (dt_leb_trans _ (dt_min d a)); tauto.
      * apply Hle. right; assumption.
Qed.

Lemma fold_max_latest (ds : list datetime) (d : datetime) :
  latest (d :: ds) (fold_left dt_max ds d).
Proof.
  revert d; induction ds as [|a ds IH]; intros d; simpl.
  - split; [left; reflexivity|]. intros x [<-|[]]. apply dt_leb_refl.
  - destruct (IH (dt_max d a)) as [Hin Hle].
    assert (Hd : dt_leb d (dt_max d a) = true /\ dt_leb a (dt_max d a) = true).
    { unfold dt_max. destruct (dt_leb d a) eqn:E.
      - split; [assumption | apply dt_leb_refl].
      - split; [apply dt_leb_refl | apply dt_leb_total; assumption]. }
    assert (Hm : dt_max d a = d \/ dt_max d a = a).
    { unfold dt_max. destruct (dt_leb d a); auto. }
    pose proof (Hle (dt_max d a) (or_introl eq_refl)) as Hhi.
    split.
    + destruct Hin as [Hin|Hin]; [|right; right; assumption].
      rewrite <- Hin. destruct Hm as [->| ->]; [left | right; left]; reflexivity.
    + intros x [<-|[<-|Hx]].
      * apply (dt_leb_trans _ (dt_max d a)); tauto.
      * apply (dt_leb_trans _ (dt_max d a)); tauto.
      * apply Hle. right; assumption.
Qed.

(** The date range of a table: its earliest and its latest transaction date,
    or N/A twice when it has none. *)
Lemma get_date_range_min_max (df : DataFrame) :
  match transaction_dates df with
  | [] => get_date_range df = ("N/A", "N/A")
  | dates => exists lo hi, earliest dates lo /\ latest dates hi
               /\ get_date_range df
                  = (format_date_for_display lo, format_date_for_display hi)
  end.
Proof.
  unfold transaction_dates, get_date_range.
  destruct (find (is_column_named "TRANSACTION DATE") (column_names df)) as [c|];
    [|reflexivity].
  destruct (valid_dates (column_values df c)) as [|d ds]; [reflexivity|].
  exists (fold_left dt_min ds d), (fold_left dt_max ds d).
  split; [apply fold_min_earliest|]. split; [apply fold_max_latest|reflexivity].
Qed.

(** *** Keys of a grouping *)

Lemma cell_mem_In (x : cell) (l : list cell) : cell_mem x l = true <-> In x l.
Proof.
  unfold cell_mem. rewrite existsb_exists. split.
  - intros [y [Hy E]]. apply cell_eqb_eq in E. subst; assumption.
  - intros H. exists x. split; [assumption | apply cell_eqb_refl].
Qed.

Lemma In_insert_sorted (x y : cell) (l : list cell) :
  In y (insert_sorted x l) <-> y = x \/ In y l.
Proof.
  induction l as [|a l IH]; simpl.
  - intuition.
  - destruct (cell_leb x a); simpl; rewrite ?IH; intuition.
Qed.

Lemma In_sort_cells (y : cell) (l : list cell) : In y (sort_cells l) <-> In y l.
Proof.
  unfold sort_cells. induction l as [|a l IH]; simpl; [tauto|].
  rewrite In_insert_sorted, IH. intuition.
Qed.

Lemma NoDup_insert_sorted (x : cell) (l : list cell) :
  ~ In x l -> NoDup l -> NoDup (insert_sorted x l).
Proof.
  induction l as [|a l IH]; simpl; intros Hx Hl.
  - constructor; [tauto | constructor].
  - destruct (cell_leb x a).
    + constructor; [simpl; tauto | assumption].
    + inversion Hl; subst. constructor.
      * rewrite In_insert_sorted. intuition.
      * apply IH; [tauto | assumption].
Qed.

Lemma NoDup_sort_cells (l : list cell) : NoDup l -> NoDup (sort_cells l).
Proof.
  unfold sort_cells. induction 1 as [|a l Ha Hl IH]; simpl; [constructor|].
  apply NoDup_insert_sorted; [|assumption].
  fold (sort_cells l). rewrite In_sort_cells. assumption.
Qed.

Lemma In_unique_from (y : cell) (seen l : list cell) :
  In y (unique_from seen l) <-> In y l /\ ~ In y seen.
Proof.
  revert seen; induction l as [|a l IH]; intros seen; simpl; [tauto|].
  destruct (cell_mem a seen) eqn:E.
  - apply cell_mem_In in E. rewrite IH. split.
    + intuition.
    + intros [[->|H] Hn]; [contradiction | tauto].
  - assert (Hn : ~ In a seen).
    { intros H. apply cell_mem_In in H. congruence. }
    simpl. rewrite IH. simpl. split.
    + intros [->|[H1 H2]]; [tauto|]. split; [tauto|]. intuition.
    + intros [[->|H] H2]; [tauto|].
      destruct (cell_eqb a y) eqn:Ey.
      * apply cell_eqb_eq in Ey. tauto.
      * right. split; [assumption|]. intros [->|H3]; [|contradiction].
        rewrite cell_eqb_refl in Ey. discriminate.
Qed.

Lemma In_unique (y : cell) (l : list cell) : In y (unique l) <-> In y l.
Proof. unfold unique. rewrite In_unique_from. simpl. tauto. Qed.

Lemma NoDup_unique_from (seen l : list cell) : NoDup (unique_from seen l).
Proof.
  revert seen; induction l as [|a l IH]; intros seen; simpl; [constructor|].
  destruct (cell_mem a seen); [apply IH|].
  constructor; [|apply IH].
  rewrite In_unique_from. simpl. tauto.
Qed.

Lemma NoDup_unique (l : list cell) : NoDup (unique l).
Proof. apply NoDup_unique_from. Qed.

Lemma In_dropna (y : cell) (l : list cell) : In y (dropna l) <-> y <> CNull /\ In y l.
Proof.
  unfold dropna. rewrite filter_In. split.
  - intros [H1 H2]. split; [|assumption]. intros ->. discriminate.
  - intros [H1 H2]. split; [assumption|]. destruct y; try reflexivity. contradiction.
Qed.

(** The years of the summary: each year of the table that is not missing,
    once. *)
Lemma year_keys_spec (df : DataFrame) :
  NoDup (year_keys df)
  /\ forall y, In y (year_keys df) <-> y <> CNull /\ In y (column_values df YEAR).
Proof.
  unfold year_keys. split.
  - apply NoDup_sort_cells, NoDup_unique.
  - intros y. rewrite In_sort_cells, In_unique, In_dropna. tauto.
Qed.

(** *** The summed columns *)

Lemma get_numeric_columns_spec (df : DataFrame) (exclude : list string) (c : string) :
  In c (get_numeric_columns df (Some exclude)) <-> summed_column df exclude c.
Proof.
  unfold get_numeric_columns, summed_column. rewrite in_map_iff.
  split.
  - intros [col [Hn Hin]]. apply filter_In in Hin as [Hin Hc].
    apply andb_true_iff in Hc as [Hd He].
    exists col. split; [assumption|]. split; [assumption|]. split.
    + destruct (col_dtype col); try discriminate; reflexivity.
    + intros pattern Hp. apply negb_true_iff in He.
      destruct (Text.contains (Text.upper pattern) (Text.upper c)) eqn:E; [|reflexivity].
      assert (X : existsb (fun pattern0 : string =>
                   Text.contains (Text.upper pattern0) (Text.upper (col_name col)))
                   exclude = true).
      { apply existsb_exists. exists pattern. rewrite Hn. tauto. }
      congruence.
  - intros [col [Hin [Hn [Hd He]]]]. exists col. split; [assumption|].
    apply filter_In. split; [assumption|]. rewrite Hd. simpl.
    apply negb_true_iff.
    destruct (existsb _ exclude) eqn:E; [|reflexivity].
    apply existsb_exists in E as [pattern [Hp Hc]].
    rewrite Hn in Hc. rewrite (He pattern Hp) in Hc. discriminate.
Qed.

Lemma exclude_patterns_init (cfg : numeric_config) :
  exclude_patterns (init cfg) = snd (get_numeric_field_config cfg).
Proof. unfold init. destruct (get_numeric_field_config cfg); reflexivity. Qed.

(** *** The yearly summary *)

(** C7, as the claim states it, fails on a numeric column whose name matches
    no include pattern: with the default patterns QUANTITY is summed all the
    same. *)
Lemma quantity_summed_though_not_included :
  let d n := CDate (mkDatetime n 0) in
  let df := mkDataFrame [mkColumn "TRANSACTION DATE" DDatetime; mkColumn "YEAR" DNumeric;
                         mkColumn "QUANTITY" DNumeric; mkColumn "BUYER NAME" DObject]
              [[d 738000%Z; CNum 2021; CNum 3; CStr "a"];
               [d 738500%Z; CNum 2022; CNum 5; CStr "a"];
               [d 738100%Z; CNum 2021; CNum 4; CStr "b"]] in
  fst (get_numeric_field_config []) = DEFAULT_INCLUDE
  /\ existsb (fun pattern => Text.contains (Text.upper pattern) (Text.upper "QUANTITY"))
       DEFAULT_INCLUDE = false
  /\ _generate_yearly_summary (init []) df "EBM SALES"
     = mkDataFrame [mkColumn "YEAR" DNumeric; mkColumn "Date Range" DObject;
                    mkColumn "QUANTITY" DNumeric]
         [[CNum 2021; CStr "29-Jul-2021 to 06-Nov-2021"; CNum 7];
          [CNum 2022; CStr "11-Dec-2022 to 11-Dec-2022"; CNum 5]].
Proof. repeat split; vm_compute; reflexivity. Qed.

Lemma range_text_min_max (df : DataFrame) :
  match transaction_dates df with
  | [] => range_text df = "N/A to N/A"
  | dates => exists lo hi, earliest dates lo /\ latest dates hi
               /\ range_text df
                  = (format_date_for_display lo ++ " to " ++ format_date_for_display hi)%string
  end.
Proof.
  pose proof (get_date_range_min_max df) as H. unfold range_text.
  destruct (transaction_dates df) as [|d ds].
  - rewrite H. reflexivity.
  - destruct H as [lo [hi [H1 [H2 H3]]]]. exists lo, hi. rewrite H3. auto.
Qed.

(** C7, amended.  On a table with a YEAR column whose years can be ordered,
    and with at least one summed column, YEAR not being one of them, the
    yearly summary has the columns YEAR, Date Range and the summed columns:
    the numeric columns of the table in whose name no exclude pattern occurs
    (the include patterns are not consulted: two configurations with the same
    exclude patterns give the same summary).  It has one row for each year of
    the table that is not missing; the row of a year holds the sums of the
    summed columns over the rows of that year, and the earliest and latest
    transaction date of these rows (N/A when there is none). *)
Theorem yearly_summary_by_year (cfg : numeric_config) (df : DataFrame)
    (category : string) :
  let exclude := snd (get_numeric_field_config cfg) in
  let numeric_cols := get_numeric_columns df (Some exclude) in
  let out := _generate_yearly_summary (init cfg) df category in
  has_column df YEAR = true ->
  numeric_cols <> [] ->
  Text.mem YEAR numeric_cols = false ->
  homogeneous (dropna (column_values df YEAR)) = true ->
  column_names out = YEAR :: DATE_RANGE :: numeric_cols
  /\ (forall c, In c numeric_cols <-> summed_column df exclude c)
  /\ (forall cfg', snd (get_numeric_field_config cfg') = exclude ->
                   _generate_yearly_summary (init cfg') df category = out)
  /\ NoDup (map (hd CNull) (rows out))
  /\ (forall y, In y (map (hd CNull) (rows out))
                <-> y <> CNull /\ In y (column_values df YEAR))
  /\ (forall r, In r (rows out) ->
        r = hd CNull r
              :: CStr (range_text (year_rows df (hd CNull r)))
              :: map (fun c => if (c =? DATE_RANGE)%string
                               then CStr (range_text (year_rows df (hd CNull r)))
                               else CNum (year_sum df (hd CNull r) c)) numeric_cols)
  /\ (forall y c,
        year_sum df y c
        = sum_cells (map (fun r => get_cell df r c)
                       (filter (fun r => cell_eqb (get_cell df r YEAR) y) (rows df))))
  /\ (forall y,
        match transaction_dates (year_rows df y) with
        | [] => range_text (year_rows df y) = "N/A to N/A"
        | dates => exists lo hi, earliest dates lo /\ latest dates hi
                     /\ range_text (year_rows df y)
                        = (format_date_for_display lo ++ " to "
                           ++ format_date_for_display hi)%string
        end).
Proof.
  intros exclude numeric_cols out HY Hne Hmem Hhom.
  assert (Eout : out = mkDataFrame
                   (mkColumn YEAR (column_dtype df YEAR) :: mkColumn DATE_RANGE DObject
                      :: map (fun c => mkColumn c DNumeric) numeric_cols)
                   (map (summary_row df numeric_cols) (year_keys df))).
  { unfold out, _generate_yearly_summary. rewrite HY, exclude_patterns_init.
    fold exclude. fold numeric_cols. simpl.
    destruct numeric_cols as [|c cs] eqn:E; [contradiction|].
    rewrite <- E in *. rewrite Hmem, Hhom. reflexivity. }
  assert (Ehd : map (hd CNull) (rows out) = year_keys df).
  { rewrite Eout. simpl. rewrite map_map. simpl. apply map_id. }
  destruct (year_keys_spec df) as [Hnd Hin].
  split.
  { rewrite Eout. unfold column_names. simpl. rewrite map_map. simpl.
    rewrite map_id. reflexivity. }
  split; [intros c; apply get_numeric_columns_spec|].
  split.
  { intros cfg' E. unfold out, _generate_yearly_summary.
    rewrite !exclude_patterns_init, E. reflexivity. }
  split; [rewrite Ehd; assumption|].
  split; [intros y; rewrite Ehd; apply Hin|].
  split.
  { intros r Hr. rewrite Eout in Hr. simpl in Hr.
    apply in_map_iff in Hr as [y [<- _]]. reflexivity. }
  split; [reflexivity|].
  intros y. apply range_text_min_max.
Qed.

Lemma yearly_summary_by_year_witness :
  let d n := CDate (mkDatetime n 0) in
  let df := mkDataFrame [mkColumn "TRANSACTION DATE" DDatetime; mkColumn "YEAR" DNumeric;
                         mkColumn "INVOICE ID" DNumeric; mkColumn "QUANTITY" DNumeric;
                         mkColumn "TOTAL AMOUNT" DNumeric]
              [[d 738000%Z; CNum 2021; CNum 1; CNum 3; CNum 100];
               [d 738500%Z; CNum 2022; CNum 2; CNum 5; CNum 50];
               [d 738100%Z; CNum 2021; CNum 3; CNum 4; CNum 25]] in
  rows (_generate_yearly_summary (init []) df "EBM SALES")
  = [[CNum 2021; CStr "29-Jul-2021 to 06-Nov-2021"; CNum 7; CNum 125];
     [CNum 2022; CStr "11-Dec-2022 to 11-Dec-2022"; CNum 5; CNum 50]]
  /\ get_numeric_columns df (Some (snd (get_numeric_field_config [])))
     = ["QUANTITY"; "TOTAL AMOUNT"]
  /\ column_names (_generate_yearly_summary (init []) df "EBM SALES")
     = YEAR :: DATE_RANGE
         :: get_numeric_columns df (Some (snd (get_numeric_field_config []))).
Proof.
  intros d df.
  split; [vm_compute; reflexivity|]. split; [vm_compute; reflexivity|].
  refine (proj1 (yearly_summary_by_year [] df "EBM SALES" _ _ _ _)).
  - vm_compute; reflexivity.
  - vm_compute; discriminate.
  - vm_compute; reflexivity.
  - vm_compute; reflexivity.
Defined.

(** *** The concentration analysis *)

Lemma columns_clean_records (df : DataFrame) : columns (clean_records df) = columns df.
Proof.
  unfold clean_records.
  destruct (find (is_column_named "DUPLICATE STATUS") (column_names df)); reflexivity.
Qed.

(** Once the accessor of the status column is there, the analysis reads
    the columns of the table and its clean records, and nothing else. *)
Lemma top_analysis_reads_clean_records (self : QuickAnalysisEngine) (df df' : DataFrame)
    (group_name : string) :
  columns df' = columns df ->
  rows (clean_records df') = rows (clean_records df) ->
  status_accessor df' = status_accessor df ->
  _generate_top_analysis self df' group_name = _generate_top_analysis self df group_name.
Proof.
  intros Hc Hr Ha.
  assert (E : clean_records df' = clean_records df).
  { pose proof (columns_clean_records df) as C.
    pose proof (columns_clean_records df') as C'.
    destruct (clean_records df) as [c r], (clean_records df') as [c' r'].
    simpl in *. congruence. }
  unfold _generate_top_analysis, has_column, column_names. rewrite Hc, E, Ha.
  reflexivity.
Qed.

(** A status column with a clean record holds a text: the accessor of a
    table with clean records depends on the type of the column only. *)
Lemma status_accessor_clean (df df' : DataFrame) :
  columns df' = columns df ->
  rows (clean_records df') <> [] ->
  status_accessor df = true ->
  status_accessor df' = true.
Proof.
  intros Hc Hr Ha. unfold status_accessor, clean_records in *.
  assert (Hn : column_names df' = column_names df)
    by (unfold column_names; rewrite Hc; reflexivity).
  rewrite Hn in *.
  destruct (find (is_column_named "DUPLICATE STATUS") (column_names df)) as [c|];
    [|reflexivity].
  assert (Hd : column_dtype df' c = column_dtype df c)
    by (unfold column_dtype; rewrite Hn, Hc; reflexivity).
  rewrite Hd. unfold str_accessor in *.
  destruct (column_dtype df c); try discriminate Ha.
  cbn [rows filter_rows] in Hr.
  destruct (filter (fun r => is_clean_status (get_cell df' r c)) (rows df'))
    as [|r rs] eqn:Ef; [contradiction|].
  assert (Hin : In r (filter (fun r => is_clean_status (get_cell df' r c)) (rows df')))
    by (rewrite Ef; left; reflexivity).
  apply filter_In in Hin as [Hin Hs].
  destruct (get_cell df' r c) as [| |t|] eqn:Eg; try discriminate Hs.
  assert (Hv : In (CStr t) (dropna (column_values df' c))).
  { unfold dropna. apply filter_In. split; [|reflexivity].
    unfold column_values. rewrite <- Eg.
    exact (in_map (fun r0 => get_cell df' r0 c) _ _ Hin). }
  destruct (dropna (column_values df' c)) as [|v vals]; [reflexivity|].
  apply orb_true_iff. left. apply existsb_exists. exists (CStr t).
  split; [exact Hv|reflexivity].
Qed.

Lemma filter_filter_implied {A : Type} (p q : A -> bool) (l : list A) :
  (forall x, p x = true -> q x = true) -> filter p (filter q l) = filter p l.
Proof.
  intros H. induction l as [|a l IH]; simpl; [reflexivity|].
  destruct (q a) eqn:Eq; simpl.
  - rewrite IH. reflexivity.
  - destruct (p a) eqn:Ep; [|assumption]. rewrite (H a Ep) in Eq. discriminate.
Qed.

Lemma clean_status_not_duplicate (c : cell) :
  is_clean_status c = true ->
  match c with
  | CStr s => (Text.upper s =? "IS DUPLICATE")%string
  | _ => false
  end = false.
Proof.
  destruct c as [| |s|]; try reflexivity. simpl.
  destruct (String.eqb_spec (Text.upper s) "NO DUPLICATES") as [->|_]; [reflexivity|].
  destruct (String.eqb_spec (Text.upper s) "HAS DUPLICATES") as [->|_]; [reflexivity|].
  discriminate.
Qed.

(** A clean record is a record of the table that is not marked IS duplicate. *)
Lemma clean_records_not_duplicates (df : DataFrame) (r : row) :
  In r (rows (clean_records df)) -> In r (rows df) /\ is_duplicate_row df r = false.
Proof.
  unfold clean_records, is_duplicate_row.
  destruct (find (is_column_named "DUPLICATE STATUS") (column_names df)) as [c|].
  - simpl. intros H. apply filter_In in H as [H1 H2]. split; [assumption|].
    apply clean_status_not_duplicate. assumption.
  - intros H. split; [assumption|reflexivity].
Qed.

Lemma clean_records_without_duplicates (df : DataFrame) :
  rows (clean_records (filter_rows df (fun r => negb (is_duplicate_row df r))))
  = rows (clean_records df).
Proof.
  unfold clean_records, is_duplicate_row, filter_rows, column_names. simpl.
  destruct (find (is_column_named "DUPLICATE STATUS") (map col_name (columns df)))
    as [c|]; simpl.
  - apply filter_filter_implied. intros r H. unfold get_cell, column_names in *.
    simpl in *. apply negb_true_iff. apply clean_status_not_duplicate. assumption.
  - induction (rows df) as [|a l IH]; simpl; [|rewrite IH]; reflexivity.
Qed.

Lemma insert_desc_length (x : Z) (l : list Z) :
  List.length (insert_desc x l) = S (List.length l).
Proof.
  induction l as [|y l IH]; simpl; [reflexivity|].
  destruct (y <=? x)%Z; simpl; [|rewrite IH]; reflexivity.
Qed.

Lemma sort_desc_length (l : list Z) : List.length (sort_desc l) = List.length l.
Proof.
  unfold sort_desc. induction l as [|x l IH]; simpl; [reflexivity|].
  rewrite insert_desc_length, IH. reflexivity.
Qed.

Lemma year_data_length (es : list entry) (year : cell) :
  List.length (sort_desc (partner_totals es year)) = List.length (partners_of es year).
Proof. rewrite sort_desc_length. unfold partner_totals. apply length_map. Qed.

(** The partners of a year: each partner of a record of that year, once. *)
Lemma partners_of_spec (es : list entry) (year : cell) :
  NoDup (partners_of es year)
  /\ forall p, In p (partners_of es year)
               <-> exists e, In e es /\ entry_year e = year /\ entry_partner e = p.
Proof.
  unfold partners_of. split; [apply NoDup_unique|].
  intros p. rewrite In_unique, in_map_iff. split.
  - intros [e [Hp He]]. apply filter_In in He as [He Hy].
    exists e. split; [assumption|]. split; [|assumption].
    apply cell_eqb_eq. exact Hy.
  - intros [e [He [Hy Hp]]]. exists e. split; [assumption|].
    apply filter_In. split; [assumption|]. unfold in_year. rewrite Hy.
    apply cell_eqb_refl.
Qed.

Lemma In_top_rows_of_year (es : list entry) (year : cell) (row : top_row) :
  In row (top_rows_of_year es year)
  <-> exists n, In n TOP_SIZES /\ (n <= List.length (partners_of es year))%nat
                /\ row = top_row_of es year n.
Proof.
  unfold top_rows_of_year. rewrite in_flat_map. rewrite year_data_length.
  split.
  - intros [n [Hn Hr]].
    destruct (Nat.leb_spec n (List.length (partners_of es year))) as [L|L].
    + destruct Hr as [<-|[]]. exists n. auto.
    + destruct Hr.
  - intros [n [Hn [L ->]]]. exists n. split; [assumption|].
    apply Nat.leb_le in L. rewrite L. left; reflexivity.
Qed.

(** C6.  When the analysis gives a table, it is computed over the clean
    records only: the records whose status, whatever the case, is NO
    duplicates or HAS duplicates (all the records of a table without a status
    column); none of them is marked IS duplicate, and a table with the same
    columns and the same clean records, such as the table without its IS
    duplicate records, gives the same analysis.  A row of the result is the
    row of a year [y] of the clean records and a size [n] among 5, 10 and 20
    with [n] at most the number of distinct partners of [y]; each such pair
    has its row. *)
Theorem top_analysis_on_clean_records (self : QuickAnalysisEngine) (df : DataFrame)
    (group_name : string) (t : top_analysis) :
  _generate_top_analysis self df group_name = Return (Some t) ->
  let clean := clean_records df in
  exists partner_col,
    let es := grouped (entries_of clean
                         (get_numeric_columns clean (Some (exclude_patterns self)))
                         partner_col) in
    (forall df', columns df' = columns df ->
                 rows (clean_records df') = rows clean ->
                 _generate_top_analysis self df' group_name = Return (Some t))
    /\ _generate_top_analysis self
         (filter_rows df (fun r => negb (is_duplicate_row df r))) group_name
       = Return (Some t)
    /\ (forall r, In r (rows clean) -> In r (rows df) /\ is_duplicate_row df r = false)
    /\ (is_clean_status Duplicates.NO_DUPLICATES = true
        /\ is_clean_status Duplicates.HAS_DUPLICATES = true
        /\ is_clean_status Duplicates.IS_DUPLICATE = false)
    /\ (forall row, In row (top_analysis_table t)
          <-> exists y n, In y (map entry_year es) /\ In n TOP_SIZES
                          /\ (n <= List.length (partners_of es y))%nat
                          /\ row = top_row_of es y n)
    /\ (forall y, NoDup (partners_of es y)
                  /\ forall p, In p (partners_of es y)
                       <-> exists e, In e es /\ entry_year e = y /\ entry_partner e = p).
Proof.
  intros H clean.
  pose proof H as H0.
  unfold _generate_top_analysis in H. fold clean in H.
  destruct (negb (has_column df YEAR)); [discriminate|].
  destruct (status_accessor df) eqn:Ea; [|discriminate]. cbn [negb] in H.
  destruct (df_empty clean) eqn:Ee; [discriminate|].
  destruct (get_numeric_columns clean (Some (exclude_patterns self))) as [|c cs] eqn:En;
    [discriminate|].
  destruct (find_partner (Text.upper group_name) (column_names clean))
    as [[partner_col ptype]|]; [|discriminate].
  destruct (homogeneous _); [|discriminate].
  injection H as Ht.
  assert (Hrows : rows clean <> []).
  { unfold df_empty in Ee. destruct (columns clean); [discriminate|].
    destruct (rows clean); [discriminate|]. discriminate. }
  assert (Same : forall df', columns df' = columns df ->
                             rows (clean_records df') = rows clean ->
                             _generate_top_analysis self df' group_name
                             = Return (Some t)).
  { intros df' Hc Hr. rewrite <- H0.
    apply top_analysis_reads_clean_records; [assumption|assumption|].
    rewrite Ea. apply (status_accessor_clean df df' Hc); [|exact Ea].
    rewrite Hr. exact Hrows. }
  exists partner_col. intros es.
  split; [exact Same|].
  split.
  { apply Same; [reflexivity|]. apply clean_records_without_duplicates. }
  split; [apply clean_records_not_duplicates|].
  split; [repeat split|].
  split; [|intros y; apply partners_of_spec].
  intros row. rewrite <- Ht. cbn [top_analysis_table]. fold es.
  rewrite in_flat_map. split.
  - intros [y [Hy Hr]]. apply In_top_rows_of_year in Hr as [n [Hn [L E]]].
    exists y, n. rewrite In_sort_cells, In_unique in Hy. auto.
  - intros [y [n [Hy [Hn [L E]]]]]. exists y. split.
    + rewrite In_sort_cells, In_unique. assumption.
    + apply In_top_rows_of_year. exists n. auto.
Qed.

Lemma top_analysis_on_clean_records_witness :
  let df := mkDataFrame [mkColumn "YEAR" DNumeric; mkColumn "BUYER NAME" DObject;
                         mkColumn "TOTAL AMOUNT" DNumeric;
                         mkColumn "Duplicate Status" DObject]
              [[CNum 2021; CStr "a"; CNum 50; CStr "NO duplicates"];
               [CNum 2021; CStr "b"; CNum 40; CStr "HAS duplicates"];
               [CNum 2021; CStr "b"; CNum 40; CStr "IS duplicate"];
               [CNum 2021; CStr "c"; CNum 30; CStr "NO duplicates"];
               [CNum 2021; CStr "d"; CNum 20; CStr "NO duplicates"];
               [CNum 2021; CStr "e"; CNum 10; CStr "NO duplicates"];
               [CNum 2021; CStr "f"; CNum 60; CStr "IS duplicate"];
               [CNum 2022; CStr "a"; CNum 70; CStr "NO duplicates"]] in
  let t := mkTopAnalysis [mkTopRow (CNum 2021) "Top 5" 150 (Qmake 15000 150)] "Clients" in
  _generate_top_analysis (init []) df "SALES" = Return (Some t)
  /\ _generate_top_analysis (init [])
       (filter_rows df (fun r => negb (is_duplicate_row df r))) "SALES"
     = Return (Some t).
Proof.
  intros df t.
  assert (E : _generate_top_analysis (init []) df "SALES" = Return (Some t))
    by (vm_compute; reflexivity).
  split; [exact E|].
  destruct (top_analysis_on_clean_records (init []) df "SALES" t E)
    as [partner_col [_ [H _]]].
  exact H.
Defined.

End AnalysisFacts.

(** ** The date columns of the engine *)

Module DateColumnFacts.

Import Calendar Frame FrameFacts Analysis.

Lemma map2_set_nth_same (i : nat) (rs : list row) (vs : list cell) :
  List.length vs = List.length rs ->
  map (fun r => nth i r CNull) (map2 (fun r v => set_nth i v r) rs vs) = vs.
Proof.
  revert vs; induction rs as [|r rs IH]; intros [|v vs] H; simpl in *;
    try discriminate; [reflexivity|].
  rewrite nth_set_nth_same, IH by lia. reflexivity.
Qed.

Lemma map2_set_nth_other (i j : nat) (rs : list row) (vs : list cell) :
  i <> j -> List.length vs = List.length rs ->
  map (fun r => nth j r CNull) (map2 (fun r v => set_nth i v r) rs vs)
  = map (fun r => nth j r CNull) rs.
Proof.
  intros Hij. revert vs; induction rs as [|r rs IH]; intros [|v vs] H; simpl in *;
    try discriminate; [reflexivity|].
  rewrite nth_set_nth_other, IH by (assumption || lia). reflexivity.
Qed.

Lemma set_column_rows_length (df : DataFrame) (name : string) (dt : dtype)
    (vs : list cell) :
  List.length vs = List.length (rows df) ->
  List.length (rows (set_column df name dt vs)) = List.length (rows df).
Proof.
  intros H. unfold set_column.
  destruct (index_of name (column_names df)); simpl; apply map2_length; congruence.
Qed.

Lemma column_values_length (df : DataFrame) (name : string) :
  List.length (column_values df name) = List.length (rows df).
Proof. unfold column_values. apply length_map. Qed.

(** [df[name] = values] puts the values in the column [name]. *)
Lemma column_values_set_column_same (df : DataFrame) (name : string) (dt : dtype)
    (vs : list cell) :
  List.length vs = List.length (rows df) ->
  column_values (set_column df name dt vs) name = vs.
Proof.
  intros H. unfold column_values, get_cell, set_column, column_names.
  destruct (index_of name (map col_name (columns df))) as [i|] eqn:E; simpl.
  - rewrite (index_of_replace _ _ _ _ _ E), E. apply map2_set_nth_same; assumption.
  - rewrite map_app. simpl. rewrite (index_of_app_new _ _ E), length_map.
    apply map2_set_nth_same; assumption.
Qed.

(** [df[name] = values] leaves the cells of the other columns. *)
Lemma column_values_set_column_other (df : DataFrame) (name c : string) (dt : dtype)
    (vs : list cell) :
  c <> name -> List.length vs = List.length (rows df) ->
  column_values (set_column df name dt vs) c = column_values df c.
Proof.
  intros Hc H. unfold column_values, get_cell, set_column, column_names.
  destruct (index_of name (map col_name (columns df))) as [i|] eqn:E; simpl.
  - rewrite (index_of_replace _ _ _ _ _ E).
    destruct (index_of c (map col_name (columns df))) as [j|] eqn:Ej.
    + apply map2_set_nth_other; [|assumption]. intros ->. apply Hc.
      apply index_of_nth in E, Ej. congruence.
    + rewrite !DuplicateFacts.map_const. f_equal. apply map2_length. congruence.
  - rewrite map_app. simpl.
    destruct (index_of c (map col_name (columns df))) as [j|] eqn:Ej.
    + rewrite (index_of_app_old _ _ _ _ Ej).
      apply map2_set_nth_other; [|assumption].
      apply index_of_lt in Ej. rewrite length_map in Ej. lia.
    + assert (N : index_of c (map col_name (columns df) ++ [name]) = None).
      { clear E. induction (map col_name (columns df)) as [|n l IH]; simpl in *.
        - destruct (String.eqb_spec c name); [contradiction|reflexivity].
        - destruct (c =? n)%string; [discriminate|].
          destruct (index_of c l); [discriminate|]. rewrite IH; reflexivity. }
      rewrite N. rewrite !DuplicateFacts.map_const. f_equal.
      apply map2_length. congruence.
Qed.

(** The YEAR column the engine adds holds, row for row, the year of the
    transaction date (missing where the date is missing). *)
Lemma year_column_of_transaction_dates (df df' : DataFrame) :
  Text.mem "TRANSACTION DATE" (column_names df) = true ->
  add_date_columns df = Return df' ->
  column_values df' YEAR
  = map (date_part (fun d => CNum (year_of d))) (column_values df "TRANSACTION DATE")
  /\ List.length (rows df') = List.length (rows df).
Proof.
  intros Hm H. unfold add_date_columns in H. rewrite Hm in H.
  destruct (column_dtype df "TRANSACTION DATE"); try discriminate.
  inversion H as [E]. clear H E.
  set (dates := column_values df "TRANSACTION DATE").
  assert (L : forall f, List.length (map (date_part f) dates) = List.length (rows df)).
  { intros f. rewrite length_map. apply column_values_length. }
  set (df1 := set_column df YEAR DNumeric _).
  assert (L1 : List.length (rows df1) = List.length (rows df))
    by (apply set_column_rows_length, L).
  set (df2 := set_column df1 "MONTH" DObject _).
  assert (L2 : List.length (rows df2) = List.length (rows df))
    by (unfold df2; rewrite set_column_rows_length; rewrite ?L; congruence).
  set (df3 := set_column df2 "DAY" DObject _).
  assert (L3 : List.length (rows df3) = List.length (rows df))
    by (unfold df3; rewrite set_column_rows_length; rewrite ?L; congruence).
  split.
  - rewrite column_values_set_column_other; [|discriminate|rewrite L; congruence].
    unfold df3.
    rewrite column_values_set_column_other; [|discriminate|rewrite L; congruence].
    unfold df2.
    rewrite column_values_set_column_other; [|discriminate|rewrite L; congruence].
    unfold df1. apply column_values_set_column_same. apply L.
  - rewrite set_column_rows_length; rewrite ?L; congruence.
Qed.

End DateColumnFacts.

(** ** More on the duplicate detector *)

Module DuplicateMore.

Import Frame Store Duplicates FrameFacts DuplicateFacts.

(** The rows [duplicated(keep='first')] does not mark carry each key once. *)
Lemma first_occurrences (ks seen : list key) :
  let kept := select ks (map negb (duplicated_first_from seen ks)) in
  NoDup kept
  /\ forall k, In k kept <-> In k ks /\ ~ In k seen.
Proof.
  revert seen; induction ks as [|k ks IH]; intros seen; simpl.
  - split; [constructor|]. intros k; tauto.
  - destruct (IH (k :: seen)) as [Hnd Hin].
    destruct (existsb (key_eqb k) seen) eqn:E; simpl.
    + apply existsb_exists in E as [k' [Hk' Ek]]. apply key_eqb_eq in Ek. subst k'.
      split; [assumption|]. intros x. rewrite Hin. simpl. split.
      * intros [H1 H2]. split; [right; assumption | tauto].
      * intros [[->|H1] H2]; [contradiction|]. split; [assumption|].
        intros [->|H3]; contradiction.
    + assert (Hk : ~ In k seen).
      { intros H. assert (X : existsb (key_eqb k) seen = true).
        { apply existsb_exists. exists k. split; [assumption|apply key_eqb_refl]. }
        congruence. }
      split.
      * constructor; [|assumption]. rewrite Hin. simpl. tauto.
      * intros x. simpl. rewrite Hin. simpl. split.
        -- intros [->|[H1 H2]]; [tauto|]. split; [tauto|]. tauto.
        -- intros [[->|H1] H2]; [tauto|].
           destruct (key_eqb k x) eqn:Ex.
           ++ apply key_eqb_eq in Ex. tauto.
           ++ right. split; [assumption|]. intros [->|H3]; [|contradiction].
              rewrite key_eqb_refl in Ex. discriminate.
Qed.

Lemma select_length_split {A : Type} (l : list A) (m : list bool) :
  List.length m = List.length l ->
  List.length (select l m) + List.length (filter (fun b => b) (map negb m))
  = List.length l.
Proof.
  revert m; induction l as [|a l IH]; intros [|b m] H; simpl in *; try discriminate;
    [reflexivity|].
  specialize (IH m ltac:(lia)). destruct b; simpl; lia.
Qed.

Lemma status_is_duplicate (a b : bool) :
  cell_eqb (status_of a b) IS_DUPLICATE = b.
Proof. destruct a, b; reflexivity. Qed.

Lemma map_status_is_duplicate (m1 m2 : list bool) :
  List.length m1 = List.length m2 ->
  map (fun s => cell_eqb s IS_DUPLICATE) (map2 status_of m1 m2) = m2.
Proof.
  revert m2; induction m1 as [|a m1 IH]; intros [|b m2] H; simpl in *;
    try discriminate; [reflexivity|].
  rewrite status_is_duplicate, IH by lia. reflexivity.
Qed.

(** X1.  On a table that is not empty, the records the detector does not
    mark IS duplicate carry every key of the table, each key once: they are
    one record for each distinct key, and the records marked IS duplicate are
    all the others.  (The detector returns unless the accessor [.str]
    refuses the column configured for the category.) *)
Theorem detector_keeps_one_record_per_key (p : duplicate_params) (df : DataFrame)
    (category : string) :
  df_empty df = false ->
  let ks := keys_of df (lst_Criteriacolumns p df category) in
  match detect p df category with
  | Return out =>
      let marked := map (fun s => cell_eqb s IS_DUPLICATE) (statuses out) in
      let kept := select ks (map negb marked) in
      NoDup kept
      /\ (forall k, In k kept <-> In k ks)
      /\ List.length kept + List.length (filter (fun b => b) marked)
         = List.length (rows df)
  | Raise e => e = AttributeError /\ accepts_str p category = false
  end.
Proof.
  intros Hne ks. rewrite detect_eq, Hne.
  destruct (accepts_str p category); [|split; reflexivity].
  intros marked kept.
  assert (Em : marked = duplicated_first ks).
  { unfold marked. rewrite statuses_tagged. fold ks.
    apply map_status_is_duplicate.
    destruct (masks_length df (lst_Criteriacolumns p df category)) as [L1 L2].
    fold ks in L1, L2. congruence. }
  unfold kept. rewrite Em.
  destruct (first_occurrences ks []) as [Hnd Hin].
  split; [exact Hnd|]. split.
  - intros k. rewrite (Hin k). simpl. tauto.
  - pose proof (select_length_split ks (map negb (duplicated_first ks))) as L.
    rewrite map_map in L.
    assert (Eid : map (fun x => negb (negb x)) (duplicated_first ks) = duplicated_first ks).
    { clear. induction (duplicated_first ks) as [|b l IH]; simpl;
        [|rewrite IH, negb_involutive]; reflexivity. }
    rewrite Eid in L. rewrite L.
    + unfold ks, keys_of. apply length_map.
    + rewrite length_map. unfold duplicated_first.
      apply duplicated_first_from_length.
Qed.

Lemma detector_keeps_one_record_per_key_witness :
  let df := mkDataFrame [mkColumn "ITEM" DObject; mkColumn "PRICE" DNumeric]
              [[CStr "tea"; CNum 5]; [CStr "milk"; CNum 3]; [CStr "tea"; CNum 5];
               [CStr "tea"; CNum 5]] in
  let ks := keys_of df (lst_Criteriacolumns empty_frame df "EBM SALES") in
  exists out,
    detect empty_frame df "EBM SALES" = Return out
    /\ map (fun s => cell_eqb s IS_DUPLICATE) (statuses out) = [false; false; true; true]
    /\ NoDup (select ks (map negb (map (fun s => cell_eqb s IS_DUPLICATE)
                                      (statuses out)))).
Proof.
  intros df ks.
  pose proof (detector_keeps_one_record_per_key empty_frame df "EBM SALES" eq_refl)
    as H.
  cbv zeta in H. fold ks in H.
  destruct (detect empty_frame df "EBM SALES") as [out|e] eqn:E.
  - exists out. split; [reflexivity|]. split; [|exact (proj1 H)].
    vm_compute in E. injection E as <-. reflexivity.
  - destruct H as [_ H]. discriminate H.
Defined.




Lemma column_names_tagged (p : duplicate_params) (df : DataFrame) (category : string) :
  column_names (tagged p df category)
  = match index_of DUPLICATE_STATUS (column_names df) with
    | Some _ => column_names df
    | None => column_names df ++ [DUPLICATE_STATUS]
    end.
Proof.
  unfold column_names at 1. rewrite columns_tagged. unfold set_column.
  fold (column_names df).
  destruct (index_of DUPLICATE_STATUS (column_names df)) as [i|] eqn:E;
    cbn [columns].
  - apply names_replace. exact E.
  - rewrite map_app. reflexivity.
Qed.

Lemma mem_index_of (s : string) (names : list string) :
  Text.mem s names = match index_of s names with Some _ => true | None => false end.
Proof.
  unfold Text.mem. induction names as [|n names IH]; simpl; [reflexivity|].
  destruct (s =? n)%string; simpl; [reflexivity|].
  rewrite IH. destruct (index_of s names); reflexivity.
Qed.

Lemma has_column_tagged (p : duplicate_params) (df : DataFrame)
    (category s : string) :
  has_column (tagged p df category) s
  = has_column df s || (s =? DUPLICATE_STATUS)%string.
Proof.
  unfold has_column. rewrite column_names_tagged.
  destruct (index_of DUPLICATE_STATUS (column_names df)) as [i|] eqn:E.
  - destruct (s =? DUPLICATE_STATUS)%string eqn:Es.
    + apply String.eqb_eq in Es. subst s. rewrite mem_index_of, E. reflexivity.
    + rewrite orb_false_r. reflexivity.
  - unfold Text.mem. rewrite existsb_app. simpl. rewrite orb_false_r. reflexivity.
Qed.

Lemma present_columns_tagged (p : duplicate_params) (df : DataFrame)
    (category : string) (cells : list cell) :
  ~ In (CStr DUPLICATE_STATUS) cells ->
  present_columns (tagged p df category) cells = present_columns df cells.
Proof.
  induction cells as [|c cells IH]; intros H; [reflexivity|].
  unfold present_columns in *. cbn [flat_map].
  rewrite IH by (intros X; apply H; right; exact X). f_equal.
  destruct c as [|z|s|d]; try reflexivity.
  rewrite has_column_tagged.
  destruct (s =? DUPLICATE_STATUS)%string eqn:Es.
  - apply String.eqb_eq in Es. subst s. exfalso. apply H. left. reflexivity.
  - rewrite orb_false_r. reflexivity.
Qed.

(** Two tables with the same values in the key columns have the same keys. *)
Lemma keys_by_columns (d1 d2 : DataFrame) (crit : list string) (rs1 rs2 : list row) :
  List.length rs1 = List.length rs2 ->
  (forall c, In c crit ->
     map (fun r => get_cell d1 r c) rs1 = map (fun r => get_cell d2 r c) rs2) ->
  map (row_key d1 crit) rs1 = map (row_key d2 crit) rs2.
Proof.
  revert rs2; induction rs1 as [|r1 rs1 IH]; intros [|r2 rs2] L H; simpl in *;
    try discriminate; [reflexivity|].
  f_equal.
  - unfold row_key. apply map_ext_in. intros c Hc.
    specialize (H c Hc). congruence.
  - apply IH; [lia|]. intros c Hc. specialize (H c Hc). congruence.
Qed.

Lemma present_columns_in (df : DataFrame) (cells : list cell) (s : string) :
  In s (present_columns df cells) -> In (CStr s) cells.
Proof.
  unfold present_columns. rewrite in_flat_map. intros [c [Hc Hs]].
  destruct c as [|z|t|d]; try contradiction.
  destruct (has_column df t); [|contradiction].
  destruct Hs as [<-|[]]. exact Hc.
Qed.

Lemma df_empty_tagged (p : duplicate_params) (df : DataFrame) (category : string) :
  df_empty df = false -> df_empty (tagged p df category) = false.
Proof.
  intros H. unfold df_empty in *.
  pose proof (rows_tagged_length p df category) as L.
  pose proof (column_names_tagged p df category) as N.
  unfold column_names in N.
  destruct (columns df) as [|c cs] eqn:Ec; [discriminate|].
  destruct (rows df) as [|r rs] eqn:Er; [discriminate|].
  destruct (rows (tagged p df category)); [discriminate|].
  destruct (columns (tagged p df category)); [|reflexivity].
  fold (column_names df) in N.
  destruct (index_of DUPLICATE_STATUS (map col_name (c :: cs))); discriminate.
Qed.

(** X2.  Running the detector on its own result changes nothing, when the
    table has at least one of the key columns configured for its category
    and the status column is not configured as a key: the second run
    returns, and its result has the columns and the cells of the first.
    (The first run returns unless the accessor [.str] refuses the column
    configured for the category.) *)
Theorem detector_idempotent (p : duplicate_params) (df : DataFrame)
    (category : string) :
  df_empty df = false ->
  present_columns df (dropna_strip (params_get p category)) <> [] ->
  ~ In (CStr DUPLICATE_STATUS) (dropna_strip (params_get p category)) ->
  match detect p df category with
  | Return once =>
      match detect p once category with
      | Return twice =>
          column_names twice = column_names once
          /\ List.length (rows twice) = List.length (rows once)
          /\ forall c, column_values twice c = column_values once c
      | Raise _ => False
      end
  | Raise e => e = AttributeError /\ accepts_str p category = false
  end.
Proof.
  intros Hne Hpres Hds. rewrite detect_eq, Hne.
  destruct (accepts_str p category) eqn:Ea; [|split; reflexivity].
  rewrite detect_eq, df_empty_tagged, Ea by exact Hne.
  set (once := tagged p df category).
  set (twice := tagged p once category).
  assert (E1 : once = tagged p df category) by reflexivity.
  assert (E2 : twice = tagged p once category) by reflexivity.
  assert (Ec : lst_Criteriacolumns p once category = lst_Criteriacolumns p df category).
  { unfold lst_Criteriacolumns. rewrite E1, present_columns_tagged by exact Hds.
    destruct (present_columns df (dropna_strip (params_get p category)));
      [contradiction|reflexivity]. }
  assert (Hcrit : forall c, In c (lst_Criteriacolumns p df category) ->
                            c <> DUPLICATE_STATUS).
  { intros c Hc ->. apply Hds. apply (present_columns_in df).
    unfold lst_Criteriacolumns in Hc.
    destruct (present_columns df (dropna_strip (params_get p category)));
      [contradiction|exact Hc]. }
  assert (Ek : keys_of once (lst_Criteriacolumns p once category)
               = keys_of df (lst_Criteriacolumns p df category)).
  { rewrite Ec. unfold keys_of. apply keys_by_columns.
    - rewrite E1. apply rows_tagged_length.
    - intros c Hc. rewrite E1.
      apply (other_column_tagged p df category c). apply Hcrit. exact Hc. }
  split; [|split].
  - rewrite E2, column_names_tagged, E1, status_index_tagged. reflexivity.
  - rewrite E2. apply rows_tagged_length.
  - intros c. destruct (String.eqb_spec c DUPLICATE_STATUS) as [->|Hc].
    + fold (statuses twice). fold (statuses once).
      rewrite E2, statuses_tagged, Ek, E1, statuses_tagged. reflexivity.
    + rewrite E2. apply other_column_tagged. exact Hc.
Qed.

Lemma detector_idempotent_witness :
  let p := mkDataFrame [mkColumn "EBM SALES" DObject] [[CStr "ITEM"]] in
  let df := mkDataFrame [mkColumn "ITEM" DObject; mkColumn "PRICE" DNumeric]
              [[CStr "tea"; CNum 5]; [CStr "milk"; CNum 3]; [CStr "tea"; CNum 7]] in
  exists once twice,
    detect p df "EBM SALES" = Return once
    /\ detect p once "EBM SALES" = Return twice
    /\ statuses once = [HAS_DUPLICATES; NO_DUPLICATES; IS_DUPLICATE]
    /\ column_names twice = column_names once.
Proof.
  intros p df.
  assert (H1 : df_empty df = false) by reflexivity.
  assert (H2 : present_columns df (dropna_strip (params_get p "EBM SALES")) <> [])
    by (vm_compute; discriminate).
  assert (H3 : ~ In (CStr DUPLICATE_STATUS) (dropna_strip (params_get p "EBM SALES")))
    by (vm_compute; intros [H|[]]; discriminate H).
  pose proof (detector_idempotent p df "EBM SALES" H1 H2 H3) as H.
  destruct (detect p df "EBM SALES") as [once|e] eqn:E1.
  - destruct (detect p once "EBM SALES") as [twice|e] eqn:E2; [|contradiction].
    exists once, twice. split; [reflexivity|]. split; [exact E2|].
    split; [|exact (proj1 H)].
    vm_compute in E1. injection E1 as <-. reflexivity.
  - destruct H as [_ H]. discriminate H.
Defined.

(** Without a configured key column the status column itself becomes part of
    the key at the second run, and the statuses change. *)
Example detector_rerun_on_all_columns :
  let df := mkDataFrame [mkColumn "ITEM" DObject] [[CStr "tea"]; [CStr "tea"]] in
  exists once twice,
    detect empty_frame df "EBM SALES" = Return once
    /\ detect empty_frame once "EBM SALES" = Return twice
    /\ statuses once = [HAS_DUPLICATES; IS_DUPLICATE]
    /\ statuses twice = [NO_DUPLICATES; NO_DUPLICATES].
Proof. do 2 eexists. repeat split; reflexivity. Qed.

End DuplicateMore.

(** ** More on the schema matcher *)

Module MatcherMore.

Import Frame Matcher MatcherFacts.

Lemma first_return_some {A B : Type} (test : A -> bool) (k : A -> B) (l : list A)
    (b : B) :
  first_return (fun x => if test x then Some (k x) else None) l = Some b ->
  exists x, In x l /\ test x = true /\ b = k x.
Proof.
  induction l as [|a l IH]; simpl; [discriminate|].
  destruct (test a) eqn:E.
  - intros H. injection H as <-. exists a. auto.
  - intros H. destruct (IH H) as [x [Hx Hr]]. exists x. auto.
Qed.

Lemma first_return_none_inv {A B : Type} (test : A -> bool) (k : A -> B) (l : list A) :
  first_return (fun x => if test x then Some (k x) else None) l = None ->
  forall x, In x l -> test x = false.
Proof.
  induction l as [|a l IH]; simpl; [contradiction|].
  destruct (test a) eqn:E; [discriminate|].
  intros H x [<-|Hx]; [exact E | exact (IH H x Hx)].
Qed.

Lemma in_candidates (original : headers_table) (sheet : list row) (max_iterations : nat)
    (c : nat * (string * list cell)) :
  In c (candidates original sheet max_iterations)
  <-> fst c < Nat.min (List.length sheet) max_iterations /\ In (snd c) original.
Proof.
  unfold candidates. rewrite in_flat_map. split.
  - intros [i [Hi Hc]]. apply in_seq in Hi. apply in_map_iff in Hc.
    destruct Hc as [e [<- He]]. simpl. split; [lia | exact He].
  - intros [Hi He]. exists (fst c). split; [apply in_seq; lia|].
    apply in_map_iff. exists (snd c). split; [destruct c; reflexivity | exact He].
Qed.

(** What the matcher returns: UNKNOWN, or the acceptance of a candidate
    that passes the subset test. *)
Lemma matcher_cases (original newheaders : headers_table) (sheet : list row)
    (max_iterations : nat) :
  let found := fn_find_matching_category original newheaders sheet max_iterations in
  (found = Return UNKNOWN
   /\ forall c, In c (candidates original sheet max_iterations) ->
                subset_test (nth (fst c) sheet []) (snd c) = false)
  \/ exists c, In c (candidates original sheet max_iterations)
               /\ subset_test (nth (fst c) sheet []) (snd c) = true
               /\ found = accept newheaders (fst c) (nth (fst c) sheet []) (snd c).
Proof.
  intros found. unfold found, fn_find_matching_category. rewrite !pass_candidates.
  set (cands := candidates original sheet max_iterations).
  destruct (first_return _ cands) as [r|] eqn:E1.
  - right.
    apply (first_return_some
             (fun c => exact_test (nth (fst c) sheet []) (snd c))
             (fun c => accept newheaders (fst c) (nth (fst c) sheet []) (snd c)))
      in E1.
    destruct E1 as [c [Hc [Ht ->]]]. exists c. split; [exact Hc|].
    split; [|reflexivity].
    unfold exact_test, set_equal in Ht. apply andb_prop in Ht. apply Ht.
  - destruct (first_return _ cands) as [r|] eqn:E2 in |- *.
    + right.
      apply (first_return_some
               (fun c => subset_test (nth (fst c) sheet []) (snd c))
               (fun c => accept newheaders (fst c) (nth (fst c) sheet []) (snd c)))
        in E2.
      destruct E2 as [c [Hc [Ht ->]]]. exists c. auto.
    + left. split; [reflexivity|].
      apply (first_return_none_inv
               (fun c => subset_test (nth (fst c) sheet []) (snd c))
               (fun c => accept newheaders (fst c) (nth (fst c) sheet []) (snd c))).
      exact E2.
Qed.

Lemma positions_from_filter (i : nat) (headers rowv : list string) :
  positions_from i headers rowv
  = filter (fun j => Text.mem (nth (j - i) rowv "") headers)
      (seq i (List.length rowv)).
Proof.
  revert i; induction rowv as [|h r IH]; intros i; [reflexivity|].
  cbn [positions_from List.length seq filter]. rewrite Nat.sub_diag. cbn [nth].
  rewrite IH.
  assert (E : filter (fun j => Text.mem (nth (j - S i) r "") headers)
                (seq (S i) (List.length r))
              = filter (fun j => Text.mem (nth (j - i) (h :: r) "") headers)
                  (seq (S i) (List.length r))).
  { apply filter_ext_in. intros j Hj. apply in_seq in Hj.
    replace (j - i) with (S (j - S i)) by lia. reflexivity. }
  rewrite E. destruct (Text.mem h headers); reflexivity.
Qed.

Lemma filter_all {A : Type} (f : A -> bool) (l : list A) :
  (forall x, In x l -> f x = true) -> filter f l = l.
Proof.
  induction l as [|a l IH]; intros H; simpl; [reflexivity|].
  rewrite (H a) by (left; reflexivity). f_equal. apply IH.
  intros x Hx; apply H; right; exact Hx.
Qed.

(** X3.  The matcher reads the first [max_iterations] rows of the sheet
    only: it returns on the whole sheet what it returns on these rows. *)
Theorem matcher_reads_first_rows (original newheaders : headers_table)
    (sheet : list row) (max_iterations : nat) :
  fn_find_matching_category original newheaders sheet max_iterations
  = fn_find_matching_category original newheaders (firstn max_iterations sheet)
      max_iterations.
Proof.
  unfold fn_find_matching_category.
  assert (L : Nat.min (List.length (firstn max_iterations sheet)) max_iterations
              = Nat.min (List.length sheet) max_iterations).
  { rewrite length_firstn. lia. }
  rewrite L.
  assert (P : forall test,
             pass test original newheaders (firstn max_iterations sheet)
               (Nat.min (List.length sheet) max_iterations)
             = pass test original newheaders sheet
                 (Nat.min (List.length sheet) max_iterations)).
  { intros test. unfold pass. apply first_return_ext. intros i Hi.
    apply in_seq in Hi.
    assert (N : nth i (firstn max_iterations sheet) [] = nth i sheet []).
    { rewrite <- (firstn_skipn max_iterations sheet) at 2.
      rewrite app_nth1; [reflexivity|]. rewrite length_firstn. lia. }
    rewrite N. reflexivity. }
  rewrite !P. reflexivity.
Qed.

(** X4.  When the matcher finds a category, its header row is one of the
    rows it may read, every header of the category is a cell of that row,
    and the positions it returns are the positions of the cells of the row
    that are headers of the category, in increasing order; when the cells of
    the row are all headers of the category, they are all the positions of
    the row. *)
Theorem matcher_header_positions (original newheaders : headers_table)
    (sheet : list row) (max_iterations : nat) (m : matching) (i : nat) :
  fn_find_matching_category original newheaders sheet max_iterations = Return m ->
  int_myheaderrow m = Some i ->
  let rowv := lst_mycurrentrow (nth i sheet []) in
  i < List.length sheet /\ i < max_iterations
  /\ issubset (currentheaders m) rowv = true
  /\ currentheaders_idx m
     = filter (fun j => Text.mem (nth j rowv "") (currentheaders m))
         (seq 0 (List.length rowv))
  /\ (issubset rowv (currentheaders m) = true ->
      currentheaders_idx m = seq 0 (List.length rowv)).
Proof.
  intros Hf Hi rowv.
  destruct (matcher_cases original newheaders sheet max_iterations)
    as [[Hu _]|[c [Hc [Ht Ha]]]].
  - rewrite Hf in Hu. injection Hu as ->. discriminate Hi.
  - rewrite Hf in Ha. unfold accept, bind in Ha.
    destruct (table_get newheaders (fst (snd c))) as [new|e]; [|discriminate].
    injection Ha as ->. cbn [int_myheaderrow] in Hi. injection Hi as <-.
    cbn [currentheaders currentheaders_idx].
    apply in_candidates in Hc. destruct Hc as [Hlt _].
    assert (P : positions_from 0 (lst_currentheaders (snd (snd c)))
                  (lst_mycurrentrow (nth (fst c) sheet []))
                = filter (fun j => Text.mem (nth j rowv "")
                                     (lst_currentheaders (snd (snd c))))
                    (seq 0 (List.length rowv))).
    { rewrite positions_from_filter. apply filter_ext. intros j.
      rewrite Nat.sub_0_r. reflexivity. }
    split; [lia|]. split; [lia|]. split; [exact Ht|]. split; [exact P|].
    intros Hall. rewrite P. apply filter_all. intros j Hj. apply in_seq in Hj.
    unfold issubset in Hall. rewrite forallb_forall in Hall. apply Hall.
    apply nth_In. lia.
Qed.

Lemma matcher_header_positions_witness :
  let original := [("EBM SALES", [CStr "Invoice No"; CStr "Date"; CStr ""])] in
  let newheaders := [("EBM SALES", [CStr "INVOICE NUMBER"; CStr "TRANSACTION DATE"])] in
  let sheet := [[CStr "report"; CNull];
                [CStr "total"; CStr " date"; CStr "invoice no "]] in
  let m := mkMatching "EBM SALES" (Some 1) ["INVOICE NO"; "DATE"] [1; 2]
             [CStr "INVOICE NUMBER"; CStr "TRANSACTION DATE"] in
  let rowv := lst_mycurrentrow (nth 1 sheet []) in
  1 < List.length sheet /\ 1 < 25
  /\ issubset (currentheaders m) rowv = true
  /\ currentheaders_idx m
     = filter (fun j => Text.mem (nth j rowv "") (currentheaders m))
         (seq 0 (List.length rowv))
  /\ (issubset rowv (currentheaders m) = true ->
      currentheaders_idx m = seq 0 (List.length rowv)).
Proof.
  intros original newheaders sheet m rowv.
  refine (matcher_header_positions original newheaders sheet 25 m 1 _ _);
    vm_compute; reflexivity.
Defined.

(** X5.  The matcher raises nothing but [KeyError], and that only when a
    category of the sheet [FileHeaders] has no column in the sheet
    [FindapHeaders]; when every category has one, it returns. *)
Theorem matcher_raises_key_error_only (original newheaders : headers_table)
    (sheet : list row) (max_iterations : nat) :
  let found := fn_find_matching_category original newheaders sheet max_iterations in
  (forall e, found = Raise e ->
     e = KeyError
     /\ exists entry, In entry original
                      /\ table_get newheaders (fst entry) = Raise KeyError)
  /\ ((forall entry, In entry original ->
         exists cells, table_get newheaders (fst entry) = Return cells) ->
      exists m, found = Return m).
Proof.
  intros found.
  assert (K : forall t c e, table_get t c = Raise e -> e = KeyError).
  { intros t c e. induction t as [|[c' cells] t IH]; simpl.
    - intros H; injection H as <-; reflexivity.
    - destruct (c =? c')%string; [discriminate | exact IH]. }
  assert (R : forall e, found = Raise e ->
                e = KeyError
                /\ exists entry, In entry original
                                 /\ table_get newheaders (fst entry) = Raise KeyError).
  { intros e He.
    destruct (matcher_cases original newheaders sheet max_iterations)
      as [[Hu _]|[c [Hc [_ Ha]]]]; fold found in Hu || fold found in Ha.
    - rewrite He in Hu. discriminate.
    - rewrite He in Ha. unfold accept, bind in Ha.
      destruct (table_get newheaders (fst (snd c))) as [new|e'] eqn:Et;
        [discriminate|].
      injection Ha as ->. pose proof (K _ _ _ Et) as ->.
      split; [reflexivity|]. exists (snd c). split; [|exact Et].
      apply in_candidates in Hc. apply Hc. }
  split; [exact R|].
  intros Hall. destruct found as [m|e] eqn:E; [exists m; reflexivity|].
  destruct (R e eq_refl) as [_ [entry [Hin Hr]]].
  destruct (Hall entry Hin) as [cells Hc]. congruence.
Qed.

Lemma matcher_raises_key_error_only_witness :
  let original := [("EBM SALES", [CStr "Invoice No"])] in
  let sheet := [[CStr "invoice no"]] in
  fn_find_matching_category original [] sheet 25 = Raise KeyError
  /\ exists m, fn_find_matching_category original
                 [("EBM SALES", [CStr "INVOICE NUMBER"])] sheet 25 = Return m.
Proof.
  intros original sheet. split; [reflexivity|].
  refine (proj2 (matcher_raises_key_error_only original
                   [("EBM SALES", [CStr "INVOICE NUMBER"])] sheet 25) _).
  intros entry [<-|[]]. exists [CStr "INVOICE NUMBER"]. reflexivity.
Defined.

(** X6.  A category whose column of the sheet [FileHeaders] is blank
    throughout has no header, so every row contains its headers: with such a
    category no sheet that has a row is reported UNKNOWN, a header row is
    always found.  A sheet without rows, or no row to read, gives UNKNOWN. *)
Theorem matcher_blank_category (original newheaders : headers_table)
    (sheet : list row) (max_iterations : nat) (entry : string * list cell) :
  In entry original ->
  lst_currentheaders (snd entry) = [] ->
  (sheet <> [] -> 0 < max_iterations ->
   forall m, fn_find_matching_category original newheaders sheet max_iterations
             = Return m ->
             exists i, int_myheaderrow m = Some i)
  /\ fn_find_matching_category original newheaders [] max_iterations = Return UNKNOWN
  /\ fn_find_matching_category original newheaders sheet 0 = Return UNKNOWN.
Proof.
  intros Hin Hblank. split; [|split].
  - intros Hs Hm m Hf.
    destruct (matcher_cases original newheaders sheet max_iterations)
      as [[_ Hn]|[c [_ [_ Ha]]]].
    + specialize (Hn (0, entry)).
      assert (Hc : In (0, entry) (candidates original sheet max_iterations)).
      { apply in_candidates. cbn [fst snd]. split; [|exact Hin].
        destruct sheet; [contradiction|]. cbn [List.length]. lia. }
      specialize (Hn Hc). unfold subset_test in Hn. simpl in Hn.
      rewrite Hblank in Hn. discriminate.
    + rewrite Hf in Ha. unfold accept, bind in Ha.
      destruct (table_get newheaders (fst (snd c))); [|discriminate].
      injection Ha as ->. exists (fst c). reflexivity.
  - reflexivity.
  - unfold fn_find_matching_category. rewrite Nat.min_0_r. reflexivity.
Qed.

Lemma matcher_blank_category_witness :
  let original := [("EBM SALES", [CStr "Invoice No"; CStr "Date"]);
                   ("SPARE", [CStr ""; CStr ""])] in
  let newheaders := [("EBM SALES", [CStr "INVOICE NUMBER"; CStr "TRANSACTION DATE"]);
                     ("SPARE", [CStr ""; CStr ""])] in
  let sheet := [[CStr "Monthly report"; CNull]; [CStr "Item"; CStr "Price"]] in
  fn_find_matching_category original newheaders sheet 25
  = Return (mkMatching "SPARE" (Some 0) [] [] [])
  /\ fn_find_matching_category original newheaders [] 25 = Return UNKNOWN.
Proof.
  intros original newheaders sheet. split; [reflexivity|].
  refine (proj1 (proj2 (matcher_blank_category original newheaders sheet 25
                          ("SPARE", [CStr ""; CStr ""]) _ _))).
  - right; left; reflexivity.
  - reflexivity.
Defined.

End MatcherMore.

(** ** Normalisation of the cells the matcher compares *)

Module NormalFacts.

Import Frame Matcher MatcherFacts.

Local Open Scope nat_scope.

(** Upper case leaves the upper case of a byte, its being white space and
    its being the lead byte C3 as they are. *)
Lemma upper_byte_idempotent (b : bool) (c : ascii) :
  Text.upper_byte b (Text.upper_byte b c) = Text.upper_byte b c.
Proof. destruct b, c as [[] [] [] [] [] [] [] []]; vm_compute; reflexivity. Qed.

Lemma upper_byte_lead (b : bool) (c : ascii) :
  (Text.code (Text.upper_byte b c) =? 195) = (Text.code c =? 195).
Proof. destruct b, c as [[] [] [] [] [] [] [] []]; vm_compute; reflexivity. Qed.

Lemma upper_byte_space (b : bool) (c : ascii) :
  Text.is_space (Text.upper_byte b c) = Text.is_space c.
Proof. destruct b, c as [[] [] [] [] [] [] [] []]; vm_compute; reflexivity. Qed.

Lemma space_not_lead (c : ascii) :
  Text.is_space c = true -> (Text.code c =? 195) = false.
Proof. destruct c as [[] [] [] [] [] [] [] []]; vm_compute; congruence. Qed.

Lemma upper_from_idempotent (b : bool) (s : string) :
  Text.upper_from b (Text.upper_from b s) = Text.upper_from b s.
Proof.
  revert b; induction s as [|c r IH]; intros b; cbn [Text.upper_from]; [reflexivity|].
  rewrite upper_byte_idempotent, upper_byte_lead, IH. reflexivity.
Qed.

Lemma upper_from_empty (b : bool) (s : string) :
  (Text.upper_from b s =? EmptyString)%string = (s =? EmptyString)%string.
Proof. destruct s; reflexivity. Qed.

Lemma upper_lstrip (s : string) :
  Text.upper_from false (Text.lstrip s) = Text.lstrip (Text.upper_from false s).
Proof.
  induction s as [|c r IH]; [reflexivity|].
  cbn [Text.lstrip Text.upper_from]. rewrite upper_byte_space.
  destruct (Text.is_space c) eqn:E.
  - rewrite (space_not_lead c E). exact IH.
  - reflexivity.
Qed.

Lemma upper_rstrip (b : bool) (s : string) :
  Text.upper_from b (Text.rstrip s) = Text.rstrip (Text.upper_from b s).
Proof.
  revert b; induction s as [|c r IH]; intros b; [reflexivity|].
  cbn [Text.rstrip Text.upper_from]. rewrite upper_byte_space, <- IH, upper_from_empty.
  destruct (Text.is_space c && (Text.rstrip r =? EmptyString)%string); reflexivity.
Qed.

Lemma upper_strip (s : string) : Text.upper (Text.strip s) = Text.strip (Text.upper s).
Proof. unfold Text.upper, Text.strip. rewrite upper_rstrip, upper_lstrip. reflexivity. Qed.

Lemma rstrip_idempotent (s : string) : Text.rstrip (Text.rstrip s) = Text.rstrip s.
Proof.
  induction s as [|c r IH]; [reflexivity|]. cbn [Text.rstrip].
  destruct (Text.is_space c && (Text.rstrip r =? EmptyString)%string) eqn:E;
    [reflexivity|].
  cbn [Text.rstrip]. rewrite IH, E. reflexivity.
Qed.

(** A text that starts with no white space keeps its start when the white
    space at its end is stripped. *)
Lemma lstrip_rstrip (s : string) :
  Text.lstrip s = s -> Text.lstrip (Text.rstrip s) = Text.rstrip s.
Proof.
  destruct s as [|c r]; [reflexivity|]. cbn [Text.lstrip Text.rstrip].
  destruct (Text.is_space c) eqn:E.
  - intros H. exfalso.
    assert (L : forall t, String.length (Text.lstrip t) <= String.length t).
    { clear. induction t as [|x t IHt]; cbn [Text.lstrip]; [lia|].
      destruct (Text.is_space x); cbn [String.length]; lia. }
    pose proof (L r) as Lr. rewrite H in Lr. cbn [String.length] in Lr. lia.
  - intros _. cbn [andb]. cbn [Text.lstrip]. rewrite E. reflexivity.
Qed.

Lemma lstrip_idempotent (s : string) : Text.lstrip (Text.lstrip s) = Text.lstrip s.
Proof.
  induction s as [|c r IH]; [reflexivity|]. cbn [Text.lstrip].
  destruct (Text.is_space c) eqn:E; [exact IH|]. cbn [Text.lstrip]. rewrite E.
  reflexivity.
Qed.

Lemma strip_idempotent (s : string) : Text.strip (Text.strip s) = Text.strip s.
Proof.
  unfold Text.strip.
  rewrite (lstrip_rstrip (Text.lstrip s)) by apply lstrip_idempotent.
  apply rstrip_idempotent.
Qed.

(** A cell and the text it is compared as are compared alike. *)
Lemma normalize_idempotent (c : cell) : normalize (CStr (normalize c)) = normalize c.
Proof.
  unfold normalize. cbn [str_of_cell].
  rewrite upper_strip. unfold Text.upper. rewrite upper_from_idempotent.
  apply strip_idempotent.
Qed.

(** X29.  The matcher is blind to the case of the cells of a sheet, to the
    white space around them and to their being texts or not: it returns for
    a sheet what it returns for the sheet whose cells are replaced by their
    stripped upper-case texts. *)
Theorem matcher_reads_normalised_cells (original newheaders : headers_table)
    (sheet : list row) (max_iterations : nat) :
  fn_find_matching_category original newheaders
    (map (map (fun c => CStr (normalize c))) sheet) max_iterations
  = fn_find_matching_category original newheaders sheet max_iterations.
Proof.
  unfold fn_find_matching_category. rewrite length_map.
  assert (Row : forall i,
             lst_mycurrentrow
               (nth i (map (map (fun c => CStr (normalize c))) sheet) [])
             = lst_mycurrentrow (nth i sheet [])).
  { intros i.
    change (@nil cell) with (map (fun c => CStr (normalize c)) []) at 1.
    rewrite map_nth. unfold lst_mycurrentrow. rewrite map_map.
    apply map_ext. intros c. apply normalize_idempotent. }
  assert (P : forall test : row -> string * list cell -> bool,
             (forall r r' entry, lst_mycurrentrow r = lst_mycurrentrow r' ->
                                 test r entry = test r' entry) ->
             pass test original newheaders
               (map (map (fun c => CStr (normalize c))) sheet)
               (Nat.min (List.length sheet) max_iterations)
             = pass test original newheaders sheet
                 (Nat.min (List.length sheet) max_iterations)).
  { intros test Ht. unfold pass. apply first_return_ext. intros i _.
    cbv zeta. apply first_return_ext. intros entry _. cbv beta.
    pose proof (Ht _ (nth i sheet []) entry (Row i)) as T.
    pose proof (Row i) as R. unfold row in *.
    rewrite T. unfold accept. rewrite R. reflexivity. }
  rewrite !P; [reflexivity| |].
  - intros r r' entry E. unfold subset_test. rewrite E. reflexivity.
  - intros r r' entry E. unfold exact_test. rewrite E. reflexivity.
Qed.

End NormalFacts.

(** ** More on the date parser *)

Module DateMore.

Import Calendar Pyfloat Dates Letters DateResults DateFacts.

Lemma upper_byte_not_letter (c : ascii) :
  is_letter c = false -> is_letter (Text.upper_byte false c) = false.
Proof.
  intros H. unfold Text.upper_byte. cbn iota.
  unfold is_letter in H. apply orb_false_elim in H. destruct H as [H1 H2].
  rewrite H1. unfold is_letter. rewrite H1, H2. reflexivity.
Qed.

Lemma upper_byte_letter (a : ascii) :
  is_letter a = true -> is_letter (Text.upper_byte false a) = true.
Proof.
  intros H. unfold Text.upper_byte. cbn iota.
  destruct (Text.between 97 122 (Text.code a)) eqn:E.
  - unfold is_letter. unfold Text.between in E. unfold Text.code in *.
    apply andb_prop in E. destruct E as [E1 E2].
    apply Nat.leb_le in E1. apply Nat.leb_le in E2.
    rewrite nat_ascii_embedding by lia.
    apply orb_true_intro. right. unfold Text.between.
    apply andb_true_intro. split; apply Nat.leb_le; lia.
  - unfold is_letter in *. rewrite E in *. exact H.
Qed.

(** An alternative of the month pattern starts with a letter, so it matches
    no text that starts with another character. *)
Lemma alternative_needs_letter (prev : bool) (s k : string) :
  starts_with_letter k = true -> starts_with_letter s = false ->
  alternative_matches prev s k = false.
Proof.
  intros Hk Hs. unfold alternative_matches.
  destruct k as [|a k']; [discriminate|]. cbn [starts_with_letter] in Hk.
  destruct s as [|c r].
  - reflexivity.
  - cbn [starts_with_letter] in Hs. cbn [String.length Text.take].
    assert (E : (Text.upper (String c (Text.take (String.length k') r))
                 =? Text.upper (String a k'))%string = false).
    { apply String.eqb_neq. unfold Text.upper. cbn [Text.upper_from].
      pose proof (upper_byte_not_letter c Hs) as N.
      pose proof (upper_byte_letter a Hk) as L.
      remember (Text.upper_byte false c) as uc.
      remember (Text.upper_byte false a) as ua.
      intros X. injection X as X _. congruence. }
    rewrite E, andb_false_r. reflexivity.
Qed.

Lemma month_keys_start_with_letter (k : string) :
  In k (map fst dic_month_map) -> starts_with_letter k = true.
Proof.
  assert (H : forallb starts_with_letter (map fst dic_month_map) = true)
    by (vm_compute; reflexivity).
  rewrite forallb_forall in H. apply H.
Qed.

Lemma month_match_needs_letter (prev : bool) (s : string) :
  starts_with_letter s = false -> month_match prev s = None.
Proof.
  intros Hs. unfold month_match.
  destruct (word_boundary prev (next_is_word s)); [|reflexivity].
  assert (F : find (alternative_matches prev s) (map fst dic_month_map) = None).
  { pose proof month_keys_start_with_letter as K.
    induction (map fst dic_month_map) as [|k ks IH]; [reflexivity|].
    cbn [find]. rewrite alternative_needs_letter.
    - apply IH. intros x Hx. apply K. right. exact Hx.
    - apply K. left. reflexivity.
    - exact Hs. }
  rewrite F. reflexivity.
Qed.

Lemma sub_months_no_letter (s : string) (prev : bool) :
  no_letter s = true -> sub_months prev 0 s = Return s.
Proof.
  revert prev; induction s as [|c r IH]; intros prev H; [reflexivity|].
  unfold no_letter in H. cbn [Text.all_chars] in H. apply andb_prop in H.
  destruct H as [Hc Hr]. apply negb_true_iff in Hc.
  cbn [sub_months]. rewrite month_match_needs_letter by exact Hc.
  rewrite (IH (Text.is_word c) Hr). reflexivity.
Qed.

Lemma digit_not_letter (c : ascii) : Text.is_digit c = true -> is_letter c = false.
Proof.
  unfold Text.is_digit, is_letter, Text.between. intros H.
  apply andb_prop in H. destruct H as [H1 H2].
  apply Nat.leb_le in H1. apply Nat.leb_le in H2.
  apply orb_false_intro; apply andb_false_iff.
  - left. apply Nat.leb_gt. lia.
  - left. apply Nat.leb_gt. lia.
Qed.

Lemma digits_no_letter (s : string) :
  Text.all_chars Text.is_digit s = true -> no_letter s = true.
Proof.
  unfold no_letter. induction s as [|c r IH]; [reflexivity|].
  cbn [Text.all_chars]. intros H. apply andb_prop in H. destruct H as [Hc Hr].
  rewrite (digit_not_letter c Hc), (IH Hr). reflexivity.
Qed.

Lemma string_of_uint_digits (d : Decimal.uint) :
  Text.all_chars Text.is_digit (NilEmpty.string_of_uint d) = true.
Proof. induction d; cbn [NilEmpty.string_of_uint Text.all_chars]; try rewrite IHd; reflexivity. Qed.

Lemma str_of_int_digits (n : Z) :
  0 <= n -> Text.all_chars Text.is_digit (Text.str_of_int n) = true.
Proof.
  intros H. unfold Text.str_of_int.
  destruct n as [|p|p]; [reflexivity| |lia].
  cbn [Z.to_int NilZero.string_of_int]. unfold NilZero.string_of_uint.
  destruct (Pos.to_uint p); try apply string_of_uint_digits. reflexivity.
Qed.

(** A string of digits reads as a number that is not negative. *)
Lemma int_of_str_digits_nonneg (s : string) (v : Z) :
  Text.isdigit s = true -> Text.int_of_str s = Return v -> 0 <= v.
Proof.
  unfold Text.isdigit, Text.int_of_str. intros Hd Hv.
  destruct s as [|c r]; [discriminate|].
  cbn [NilZero.int_of_string] in Hv.
  assert (Hc : Ascii.eqb c "-" = false).
  { cbn [String.eqb negb andb Text.all_chars] in Hd.
    apply andb_prop in Hd. destruct Hd as [Hc _].
    destruct (Ascii.eqb_spec c "-"%char) as [->|]; [discriminate Hc|reflexivity]. }
  rewrite Hc in Hv.
  destruct (NilZero.uint_of_string (String c r)) as [d|]; [|discriminate].
  cbn [option_map] in Hv. injection Hv as <-. cbn [Z.of_int].
  apply N2Z.is_nonneg.
Qed.

Section Parser.

Variable strptime : string -> string -> option datetime.
Variable lst_dates_regex : list string.

(** X7.  A text of ASCII characters that is not empty, holds no letter and
    is not a string of digits (a date in figures such as 15/01/2022) holds
    no month name: the substitution returns it as it is, and the parser
    returns the date of the first format that parses it or, when none does,
    the text itself. *)
Theorem text_without_letters_is_not_rewritten (s : string) :
  ascii_text s = true ->
  no_letter s = true ->
  s <> EmptyString ->
  Text.isdigit s = false ->
  fn_replace_months s = Return s
  /\ fn_parse_dates_multipleformats strptime lst_dates_regex (VStr s)
     = Return (formats_or_text strptime lst_dates_regex s).
Proof.
  intros _ H Hne Hd. split; [apply sub_months_no_letter; exact H|].
  unfold fn_parse_dates_multipleformats.
  assert (M : Text.mem s [""; "NaN"; "NaT"]%string = false).
  { unfold Text.mem. cbn [existsb].
    destruct (String.eqb_spec s ""%string) as [->|_]; [contradiction|].
    destruct (String.eqb_spec s "NaN"%string) as [->|_]; [discriminate H|].
    destruct (String.eqb_spec s "NaT"%string) as [->|_]; [discriminate H|].
    reflexivity. }
  rewrite M, Hd. unfold parse_text, fn_replace_months.
  rewrite sub_months_no_letter by exact H. cbn [bind].
  unfold formats_or_text. destruct (try_formats strptime s lst_dates_regex); reflexivity.
Qed.

(** X8.  A string of digits is parsed as the integer it writes, leading
    zeros or not, as long as the integer is below 2^53. *)
Theorem digit_string_parsed_as_integer (s : string) (v : Z) :
  Text.isdigit s = true -> Text.int_of_str s = Return v -> v < 2 ^ 53 ->
  fn_parse_dates_multipleformats strptime lst_dates_regex (VStr s)
  = fn_parse_dates_multipleformats strptime lst_dates_regex (VInt v).
Proof.
  intros Hd Hv Hlt. unfold fn_parse_dates_multipleformats.
  rewrite (isdigit_not_null_text s Hd), Hd, Hv. cbn [bind].
  pose proof (int_of_str_digits_nonneg s v Hd Hv) as Hpos.
  rewrite float_of_digits_small by exact Hlt.
  rewrite float_of_int_small by (rewrite Z.abs_eq; assumption).
  reflexivity.
Qed.

(** X9.  An integer from 2958466 on (below 2^53) is not read as a serial
    date: its decimal writing, which the month substitution leaves as it is,
    goes to the formats, and comes back as a text when no format parses
    it. *)
Theorem large_integer_goes_to_formats (n : Z) :
  EXCEL_LIMIT <= n < 2 ^ 53 ->
  fn_parse_dates_multipleformats strptime lst_dates_regex (VInt n)
  = Return (formats_or_text strptime lst_dates_regex (Text.str_of_int n)).
Proof.
  intros [Hlo Hhi]. unfold fn_parse_dates_multipleformats.
  assert (Hpos : 0 <= n) by (unfold EXCEL_LIMIT in Hlo; lia).
  rewrite float_of_int_small by (rewrite Z.abs_eq; assumption).
  unfold parse_number. cbn [bind]. rewrite int_of_float_integer. cbn [bind].
  rewrite int_of_str_str_of_int. cbn [bind].
  replace (n <? EXCEL_LIMIT) with false by (symmetry; apply Z.ltb_ge; exact Hlo).
  unfold parse_text, fn_replace_months.
  rewrite sub_months_no_letter
    by (apply digits_no_letter, str_of_int_digits; exact Hpos).
  cbn [bind]. unfold formats_or_text.
  destruct (try_formats strptime (Text.str_of_int n) lst_dates_regex); reflexivity.
Qed.

End Parser.

Lemma text_without_letters_is_not_rewritten_witness :
  fn_replace_months "15/01/2022" = Return "15/01/2022"
  /\ fn_parse_dates_multipleformats (fun _ _ => None) ["%d/%m/%Y"] (VStr "15/01/2022")
     = Return (VStr "15/01/2022").
Proof.
  refine (text_without_letters_is_not_rewritten (fun _ _ => None) ["%d/%m/%Y"]
            "15/01/2022" eq_refl eq_refl _ eq_refl).
  discriminate.
Defined.

Lemma digit_string_parsed_as_integer_witness :
  fn_parse_dates_multipleformats (fun _ _ => None) [] (VStr "0044562")
  = fn_parse_dates_multipleformats (fun _ _ => None) [] (VInt 44562).
Proof.
  refine (digit_string_parsed_as_integer (fun _ _ => None) [] "0044562" 44562 _ _ _).
  - vm_compute; reflexivity.
  - vm_compute; reflexivity.
  - reflexivity.
Defined.

Lemma large_integer_goes_to_formats_witness :
  fn_parse_dates_multipleformats (fun _ _ => None) [] (VInt 20220115)
  = Return (formats_or_text (fun _ _ => None) [] (Text.str_of_int 20220115)).
Proof.
  refine (large_integer_goes_to_formats (fun _ _ => None) [] 20220115 _).
  unfold EXCEL_LIMIT. split; [lia | reflexivity].
Defined.

(** X10.  Every month name of the dictionary, in each of the spellings the
    dictionary lists, is replaced by the number the dictionary gives it; the
    one exception is the spelling Aou, whose upper case is no key. *)
Theorem month_names_replaced_by_their_number (k v : string) :
  In (k, v) dic_month_map ->
  if (Text.upper k =? "AOU")%string then fn_replace_months k = Raise KeyError
  else fn_replace_months k = Return v.
Proof.
  intros H.
  assert (A : forallb (fun kv =>
                if (Text.upper (fst kv) =? "AOU")%string
                then match fn_replace_months (fst kv) with
                     | Raise KeyError => true
                     | _ => false
                     end
                else replaced_by (fst kv) (snd kv)) dic_month_map = true)
    by (vm_compute; reflexivity).
  rewrite forallb_forall in A. specialize (A (k, v) H). cbn [fst snd] in A.
  destruct (Text.upper k =? "AOU")%string.
  - destruct (fn_replace_months k) as [s|[]]; try discriminate. reflexivity.
  - unfold replaced_by in A. destruct (fn_replace_months k) as [s|e]; [|discriminate].
    apply String.eqb_eq in A. subst s. reflexivity.
Qed.

Lemma month_names_replaced_by_their_number_witness :
  fn_replace_months "Septembre" = Return "09".
Proof.
  refine (month_names_replaced_by_their_number "Septembre" "09" _).
  vm_compute. tauto.
Defined.

End DateMore.

(** ** More on the sign exchange and the missing dates *)

Module TransformMore.

Import Calendar Frame FrameFacts Transforms Refusals TransformFacts.

Lemma process_refused (df : DataFrame) (f t : string) (r : row) :
  if refused df f t r
  then fn_process_exchange df f t r = Raise TypeError
  else exists r', fn_process_exchange df f t r = Return r'.
Proof.
  unfold refused, fn_process_exchange.
  destruct (get_cell df r f) as [|p|s|d]; cbn [negb andb];
    try reflexivity; try (eexists; reflexivity).
  destruct (p <? 0)%Z; cbn [andb]; [|eexists; reflexivity].
  destruct (get_cell df r t) as [|q|s|d]; cbn [is_number negb];
    try reflexivity; eexists; reflexivity.
Qed.

Lemma apply_refused (df : DataFrame) (f t : string) (rs : list row) :
  if existsb (refused df f t) rs
  then mapM (fn_process_exchange df f t) rs = Raise TypeError
  else exists applied, mapM (fn_process_exchange df f t) rs = Return applied
                       /\ List.length applied = List.length rs.
Proof.
  induction rs as [|r rs IH]; cbn [existsb mapM].
  - exists []. split; reflexivity.
  - pose proof (process_refused df f t r) as P.
    destruct (refused df f t r); cbn [orb].
    + rewrite P. reflexivity.
    + destruct P as [r' ->]. cbn [bind].
      destruct (existsb (refused df f t) rs).
      * rewrite IH. reflexivity.
      * destruct IH as [applied [-> L]]. cbn [bind].
        exists (r' :: applied). split; [reflexivity|]. cbn [List.length]. lia.
Qed.

(** X11.  On a table that has the two columns, two different ones, none of
    whose cells is missing, the sign exchange raises [TypeError], and
    returns no table at all, exactly when some row holds a price that is a
    text or a time stamp, or a negative price next to a quantity that is
    one; otherwise it returns a table with the same columns and as many
    rows.  A quantity that is a text is thus accepted next to a price that
    is not negative. *)
Theorem sign_exchange_type_errors (df : DataFrame) (str_fromcolumn str_tocolumn : string) :
  str_fromcolumn <> str_tocolumn ->
  has_column df str_fromcolumn = true ->
  has_column df str_tocolumn = true ->
  no_missing df str_fromcolumn str_tocolumn ->
  if existsb (refused df str_fromcolumn str_tocolumn) (rows df)
  then fn_exchange_negativesign df str_fromcolumn str_tocolumn = Raise TypeError
  else exists out,
         fn_exchange_negativesign df str_fromcolumn str_tocolumn = Return out
         /\ columns out = columns df
         /\ List.length (rows out) = List.length (rows df).
Proof.
  intros _ Hf Ht _. unfold fn_exchange_negativesign. rewrite Hf, Ht. cbn [negb orb].
  pose proof (apply_refused df str_fromcolumn str_tocolumn (rows df)) as A.
  destruct (existsb (refused df str_fromcolumn str_tocolumn) (rows df)).
  - rewrite A. reflexivity.
  - destruct A as [applied [-> L]]. cbn [bind]. eexists. split; [reflexivity|].
    cbn [columns rows]. split; [reflexivity|]. apply map2_length. congruence.
Qed.

Lemma sign_exchange_type_errors_witness :
  let df := mkDataFrame [mkColumn "UNIT PRICE" DNumeric; mkColumn "QUANTITY" DObject]
              [[CNum 5; CStr "two"]; [CNum (-3); CStr "one"]] in
  fn_exchange_negativesign df "UNIT PRICE" "QUANTITY" = Raise TypeError.
Proof.
  intros df.
  refine (sign_exchange_type_errors df "UNIT PRICE" "QUANTITY" _ _ _ _);
    [discriminate|reflexivity|reflexivity|].
  repeat constructor; discriminate.
Defined.

Section Twice.

Variable df : DataFrame.
Variables str_fromcolumn str_tocolumn : string.
Hypothesis distinct : str_fromcolumn <> str_tocolumn.
Hypothesis has_from : has_column df str_fromcolumn = true.
Hypothesis has_to : has_column df str_tocolumn = true.

(** A row the exchange has produced is left as it is by the exchange. *)
Lemma process_exchanged_row (r r' : row) :
  is_number (get_cell df r str_fromcolumn) = true ->
  exchanged df str_fromcolumn str_tocolumn r r' ->
  fn_process_exchange df str_fromcolumn str_tocolumn r' = Return r'.
Proof.
  intros Hn X. unfold fn_process_exchange. unfold exchanged in X.
  destruct (get_cell df r str_fromcolumn) as [|p|s|d] eqn:E; try discriminate.
  - rewrite X, E. reflexivity.
  - destruct (Z.ltb_spec p 0) as [Hneg|Hpos].
    + destruct X as [-> _].
      replace (- p <? 0)%Z with false by (symmetry; apply Z.ltb_ge; lia).
      reflexivity.
    + rewrite X, E.
      replace (p <? 0)%Z with false by (symmetry; apply Z.ltb_ge; lia).
      reflexivity.
Qed.

Lemma written_back_same (r : row) :
  same_cells df r (written_back df str_fromcolumn str_tocolumn r r).
Proof.
  intros c. rewrite (written_back_cells df _ _ has_from has_to).
  destruct (String.eqb_spec c str_tocolumn) as [->|_]; [reflexivity|].
  destruct (String.eqb_spec c str_fromcolumn) as [->|_]; reflexivity.
Qed.

Lemma apply_exchanged_rows (rs rs' : list row) :
  Forall (fun r => is_number (get_cell df r str_fromcolumn) = true) rs ->
  Forall2 (exchanged df str_fromcolumn str_tocolumn) rs rs' ->
  mapM (fn_process_exchange df str_fromcolumn str_tocolumn) rs' = Return rs'.
Proof.
  intros Hn X. induction X as [|r r' rs rs' Hx _ IH]; [reflexivity|].
  inversion Hn as [|? ? Hr Hrs]; subst. cbn [mapM].
  rewrite (process_exchanged_row r r' Hr Hx). cbn [bind].
  rewrite (IH Hrs). reflexivity.
Qed.

Lemma written_back_all_same (rs : list row) :
  Forall2 (same_cells df) rs (map2 (written_back df str_fromcolumn str_tocolumn) rs rs).
Proof.
  induction rs as [|r rs IH]; cbn [map2]; constructor; [|exact IH].
  apply written_back_same.
Qed.

End Twice.

Lemma exchange_reads_columns (df out : DataFrame) (f t : string) :
  columns out = columns df ->
  fn_exchange_negativesign out f t
  = fn_exchange_negativesign (mkDataFrame (columns df) (rows out)) f t.
Proof. destruct out as [cs rs]. cbn [columns rows]. intros ->. reflexivity. Qed.

(** X12.  The sign exchange is idempotent: on a table whose price and
    quantity columns are numeric columns, their cells being [NaN] or
    integers of at most 2^53 in absolute value, the exchange of the
    exchanged table succeeds and changes no cell. *)
Theorem sign_exchange_idempotent (df : DataFrame) (str_fromcolumn str_tocolumn : string) :
  str_fromcolumn <> str_tocolumn ->
  has_column df str_fromcolumn = true ->
  has_column df str_tocolumn = true ->
  numeric_columns df str_fromcolumn str_tocolumn ->
  exists once twice,
    fn_exchange_negativesign df str_fromcolumn str_tocolumn = Return once
    /\ fn_exchange_negativesign once str_fromcolumn str_tocolumn = Return twice
    /\ columns twice = columns once
    /\ Forall2 (same_cells once) (rows once) (rows twice).
Proof.
  intros Hd Hf Ht Hnum.
  pose proof (numeric_columns_numbers df _ _ Hnum) as Hn.
  destruct (apply_rows df _ _ Hd Hf Ht (rows df) Hn) as [applied [E X]].
  set (rs' := map2 (written_back df str_fromcolumn str_tocolumn) (rows df) applied) in *.
  exists (mkDataFrame (columns df) rs').
  exists (mkDataFrame (columns df)
            (map2 (written_back df str_fromcolumn str_tocolumn) rs' rs')).
  assert (E1 : fn_exchange_negativesign df str_fromcolumn str_tocolumn
               = Return (mkDataFrame (columns df) rs')).
  { unfold fn_exchange_negativesign. rewrite Hf, Ht. cbn [negb orb].
    rewrite E. reflexivity. }
  split; [exact E1|]. split; [|split; [reflexivity|]].
  - assert (Hp : Forall (fun r => is_number (get_cell df r str_fromcolumn) = true)
                   (rows df)).
    { clear -Hn. induction Hn as [|r rs [H _] _ IH]; constructor; assumption. }
    pose proof (apply_exchanged_rows df _ _ (rows df) rs' Hp X) as A.
    unfold fn_exchange_negativesign.
    change (has_column (mkDataFrame (columns df) rs') str_fromcolumn)
      with (has_column df str_fromcolumn).
    change (has_column (mkDataFrame (columns df) rs') str_tocolumn)
      with (has_column df str_tocolumn).
    rewrite Hf, Ht. cbn [negb orb rows columns].
    change (fn_process_exchange (mkDataFrame (columns df) rs'))
      with (fn_process_exchange df).
    rewrite A. reflexivity.
  - cbn [rows].
    exact (written_back_all_same df _ _ Hf Ht rs').
Qed.

Lemma sign_exchange_idempotent_witness :
  let df := mkDataFrame [mkColumn "UNIT PRICE" DNumeric; mkColumn "QUANTITY" DNumeric]
              [[CNum (-5); CNum 2]; [CNum 3; CNum (-1)]] in
  exists once twice,
    fn_exchange_negativesign df "UNIT PRICE" "QUANTITY" = Return once
    /\ fn_exchange_negativesign once "UNIT PRICE" "QUANTITY" = Return twice
    /\ columns twice = columns once
    /\ Forall2 (same_cells once) (rows once) (rows twice).
Proof.
  intros df.
  refine (sign_exchange_idempotent df "UNIT PRICE" "QUANTITY" _ _ _ _).
  - discriminate.
  - reflexivity.
  - reflexivity.
  - split; [reflexivity|]. split; [reflexivity|]. repeat constructor.
Defined.

End TransformMore.

(** ** More on the missing dates *)

Module MissingDatesMore.

Import Calendar Frame FrameFacts Duplicates DuplicateFacts Transforms TransformFacts
  AnalysisFacts.

Local Open Scope nat_scope.

Lemma from_product_length (levels : list (list cell)) :
  List.length (from_product levels)
  = fold_right Nat.mul 1 (map (@List.length cell) levels).
Proof.
  induction levels as [|l rest IH]; [reflexivity|].
  cbn [from_product map fold_right]. rewrite <- IH. clear IH.
  induction l as [|x l IHl]; [reflexivity|].
  cbn [flat_map List.length]. rewrite length_app, length_map, IHl. lia.
Qed.

Lemma from_product_key_length (levels : list (list cell)) (k : list cell) :
  In k (from_product levels) -> List.length k = List.length levels.
Proof.
  revert k; induction levels as [|l rest IH]; intros k; cbn [from_product].
  - intros [<-|[]]. reflexivity.
  - rewrite in_flat_map. intros [x [_ Hk]]. apply in_map_iff in Hk.
    destruct Hk as [k' [<- Hk']]. cbn [List.length]. rewrite (IH k' Hk'). reflexivity.
Qed.

Lemma NoDup_map_cons (x : cell) (ks : list (list cell)) :
  NoDup ks -> NoDup (map (cons x) ks).
Proof.
  induction 1 as [|k ks Hk _ IH]; cbn [map]; constructor; [|exact IH].
  rewrite in_map_iff. intros [k' [E Hk']]. injection E as ->. contradiction.
Qed.

Lemma from_product_NoDup (levels : list (list cell)) :
  Forall (@NoDup cell) levels -> NoDup (from_product levels).
Proof.
  induction 1 as [|l rest Hl _ IH]; cbn [from_product].
  - constructor; [intros []|constructor].
  - induction Hl as [|x l Hx _ IHl]; cbn [flat_map]; [constructor|].
    apply NoDup_app.
    + apply NoDup_map_cons. exact IH.
    + exact IHl.
    + intros k Hk Hk'. apply in_map_iff in Hk. destruct Hk as [k1 [<- _]].
      apply in_flat_map in Hk'. destruct Hk' as [y [Hy Hk']].
      apply in_map_iff in Hk'. destruct Hk' as [k2 [E _]].
      injection E as -> _. contradiction.
Qed.

Lemma date_range_NoDup (start stop : datetime) : NoDup (date_range start stop).
Proof.
  unfold date_range.
  generalize (Z.to_nat (ordinal stop - ordinal start
                        + (if (micro start <=? micro stop)%Z then 1 else 0))) as n.
  intros n. generalize 0 as i. induction n as [|n IH]; intros i; cbn [seq map].
  - constructor.
  - constructor; [|apply IH].
    rewrite in_map_iff. intros [j [E Hj]]. apply in_seq in Hj.
    injection E as E. lia.
Qed.

Lemma ffill_from_length (last : list cell) (rs : list (list cell)) :
  List.length (ffill_from last rs) = List.length rs.
Proof.
  revert last; induction rs as [|r rs IH]; intros last; [reflexivity|].
  cbn [ffill_from List.length]. rewrite IH. reflexivity.
Qed.

Lemma keys_of_joined_rows (n : nat) (ks fs : list (list cell)) :
  List.length fs = List.length ks ->
  (forall k, In k ks -> List.length k = n) ->
  map (firstn n) (map2 (fun k data => k ++ data) ks fs) = ks.
Proof.
  revert fs; induction ks as [|k ks IH]; intros [|f fs] L H; cbn [map2 map];
    try discriminate; [reflexivity|].
  rewrite IH; [|cbn [List.length] in L; lia|intros x Hx; apply H; right; exact Hx].
  f_equal. rewrite <- (H k (or_introl eq_refl)).
  rewrite firstn_app, Nat.sub_diag, firstn_all. cbn [firstn]. apply app_nil_r.
Qed.

(** X13.  When the filling of the missing dates succeeds, the rows of the
    result are indexed by the product of the days, from the earliest to
    the latest date of the table, and the values of each grouping column:
    one row for each day and each combination of the grouping values, no key
    twice, the date and grouping columns first and the other columns after
    them. *)
Theorem missing_dates_index (df : DataFrame) (str_datecolumn : string)
    (lst_othercolumns : list string) (out : DataFrame) :
  fn_insert_missingdates df str_datecolumn lst_othercolumns = Return out ->
  let index_cols := str_datecolumn :: lst_othercolumns in
  let rs := drop_duplicates df index_cols in
  let dates := Analysis.valid_dates (map (fun r => get_cell df r str_datecolumn) rs) in
  let levels :=
    map (fun col => Analysis.unique (map (fun r => get_cell df r col) rs))
        lst_othercolumns in
  let keys := map (firstn (List.length index_cols)) (rows out) in
  exists lo hi,
    Analysis.earliest dates lo /\ Analysis.latest dates hi
    /\ keys = from_product (date_range lo hi :: levels)
    /\ NoDup keys
    /\ List.length (rows out)
       = List.length (date_range lo hi)
         * fold_right Nat.mul 1 (map (@List.length cell) levels)
    /\ column_names out
       = index_cols
         ++ filter (fun c => negb (Text.mem c index_cols)) (column_names df).
Proof.
  intros H index_cols rs dates levels keys.
  unfold fn_insert_missingdates in H. fold index_cols in H. fold rs in H.
  destruct (negb (forallb (has_column df) index_cols)); [discriminate|].
  destruct (negb (forallb is_date_cell
                    (map (fun r => get_cell df r str_datecolumn) rs)));
    [discriminate|].
  fold dates in H. destruct dates as [|d ds] eqn:Ed; [discriminate|].
  fold levels in H. injection H as <-.
  set (lo := fold_left dt_min ds d). set (hi := fold_left dt_max ds d).
  set (new_index := from_product (date_range lo hi :: levels)).
  set (data_cols := filter (fun c => negb (Text.mem c index_cols)) (column_names df)).
  exists lo, hi.
  assert (K : keys = new_index).
  { unfold keys. cbn [rows]. apply keys_of_joined_rows.
    - rewrite ffill_from_length, length_map. reflexivity.
    - intros k Hk. apply from_product_key_length in Hk. rewrite Hk.
      unfold levels, index_cols. cbn [List.length]. rewrite length_map. reflexivity. }
  split; [apply fold_min_earliest|]. split; [apply fold_max_latest|].
  split; [exact K|]. split; [|split].
  - rewrite K. apply from_product_NoDup. constructor; [apply date_range_NoDup|].
    unfold levels. apply Forall_forall. intros l Hl. apply in_map_iff in Hl.
    destruct Hl as [col [<- _]]. apply NoDup_unique.
  - cbn [rows]. rewrite map2_length.
    + pose proof (from_product_length (date_range lo hi :: levels)) as FL.
      cbn [from_product map fold_right] in FL. exact FL.
    + rewrite ffill_from_length, length_map. reflexivity.
  - transitivity (map col_name
                    (map (fun c => mkColumn c (column_dtype df c))
                       (index_cols ++ data_cols))); [reflexivity|].
    rewrite map_map. cbn [col_name]. apply map_id.
Qed.

Lemma missing_dates_index_witness :
  let day1 := CDate (mkDatetime 738000 0) in
  let day3 := CDate (mkDatetime 738002 0) in
  let df := mkDataFrame [mkColumn "RATE" DNumeric; mkColumn "CURRENCY" DObject;
                         mkColumn "TRANSACTION DATE" DDatetime]
              [[CNum 10; CStr "USD"; day1]; [CNum 20; CStr "EUR"; day3]] in
  exists out,
    fn_insert_missingdates df "TRANSACTION DATE" ["CURRENCY"] = Return out
    /\ List.length (rows out) = 6
    /\ column_names out = ["TRANSACTION DATE"; "CURRENCY"; "RATE"].
Proof.
  intros day1 day3 df.
  destruct (fn_insert_missingdates df "TRANSACTION DATE" ["CURRENCY"]) as [out|e] eqn:E;
    [|vm_compute in E; discriminate E].
  exists out. split; [reflexivity|].
  destruct (missing_dates_index df "TRANSACTION DATE" ["CURRENCY"] out E)
    as [lo [hi [_ [_ [_ [_ [L C]]]]]]].
  vm_compute in E. injection E as <-. split; reflexivity.
Defined.

(** *** No record is lost *)

Lemma map_select {A B : Type} (f : A -> B) (l : list A) (m : list bool) :
  map f (select l m) = select (map f l) m.
Proof.
  revert m; induction l as [|a l IH]; intros [|b m]; cbn [select map]; try reflexivity.
  destruct b; cbn [map]; rewrite IH; reflexivity.
Qed.

Lemma In_select {A : Type} (x : A) (l : list A) (m : list bool) :
  In x (select l m) -> In x l.
Proof.
  revert m; induction l as [|a l IH]; intros [|b m]; cbn [select]; try contradiction.
  destruct b.
  - intros [->|H]; [left; reflexivity | right; exact (IH m H)].
  - intros H. right. exact (IH m H).
Qed.

Lemma drop_duplicates_keys (df : DataFrame) (index_cols : list string) :
  NoDup (map (index_key df index_cols) (drop_duplicates df index_cols)).
Proof.
  unfold drop_duplicates. rewrite map_select.
  apply (DuplicateMore.first_occurrences (map (index_key df index_cols) (rows df)) []).
Qed.

Lemma find_by_key {A : Type} (key : A -> list cell) (rs : list A) (r : A) :
  NoDup (map key rs) -> In r rs ->
  find (fun r0 => key_eqb (key r0) (key r)) rs = Some r.
Proof.
  induction rs as [|r0 rs IH]; intros Hnd Hin; [contradiction|].
  cbn [map] in Hnd. inversion Hnd as [|? ? Hnot Hrest]; subst.
  cbn [find]. destruct (key_eqb (key r0) (key r)) eqn:E.
  - destruct Hin as [->|Hin]; [reflexivity|].
    apply key_eqb_eq in E. exfalso. apply Hnot. rewrite E. apply in_map. exact Hin.
  - destruct Hin as [->|Hin]; [rewrite key_eqb_refl in E; discriminate|].
    apply IH; assumption.
Qed.

Lemma In_from_product (levels : list (list cell)) (k : list cell) :
  Forall2 (fun x l => In x l) k levels -> In k (from_product levels).
Proof.
  induction 1 as [|x l k levels Hx _ IH]; cbn [from_product].
  - left. reflexivity.
  - apply in_flat_map. exists x. split; [exact Hx|]. apply in_map. exact IH.
Qed.

Lemma In_valid_dates (d : datetime) (cells : list cell) :
  In d (Analysis.valid_dates cells) <-> In (CDate d) cells.
Proof.
  unfold Analysis.valid_dates. rewrite in_flat_map. split.
  - intros [c [Hc Hd]]. destruct c; try contradiction.
    destruct Hd as [->|[]]. exact Hc.
  - intros H. exists (CDate d). split; [exact H | left; reflexivity].
Qed.

(** A day between the two ends, at the time of day of the first end, is a
    day of the range. *)
Lemma In_date_range (lo hi d : datetime) :
  dt_leb lo d = true -> dt_leb d hi = true -> micro d = micro lo ->
  In (CDate d) (date_range lo hi).
Proof.
  unfold dt_leb. intros H1 H2 Hm. unfold date_range.
  apply in_map_iff. exists (Z.to_nat (ordinal d - ordinal lo)).
  apply orb_prop in H1. apply orb_prop in H2.
  assert (O1 : (ordinal lo <= ordinal d)%Z).
  { destruct H1 as [H1|H1]; [apply Z.ltb_lt in H1; lia|].
    apply andb_prop in H1. destruct H1 as [H1 _]. apply Z.eqb_eq in H1. lia. }
  split.
  - rewrite Z2Nat.id by lia. destruct d as [od md]. cbn [ordinal micro] in *.
    subst md. f_equal. f_equal. lia.
  - apply in_seq. split; [lia|]. cbn [Nat.add].
    apply Z2Nat.inj_lt; [lia| |].
    + destruct (micro lo <=? micro hi)%Z eqn:E.
      * destruct H2 as [H2|H2]; [apply Z.ltb_lt in H2; lia|].
        apply andb_prop in H2. destruct H2 as [H2 _]. apply Z.eqb_eq in H2. lia.
      * destruct H2 as [H2|H2]; [apply Z.ltb_lt in H2; lia|].
        apply andb_prop in H2. destruct H2 as [H2 H3]. apply Z.leb_le in H3.
        apply Z.leb_gt in E. lia.
    + destruct (micro lo <=? micro hi)%Z eqn:E.
      * destruct H2 as [H2|H2]; [apply Z.ltb_lt in H2; lia|].
        apply andb_prop in H2. destruct H2 as [H2 _]. apply Z.eqb_eq in H2. lia.
      * destruct H2 as [H2|H2]; [apply Z.ltb_lt in H2; lia|].
        apply andb_prop in H2. destruct H2 as [H2 H3]. apply Z.leb_le in H3.
        apply Z.leb_gt in E. lia.
Qed.

Lemma nth_map2 {A B C : Type} (f : A -> B -> C) (l : list A) (m : list B)
    (j : nat) (a : A) (b : B) (c : C) :
  List.length l = List.length m -> j < List.length l ->
  nth j (map2 f l m) c = f (nth j l a) (nth j m b).
Proof.
  revert m j; induction l as [|x l IH]; intros [|y m] j L H; cbn [List.length] in *;
    try lia.
  destruct j as [|j]; cbn [map2 nth]; [reflexivity|]. apply IH; lia.
Qed.

(** Forward filling keeps the cells that are not missing. *)
Lemma filled_keeps_cells (g : list cell -> list cell) (n : nat)
    (ks : list (list cell)) (k : list cell) (last : list cell) :
  (forall x, List.length (g x) = n) -> List.length last = n ->
  In k ks ->
  exists data,
    In (k ++ data) (map2 (fun k data => k ++ data) ks (ffill_from last (map g ks)))
    /\ forall j, nth j (g k) CNull <> CNull -> nth j data CNull = nth j (g k) CNull.
Proof.
  intros Hg. revert last; induction ks as [|k0 ks IH]; intros last Hl Hin;
    [contradiction|].
  cbn [map ffill_from map2].
  set (r' := map2 (fun c l => if Analysis.is_null c then l else c) (g k0) last).
  assert (Lr : List.length r' = n).
  { unfold r'. rewrite map2_length; [apply Hg | rewrite Hg, Hl; reflexivity]. }
  destruct Hin as [->|Hin].
  - exists r'. split; [left; reflexivity|].
    intros j Hj.
    assert (Hlt : j < List.length (g k)).
    { destruct (Nat.ltb_spec j (List.length (g k))) as [H|H]; [exact H|].
      rewrite nth_overflow in Hj by exact H. contradiction. }
    unfold r'. rewrite (nth_map2 _ _ _ j CNull CNull CNull);
      [|rewrite Hg, Hl; reflexivity|exact Hlt].
    destruct (nth j (g k) CNull); cbn [Analysis.is_null]; try reflexivity.
    contradiction.
  - destruct (IH r' Lr Hin) as [data [Hd Hc]].
    exists data. split; [right; exact Hd | exact Hc].
Qed.

Lemma index_of_app_left (c : string) (l m : list string) (j : nat) :
  index_of c l = Some j -> index_of c (l ++ m) = Some j.
Proof.
  revert j; induction l as [|x l IH]; intros j; cbn [index_of app]; [discriminate|].
  destruct (c =? x)%string; [trivial|].
  destruct (index_of c l) as [i|]; [|discriminate].
  intros H. rewrite (IH i eq_refl). exact H.
Qed.

Lemma index_of_app_right (c : string) (l m : list string) :
  index_of c l = None ->
  index_of c (l ++ m) = option_map (Nat.add (List.length l)) (index_of c m).
Proof.
  induction l as [|x l IH]; cbn [index_of app List.length]; intros H.
  - destruct (index_of c m); reflexivity.
  - destruct (c =? x)%string; [discriminate|].
    destruct (index_of c l); [discriminate|].
    rewrite (IH eq_refl). destruct (index_of c m); reflexivity.
Qed.

Lemma nth_map_names (df : DataFrame) (r : row) (names : list string) (c : string)
    (j : nat) :
  index_of c names = Some j ->
  nth j (map (get_cell df r) names) CNull = get_cell df r c.
Proof.
  intros H. pose proof (index_of_lt _ _ _ H) as L.
  pose proof (index_of_nth _ _ _ H) as N.
  rewrite (nth_indep _ CNull (get_cell df r EmptyString)) by (rewrite length_map; exact L).
  rewrite map_nth, N. reflexivity.
Qed.

Lemma index_of_filter (c : string) (p : string -> bool) (names : list string) :
  p c = true ->
  (index_of c names = None -> index_of c (filter p names) = None)
  /\ (forall i, index_of c names = Some i -> exists j, index_of c (filter p names) = Some j).
Proof.
  intros Hp. induction names as [|x names [IH1 IH2]]; cbn [index_of filter].
  - split; [trivial | discriminate].
  - destruct (String.eqb_spec c x) as [<-|Hx].
    + split; [discriminate|]. intros i _. rewrite Hp. cbn [index_of].
      rewrite String.eqb_refl. eauto.
    + destruct (p x); cbn [index_of].
      * destruct (String.eqb_spec c x) as [->|_]; [contradiction|].
        destruct (index_of c names) as [i|].
        -- split; [discriminate|]. intros i' _.
           destruct (IH2 i eq_refl) as [j ->]. cbn [option_map]. eauto.
        -- split; [|discriminate]. intros _. rewrite IH1; reflexivity.
      * destruct (index_of c names) as [i|].
        -- split; [discriminate|]. intros i' _. exact (IH2 i eq_refl).
        -- split; [|discriminate]. intros _. apply IH1. reflexivity.
Qed.

Lemma key_in_levels (df : DataFrame) (rs : list row) (r : row) (cols : list string) :
  In r rs ->
  Forall2 (fun x l => In x l) (map (get_cell df r) cols)
    (map (fun col => Analysis.unique (map (fun r => get_cell df r col) rs)) cols).
Proof.
  intros Hr. induction cols as [|col cols IH]; cbn [map]; constructor; [|exact IH].
  apply In_unique. apply (in_map (fun r => get_cell df r col)). exact Hr.
Qed.

(** With grouping columns the new index is matched against the keys of the
    rows. *)
Lemma reindex_row_grouped (df : DataFrame) (date : string) (others data_cols : list string)
    (rs : list row) (k : list cell) :
  others <> [] ->
  reindex_row df (date :: others) data_cols rs k
  = match find (fun r => Duplicates.key_eqb (index_key df (date :: others) r) k) rs with
    | Some r => map (get_cell df r) data_cols
    | None => map (fun _ => CNull) data_cols
    end.
Proof. intros H. destruct others; [contradiction|reflexivity]. Qed.

(** X14.  With at least one grouping column, a date column of time stamps
    and the dates of the table all at the same time of day, the filling of
    the missing dates loses no record: for every record with a date and
    grouping values (none of them missing) that is the first of its key,
    the result holds a row with the same date and grouping values and with
    every cell of the record that is not missing.  (Without a grouping
    column every cell outside the date column is lost, see below.) *)
Theorem missing_dates_keep_records (df : DataFrame) (str_datecolumn : string)
    (lst_othercolumns : list string) (out : DataFrame) (r : row) (d : datetime) :
  fn_insert_missingdates df str_datecolumn lst_othercolumns = Return out ->
  lst_othercolumns <> [] ->
  column_dtype df str_datecolumn = DDatetime ->
  (forall x y,
      In x (Analysis.valid_dates (column_values df str_datecolumn)) ->
      In y (Analysis.valid_dates (column_values df str_datecolumn)) ->
      micro x = micro y) ->
  In r (drop_duplicates df (str_datecolumn :: lst_othercolumns)) ->
  get_cell df r str_datecolumn = CDate d ->
  Forall (fun c => get_cell df r c <> CNull) lst_othercolumns ->
  exists r',
    In r' (rows out)
    /\ (forall c, In c (str_datecolumn :: lst_othercolumns) ->
                  get_cell out r' c = get_cell df r c)
    /\ (forall c, get_cell df r c <> CNull -> get_cell out r' c = get_cell df r c).
Proof.
  intros H Hne _ Hmicro Hr Hd _.
  set (index_cols := str_datecolumn :: lst_othercolumns) in *.
  set (rs := drop_duplicates df index_cols) in *.
  unfold fn_insert_missingdates in H. fold index_cols in H. fold rs in H.
  destruct (negb (forallb (has_column df) index_cols)); [discriminate|].
  destruct (negb (forallb is_date_cell
                    (map (fun r => get_cell df r str_datecolumn) rs)));
    [discriminate|].
  set (dates := Analysis.valid_dates (map (fun r => get_cell df r str_datecolumn) rs)) in *.
  destruct dates as [|d0 ds] eqn:Ed; [discriminate|].
  set (lo := fold_left dt_min ds d0) in *. set (hi := fold_left dt_max ds d0) in *.
  set (levels := map (fun col => Analysis.unique (map (fun r => get_cell df r col) rs))
                   lst_othercolumns) in *.
  set (data_cols := filter (fun c => negb (Text.mem c index_cols)) (column_names df)) in *.
  set (new_index := from_product (date_range lo hi :: levels)) in *.
  set (g := reindex_row df index_cols data_cols rs) in *.
  injection H as <-.
  (* the dates of the kept rows are dates of the table *)
  assert (Sub : forall x, In x (d0 :: ds) ->
                  In x (Analysis.valid_dates (column_values df str_datecolumn))).
  { intros x Hx. rewrite <- Ed in Hx. unfold dates in Hx.
    apply In_valid_dates in Hx. apply In_valid_dates.
    apply in_map_iff in Hx. destruct Hx as [r0 [E Hr0]].
    unfold column_values. apply in_map_iff. exists r0. split; [exact E|].
    unfold rs, drop_duplicates in Hr0. exact (In_select _ _ _ Hr0). }
  assert (Hdin : In d (d0 :: ds)).
  { rewrite <- Ed. unfold dates. apply In_valid_dates. rewrite <- Hd.
    apply (in_map (fun r => get_cell df r str_datecolumn)). exact Hr. }
  destruct (fold_min_earliest ds d0) as [Hlo_in Hlo].
  destruct (fold_max_latest ds d0) as [Hhi_in Hhi].
  fold lo in Hlo_in, Hlo. fold hi in Hhi_in, Hhi.
  (* the key of the record is a key of the new index *)
  set (k := index_key df index_cols r).
  assert (Hk : In k new_index).
  { unfold new_index, k, index_key, index_cols. cbn [map]. apply In_from_product.
    constructor.
    - rewrite Hd. apply In_date_range; [apply Hlo; exact Hdin | apply Hhi; exact Hdin|].
      apply Hmicro; apply Sub; assumption.
    - apply key_in_levels. exact Hr. }
  assert (Hg : forall x, List.length (g x) = List.length data_cols).
  { intros x. unfold g, index_cols. rewrite reindex_row_grouped by exact Hne.
    destruct (find _ rs); apply length_map. }
  destruct (filled_keeps_cells g (List.length data_cols) new_index k
              (map (fun _ => CNull) data_cols) Hg (length_map _ _) Hk)
    as [data [Hin Hcells]].
  assert (Gk : g k = map (get_cell df r) data_cols).
  { unfold g, index_cols. rewrite reindex_row_grouped by exact Hne.
    fold index_cols. unfold k.
    rewrite (find_by_key (index_key df index_cols) rs r);
      [reflexivity | apply drop_duplicates_keys | exact Hr]. }
  assert (Lk : List.length k = List.length index_cols).
  { unfold k, index_key. apply length_map. }
  assert (Names : forall row c,
             get_cell (mkDataFrame
                         (map (fun c => mkColumn c (column_dtype df c))
                              (index_cols ++ data_cols)) row) (k ++ data) c
             = match index_of c (index_cols ++ data_cols) with
               | Some i => nth i (k ++ data) CNull
               | None => CNull
               end).
  { intros row c. unfold get_cell, column_names. cbn [columns].
    rewrite map_map. cbn [col_name]. rewrite map_id. reflexivity. }
  assert (Index : forall c j, index_of c index_cols = Some j ->
            forall row,
            get_cell (mkDataFrame
                        (map (fun c => mkColumn c (column_dtype df c))
                             (index_cols ++ data_cols)) row) (k ++ data) c
            = get_cell df r c).
  { intros c j Hj row. rewrite Names, (index_of_app_left _ _ _ _ Hj).
    rewrite app_nth1 by (rewrite Lk; exact (index_of_lt _ _ _ Hj)).
    unfold k, index_key. apply nth_map_names. exact Hj. }
  exists (k ++ data). split; [exact Hin|]. split.
  - intros c Hc.
    destruct (index_of c index_cols) as [j|] eqn:Ej.
    + exact (Index c j Ej _).
    + apply index_of_none in Ej. exfalso.
      assert (X : Text.mem c index_cols = true).
      { unfold Text.mem. apply existsb_exists. exists c. split; [exact Hc|].
        apply String.eqb_refl. }
      congruence.
  - intros c Hc.
    destruct (index_of c index_cols) as [j|] eqn:Ej; [exact (Index c j Ej _)|].
    rewrite Names, (index_of_app_right _ _ _ Ej).
    assert (Hp : (fun c => negb (Text.mem c index_cols)) c = true).
    { cbn beta. apply index_of_none in Ej. rewrite Ej. reflexivity. }
    destruct (index_of_filter c (fun c => negb (Text.mem c index_cols))
                (column_names df) Hp) as [F1 F2].
    destruct (index_of c (column_names df)) as [i|] eqn:Ei.
    + destruct (F2 i eq_refl) as [j Hj]. fold data_cols in Hj. rewrite Hj.
      cbn [option_map]. rewrite app_nth2 by (rewrite Lk; lia).
      replace (List.length index_cols + j - List.length k) with j by (rewrite Lk; lia).
      assert (Cell : nth j (g k) CNull = get_cell df r c).
      { rewrite Gk. apply nth_map_names. exact Hj. }
      rewrite Hcells; [exact Cell | rewrite Cell; exact Hc].
    + exfalso. apply Hc. unfold get_cell. rewrite Ei. reflexivity.
Qed.

Lemma missing_dates_keep_records_witness :
  let day1 := mkDatetime 738000 0 in
  let day3 := mkDatetime 738002 0 in
  let df := mkDataFrame [mkColumn "RATE" DNumeric; mkColumn "CURRENCY" DObject;
                         mkColumn "TRANSACTION DATE" DDatetime]
              [[CNum 10; CStr "USD"; CDate day1]; [CNum 20; CStr "EUR"; CDate day3]] in
  exists out r',
    fn_insert_missingdates df "TRANSACTION DATE" ["CURRENCY"] = Return out
    /\ In r' (rows out)
    /\ get_cell out r' "RATE" = CNum 20
    /\ get_cell out r' "CURRENCY" = CStr "EUR".
Proof.
  intros day1 day3 df.
  destruct (fn_insert_missingdates df "TRANSACTION DATE" ["CURRENCY"]) as [out|e] eqn:E;
    [|vm_compute in E; discriminate E].
  destruct (missing_dates_keep_records df "TRANSACTION DATE" ["CURRENCY"] out
              [CNum 20; CStr "EUR"; CDate day3] day3 E)
    as [r' [Hin [Hidx Hcells]]].
  - discriminate.
  - reflexivity.
  - intros x y Hx Hy. vm_compute in Hx, Hy.
    destruct Hx as [<-|[<-|[]]]; destruct Hy as [<-|[<-|[]]]; reflexivity.
  - vm_compute. right. left. reflexivity.
  - reflexivity.
  - constructor; [vm_compute; discriminate | constructor].
  - exists out, r'. split; [reflexivity|]. split; [exact Hin|]. split.
    + apply (Hcells "RATE"). vm_compute. discriminate.
    + apply (Hidx "CURRENCY"). right. left. reflexivity.
Defined.

(** A record at another time of day than the earliest one is not on the
    grid of days, and is lost. *)
Example missing_dates_drop_other_times :
  let df := mkDataFrame [mkColumn "TRANSACTION DATE" DDatetime;
                         mkColumn "CURRENCY" DObject; mkColumn "RATE" DNumeric]
              [[CDate (mkDatetime 738000 0); CStr "USD"; CNum 10];
               [CDate (mkDatetime 738001 3600000000); CStr "USD"; CNum 20]] in
  fn_insert_missingdates df "TRANSACTION DATE" ["CURRENCY"]
  = Return (mkDataFrame (columns df)
              [[CDate (mkDatetime 738000 0); CStr "USD"; CNum 10];
               [CDate (mkDatetime 738001 0); CStr "USD"; CNum 10]]).
Proof. reflexivity. Qed.

(** Without a grouping column the table is indexed by its dates alone, none
    of which is a key of the new index: the result has a row for each day
    and no cell of the records. *)
Example missing_dates_without_groups :
  let df := mkDataFrame [mkColumn "TRANSACTION DATE" DDatetime; mkColumn "RATE" DNumeric]
              [[CDate (mkDatetime 738000 0); CNum 10];
               [CDate (mkDatetime 738002 0); CNum 20]] in
  fn_insert_missingdates df "TRANSACTION DATE" []
  = Return (mkDataFrame (columns df)
              [[CDate (mkDatetime 738000 0); CNull];
               [CDate (mkDatetime 738001 0); CNull];
               [CDate (mkDatetime 738002 0); CNull]]).
Proof. reflexivity. Qed.

End MissingDatesMore.

(** ** More on the yearly summary and the concentration analysis *)

Module AnalysisMore.

Import Calendar Frame FrameFacts Analysis Totals AnalysisFacts.

Local Open Scope Z_scope.

(** *** Sums by key *)

Lemma sum_Z_cons (x : Z) (l : list Z) : sum_Z (x :: l) = x + sum_Z l.
Proof. reflexivity. Qed.

Lemma sum_Z_app (l m : list Z) : sum_Z (l ++ m) = sum_Z l + sum_Z m.
Proof.
  induction l as [|a l IH]; [reflexivity|].
  cbn [app]. rewrite !sum_Z_cons, IH. lia.
Qed.

Lemma sum_Z_map_add {A : Type} (f g : A -> Z) (l : list A) :
  sum_Z (map (fun a => f a + g a) l) = sum_Z (map f l) + sum_Z (map g l).
Proof.
  induction l as [|a l IH]; [reflexivity|].
  cbn [map]. rewrite !sum_Z_cons, IH. lia.
Qed.

Lemma sum_Z_zero {A : Type} (l : list A) : sum_Z (map (fun _ => 0) l) = 0.
Proof.
  induction l as [|a l IH]; [reflexivity|]. cbn [map]. rewrite sum_Z_cons, IH. lia.
Qed.

(** One key of a list without repetition is hit once. *)
Lemma sum_Z_one_key (x : cell) (v : Z) (ks : list cell) :
  NoDup ks ->
  sum_Z (map (fun k => if cell_eqb x k then v else 0) ks)
  = if cell_mem x ks then v else 0.
Proof.
  induction 1 as [|k ks Hk Hnd IH]; [reflexivity|].
  cbn [map]. rewrite sum_Z_cons, IH. unfold cell_mem. cbn [existsb]. fold (cell_mem x ks).
  destruct (cell_eqb x k) eqn:E; cbn [orb].
  - apply cell_eqb_eq in E. subst k.
    destruct (cell_mem x ks) eqn:M; [|lia].
    apply cell_mem_In in M. contradiction.
  - destruct (cell_mem x ks); lia.
Qed.

(** The sums of the groups of a list add up to the sum over the elements
    whose key is one of the keys. *)
Lemma sum_by_key {A : Type} (key : A -> cell) (val : A -> Z) (ks : list cell)
    (l : list A) :
  NoDup ks ->
  sum_Z (map (fun k => sum_Z (map val (filter (fun a => cell_eqb (key a) k) l))) ks)
  = sum_Z (map val (filter (fun a => cell_mem (key a) ks) l)).
Proof.
  intros Hnd. induction l as [|a l IH].
  - cbn [filter map]. apply sum_Z_zero.
  - assert (E : map (fun k => sum_Z (map val (filter (fun a => cell_eqb (key a) k) (a :: l)))) ks
                = map (fun k => (if cell_eqb (key a) k then val a else 0)
                                + sum_Z (map val (filter (fun a => cell_eqb (key a) k) l)))
                    ks).
    { apply map_ext. intros k. cbn [filter].
      destruct (cell_eqb (key a) k); cbn [map]; rewrite ?sum_Z_cons; lia. }
    rewrite E, sum_Z_map_add, IH, sum_Z_one_key by exact Hnd.
    cbn [filter]. destruct (cell_mem (key a) ks); cbn [map]; rewrite ?sum_Z_cons; lia.
Qed.

Lemma filter_true {A : Type} (f : A -> bool) (l : list A) :
  (forall x, In x l -> f x = true) -> filter f l = l.
Proof.
  induction l as [|a l IH]; intros H; cbn [filter]; [reflexivity|].
  rewrite (H a) by (left; reflexivity). f_equal. apply IH.
  intros x Hx; apply H; right; exact Hx.
Qed.

Lemma filter_and {A : Type} (p q : A -> bool) (l : list A) :
  filter (fun a => p a && q a) l = filter q (filter p l).
Proof.
  induction l as [|a l IH]; [reflexivity|]. cbn [filter].
  destruct (p a); cbn [andb filter]; [destruct (q a)|]; rewrite IH; reflexivity.
Qed.

(** *** The concentration analysis *)

(** X15.  When the amounts of the grouped records of a year are integers
    whose absolute values add up to at most 2^24 (no sum of them is rounded
    or wraps around), the total of the year, against which the Top-N amounts
    are measured, is the total of the amounts of all these records: the
    totals of the partners lose no record and count none twice. *)
Theorem year_total_is_total_of_records (es : list entry) (year : cell) :
  exact_sums (map entry_amount (filter (in_year year) es)) ->
  sum_Z (partner_totals es year)
  = sum_Z (map entry_amount (filter (in_year year) es)).
Proof.
  intros _. unfold partner_totals, partners_of.
  set (l := filter (in_year year) es).
  assert (E : map (fun p => sum_Z (map entry_amount
                     (filter (fun e => in_year year e && cell_eqb (entry_partner e) p) es)))
                (unique (map entry_partner l))
              = map (fun p => sum_Z (map entry_amount
                     (filter (fun e => cell_eqb (entry_partner e) p) l)))
                  (unique (map entry_partner l))).
  { apply map_ext. intros p. unfold l. rewrite <- filter_and. reflexivity. }
  rewrite E, sum_by_key by apply NoDup_unique.
  rewrite filter_true; [reflexivity|].
  intros e He. apply cell_mem_In, In_unique. apply in_map. exact He.
Qed.

Lemma insert_desc_perm (x : Z) (l : list Z) : Permutation (insert_desc x l) (x :: l).
Proof.
  induction l as [|y l IH]; cbn [insert_desc]; [apply Permutation_refl|].
  destruct (y <=? x); [apply Permutation_refl|].
  apply (perm_trans (perm_skip y IH)). apply perm_swap.
Qed.

Lemma sort_desc_perm (l : list Z) : Permutation (sort_desc l) l.
Proof.
  unfold sort_desc. induction l as [|x l IH]; cbn [fold_right]; [constructor|].
  apply (perm_trans (insert_desc_perm x _)). constructor. exact IH.
Qed.

Lemma insert_desc_descending (x : Z) (l : list Z) :
  descending l -> descending (insert_desc x l).
Proof.
  unfold descending. induction 1 as [|y l Hs IH Hy]; cbn [insert_desc].
  - constructor; constructor.
  - destruct (Z.leb_spec y x) as [L|L].
    + constructor; [constructor; assumption|].
      constructor; [exact L|].
      rewrite Forall_forall in *. intros b Hb. specialize (Hy b Hb). lia.
    + constructor; [exact IH|].
      rewrite Forall_forall in *. intros b Hb.
      apply (Permutation_in _ (insert_desc_perm x l)) in Hb.
      destruct Hb as [<-|Hb]; [lia | exact (Hy b Hb)].
Qed.

Lemma sort_desc_descending (l : list Z) : descending (sort_desc l).
Proof.
  unfold sort_desc. induction l as [|x l IH]; cbn [fold_right].
  - constructor.
  - apply insert_desc_descending. exact IH.
Qed.

Lemma descending_split (l1 l2 : list Z) :
  descending (l1 ++ l2) -> forall a b, In a l1 -> In b l2 -> b <= a.
Proof.
  unfold descending. induction l1 as [|x l1 IH]; intros H a b Ha Hb; [contradiction|].
  cbn [app] in H. inversion H as [|? ? Hs Hx]; subst.
  destruct Ha as [<-|Ha].
  - rewrite Forall_forall in Hx. apply Hx. apply in_or_app. right. exact Hb.
  - exact (IH Hs a b Ha Hb).
Qed.

Lemma sum_Z_perm (l m : list Z) : Permutation l m -> sum_Z l = sum_Z m.
Proof.
  induction 1 as [|x l m _ IH|x y l|l m n _ IH1 _ IH2];
    rewrite ?sum_Z_cons; lia.
Qed.

Lemma year_total_is_total_of_records_witness :
  let es := [(CNum 2021, CStr "a", 50); (CNum 2021, CStr "b", 30);
             (CNum 2021, CStr "a", 20); (CNum 2022, CStr "c", 5)] in
  partner_totals es (CNum 2021) = [70; 30]
  /\ sum_Z (partner_totals es (CNum 2021))
     = sum_Z (map entry_amount (filter (in_year (CNum 2021)) es)).
Proof.
  intros es. split; [reflexivity|].
  refine (year_total_is_total_of_records es (CNum 2021) _).
  unfold exact_sums. vm_compute. discriminate.
Defined.

(** X16.  The Top-N amount of a year is the sum of N of the totals of its
    partners, none of which is smaller than a total left out: the N largest
    totals (all of them when the year has fewer than N partners). *)
Theorem top_amount_is_sum_of_largest (es : list entry) (year : cell) (top_n : nat) :
  exists top rest,
    Permutation (top ++ rest) (partner_totals es year)
    /\ List.length top = Nat.min top_n (List.length (partners_of es year))
    /\ (forall a b, In a top -> In b rest -> b <= a)
    /\ top_Total_Amount (top_row_of es year top_n) = sum_Z top.
Proof.
  set (s := sort_desc (partner_totals es year)).
  exists (firstn top_n s), (skipn top_n s).
  rewrite firstn_skipn. split; [apply sort_desc_perm|]. split; [|split].
  - rewrite length_firstn. unfold s. rewrite year_data_length. reflexivity.
  - apply descending_split. rewrite firstn_skipn. apply sort_desc_descending.
  - reflexivity.
Qed.

Lemma sum_Z_nonneg (l : list Z) : (forall a, In a l -> 0 <= a) -> 0 <= sum_Z l.
Proof.
  induction l as [|x l IH]; intros H; [cbn; lia|]. rewrite sum_Z_cons.
  assert (0 <= x) by (apply H; left; reflexivity).
  assert (0 <= sum_Z l) by (apply IH; intros a Ha; apply H; right; exact Ha).
  lia.
Qed.

(** X17.  When the amounts of the grouped records of a year are integers
    whose absolute values add up to at most 2^24 (no sum of them is rounded
    or wraps around) and no partner of the year has a negative total, the
    Top-N amount lies between 0 and the total of the year, and the
    percentage, the quotient the code then rounds, between 0 and 100. *)
Theorem top_percentage_bounds (es : list entry) (year : cell) (top_n : nat) :
  exact_sums (map entry_amount (filter (in_year year) es)) ->
  (forall a, In a (partner_totals es year) -> 0 <= a) ->
  let line := top_row_of es year top_n in
  0 <= top_Total_Amount line <= sum_Z (partner_totals es year)
  /\ (0 <= top_Percentage line)%Q /\ (top_Percentage line <= 100)%Q.
Proof.
  intros _ Hpos line.
  set (s := sort_desc (partner_totals es year)).
  assert (Hs : forall a, In a s -> 0 <= a).
  { intros a Ha. apply Hpos. exact (Permutation_in _ (sort_desc_perm _) Ha). }
  assert (Htop : 0 <= sum_Z (firstn top_n s)).
  { apply sum_Z_nonneg. intros a Ha. apply Hs.
    rewrite <- (firstn_skipn top_n s). apply in_or_app. left. exact Ha. }
  assert (Hrest : 0 <= sum_Z (skipn top_n s)).
  { apply sum_Z_nonneg. intros a Ha. apply Hs.
    rewrite <- (firstn_skipn top_n s). apply in_or_app. right. exact Ha. }
  assert (Hsum : sum_Z (firstn top_n s) + sum_Z (skipn top_n s)
                 = sum_Z (partner_totals es year)).
  { rewrite <- sum_Z_app, firstn_skipn. apply sum_Z_perm, sort_desc_perm. }
  unfold line, top_row_of. cbn [top_Total_Amount top_Percentage]. fold s.
  split; [lia|].
  unfold percentage_of.
  destruct (Z.ltb_spec 0 (sum_Z (partner_totals es year))) as [Ht|Ht].
  - unfold Qle. cbn [Qnum Qden]. rewrite Z2Pos.id by exact Ht. split; lia.
  - unfold Qle. cbn [Qnum Qden]. split; lia.
Qed.

Lemma top_percentage_bounds_witness :
  let es := [(CNum 2021, CStr "a", 50); (CNum 2021, CStr "b", 30);
             (CNum 2021, CStr "a", 20); (CNum 2022, CStr "c", 5)] in
  let line := top_row_of es (CNum 2021) 1 in
  top_Total_Amount line = 70
  /\ (0 <= top_Percentage line)%Q /\ (top_Percentage line <= 100)%Q.
Proof.
  intros es line. split; [reflexivity|].
  refine (proj2 (top_percentage_bounds es (CNum 2021) 1 _ _)).
  - unfold exact_sums. vm_compute. discriminate.
  - intros a Ha. vm_compute in Ha.
    destruct Ha as [<-|[<-|[]]]; lia.
Defined.

(** *** The yearly summary *)

Lemma sum_cells_amounts (l : list cell) : sum_cells l = sum_Z (map amount_of l).
Proof.
  induction l as [|c l IH]; [reflexivity|].
  cbn [map]. rewrite sum_Z_cons, <- IH.
  destruct c; reflexivity.
Qed.

Lemma nth_map_at {A B : Type} (f : A -> B) (l : list A) (j : nat) (a : A) (b : B) :
  (j < List.length l)%nat -> nth j (map f l) b = f (nth j l a).
Proof.
  revert j; induction l as [|x l IH]; intros j H; cbn [List.length] in H; [lia|].
  destruct j as [|j]; cbn [map nth]; [reflexivity|]. apply IH. lia.
Qed.

Lemma index_of_tail (c : string) (names : list string) (pre : list string) (j : nat) :
  index_of c pre = None -> index_of c names = Some j ->
  index_of c (pre ++ names) = Some (List.length pre + j)%nat.
Proof.
  intros Hp Hj. induction pre as [|x pre IH]; cbn [app index_of List.length] in *.
  - exact Hj.
  - destruct (c =? x)%string; [discriminate|].
    destruct (index_of c pre); [discriminate|].
    rewrite (IH eq_refl). reflexivity.
Qed.

(** X18.  In a yearly summary that is not empty, the sums of a column whose
    cells are integers (or missing) with absolute values that add up to at
    most 2^24 (no sum of them is rounded or wraps around) add up, over the
    years, to the sum of that column over the records that have a year:
    every such record is counted in one year, and the records without a
    year in none. *)
Theorem yearly_sums_add_up (self : QuickAnalysisEngine) (df : DataFrame)
    (category c : string) :
  let out := _generate_yearly_summary self df category in
  columns out <> [] ->
  In c (get_numeric_columns df (Some (exclude_patterns self))) ->
  c <> DATE_RANGE ->
  Forall (fun v => is_amount v = true) (column_values df c) ->
  exact_sums (map amount_of (column_values df c)) ->
  sum_cells (column_values out c)
  = sum_cells (map (fun r => get_cell df r c) (dated_rows df)).
Proof.
  intros out Hne Hc Hdr _ _. subst out. unfold _generate_yearly_summary in *.
  destruct (negb (has_column df YEAR)); [contradiction Hne; reflexivity|].
  destruct (get_numeric_columns df (Some (exclude_patterns self))) as [|c0 cs];
    [contradiction Hc|].
  set (cols := c0 :: cs) in *.
  destruct (Text.mem YEAR cols) eqn:Ey; [contradiction Hne; reflexivity|].
  destruct (negb (homogeneous (dropna (column_values df YEAR))));
    [contradiction Hne; reflexivity|].
  cbn [orb]. clear Hne.
  assert (Hcy : c <> YEAR).
  { intros ->. unfold Text.mem in Ey.
    assert (X : existsb (String.eqb YEAR) cols = true).
    { apply existsb_exists. exists YEAR. split; [exact Hc | apply String.eqb_refl]. }
    congruence. }
  destruct (index_of c cols) as [j|] eqn:Ej.
  2:{ apply index_of_none in Ej. exfalso.
      assert (X : Text.mem c cols = true).
      { unfold Text.mem. apply existsb_exists. exists c.
        split; [exact Hc | apply String.eqb_refl]. }
      congruence. }
  (* the cell of the column in the line of a year *)
  assert (Cell : forall cols' y,
            get_cell (mkDataFrame
                        (mkColumn YEAR (column_dtype df YEAR)
                           :: mkColumn DATE_RANGE DObject
                           :: map (fun c => mkColumn c DNumeric) cols) cols')
              (summary_row df cols y) c
            = CNum (year_sum df y c)).
  { intros cols' y. unfold get_cell, column_names. cbn [columns map col_name].
    rewrite map_map. cbn [col_name]. rewrite map_id.
    change (YEAR :: DATE_RANGE :: cols) with ([YEAR; DATE_RANGE] ++ cols).
    rewrite (index_of_tail c cols [YEAR; DATE_RANGE] j); [| |exact Ej].
    - cbn [List.length Nat.add]. unfold summary_row. cbn [nth].
      pose proof (index_of_lt _ _ _ Ej) as L.
      pose proof (index_of_nth _ _ _ Ej) as N.
      rewrite (nth_map_at _ cols j EmptyString CNull L), N.
      destruct (String.eqb_spec c DATE_RANGE) as [->|_]; [contradiction|reflexivity].
    - cbn [index_of].
      destruct (String.eqb_spec c YEAR) as [->|_]; [contradiction|].
      destruct (String.eqb_spec c DATE_RANGE) as [->|_]; [contradiction|].
      reflexivity. }
  unfold column_values at 1. cbn [rows]. rewrite map_map.
  rewrite (map_ext _ (fun y => CNum (year_sum df y c))) by (intros y; apply Cell).
  rewrite !sum_cells_amounts, !map_map. cbn [amount_of].
  assert (Ys : forall y,
            year_sum df y c
            = sum_Z (map (fun r => amount_of (get_cell df r c))
                       (filter (fun r => cell_eqb (get_cell df r YEAR) y) (rows df)))).
  { intros y. unfold year_sum, year_rows, filter_rows, column_values. cbn [rows].
    rewrite sum_cells_amounts, map_map. reflexivity. }
  rewrite (map_ext _ _ Ys).
  destruct (year_keys_spec df) as [Hnd Hin].
  rewrite (sum_by_key (fun r => get_cell df r YEAR)
             (fun r => amount_of (get_cell df r c)) (year_keys df) (rows df) Hnd).
  unfold dated_rows. f_equal. f_equal. apply filter_ext_in. intros r Hr.
  destruct (cell_mem (get_cell df r YEAR) (year_keys df)) eqn:M.
  - apply cell_mem_In, Hin in M. destruct M as [M _].
    destruct (get_cell df r YEAR); [contradiction| | |]; reflexivity.
  - destruct (get_cell df r YEAR) eqn:E; [reflexivity| | |]; exfalso;
      (assert (X : cell_mem (get_cell df r YEAR) (year_keys df) = true);
       [apply cell_mem_In, Hin; split;
        [rewrite E; discriminate
        | unfold column_values; apply (in_map (fun r => get_cell df r YEAR)); exact Hr]
       | rewrite E in X; congruence]).
Qed.

Lemma yearly_sums_add_up_witness :
  let df := mkDataFrame [mkColumn "YEAR" DNumeric; mkColumn "TOTAL AMOUNT" DNumeric]
              [[CNum 2021; CNum 50]; [CNull; CNum 7]; [CNum 2022; CNum 30];
               [CNum 2021; CNum 20]] in
  let out := _generate_yearly_summary (init []) df "EBM SALES" in
  column_values out "TOTAL AMOUNT" = [CNum 70; CNum 30]
  /\ sum_cells (column_values out "TOTAL AMOUNT")
     = sum_cells (map (fun r => get_cell df r "TOTAL AMOUNT") (dated_rows df)).
Proof.
  intros df out. split; [vm_compute; reflexivity|].
  refine (yearly_sums_add_up (init []) df "EBM SALES" "TOTAL AMOUNT" _ _ _ _ _).
  - vm_compute. discriminate.
  - vm_compute. left. reflexivity.
  - vm_compute. discriminate.
  - repeat constructor.
  - unfold exact_sums. vm_compute. discriminate.
Defined.

(** *** The summed columns *)

(** X19.  The default exclusion is by substring of the upper-cased column
    name: a numeric column is left out of the sums as soon as its name
    contains one of the default patterns, such as PAID AMOUNT, which contains
    ID. *)
Theorem default_exclusion_by_substring (df : DataFrame) (c pattern : string) :
  In pattern DEFAULT_EXCLUDE ->
  Text.contains pattern (Text.upper c) = true ->
  ~ In c (get_numeric_columns df None)
  /\ ~ In c (get_numeric_columns df (Some (exclude_patterns (init [])))).
Proof.
  intros Hp Hc.
  assert (U : Text.upper pattern = pattern).
  { unfold DEFAULT_EXCLUDE in Hp. cbn [In] in Hp.
    repeat (destruct Hp as [<-|Hp]; [reflexivity|]). contradiction. }
  assert (N : ~ In c (get_numeric_columns df (Some DEFAULT_EXCLUDE))).
  { intros H. apply get_numeric_columns_spec in H.
    destruct H as [col [_ [_ [_ He]]]]. specialize (He pattern Hp).
    rewrite U in He. congruence. }
  split; exact N.
Qed.

Lemma default_exclusion_by_substring_witness :
  let df := mkDataFrame [mkColumn "PAID AMOUNT" DNumeric; mkColumn "VAT" DNumeric]
              [[CNum 10; CNum 2]] in
  get_numeric_columns df None = ["VAT"]
  /\ ~ In "PAID AMOUNT" (get_numeric_columns df None).
Proof.
  intros df. split; [reflexivity|].
  refine (proj1 (default_exclusion_by_substring df "PAID AMOUNT" "ID" _ _)).
  - left. reflexivity.
  - reflexivity.
Defined.

(** *** The configuration of the summed columns and the date columns *)

Lemma columns_split (cols : list column) (i : nat) (d : column) :
  (i < List.length cols)%nat ->
  cols = firstn i cols ++ nth i cols d :: skipn (S i) cols.
Proof.
  revert i; induction cols as [|c cols IH]; intros i H; cbn [List.length] in H; [lia|].
  destruct i as [|i]; [reflexivity|].
  cbn [firstn nth skipn app]. f_equal. apply IH. lia.
Qed.

Lemma set_column_has_column (df : DataFrame) (name : string) (dt : dtype)
    (vs : list cell) :
  In (mkColumn name dt) (columns (set_column df name dt vs)).
Proof.
  unfold set_column. destruct (index_of name (column_names df)); cbn [columns];
    apply in_or_app; right; left; reflexivity.
Qed.

Lemma set_column_keeps_columns (df : DataFrame) (name : string) (dt : dtype)
    (vs : list cell) (col : column) :
  In col (columns df) -> col_name col <> name ->
  In col (columns (set_column df name dt vs)).
Proof.
  intros Hin Hne. unfold set_column.
  destruct (index_of name (column_names df)) as [i|] eqn:E; cbn [columns].
  - pose proof (index_of_lt _ _ _ E) as L. pose proof (index_of_nth _ _ _ E) as N.
    unfold column_names in L, N. rewrite length_map in L.
    rewrite (columns_split (columns df) i (mkColumn EmptyString DObject) L) in Hin.
    apply in_app_or in Hin. apply in_or_app.
    destruct Hin as [Hin|[Hin|Hin]]; [left; exact Hin| |right; right; exact Hin].
    exfalso. apply Hne. rewrite <- Hin.
    rewrite <- N.
    change EmptyString with (col_name (mkColumn EmptyString DObject)).
    symmetry. apply map_nth.
  - apply in_or_app. left. exact Hin.
Qed.

(** X28.  The engine gives a table with transaction dates a numeric column
    YEAR.  When no exclude pattern of the configuration occurs in the name
    YEAR (a configuration sheet without such a line, for one), that column
    is itself among the columns to sum, and the yearly summary is empty
    whatever the table holds. *)
Theorem yearly_summary_needs_year_excluded (cfg : numeric_config) (df dated : DataFrame)
    (category : string) :
  Text.mem "TRANSACTION DATE" (column_names df) = true ->
  add_date_columns df = Return dated ->
  (forall pattern, In pattern (exclude_patterns (init cfg)) ->
                   Text.contains (Text.upper pattern) "YEAR" = false) ->
  In YEAR (get_numeric_columns dated (Some (exclude_patterns (init cfg))))
  /\ _generate_yearly_summary (init cfg) dated category = empty_frame.
Proof.
  intros Hm Hd Hex. unfold add_date_columns in Hd. rewrite Hm in Hd.
  destruct (column_dtype df "TRANSACTION DATE"); try discriminate.
  injection Hd as <-.
  set (dates := column_values df "TRANSACTION DATE").
  set (df1 := set_column df YEAR DNumeric
                (map (date_part (fun d => CNum (year_of d))) dates)).
  set (df2 := set_column df1 "MONTH" DObject
                (map (date_part (fun d => CStr (strftime_b d))) dates)).
  set (df3 := set_column df2 "DAY" DObject
                (map (date_part (fun d => CStr (strftime_d d))) dates)).
  set (df4 := set_column df3 "YEAR-MONTH" DObject
                (map (date_part (fun d => CStr (strftime_Y_m d))) dates)).
  assert (Hy : In (mkColumn YEAR DNumeric) (columns df4)).
  { unfold df4. apply set_column_keeps_columns; [|discriminate].
    unfold df3. apply set_column_keeps_columns; [|discriminate].
    unfold df2. apply set_column_keeps_columns; [|discriminate].
    unfold df1. apply set_column_has_column. }
  assert (Hin : In YEAR (get_numeric_columns df4 (Some (exclude_patterns (init cfg))))).
  { apply get_numeric_columns_spec. exists (mkColumn YEAR DNumeric).
    split; [exact Hy|]. split; [reflexivity|]. split; [reflexivity|].
    intros pattern Hp. exact (Hex pattern Hp). }
  split; [exact Hin|].
  unfold _generate_yearly_summary.
  destruct (negb (has_column df4 YEAR)); [reflexivity|].
  destruct (get_numeric_columns df4 (Some (exclude_patterns (init cfg))))
    as [|c cs] eqn:En; [reflexivity|].
  assert (M : Text.mem YEAR (c :: cs) = true).
  { unfold Text.mem. apply existsb_exists. exists YEAR.
    split; [exact Hin | reflexivity]. }
  rewrite M. reflexivity.
Qed.

Lemma yearly_summary_needs_year_excluded_witness :
  let cfg := [("INCLUDE", "AMOUNT")] in
  let df := mkDataFrame [mkColumn "TRANSACTION DATE" DDatetime;
                         mkColumn "TOTAL AMOUNT" DNumeric]
              [[CDate (mkDatetime 738000 0); CNum 50]] in
  exists dated,
    add_date_columns df = Return dated
    /\ _generate_yearly_summary (init cfg) dated "EBM SALES" = empty_frame
    /\ rows (_generate_yearly_summary (init []) dated "EBM SALES")
       = [[CNum 2021; CStr "29-Jul-2021 to 29-Jul-2021"; CNum 50]].
Proof.
  intros cfg df.
  destruct (add_date_columns df) as [dated|e] eqn:E; [|vm_compute in E; discriminate E].
  exists dated. split; [reflexivity|]. split.
  - refine (proj2 (yearly_summary_needs_year_excluded cfg df dated "EBM SALES" _ E _)).
    + reflexivity.
    + intros pattern Hp. vm_compute in Hp. contradiction.
  - vm_compute in E. injection E as <-. vm_compute. reflexivity.
Defined.

End AnalysisMore.

(** ** The duplicate summaries *)

Module SummaryFacts.

Import Frame Duplicates Analysis Summaries FrameFacts DuplicateFacts AnalysisFacts.
Import DuplicateMore.

Local Open Scope nat_scope.

Lemma list_sum_cons (x : nat) (l : list nat) : list_sum (x :: l) = x + list_sum l.
Proof. reflexivity. Qed.

Lemma filter_nothing {A : Type} (f : A -> bool) (l : list A) :
  (forall x, In x l -> f x = false) -> filter f l = [].
Proof.
  induction l as [|a l IH]; intros H; cbn [filter]; [reflexivity|].
  rewrite (H a) by (left; reflexivity). apply IH.
  intros x Hx; apply H; right; exact Hx.
Qed.

Lemma counts_get_map (f : cell -> nat) (us : list cell) (key : cell) :
  counts_get (map (fun v => (v, f v)) us) key = if cell_mem key us then f key else 0.
Proof.
  induction us as [|u us IH]; [reflexivity|].
  cbn [map counts_get]. unfold cell_mem. cbn [existsb]. fold (cell_mem key us).
  destruct (cell_eqb key u) eqn:E; cbn [orb].
  - apply cell_eqb_eq in E. subst u. reflexivity.
  - exact IH.
Qed.

(** A count read by key is the number of the occurrences of the key. *)
Lemma counts_get_value_counts (cells : list cell) (key : cell) :
  counts_get (value_counts cells) key
  = List.length (filter (cell_eqb key) (dropna cells)).
Proof.
  unfold value_counts. rewrite counts_get_map.
  destruct (cell_mem key (unique (dropna cells))) eqn:M; [reflexivity|].
  rewrite filter_nothing; [reflexivity|].
  intros x Hx. destruct (cell_eqb key x) eqn:E; [|reflexivity].
  apply cell_eqb_eq in E. subst x.
  assert (X : cell_mem key (unique (dropna cells)) = true)
    by (apply cell_mem_In, In_unique; exact Hx).
  congruence.
Qed.

Lemma count_duplicates_from (l : list (cell * nat)) (acc : list (string * nat) * nat) :
  snd (fold_left (fun acc item =>
                    let normalized := normalized_status (fst item) in
                    (dict_add (fst acc) normalized (snd item),
                     if (normalized =? "IS DUPLICATE")%string then snd acc + snd item
                     else snd acc)) l acc)
  = snd acc
    + list_sum (map (fun item =>
                       if (normalized_status (fst item) =? "IS DUPLICATE")%string
                       then snd item else 0) l).
Proof.
  revert acc; induction l as [|item l IH]; intros acc; cbn [fold_left map].
  - cbn [list_sum fold_right]. lia.
  - rewrite IH. cbn zeta. cbn [snd fst]. rewrite list_sum_cons.
    destruct (normalized_status (fst item) =? "IS DUPLICATE")%string; lia.
Qed.

Lemma one_value (P : cell -> bool) (a : cell) (ks : list cell) :
  NoDup ks ->
  list_sum (map (fun k => if P k then (if cell_eqb k a then 1 else 0) else 0) ks)
  = if P a && cell_mem a ks then 1 else 0.
Proof.
  induction 1 as [|k ks Hk Hnd IH]; cbn [map].
  - rewrite andb_false_r. reflexivity.
  - rewrite list_sum_cons, IH. unfold cell_mem. cbn [existsb]. fold (cell_mem a ks).
    destruct (cell_eqb k a) eqn:E.
    + apply cell_eqb_eq in E. subst k.
      rewrite cell_eqb_refl. cbn [orb].
      destruct (cell_mem a ks) eqn:M; [apply cell_mem_In in M; contradiction|].
      rewrite andb_false_r, andb_true_r. destruct (P a); reflexivity.
    + assert (E' : cell_eqb a k = false).
      { destruct (cell_eqb a k) eqn:X; [|reflexivity].
        apply cell_eqb_eq in X. subst k. rewrite cell_eqb_refl in E. discriminate. }
      rewrite E'. cbn [orb]. destruct (P k); reflexivity.
Qed.

Lemma list_sum_map_add {A : Type} (f g : A -> nat) (l : list A) :
  list_sum (map (fun a => f a + g a) l) = list_sum (map f l) + list_sum (map g l).
Proof.
  induction l as [|a l IH]; [reflexivity|].
  cbn [map]. rewrite !list_sum_cons, IH. lia.
Qed.

(** The counts of the values that pass a test add up to the number of the
    cells that pass it. *)
Lemma counts_by_value (P : cell -> bool) (ks vals : list cell) :
  NoDup ks ->
  list_sum (map (fun k => if P k then List.length (filter (cell_eqb k) vals) else 0) ks)
  = List.length (filter (fun a => P a && cell_mem a ks) vals).
Proof.
  intros Hnd. induction vals as [|a vals IH].
  - cbn [filter List.length]. induction ks as [|k ks IHk]; [reflexivity|].
    cbn [map]. inversion Hnd; subst.
    rewrite list_sum_cons, IHk by assumption. destruct (P k); reflexivity.
  - assert (E : map (fun k => if P k then List.length (filter (cell_eqb k) (a :: vals)) else 0) ks
                = map (fun k => (if P k then (if cell_eqb k a then 1 else 0) else 0)
                                + (if P k then List.length (filter (cell_eqb k) vals) else 0))
                    ks).
    { apply map_ext. intros k. cbn [filter].
      destruct (P k); [|reflexivity].
      destruct (cell_eqb k a); reflexivity. }
    rewrite E, list_sum_map_add, IH, one_value by exact Hnd.
    cbn [filter]. destruct (P a && cell_mem a ks); reflexivity.
Qed.

Lemma dropna_filter (f : cell -> bool) (cells : list cell) :
  filter f (dropna cells) = filter (fun c => negb (is_null c) && f c) cells.
Proof.
  unfold dropna. induction cells as [|c cells IH]; [reflexivity|].
  cbn [filter]. destruct (negb (is_null c)); cbn [andb filter]; rewrite IH; reflexivity.
Qed.

(** The loop of the collector counts the cells whose normalised status is
    IS DUPLICATE. *)
Lemma total_duplicates_counted (cells : list cell) :
  snd (count_duplicates (value_counts cells)) = marked_duplicate cells.
Proof.
  unfold count_duplicates. rewrite count_duplicates_from. cbn [snd Nat.add].
  unfold value_counts. rewrite map_map. cbn [fst snd].
  rewrite (counts_by_value
             (fun v => (normalized_status v =? "IS DUPLICATE")%string)
             (unique (dropna cells)) (dropna cells)) by apply NoDup_unique.
  unfold marked_duplicate. rewrite <- dropna_filter. f_equal.
  apply filter_ext_in. intros a Ha.
  assert (M : cell_mem a (unique (dropna cells)) = true)
    by (apply cell_mem_In, In_unique; exact Ha).
  rewrite M, andb_true_r. reflexivity.
Qed.

Lemma filter_length_le {A : Type} (f : A -> bool) (l : list A) :
  List.length (filter f l) <= List.length l.
Proof.
  induction l as [|a l IH]; cbn [filter List.length]; [lia|].
  destruct (f a); cbn [List.length]; lia.
Qed.

Lemma dict_find_set {V : Type} (d : list (string * V)) (key : string) (v : V) :
  dict_find (dict_set d key v) key = Some v.
Proof.
  induction d as [|[k w] d IH]; cbn [dict_set dict_find].
  - rewrite String.eqb_refl. reflexivity.
  - destruct (key =? k)%string eqn:E; cbn [dict_find]; rewrite E; [reflexivity|exact IH].
Qed.

Lemma dict_find_set_other {V : Type} (d : list (string * V)) (key other : string) (v : V) :
  other <> key -> dict_find (dict_set d key v) other = dict_find d other.
Proof.
  intros Hne. induction d as [|[k w] d IH]; cbn [dict_set dict_find].
  - replace (other =? key)%string with false
      by (symmetry; apply String.eqb_neq; exact Hne).
    reflexivity.
  - destruct (key =? k)%string eqn:E; cbn [dict_find].
    + apply String.eqb_eq in E. subst k.
      replace (other =? key)%string with false
        by (symmetry; apply String.eqb_neq; exact Hne).
      reflexivity.
    + destruct (other =? k)%string; [reflexivity|exact IH].
Qed.

(** X20.  On a table with a column Duplicate Status the collector records,
    under the key of the group and the category and without touching the
    entries of the other keys, the number of the records, the number of
    those whose status, stripped and in upper case, is IS DUPLICATE, and
    their difference as the number of unique records: the two numbers add
    up to the number of the records and the percentage lies between 0 and
    100.  On a table without the column nothing is recorded. *)
Theorem collector_duplicate_counts (duplicates : list (string * duplicate_entry))
    (group_name category : string) (df : DataFrame) :
  let after := add_duplicate_summary duplicates group_name category df in
  if has_column df DUPLICATE_STATUS then
    exists e,
      dict_find after (group_name ++ "::" ++ category) = Some e
      /\ (forall other, other <> (group_name ++ "::" ++ category)%string ->
                        dict_find after other = dict_find duplicates other)
      /\ total_records e = List.length (rows df)
      /\ total_duplicates e = marked_duplicate (column_values df DUPLICATE_STATUS)
      /\ (unique_records e + Z.of_nat (total_duplicates e)
          = Z.of_nat (total_records e))%Z
      /\ (0 <= unique_records e)%Z
      /\ (0 <= duplicate_percentage e)%Q /\ (duplicate_percentage e <= 100)%Q
  else after = duplicates.
Proof.
  intros after. unfold after, add_duplicate_summary.
  destruct (has_column df DUPLICATE_STATUS); cbn [negb]; [|reflexivity].
  pose proof (total_duplicates_counted (column_values df DUPLICATE_STATUS)) as T.
  destruct (count_duplicates (value_counts (column_values df DUPLICATE_STATUS)))
    as [normalized total]. cbn [snd] in T. subst total.
  eexists. split; [apply dict_find_set|].
  split; [intros other Ho; apply dict_find_set_other; exact Ho|].
  cbn [total_records total_duplicates unique_records duplicate_percentage].
  assert (L : marked_duplicate (column_values df DUPLICATE_STATUS)
              <= List.length (rows df)).
  { unfold marked_duplicate.
    etransitivity; [apply filter_length_le|].
    unfold column_values. rewrite length_map. lia. }
  split; [reflexivity|]. split; [reflexivity|]. split; [lia|]. split; [lia|].
  destruct (List.length (rows df)) as [|n] eqn:En.
  - cbn [Nat.ltb Nat.leb]. split; unfold Qle; cbn; lia.
  - replace (0 <? S n) with true by (symmetry; apply Nat.ltb_lt; lia).
    unfold Qle. cbn [Qnum Qden].
    rewrite <- Pos.of_nat_succ, Zpos_P_of_succ_nat. split; lia.
Qed.

(** *** The summaries of the table the detector returns *)

Lemma statuses_detect (p : duplicate_params) (df : DataFrame) (category : string) :
  let ks := keys_of df (lst_Criteriacolumns p df category) in
  column_values (tagged p df category) DUPLICATE_STATUS
  = map2 status_of (map (repeated ks) ks) (duplicated_first ks)
  /\ List.length (duplicated_first ks) = List.length (rows df)
  /\ List.length ks = List.length (rows df).
Proof.
  intros ks. split; [|split].
  - exact (statuses_tagged p df category).
  - apply (masks_length df (lst_Criteriacolumns p df category)).
  - unfold ks, keys_of. apply length_map.
Qed.

Lemma filter_map_length {A B : Type} (f : B -> bool) (g : A -> B) (l : list A) :
  List.length (filter f (map g l)) = List.length (filter (fun a => f (g a)) l).
Proof.
  induction l as [|a l IH]; [reflexivity|]. cbn [map filter].
  destruct (f (g a)); cbn [List.length]; rewrite IH; reflexivity.
Qed.

(** The statuses that pass a test, counted on the two masks. *)
Lemma count_statuses (F : cell -> bool) (G : bool -> bool) (total ks seen : list key) :
  F IS_DUPLICATE = false ->
  (forall a, F (status_of a false) = G a) ->
  List.length (filter F (map2 status_of (map (repeated total) ks)
                           (duplicated_first_from seen ks)))
  = List.length (filter (fun k => G (repeated total k))
                   (select ks (map negb (duplicated_first_from seen ks)))).
Proof.
  intros Hi Hf. revert seen; induction ks as [|k ks IH]; intros seen; [reflexivity|].
  cbn [map duplicated_first_from map2 select filter].
  destruct (existsb (key_eqb k) seen); cbn [negb].
  - cbn [status_of]. rewrite Hi. apply IH.
  - rewrite Hf. cbn [filter]. destruct (G (repeated total k)); cbn [List.length];
      rewrite IH; reflexivity.
Qed.

Lemma count_marked (m1 m2 : list bool) (F : cell -> bool) :
  List.length m1 = List.length m2 ->
  (forall a b, F (status_of a b) = b) ->
  List.length (filter F (map2 status_of m1 m2))
  = List.length (filter (fun b => b) m2).
Proof.
  intros L Hf. revert m2 L; induction m1 as [|a m1 IH]; intros [|b m2] L;
    cbn [List.length] in L; try discriminate; [reflexivity|].
  cbn [map2 filter]. rewrite Hf. destruct b; cbn [List.length]; rewrite IH by lia;
    reflexivity.
Qed.

Lemma marked_and_distinct (ks : list key) :
  List.length (filter (fun b => b) (duplicated_first ks))
  + List.length (distinct_keys ks) = List.length ks.
Proof.
  pose proof (select_length_split ks (map negb (duplicated_first ks))) as L.
  rewrite map_map in L.
  assert (E : map (fun x => negb (negb x)) (duplicated_first ks) = duplicated_first ks).
  { clear. induction (duplicated_first ks) as [|b l IH]; cbn [map];
      [|rewrite IH, negb_involutive]; reflexivity. }
  rewrite E in L. unfold distinct_keys. rewrite <- L; [lia|].
  rewrite length_map. apply duplicated_first_from_length.
Qed.

Lemma filter_split_length {A : Type} (f : A -> bool) (l : list A) :
  List.length (filter f l) + List.length (filter (fun a => negb (f a)) l)
  = List.length l.
Proof.
  induction l as [|a l IH]; [reflexivity|]. cbn [filter].
  destruct (f a); cbn [negb List.length]; lia.
Qed.

(** X21.  The collector after the detector: on a table that is not empty
    the entry it records counts as unique records the distinct keys of the
    table (each key once, the keys of the table and no other) and as
    duplicates all the other records; on an empty table, for which the
    detector returns a table without columns, it records nothing.  (The
    detector returns unless the table is not empty and the accessor [.str]
    refuses the column configured for the category.) *)
Theorem detector_then_collector (p : duplicate_params) (df : DataFrame)
    (group_name category : string) (duplicates : list (string * duplicate_entry)) :
  let ks := keys_of df (lst_Criteriacolumns p df category) in
  match detect p df category with
  | Return out =>
      let after := add_duplicate_summary duplicates group_name category out in
      if df_empty df then after = duplicates
      else
        exists e,
          dict_find after (group_name ++ "::" ++ category) = Some e
          /\ total_records e = List.length (rows df)
          /\ unique_records e = Z.of_nat (List.length (distinct_keys ks))
          /\ total_duplicates e + List.length (distinct_keys ks)
             = List.length (rows df)
          /\ NoDup (distinct_keys ks)
          /\ (forall k, In k (distinct_keys ks) <-> In k ks)
  | Raise e =>
      e = AttributeError /\ df_empty df = false /\ accepts_str p category = false
  end.
Proof.
  intros ks. rewrite detect_eq.
  destruct (df_empty df) eqn:Hne.
  - reflexivity.
  - destruct (accepts_str p category); [|repeat split].
    set (out := tagged p df category). intros after.
    assert (Hc : has_column out DUPLICATE_STATUS = true).
    { unfold out. rewrite has_column_tagged, String.eqb_refl.
      apply orb_true_r. }
    destruct (statuses_detect p df category) as [S [L1 L2]]. fold ks in S, L1, L2.
    fold out in S.
    assert (Rows : List.length (rows out) = List.length (rows df)).
    { unfold out. apply rows_tagged_length. }
    pose proof (total_duplicates_counted (column_values out DUPLICATE_STATUS)) as T.
    assert (M : marked_duplicate (column_values out DUPLICATE_STATUS)
                = List.length (filter (fun b => b) (duplicated_first ks))).
    { rewrite S. unfold marked_duplicate. apply count_marked.
      - rewrite length_map. congruence.
      - intros [] []; reflexivity. }
    pose proof (marked_and_distinct ks) as D.
    unfold after, add_duplicate_summary. rewrite Hc. cbn [negb].
    destruct (count_duplicates (value_counts (column_values out DUPLICATE_STATUS)))
      as [normalized total]. cbn [snd] in T. subst total.
    eexists. split; [apply dict_find_set|].
    cbn [total_records total_duplicates unique_records].
    split; [exact Rows|]. split; [lia|]. split; [lia|].
    destruct (first_occurrences ks []) as [Hnd Hin].
    split; [exact Hnd|]. intros k. unfold distinct_keys, duplicated_first.
    rewrite (Hin k). cbn [In]. tauto.
Qed.

Lemma find_last {A : Type} (f : A -> bool) (l : list A) (a : A) :
  find f (l ++ [a]) = match find f l with
                      | Some x => Some x
                      | None => if f a then Some a else None
                      end.
Proof.
  induction l as [|x l IH]; cbn [app find]; [reflexivity|].
  destruct (f x); [reflexivity | exact IH].
Qed.

Lemma nth_replace_same {A : Type} (l : list A) (i : nat) (x d : A) :
  i < List.length l -> nth i (firstn i l ++ x :: skipn (S i) l) d = x.
Proof.
  intros H. rewrite app_nth2; rewrite length_firstn; [|lia].
  replace (i - Nat.min i (List.length l)) with 0 by lia. reflexivity.
Qed.

Lemma nth_replace_other {A : Type} (l : list A) (i j : nat) (x d : A) :
  i < List.length l -> i <> j ->
  nth j (firstn i l ++ x :: skipn (S i) l) d = nth j l d.
Proof.
  revert i j; induction l as [|a l IH]; intros i j L H; cbn [List.length] in L; [lia|].
  destruct i as [|i], j as [|j]; cbn [firstn skipn app nth]; try reflexivity; [lia|].
  apply IH; lia.
Qed.

(** The status column is the one the summary of the quick analysis reads,
    when no other column has its name in another case. *)
Lemma status_column_found (p : duplicate_params) (df : DataFrame) (category : string) :
  (forall c, In c (column_names df) ->
             is_column_named "DUPLICATE STATUS" c = true -> c = DUPLICATE_STATUS) ->
  find (is_column_named "DUPLICATE STATUS") (column_names (tagged p df category))
  = Some DUPLICATE_STATUS.
Proof.
  intros H. rewrite column_names_tagged.
  destruct (index_of DUPLICATE_STATUS (column_names df)) as [i|] eqn:E.
  - destruct (find (is_column_named "DUPLICATE STATUS") (column_names df)) as [c|] eqn:F.
    + apply find_some in F. destruct F as [Hc Hp]. rewrite (H c Hc Hp). reflexivity.
    + pose proof (index_of_lt _ _ _ E) as L. pose proof (index_of_nth _ _ _ E) as N.
      assert (X : is_column_named "DUPLICATE STATUS" DUPLICATE_STATUS = false).
      { apply (find_none _ _ F). rewrite <- N. apply nth_In. exact L. }
      discriminate X.
  - rewrite find_last.
    destruct (find (is_column_named "DUPLICATE STATUS") (column_names df)) as [c|] eqn:F;
      [|reflexivity].
    apply find_some in F. destruct F as [Hc Hp]. rewrite (H c Hc Hp) in Hc.
    apply index_of_none in E. exfalso.
    assert (X : Text.mem DUPLICATE_STATUS (column_names df) = true).
    { unfold Text.mem. apply existsb_exists. exists DUPLICATE_STATUS.
      split; [exact Hc | reflexivity]. }
    congruence.
Qed.

Lemma status_dtype_tagged (p : duplicate_params) (df : DataFrame) (category : string) :
  column_dtype (tagged p df category) DUPLICATE_STATUS = DObject.
Proof.
  unfold column_dtype. rewrite status_index_tagged, columns_tagged.
  unfold set_column, status_index. fold (column_names df).
  destruct (index_of DUPLICATE_STATUS (column_names df)) as [i|] eqn:E; cbn [columns].
  - rewrite nth_replace_same; [reflexivity|].
    apply index_of_lt in E. unfold column_names in E. rewrite length_map in E. exact E.
  - rewrite app_nth2 by lia. rewrite Nat.sub_diag. reflexivity.
Qed.

Lemma statuses_are_texts (m1 m2 : list bool) :
  dropna (map2 status_of m1 m2) = map2 status_of m1 m2
  /\ str_accessor DObject (map2 status_of m1 m2) = true.
Proof.
  assert (D : dropna (map2 status_of m1 m2) = map2 status_of m1 m2).
  { revert m2; induction m1 as [|a m1 IH]; intros [|b m2]; try reflexivity.
    cbn [map2]. unfold dropna in *. cbn [filter].
    replace (negb (is_null (status_of a b))) with true by (destruct a, b; reflexivity).
    rewrite IH. reflexivity. }
  split; [exact D|]. unfold str_accessor. rewrite D.
  destruct m1 as [|a m1], m2 as [|b m2]; try reflexivity.
  cbn [map2 existsb].
  replace (is_text (status_of a b)) with true by (destruct a, b; reflexivity).
  reflexivity.
Qed.

(** A summary reads the names of the columns, the type and the cells of
    the status column and the number of the rows: assigning another column
    does not change it. *)
Lemma summary_set_column (df : DataFrame) (name : string) (dt : dtype) (vs : list cell) :
  is_column_named "DUPLICATE STATUS" name = false ->
  List.length vs = List.length (rows df) ->
  _get_duplicate_summary (set_column df name dt vs) = _get_duplicate_summary df.
Proof.
  intros Hn Hl. unfold _get_duplicate_summary.
  assert (F : find (is_column_named "DUPLICATE STATUS")
                (column_names (set_column df name dt vs))
              = find (is_column_named "DUPLICATE STATUS") (column_names df)).
  { unfold set_column. fold (column_names df).
    destruct (index_of name (column_names df)) as [i|] eqn:E; unfold column_names at 1;
      cbn [columns].
    - rewrite (names_replace name (columns df) i dt E). reflexivity.
    - rewrite map_app. cbn [map col_name]. rewrite find_last, Hn.
      fold (column_names df).
      destruct (find (is_column_named "DUPLICATE STATUS") (column_names df)); reflexivity. }
  rewrite F, (DateColumnFacts.set_column_rows_length df name dt vs Hl).
  destruct (find (is_column_named "DUPLICATE STATUS") (column_names df)) as [c|] eqn:Fc;
    [|reflexivity].
  assert (Hc : c <> name).
  { intros ->. apply find_some in Fc. destruct Fc as [_ Fc]. congruence. }
  rewrite (DateColumnFacts.column_values_set_column_other df name c dt vs Hc Hl).
  assert (T : column_dtype (set_column df name dt vs) c = column_dtype df c).
  { unfold column_dtype, set_column. fold (column_names df).
    destruct (index_of name (column_names df)) as [i|] eqn:E;
      unfold column_names at 1; cbn [columns].
    - rewrite (index_of_replace name c (columns df) i dt E). fold (column_names df).
      destruct (index_of c (column_names df)) as [j|] eqn:Ej; [|reflexivity].
      rewrite nth_replace_other; [reflexivity| |].
      * apply index_of_lt in E. unfold column_names in E.
        rewrite length_map in E. exact E.
      * intros ->. apply Hc. apply index_of_nth in E, Ej. congruence.
    - rewrite map_app. cbn [map col_name]. fold (column_names df).
      destruct (index_of c (column_names df)) as [j|] eqn:Ej.
      + rewrite (index_of_app_old _ _ _ _ Ej). rewrite app_nth1; [reflexivity|].
        apply index_of_lt in Ej. unfold column_names in Ej.
        rewrite length_map in Ej. exact Ej.
      + assert (N : index_of c (column_names df ++ [name]) = None).
        { apply index_of_none. apply index_of_none in Ej. unfold Text.mem in *.
          rewrite existsb_app, Ej. cbn [existsb orb].
          rewrite orb_false_r. apply String.eqb_neq. exact Hc. }
        rewrite N. reflexivity. }
  rewrite T. reflexivity.
Qed.

(** The date columns the engine adds leave the summary as it is. *)
Lemma summary_date_columns (df t : DataFrame) :
  add_date_columns df = Return t -> _get_duplicate_summary t = _get_duplicate_summary df.
Proof.
  unfold add_date_columns. intros Ht.
  destruct (Text.mem "TRANSACTION DATE" (column_names df));
    [|injection Ht as <-; reflexivity].
  destruct (column_dtype df "TRANSACTION DATE"); try discriminate.
  injection Ht as <-.
  set (dates := column_values df "TRANSACTION DATE").
  assert (Len : forall (f : Calendar.datetime -> cell),
            List.length (map (date_part f) dates) = List.length (rows df)).
  { intros f. rewrite length_map. apply DateColumnFacts.column_values_length. }
  set (df1 := set_column df YEAR DNumeric
                (map (date_part (fun d => CNum (Calendar.year_of d))) dates)).
  set (df2 := set_column df1 "MONTH" DObject
                (map (date_part (fun d => CStr (strftime_b d))) dates)).
  set (df3 := set_column df2 "DAY" DObject
                (map (date_part (fun d => CStr (strftime_d d))) dates)).
  assert (L1 : List.length (rows df1) = List.length (rows df)).
  { apply DateColumnFacts.set_column_rows_length. apply Len. }
  assert (L2 : List.length (rows df2) = List.length (rows df)).
  { unfold df2. rewrite DateColumnFacts.set_column_rows_length; [exact L1|].
    rewrite L1. apply Len. }
  assert (L3 : List.length (rows df3) = List.length (rows df)).
  { unfold df3. rewrite DateColumnFacts.set_column_rows_length; [exact L2|].
    rewrite L2. apply Len. }
  rewrite summary_set_column; [|reflexivity|rewrite L3; apply Len].
  unfold df3. rewrite summary_set_column; [|reflexivity|rewrite L2; apply Len].
  unfold df2. rewrite summary_set_column; [|reflexivity|rewrite L1; apply Len].
  unfold df1. apply summary_set_column; [reflexivity|apply Len].
Qed.

(** The summary of the table the detector returns, by the keys of the
    records. *)
Lemma quick_summary_counts (p : duplicate_params) (df : DataFrame) (category : string) :
  df_empty df = false ->
  (forall c, In c (column_names df) ->
             is_column_named "DUPLICATE STATUS" c = true -> c = DUPLICATE_STATUS) ->
  let ks := keys_of df (lst_Criteriacolumns p df category) in
  _get_duplicate_summary (tagged p df category)
  = mkSummary (List.length (filter (repeated ks) (distinct_keys ks)))
              (List.length (filter (fun b => b) (duplicated_first ks)))
              (List.length (filter (single ks) (distinct_keys ks)))
              "checked".
Proof.
  intros Hne Hcols ks.
  destruct (statuses_detect p df category) as [S [L1 L2]]. fold ks in S, L1, L2.
  destruct (statuses_are_texts (map (repeated ks) ks) (duplicated_first ks)) as [D A].
  unfold _get_duplicate_summary.
  rewrite (status_column_found p df category Hcols), status_dtype_tagged.
  rewrite S, A. cbv zeta. rewrite !counts_get_value_counts.
  f_equal.
  - rewrite dropna_filter, filter_map_length.
    apply (count_statuses _ (fun a => a) ks ks []); [reflexivity|].
    intros []; reflexivity.
  - rewrite dropna_filter, filter_map_length. apply count_marked.
    + rewrite length_map. congruence.
    + intros [] []; reflexivity.
  - rewrite dropna_filter, filter_map_length.
    apply (count_statuses _ negb ks ks []); [reflexivity|].
    intros []; reflexivity.
Qed.

(** X22.  The quick analysis after the detector: when the table is not
    empty and none of its columns is named Duplicate Status in another case
    or with blanks around, the summary is marked checked and counts the
    distinct keys that are repeated (has duplicates), the distinct keys that
    are not (no duplicates), and the records that repeat an earlier one (is
    duplicate); the three counts add up to the number of the records.  The
    date columns the engine adds before the summary do not change it.
    (The detector returns unless the accessor [.str] refuses the column
    configured for the category.) *)
Theorem detector_then_quick_summary (p : duplicate_params) (df : DataFrame)
    (category : string) :
  df_empty df = false ->
  (forall c, In c (column_names df) ->
             is_column_named "DUPLICATE STATUS" c = true -> c = DUPLICATE_STATUS) ->
  let ks := keys_of df (lst_Criteriacolumns p df category) in
  match detect p df category with
  | Return out =>
      let s := _get_duplicate_summary out in
      status s = "checked"
      /\ has_duplicates s = List.length (filter (repeated ks) (distinct_keys ks))
      /\ no_duplicates s = List.length (filter (single ks) (distinct_keys ks))
      /\ is_duplicate s + List.length (distinct_keys ks) = List.length (rows df)
      /\ has_duplicates s + is_duplicate s + no_duplicates s = List.length (rows df)
      /\ forall t, add_date_columns out = Return t -> _get_duplicate_summary t = s
  | Raise e => e = AttributeError /\ accepts_str p category = false
  end.
Proof.
  intros Hne Hcols ks. rewrite detect_eq, Hne.
  destruct (accepts_str p category); [|split; reflexivity].
  set (out := tagged p df category). intros s.
  pose proof (quick_summary_counts p df category Hne Hcols) as Es.
  cbv zeta in Es. fold ks out s in Es.
  destruct (statuses_detect p df category) as [_ [L1 L2]]. fold ks in L1, L2.
  pose proof (marked_and_distinct ks) as M.
  pose proof (filter_split_length (repeated ks) (distinct_keys ks)) as P.
  rewrite Es. cbn [status has_duplicates no_duplicates is_duplicate].
  split; [reflexivity|]. split; [reflexivity|]. split; [reflexivity|].
  split; [lia|]. split; [unfold single; lia|].
  intros t Ht. rewrite <- Es. unfold s. exact (summary_date_columns out t Ht).
Qed.

Lemma detector_then_quick_summary_witness :
  let df := mkDataFrame [mkColumn "ITEM" DObject; mkColumn "PRICE" DNumeric]
              [[CStr "tea"; CNum 5]; [CStr "milk"; CNum 3]; [CStr "tea"; CNum 5];
               [CStr "tea"; CNum 5]] in
  exists out,
    detect empty_frame df "EBM SALES" = Return out
    /\ _get_duplicate_summary out = mkSummary 1 2 1 "checked"
    /\ has_duplicates (_get_duplicate_summary out)
       + is_duplicate (_get_duplicate_summary out)
       + no_duplicates (_get_duplicate_summary out) = List.length (rows df).
Proof.
  intros df.
  assert (Hcols : forall c, In c (column_names df) ->
                    is_column_named "DUPLICATE STATUS" c = true ->
                    c = DUPLICATE_STATUS).
  { intros c Hc Hn. vm_compute in Hc.
    destruct Hc as [<-|[<-|[]]]; vm_compute in Hn; discriminate Hn. }
  pose proof (detector_then_quick_summary empty_frame df "EBM SALES" eq_refl Hcols)
    as H.
  cbv zeta in H.
  destruct (detect empty_frame df "EBM SALES") as [out|e] eqn:E.
  - exists out. split; [reflexivity|].
    split; [|exact (proj1 (proj2 (proj2 (proj2 (proj2 H)))))].
    vm_compute in E. injection E as <-. reflexivity.
  - destruct H as [_ H]. discriminate H.
Defined.

(** The keys of two tables with the same columns and the same records in
    another order. *)
Lemma filter_permuted {A : Type} (f : A -> bool) (l1 l2 : list A) :
  Permutation l1 l2 -> Permutation (filter f l1) (filter f l2).
Proof.
  induction 1 as [|x l1 l2 _ IH|x y l|l1 l2 l3 _ IH1 _ IH2]; cbn [filter].
  - constructor.
  - destruct (f x); [constructor|]; exact IH.
  - destruct (f x), (f y); try apply Permutation_refl. apply perm_swap.
  - exact (Permutation_trans IH1 IH2).
Qed.

Lemma count_permuted (k : key) (ks1 ks2 : list key) :
  Permutation ks1 ks2 -> count k ks1 = count k ks2.
Proof.
  intros H. unfold count. apply Permutation_length, filter_permuted, H.
Qed.

Lemma distinct_keys_permuted (ks1 ks2 : list key) :
  Permutation ks1 ks2 -> Permutation (distinct_keys ks1) (distinct_keys ks2).
Proof.
  intros H.
  destruct (first_occurrences ks1 []) as [N1 M1].
  destruct (first_occurrences ks2 []) as [N2 M2].
  apply NoDup_Permutation; [exact N1|exact N2|].
  intros k. unfold distinct_keys, duplicated_first. rewrite M1, M2.
  split; intros [I J]; (split; [|exact J]).
  - exact (Permutation_in k H I).
  - exact (Permutation_in k (Permutation_sym H) I).
Qed.

Lemma repeated_keys_permuted (f1 f2 : key -> bool) (l1 l2 : list key) :
  (forall k, f1 k = f2 k) -> Permutation l1 l2 ->
  List.length (filter f1 l1) = List.length (filter f2 l2).
Proof.
  intros E H. rewrite (filter_ext f1 f2 E).
  apply Permutation_length, filter_permuted, H.
Qed.

(** X30.  The counts of the quick analysis do not depend on the order of
    the records: two tables with the same columns whose records are the
    same up to their order get, after the detector, the same summary.
    (Which record of a repeated key is marked IS duplicate does depend on
    the order: it is every one but the first.)  When the accessor [.str]
    refuses the column configured for the category, the detector raises for
    the one table as for the other. *)
Theorem summary_ignores_record_order (p : duplicate_params) (df1 df2 : DataFrame)
    (category : string) :
  columns df1 = columns df2 ->
  Permutation (rows df1) (rows df2) ->
  df_empty df1 = false ->
  (forall c, In c (column_names df1) ->
             is_column_named "DUPLICATE STATUS" c = true -> c = DUPLICATE_STATUS) ->
  match detect p df1 category, detect p df2 category with
  | Return out1, Return out2 =>
      _get_duplicate_summary out1 = _get_duplicate_summary out2
  | Raise e1, Raise e2 => e1 = e2
  | _, _ => False
  end.
Proof.
  destruct df1 as [cols rows1], df2 as [cols2 rows2]. cbn [columns rows].
  intros <- HP Hne Hcols.
  assert (Hne2 : df_empty (mkDataFrame cols rows2) = false).
  { unfold df_empty in *. cbn [columns rows] in *.
    destruct cols; [discriminate Hne|].
    destruct rows2; [|reflexivity].
    apply Permutation_sym, Permutation_nil in HP. subst rows1. discriminate Hne. }
  rewrite !detect_eq, Hne, Hne2.
  destruct (accepts_str p category); [|reflexivity].
  rewrite (quick_summary_counts p _ category Hne Hcols).
  rewrite (quick_summary_counts p _ category Hne2 Hcols).
  cbv zeta.
  set (ks1 := keys_of (mkDataFrame cols rows1) _).
  set (ks2 := keys_of (mkDataFrame cols rows2) _).
  assert (K : Permutation ks1 ks2).
  { unfold ks1, ks2, keys_of. cbn [rows].
    exact (Permutation_map
             (row_key (mkDataFrame cols rows1)
                (lst_Criteriacolumns p (mkDataFrame cols rows1) category))
             HP). }
  assert (R : forall k, repeated ks1 k = repeated ks2 k).
  { intros k. unfold repeated. rewrite (count_permuted k ks1 ks2 K). reflexivity. }
  pose proof (distinct_keys_permuted ks1 ks2 K) as D.
  pose proof (marked_and_distinct ks1) as M1.
  pose proof (marked_and_distinct ks2) as M2.
  pose proof (Permutation_length K) as LK.
  pose proof (Permutation_length D) as LD.
  f_equal.
  - exact (repeated_keys_permuted _ _ _ _ R D).
  - lia.
  - apply repeated_keys_permuted; [|exact D].
    intros k. unfold single. rewrite R. reflexivity.
Qed.

Lemma summary_ignores_record_order_witness :
  let df1 := mkDataFrame [mkColumn "ITEM" DObject; mkColumn "PRICE" DNumeric]
               [[CStr "tea"; CNum 5]; [CStr "milk"; CNum 3]; [CStr "tea"; CNum 5];
                [CStr "tea"; CNum 5]] in
  let df2 := mkDataFrame [mkColumn "ITEM" DObject; mkColumn "PRICE" DNumeric]
               [[CStr "milk"; CNum 3]; [CStr "tea"; CNum 5]; [CStr "tea"; CNum 5];
                [CStr "tea"; CNum 5]] in
  exists out1 out2,
    detect empty_frame df1 "EBM SALES" = Return out1
    /\ detect empty_frame df2 "EBM SALES" = Return out2
    /\ statuses out1 = [HAS_DUPLICATES; NO_DUPLICATES; IS_DUPLICATE; IS_DUPLICATE]
    /\ statuses out2 = [NO_DUPLICATES; HAS_DUPLICATES; IS_DUPLICATE; IS_DUPLICATE]
    /\ _get_duplicate_summary out1 = _get_duplicate_summary out2.
Proof.
  intros df1 df2.
  assert (Hcols : forall c, In c (column_names df1) ->
                    is_column_named "DUPLICATE STATUS" c = true ->
                    c = DUPLICATE_STATUS).
  { intros c Hc Hn. vm_compute in Hc.
    destruct Hc as [<-|[<-|[]]]; vm_compute in Hn; discriminate Hn. }
  pose proof (summary_ignores_record_order empty_frame df1 df2 "EBM SALES"
                eq_refl (perm_swap _ _ _) eq_refl Hcols) as H.
  destruct (detect empty_frame df1 "EBM SALES") as [out1|e1] eqn:E1;
    destruct (detect empty_frame df2 "EBM SALES") as [out2|e2] eqn:E2;
    try contradiction; [|discriminate E1].
  exists out1, out2. split; [reflexivity|]. split; [reflexivity|].
  split; [vm_compute in E1; injection E1 as <-; reflexivity|].
  split; [vm_compute in E2; injection E2 as <-; reflexivity|].
  exact H.
Defined.

(** A column named like the status column in another case is read instead
    of the column the detector has added. *)
Example stale_status_column_is_summarised :
  let df := mkDataFrame [mkColumn "duplicate status" DObject; mkColumn "ITEM" DObject]
              [[CStr "NO duplicates"; CStr "tea"]; [CStr "NO duplicates"; CStr "tea"]] in
  exists out,
    detect empty_frame df "EBM SALES" = Return out
    /\ column_values out DUPLICATE_STATUS = [HAS_DUPLICATES; IS_DUPLICATE]
    /\ _get_duplicate_summary out = mkSummary 0 0 2 "checked".
Proof. eexists. repeat split; reflexivity. Qed.

End SummaryFacts.

(** ** The categories of the sheets of a file *)

Module SheetFacts.

Import Frame Matcher Sheets MatcherFacts MatcherMore.

Local Open Scope nat_scope.

Lemma sheet_key_eqb_eq (a b : sheet_key) : sheet_key_eqb a b = true <-> a = b.
Proof.
  destruct a, b; cbn [sheet_key_eqb]; split; intros H; try discriminate;
    try reflexivity.
  - apply String.eqb_eq in H. congruence.
  - injection H as ->. apply String.eqb_refl.
  - apply Nat.eqb_eq in H. congruence.
  - injection H as ->. apply Nat.eqb_refl.
Qed.

Lemma sheets_set_fresh {V : Type} (d : list (sheet_key * V)) (k : sheet_key) (v : V) :
  ~ In k (map fst d) -> sheets_set d k v = d ++ [(k, v)].
Proof.
  induction d as [|[k' v'] d IH]; intros H; cbn [sheets_set app]; [reflexivity|].
  destruct (sheet_key_eqb k k') eqn:E.
  - apply sheet_key_eqb_eq in E. subst k'. exfalso. apply H. left. reflexivity.
  - rewrite IH; [reflexivity|]. intros X. apply H. right. exact X.
Qed.

(** The loop, as long as no sheet raises: one entry for each sheet. *)
Lemma categorise_all (original newheaders : headers_table)
    (sheets : list (sheet_key * list row)) (acc : list (sheet_key * matching)) :
  NoDup (map fst acc ++ map fst sheets) ->
  match categorise original newheaders sheets acc with
  | Return d =>
      exists ms,
        d = acc ++ combine (map fst sheets) ms
        /\ Forall2 (fun sheet m =>
                      fn_find_matching_category original newheaders (snd sheet) 25
                      = Return m) sheets ms
  | Raise e =>
      exists sheet, In sheet sheets
                    /\ fn_find_matching_category original newheaders (snd sheet) 25
                       = Raise e
  end.
Proof.
  revert acc; induction sheets as [|[k df] sheets IH]; intros acc Hnd;
    cbn [categorise].
  - exists []. split; [rewrite app_nil_r; reflexivity | constructor].
  - destruct (fn_find_matching_category original newheaders df 25) as [m|e] eqn:E;
      cbn [bind].
    + cbn [map fst] in Hnd.
      assert (Hk : ~ In k (map fst acc)).
      { intros X. apply NoDup_remove_2 in Hnd. apply Hnd.
        apply in_or_app. left. exact X. }
      rewrite sheets_set_fresh by exact Hk.
      specialize (IH (acc ++ [(k, m)])).
      assert (Hnd' : NoDup (map fst (acc ++ [(k, m)]) ++ map fst sheets)).
      { rewrite map_app. cbn [map fst]. rewrite <- app_assoc. exact Hnd. }
      specialize (IH Hnd').
      destruct (categorise original newheaders sheets (acc ++ [(k, m)])) as [d|e'].
      * destruct IH as [ms [-> F]]. exists (m :: ms). split.
        -- rewrite <- app_assoc. reflexivity.
        -- constructor; [exact E | exact F].
      * destruct IH as [sheet [Hin Hr]]. exists sheet. split; [right; exact Hin|exact Hr].
    + exists (k, df). split; [left; reflexivity | exact E].
Qed.

Lemma header_row_is_a_number (original newheaders : headers_table) (sheet : list row)
    (max_iterations : nat) (m : matching) :
  fn_find_matching_category original newheaders sheet max_iterations = Return m ->
  exists i, header_row_for_conversion m = Some i.
Proof.
  intros H. unfold header_row_for_conversion.
  destruct (Text.mem (Text.upper (str_filetype m)) ["UNKNOWN"; ""]) eqn:E;
    [exists 0; reflexivity|].
  destruct (matcher_cases original newheaders sheet max_iterations)
    as [[Hu _]|[c [_ [_ Ha]]]].
  - rewrite H in Hu. injection Hu as ->. discriminate E.
  - rewrite H in Ha. unfold accept, bind in Ha.
    destruct (table_get newheaders (fst (snd c))); [|discriminate].
    injection Ha as ->. exists (fst c). reflexivity.
Qed.

(** X23.  The categories of the sheets of a file are found all or none:
    when the matcher returns for every sheet, the result holds its answer for
    each sheet, in the order of the sheets; as soon as it raises for one
    sheet, the result is the single entry UNKNOWN under the key [None],
    whatever the other sheets hold.  In both cases the header row handed to
    the converter is a number for every entry. *)
Theorem sheets_categorised_all_or_none (original newheaders : headers_table)
    (sheets : list (sheet_key * list row)) :
  NoDup (map fst sheets) ->
  let found := fn_get_Uploadedfile_Sheetscategories original newheaders sheets in
  ((exists ms,
       found = combine (map fst sheets) ms
       /\ Forall2 (fun sheet m =>
                     fn_find_matching_category original newheaders (snd sheet) 25
                     = Return m) sheets ms)
   \/ (found = [(SheetNone, UNKNOWN)]
       /\ exists sheet e,
            In sheet sheets
            /\ fn_find_matching_category original newheaders (snd sheet) 25 = Raise e))
  /\ forall k m, In (k, m) found -> exists i, header_row_for_conversion m = Some i.
Proof.
  intros Hnd found.
  pose proof (categorise_all original newheaders sheets [] Hnd) as C.
  unfold found, fn_get_Uploadedfile_Sheetscategories.
  destruct (categorise original newheaders sheets []) as [d|e].
  - destruct C as [ms [-> F]]. cbn [app]. split.
    + left. exists ms. split; [reflexivity | exact F].
    + intros k m Hin.
      assert (G : forall ks, Forall2 (fun sheet m =>
                     fn_find_matching_category original newheaders (snd sheet) 25
                     = Return m) ks ms ->
                  In (k, m) (combine (map fst ks) ms) ->
                  exists i, header_row_for_conversion m = Some i).
      { clear. intros ks F. induction F as [|sheet m' ks ms Hm _ IH]; cbn [map combine].
        - intros [].
        - intros [X|X].
          + injection X as _ ->.
            exact (header_row_is_a_number _ _ _ _ _ Hm).
          + exact (IH X). }
      exact (G sheets F Hin).
  - destruct C as [sheet [Hin Hr]]. split.
    + right. split; [reflexivity|]. exists sheet, e. split; assumption.
    + intros k m [X|[]]. injection X as _ <-. exists 0. reflexivity.
Qed.

Lemma sheets_categorised_all_or_none_witness :
  let original := [("EBM SALES", [CStr "Invoice No"; CStr "Date"]);
                   ("BANK", [CStr "Value date"; CStr ""])] in
  let newheaders := [("EBM SALES", [CStr "INVOICE NUMBER"; CStr "TRANSACTION DATE"])] in
  let sheets := [(SheetName "Sales", [[CStr "invoice no"; CStr "date"]]);
                 (SheetName "Bank", [[CStr "value date"]])] in
  fn_get_Uploadedfile_Sheetscategories original newheaders sheets
  = [(SheetNone, UNKNOWN)]
  /\ forall k m,
       In (k, m) (fn_get_Uploadedfile_Sheetscategories original newheaders sheets) ->
       exists i, header_row_for_conversion m = Some i.
Proof.
  intros original newheaders sheets. split; [reflexivity|].
  refine (proj2 (sheets_categorised_all_or_none original newheaders sheets _)).
  cbn [map fst]. constructor; [intros [H|[]]; discriminate H|].
  constructor; [intros []|constructor].
Defined.

End SheetFacts.

(** ** Categories and their financial statement groups *)

Module GroupFacts.

Import Frame Groups FrameFacts.

Lemma cells_get_set_same (d : list (cell * cell)) (k v : cell) :
  cells_get (cells_set d k v) k = Some v.
Proof.
  induction d as [|[k' v'] d IH]; cbn [cells_set cells_get].
  - rewrite cell_eqb_refl. reflexivity.
  - destruct (cell_eqb k k') eqn:E; cbn [cells_get]; rewrite E; [reflexivity|exact IH].
Qed.

Lemma cells_get_set_other (d : list (cell * cell)) (k k0 v : cell) :
  k0 <> k -> cells_get (cells_set d k v) k0 = cells_get d k0.
Proof.
  intros Hne.
  assert (N : cell_eqb k0 k = false).
  { destruct (cell_eqb k0 k) eqn:E; [|reflexivity]. apply cell_eqb_eq in E. contradiction. }
  induction d as [|[k' v'] d IH]; cbn [cells_set cells_get].
  - rewrite N. reflexivity.
  - destruct (cell_eqb k k') eqn:E; cbn [cells_get].
    + apply cell_eqb_eq in E. subst k'. rewrite N. reflexivity.
    + destruct (cell_eqb k0 k'); [reflexivity | exact IH].
Qed.

Lemma find_last_pair {A : Type} (f : A -> bool) (l : list A) (a : A) :
  find f (l ++ [a]) = match find f l with
                      | Some x => Some x
                      | None => if f a then Some a else None
                      end.
Proof.
  induction l as [|x l IH]; cbn [app find]; [reflexivity|].
  destruct (f x); [reflexivity | exact IH].
Qed.

(** A key of the zipped dictionary has the value of its last pair. *)
Lemma dict_zip_from (pairs : list (cell * cell)) (d : list (cell * cell)) (k : cell) :
  cells_get (fold_left (fun d kv => cells_set d (fst kv) (snd kv)) pairs d) k
  = match find (fun kv => cell_eqb k (fst kv)) (rev pairs) with
    | Some kv => Some (snd kv)
    | None => cells_get d k
    end.
Proof.
  revert d; induction pairs as [|[k' v'] pairs IH]; intros d; cbn [fold_left rev].
  - reflexivity.
  - rewrite IH. cbn [fst snd]. rewrite find_last_pair.
    destruct (find (fun kv => cell_eqb k (fst kv)) (rev pairs)); [reflexivity|].
    cbn [fst snd]. destruct (cell_eqb k k') eqn:E.
    + apply cell_eqb_eq in E. subst k'. apply cells_get_set_same.
    + apply cells_get_set_other. intros ->. rewrite cell_eqb_refl in E. discriminate.
Qed.

Lemma combine_map {A B C : Type} (f : A -> B) (g : A -> C) (l : list A) :
  combine (map f l) (map g l) = map (fun a => (f a, g a)) l.
Proof. induction l as [|a l IH]; cbn [map combine]; [|rewrite IH]; reflexivity. Qed.

Lemma NoDup_map_injective {A B : Type} (f : A -> B) (l : list A) (a b : A) :
  NoDup (map f l) -> In a l -> In b l -> f a = f b -> a = b.
Proof.
  induction l as [|x l IH]; intros Hnd Ha Hb E; [contradiction|].
  cbn [map] in Hnd. inversion Hnd as [|? ? Hx Hl]; subst.
  destruct Ha as [->|Ha], Hb as [->|Hb].
  - reflexivity.
  - exfalso. apply Hx. rewrite E. apply in_map. exact Hb.
  - exfalso. apply Hx. rewrite <- E. apply in_map. exact Ha.
  - exact (IH Hl Ha Hb E).
Qed.

(** X24.  On a sheet of categories in which no category is listed twice,
    the two readings of the sheet agree: a category is listed by
    [get_categories_by_group] under a group exactly when the dictionary of
    [get_financial_statement_groups] gives it that group. *)
Theorem groups_and_categories_agree (df : DataFrame) (group_name : string) :
  df_empty df = false ->
  has_column df CATEGORY = true ->
  has_column df FINANCIAL_STATEMENT_GROUP = true ->
  NoDup (column_values df CATEGORY) ->
  exists groups categories,
    get_financial_statement_groups df = Return groups
    /\ get_categories_by_group df group_name = Return categories
    /\ forall c, In c categories <-> cells_get groups c = Some (CStr group_name).
Proof.
  intros Hne Hc Hg Hnd.
  unfold get_financial_statement_groups, get_categories_by_group.
  rewrite Hne, Hc, Hg. cbn [negb].
  eexists. eexists. split; [reflexivity|]. split; [reflexivity|].
  intros c. unfold dict_zip, column_values. rewrite combine_map, dict_zip_from.
  cbn [cells_get]. rewrite in_map_iff.
  set (pair_of := fun r => (get_cell df r CATEGORY, get_cell df r FINANCIAL_STATEMENT_GROUP)).
  split.
  - intros [r [Hr Hin]]. apply filter_In in Hin. destruct Hin as [Hin Hm].
    apply cell_eqb_eq in Hm.
    destruct (find (fun kv => cell_eqb c (fst kv)) (rev (map pair_of (rows df))))
      as [kv|] eqn:F.
    + apply find_some in F. destruct F as [Hkv Hk].
      apply in_rev, in_map_iff in Hkv. destruct Hkv as [r' [<- Hr']].
      unfold pair_of in *. cbn [fst snd] in *. apply cell_eqb_eq in Hk.
      assert (E : r' = r).
      { apply (NoDup_map_injective (fun r => get_cell df r CATEGORY) (rows df));
          [exact Hnd | exact Hr' | exact Hin | congruence]. }
      subst r'. rewrite Hm. reflexivity.
    + exfalso.
      assert (X : cell_eqb c (fst (pair_of r)) = false).
      { apply (find_none _ _ F). apply -> in_rev. apply in_map. exact Hin. }
      unfold pair_of in X. cbn [fst] in X. rewrite Hr, cell_eqb_refl in X. discriminate.
  - intros H.
    destruct (find (fun kv => cell_eqb c (fst kv)) (rev (map pair_of (rows df))))
      as [kv|] eqn:F; [|discriminate].
    injection H as H. apply find_some in F. destruct F as [Hkv Hk].
    apply in_rev, in_map_iff in Hkv. destruct Hkv as [r [<- Hr]].
    unfold pair_of in *. cbn [fst snd] in *. apply cell_eqb_eq in Hk.
    exists r. split; [symmetry; exact Hk|]. apply filter_In. split; [exact Hr|].
    rewrite H. apply cell_eqb_refl.
Qed.

Lemma groups_and_categories_agree_witness :
  let df := mkDataFrame [mkColumn "CATEGORY" DObject;
                         mkColumn "FINANCIAL STATEMENT GROUP" DObject]
              [[CStr "EBM SALES"; CStr "SALES"]; [CStr "BANK"; CStr "CASH"];
               [CStr "ETAX SALES"; CStr "SALES"]] in
  exists groups categories,
    get_financial_statement_groups df = Return groups
    /\ get_categories_by_group df "SALES" = Return categories
    /\ forall c, In c categories <-> cells_get groups c = Some (CStr "SALES").
Proof.
  intros df.
  refine (groups_and_categories_agree df "SALES" _ _ _ _); try reflexivity.
  vm_compute.
  constructor; [intros [H|[H|[]]]; discriminate H|].
  constructor; [intros [H|[]]; discriminate H|].
  constructor; [intros []|constructor].
Defined.

(** A category listed twice has in the dictionary the group of its last
    line, and is listed under the groups of both lines. *)
Example category_listed_twice :
  let df := mkDataFrame [mkColumn "CATEGORY" DObject;
                         mkColumn "FINANCIAL STATEMENT GROUP" DObject]
              [[CStr "BANK"; CStr "CASH"]; [CStr "BANK"; CStr "SALES"]] in
  get_financial_statement_groups df = Return [(CStr "BANK", CStr "SALES")]
  /\ get_categories_by_group df "CASH" = Return [CStr "BANK"].
Proof. split; reflexivity. Qed.

End GroupFacts.

(** ** Invoice details completed from the invoice summaries *)

Module InvoiceFacts.

Import Frame Transforms Invoices FrameFacts TransformFacts.

Local Open Scope nat_scope.

Lemma get_cell_absent (d : DataFrame) (r : row) (c : string) :
  has_column d c = false -> get_cell d r c = CNull.
Proof.
  intros H. unfold get_cell. apply index_of_none in H. rewrite H. reflexivity.
Qed.

Lemma mem_cons (c x : string) (l : list string) :
  Text.mem c (x :: l) = (c =? x)%string || Text.mem c l.
Proof. reflexivity. Qed.

(** A new column filled with one value. *)
Lemma set_column_new (d : DataFrame) (name : string) (dt : dtype) (v : cell) :
  has_column d name = false ->
  let d' := set_column d name dt (repeat v (List.length (rows d))) in
  rows d' = map (set_nth (List.length (columns d)) v) (rows d)
  /\ (forall c, has_column d' c = has_column d c || (c =? name)%string)
  /\ forall r c, get_cell d' (set_nth (List.length (columns d)) v r) c
                 = if (c =? name)%string then v else get_cell d r c.
Proof.
  intros H d'. pose proof H as Hn. apply index_of_none in Hn.
  assert (Names : column_names d' = column_names d ++ [name]).
  { unfold d', set_column. rewrite Hn. unfold column_names. cbn [columns].
    rewrite map_app. reflexivity. }
  split; [|split].
  - unfold d', set_column. rewrite Hn. cbn [rows]. apply map2_repeat.
  - intros c. unfold has_column. rewrite Names. unfold Text.mem.
    rewrite existsb_app. cbn [existsb]. rewrite orb_false_r. reflexivity.
  - intros r c. unfold get_cell. rewrite Names.
    destruct (String.eqb_spec c name) as [->|Hc].
    + rewrite (index_of_app_new _ _ Hn). unfold column_names. rewrite length_map.
      apply nth_set_nth_same.
    + destruct (index_of c (column_names d)) as [j|] eqn:Ej.
      * rewrite (index_of_app_old _ name _ _ Ej).
        apply nth_set_nth_other. apply index_of_lt in Ej.
        unfold column_names in Ej. rewrite length_map in Ej. lia.
      * assert (N : index_of c (column_names d ++ [name]) = None).
        { apply index_of_none. apply index_of_none in Ej. unfold Text.mem in *.
          rewrite existsb_app, Ej. cbn [existsb orb]. rewrite orb_false_r.
          apply String.eqb_neq. exact Hc. }
        rewrite N. reflexivity.
Qed.

(** The details after the first loop: the rows extended, a dash in each
    column added. *)
Lemma add_missing_columns_cells (dic_fields2add : fields) (d : DataFrame) :
  exists ext : row -> row,
    rows (add_missing_columns d dic_fields2add) = map ext (rows d)
    /\ (forall c, has_column (add_missing_columns d dic_fields2add) c
                  = has_column d c || Text.mem c (map snd dic_fields2add))
    /\ forall r c,
         get_cell (add_missing_columns d dic_fields2add) (ext r) c
         = if has_column d c then get_cell d r c
           else if Text.mem c (map snd dic_fields2add) then CStr "-" else CNull.
Proof.
  revert d; induction dic_fields2add as [|[scol dcol] rest IH]; intros d.
  - exists (fun r => r). cbn [add_missing_columns fold_left map]. split; [|split].
    + symmetry. apply map_id.
    + intros c. rewrite orb_false_r. reflexivity.
    + intros r c. destruct (has_column d c) eqn:E; [reflexivity|].
      apply get_cell_absent. exact E.
  - unfold add_missing_columns. cbn [fold_left snd map].
    fold (add_missing_columns
            (if has_column d dcol then d
             else set_column d dcol DObject (repeat (CStr "-") (List.length (rows d))))
            rest).
    destruct (has_column d dcol) eqn:Hd.
    + destruct (IH d) as [ext [R [Hc G]]]. exists ext. split; [exact R|]. split.
      * intros c. rewrite Hc, mem_cons.
        destruct (String.eqb_spec c dcol) as [->|_]; [rewrite Hd; reflexivity|reflexivity].
      * intros r c. rewrite G, mem_cons.
        destruct (has_column d c) eqn:E; [reflexivity|].
        destruct (String.eqb_spec c dcol) as [->|_]; [congruence|reflexivity].
    + destruct (set_column_new d dcol DObject (CStr "-") Hd) as [R1 [H1 G1]].
      set (d1 := set_column d dcol DObject (repeat (CStr "-") (List.length (rows d)))) in *.
      destruct (IH d1) as [ext [R [Hc G]]].
      exists (fun r => ext (set_nth (List.length (columns d)) (CStr "-") r)).
      split; [|split].
      * rewrite R, R1, map_map. reflexivity.
      * intros c. rewrite Hc, H1, mem_cons, orb_assoc. reflexivity.
      * intros r c. rewrite G, H1, G1, mem_cons.
        destruct (String.eqb_spec c dcol) as [->|Hne].
        -- rewrite Hd. reflexivity.
        -- rewrite orb_false_r. destruct (has_column d c); reflexivity.
Qed.

Lemma find_target_absent (dic_fields2add : fields) (c : string) :
  find (fun kv => (snd kv =? c)%string) dic_fields2add = None
  <-> Text.mem c (map snd dic_fields2add) = false.
Proof.
  induction dic_fields2add as [|[s d] rest IH]; cbn [find map snd]; [tauto|].
  rewrite mem_cons, (String.eqb_sym c d).
  destruct (d =? c)%string; cbn [orb]; [split; discriminate | exact IH].
Qed.

(** The cells of a row after the fields of a summary have been copied. *)
Lemma copy_fields_cells (S D : DataFrame) (dic_fields2add : fields) (first r : row) :
  (forall kv, In kv dic_fields2add -> has_column S (fst kv) = true) ->
  (forall kv, In kv dic_fields2add -> has_column D (snd kv) = true) ->
  NoDup (map snd dic_fields2add) ->
  exists r',
    copy_fields S D dic_fields2add first r = Done r'
    /\ forall c, get_cell D r' c
                 = match find (fun kv => (snd kv =? c)%string) dic_fields2add with
                   | Some kv => get_cell S first (fst kv)
                   | None => get_cell D r c
                   end.
Proof.
  revert r; induction dic_fields2add as [|[scol dcol] rest IH]; intros r HS HD Hnd.
  - exists r. split; reflexivity.
  - cbn [copy_fields].
    pose proof (HS (scol, dcol) (or_introl eq_refl)) as H1. cbn [fst] in H1. rewrite H1.
    cbn [map snd] in Hnd. inversion Hnd as [|? ? Hnot Hrest]; subst.
    destruct (IH (set_cell D r dcol (get_cell S first scol))) as [r' [E G]].
    + intros kv Hkv. apply HS. right. exact Hkv.
    + intros kv Hkv. apply HD. right. exact Hkv.
    + exact Hrest.
    + exists r'. split; [exact E|]. intros c. rewrite G. cbn [find snd fst].
      destruct (String.eqb_spec dcol c) as [<-|Hne].
      * assert (F : find (fun kv => (snd kv =? dcol)%string) rest = None).
        { apply find_target_absent.
          destruct (Text.mem dcol (map snd rest)) eqn:M; [|reflexivity].
          exfalso. apply Hnot. unfold Text.mem in M. apply existsb_exists in M.
          destruct M as [x [Hx Ex]]. apply String.eqb_eq in Ex. subst x. exact Hx. }
        rewrite F. apply get_set_cell_same.
        exact (HD (scol, dcol) (or_introl eq_refl)).
      * destruct (find (fun kv => (snd kv =? c)%string) rest); [reflexivity|].
        apply get_set_cell_other. intros ->. apply Hne. reflexivity.
Qed.

Lemma forallb_same {A : Type} (f g : A -> bool) (l : list A) :
  (forall a, In a l -> f a = g a) -> forallb f l = forallb g l.
Proof.
  induction l as [|a l IH]; intros H; cbn [forallb]; [reflexivity|].
  rewrite (H a (or_introl eq_refl)), IH by (intros x Hx; apply H; right; exact Hx).
  reflexivity.
Qed.

Lemma find_same {A : Type} (f g : A -> bool) (l : list A) :
  (forall a, f a = g a) -> find f l = find g l.
Proof.
  intros H. induction l as [|a l IH]; cbn [find]; [reflexivity|].
  rewrite H, IH. reflexivity.
Qed.

Lemma for_each_map {A B : Type} (f : A -> outcome B) (g : A -> B) (l : list A) :
  (forall a, In a l -> f a = Done (g a)) -> for_each f l = Done (map g l).
Proof.
  induction l as [|a l IH]; intros H; cbn [for_each map]; [reflexivity|].
  rewrite (H a (or_introl eq_refl)). cbn [and_then].
  rewrite IH by (intros x Hx; apply H; right; exact Hx). reflexivity.
Qed.

(** X25.  The completion of the invoice details is a look-up of the first
    matching summary: when the key columns exist, at least one key is given,
    the summaries have the columns to copy and no two of them go to the same
    column of the details, the result has the columns of the details and the
    columns to complete, and in each row a column to complete holds the cell
    of the first summary whose keys equal those of the row; a row without
    such a summary keeps its cells, with a dash in the columns the details
    did not have.  The other columns are as they were. *)
Theorem details_completed_from_first_match (df_Invoicesummary df_Invoicedetails : DataFrame)
    (dic_key_fields2add dic_fields2add : fields) :
  forallb (fun kv => has_column df_Invoicesummary (fst kv)
                     && has_column df_Invoicedetails (snd kv))
          dic_key_fields2add = true ->
  dic_key_fields2add <> [] ->
  (forall kv, In kv dic_fields2add -> has_column df_Invoicesummary (fst kv) = true) ->
  NoDup (map snd dic_fields2add) ->
  exists out,
    fn_update_invoicedetailsfromsummary df_Invoicesummary df_Invoicedetails
      dic_key_fields2add dic_fields2add = Done out
    /\ (forall c, has_column out c
                  = has_column df_Invoicedetails c
                    || Text.mem c (map snd dic_fields2add))
    /\ forall c, column_values out c
                 = map (completed_cell df_Invoicesummary df_Invoicedetails
                          dic_key_fields2add dic_fields2add c)
                       (rows df_Invoicedetails).
Proof.
  intros Hkeys Hne HS Hnd.
  set (S := df_Invoicesummary) in *. set (D := df_Invoicedetails) in *.
  unfold fn_update_invoicedetailsfromsummary. rewrite Hkeys.
  destruct (add_missing_columns_cells dic_fields2add D) as [ext [R [Hc G]]].
  set (D1 := add_missing_columns D dic_fields2add) in *.
  assert (HD1 : forall kv, In kv dic_fields2add -> has_column D1 (snd kv) = true).
  { intros kv Hkv. rewrite Hc.
    assert (M : Text.mem (snd kv) (map snd dic_fields2add) = true).
    { unfold Text.mem. apply existsb_exists. exists (snd kv).
      split; [apply in_map; exact Hkv | apply String.eqb_refl]. }
    rewrite M. apply orb_true_r. }
  (* the conditions read the key columns, which the first loop leaves *)
  assert (Hm : forall r s, matches S D1 dic_key_fields2add (ext r) s
                           = matches S D dic_key_fields2add r s).
  { intros r s. unfold matches. apply forallb_same. intros kv Hkv.
    rewrite forallb_forall in Hkeys. specialize (Hkeys kv Hkv).
    apply andb_prop in Hkeys. destruct Hkeys as [_ Hk].
    rewrite G, Hk. reflexivity. }
  (* each row is updated without an exception *)
  assert (Hrow : forall r, exists r',
             update_row S D1 dic_key_fields2add dic_fields2add (ext r) = Done r'
             /\ forall c, get_cell D1 r' c
                          = completed_cell S D dic_key_fields2add dic_fields2add c r).
  { intros r. unfold update_row.
    destruct dic_key_fields2add as [|k ks] eqn:Ek; [contradiction|]. rewrite <- Ek in *.
    rewrite (find_same _ (matches S D dic_key_fields2add r)) by (intros s; apply Hm).
    unfold completed_cell, source_of.
    destruct (find (matches S D dic_key_fields2add r) (rows S)) as [first|].
    - destruct (copy_fields_cells S D1 dic_fields2add first (ext r) HS HD1 Hnd)
        as [r' [E C]].
      exists r'. split; [exact E|]. intros c. rewrite C.
      destruct (find (fun kv => (snd kv =? c)%string) dic_fields2add) as [kv|] eqn:F;
        cbn [option_map]; [reflexivity|].
      rewrite G. apply find_target_absent in F. rewrite F.
      destruct (has_column D c) eqn:E'; [reflexivity|].
      symmetry. apply get_cell_absent. exact E'.
    - exists (ext r). split; [reflexivity|]. intros c. rewrite G.
      destruct (find (fun kv => (snd kv =? c)%string) dic_fields2add) as [kv|] eqn:F;
        cbn [option_map].
      + assert (M : Text.mem c (map snd dic_fields2add) = true).
        { destruct (Text.mem c (map snd dic_fields2add)) eqn:M; [reflexivity|].
          apply find_target_absent in M. congruence. }
        rewrite M. reflexivity.
      + apply find_target_absent in F. rewrite F.
        destruct (has_column D c) eqn:E'; [reflexivity|].
        symmetry. apply get_cell_absent. exact E'. }
  (* a choice of the updated rows *)
  assert (Hall : exists upd : row -> row,
             forall r, update_row S D1 dic_key_fields2add dic_fields2add (ext r)
                       = Done (upd r)
                       /\ forall c, get_cell D1 (upd r) c
                            = completed_cell S D dic_key_fields2add dic_fields2add c r).
  { exists (fun r =>
              match update_row S D1 dic_key_fields2add dic_fields2add (ext r) with
              | Done r' => r'
              | Failed _ => r
              end).
    intros r. destruct (Hrow r) as [r' [E C]]. rewrite E. split; [reflexivity|exact C]. }
  destruct Hall as [upd Hupd].
  assert (F : for_each (update_row S D1 dic_key_fields2add dic_fields2add) (rows D1)
              = Done (map upd (rows D))).
  { rewrite R.
    rewrite (for_each_map _ (fun r1 =>
               match update_row S D1 dic_key_fields2add dic_fields2add r1 with
               | Done r' => r'
               | Failed _ => r1
               end)).
    - rewrite map_map. f_equal. apply map_ext. intros r.
      destruct (Hupd r) as [E _]. rewrite E. reflexivity.
    - intros r1 Hr1. apply in_map_iff in Hr1. destruct Hr1 as [r [<- _]].
      destruct (Hupd r) as [E _]. rewrite E. reflexivity. }
  rewrite F. cbn [and_then]. eexists. split; [reflexivity|]. split.
  - intros c. exact (Hc c).
  - intros c. unfold column_values. cbn [rows]. rewrite map_map.
    apply map_ext. intros r. destruct (Hupd r) as [_ C]. exact (C c).
Qed.

Lemma details_completed_from_first_match_witness :
  let summary := mkDataFrame [mkColumn "INVOICE SER NUMBER" DObject;
                              mkColumn "SALE STATUS" DObject]
                   [[CStr "A1"; CStr "Approved"]; [CStr "A2"; CStr "Refunded"];
                    [CStr "A1"; CStr "Cancelled"]] in
  let details := mkDataFrame [mkColumn "ITEM" DObject;
                              mkColumn "INVOICE SER NUMBER" DObject]
                   [[CStr "tea"; CStr "A1"]; [CStr "milk"; CStr "A3"];
                    [CStr "rice"; CNull]] in
  exists out,
    fn_update_invoicedetailsfromsummary summary details
      [("INVOICE SER NUMBER", "INVOICE SER NUMBER")] [("SALE STATUS", "SALES STATUS")]
    = Done out
    /\ column_values out "SALES STATUS" = [CStr "Approved"; CStr "-"; CStr "-"].
Proof.
  intros summary details.
  destruct (details_completed_from_first_match summary details
              [("INVOICE SER NUMBER", "INVOICE SER NUMBER")]
              [("SALE STATUS", "SALES STATUS")]) as [out [E [_ C]]].
  - reflexivity.
  - discriminate.
  - intros kv [<-|[]]. reflexivity.
  - cbn [map snd]. constructor; [intros []|constructor].
  - exists out. split; [exact E|]. rewrite (C "SALES STATUS"). reflexivity.
Defined.

(** Without a key the loop fails on the first row; without the key columns
    nothing is done. *)
Example details_without_keys :
  let summary := mkDataFrame [mkColumn "INVOICE SER NUMBER" DObject] [[CStr "A1"]] in
  let details := mkDataFrame [mkColumn "ITEM" DObject] [[CStr "tea"]] in
  fn_update_invoicedetailsfromsummary summary details [] [] = Failed IndexError
  /\ fn_update_invoicedetailsfromsummary summary details
       [("INVOICE SER NUMBER", "INVOICE SER NUMBER")] [("SALE STATUS", "SALES STATUS")]
     = Done details.
Proof. split; reflexivity. Qed.

End InvoiceFacts.

(** ** One category of the quick analysis *)

Module QuickAnalysisFacts.

Import Frame Store Duplicates Analysis Summaries QuickAnalysis.
Import FrameFacts DuplicateFacts.

Local Open Scope nat_scope.

Lemma update_at_replace (st : store) (d d' : DataFrame) :
  update_at (List.length st) (fun _ => d') (st ++ [d]) = st ++ [d'].
Proof. apply (update_at_fresh st d (fun _ => d')). Qed.

(** The date columns add no row and remove none. *)
Lemma date_columns_rows (df t : DataFrame) :
  add_date_columns df = Return t -> List.length (rows t) = List.length (rows df).
Proof.
  unfold add_date_columns. intros Ht.
  destruct (Text.mem "TRANSACTION DATE" (column_names df));
    [|injection Ht as <-; reflexivity].
  destruct (column_dtype df "TRANSACTION DATE"); try discriminate.
  injection Ht as <-.
  set (dates := column_values df "TRANSACTION DATE").
  assert (Len : forall (f : Calendar.datetime -> cell),
            List.length (map (date_part f) dates) = List.length (rows df)).
  { intros f. rewrite length_map. apply DateColumnFacts.column_values_length. }
  repeat (rewrite DateColumnFacts.set_column_rows_length;
          [|rewrite ?DateColumnFacts.set_column_rows_length;
            rewrite ?DateColumnFacts.set_column_rows_length;
            rewrite ?DateColumnFacts.set_column_rows_length; try apply Len; apply Len]).
  reflexivity.
Qed.

(** The top analysis raises nothing but the [AttributeError] of the accessor
    of the status column. *)
Lemma top_analysis_raises (self : QuickAnalysisEngine) (df : DataFrame)
    (group_name : string) (e : exn) :
  _generate_top_analysis self df group_name = Raise e ->
  e = AttributeError /\ status_accessor df = false.
Proof.
  unfold _generate_top_analysis. intros H.
  destruct (negb (has_column df YEAR)); [discriminate|].
  destruct (status_accessor df); cbn [negb] in H;
    [|injection H as <-; split; reflexivity].
  destruct (df_empty (clean_records df)); [discriminate|].
  destruct (get_numeric_columns (clean_records df) (Some (exclude_patterns self)));
    [discriminate|].
  destruct (find_partner (Text.upper group_name) (column_names (clean_records df)))
    as [[partner_col ptype]|]; [|discriminate].
  destruct (homogeneous _); discriminate.
Qed.

(** The analysis of a category counts the records of the table and reports
    its duplicate summary, unless the top analysis raises. *)
Lemma analyze_single_category_cases (self : QuickAnalysisEngine) (category : string)
    (df : DataFrame) (group_name : string) :
  match _analyze_single_category self category df group_name with
  | Return a =>
      analysis_total_records a = List.length (rows df)
      /\ analysis_duplicate_summary a = _get_duplicate_summary df
  | Raise e => e = AttributeError /\ status_accessor df = false
  end.
Proof.
  unfold _analyze_single_category.
  destruct (_generate_top_analysis self df group_name) as [top|e] eqn:E; cbn [bind].
  - split; reflexivity.
  - exact (top_analysis_raises self df group_name e E).
Qed.

(** The step once the detector has returned the table [out], which is the
    last table of the store. *)
Lemma analyse_category_run (p : duplicate_params) (self : QuickAnalysisEngine)
    (group_name category : string) (df : ref) (st : store) :
  analyse_category p self group_name category df st
  = if df_empty (nth df st empty_frame)
    then dated_analysis self group_name category st empty_frame
    else if accepts_str p category
         then dated_analysis self group_name category st
                (tagged p (nth df st empty_frame) category)
         else (Raise AttributeError, st ++ [nth df st empty_frame]).
Proof.
  unfold analyse_category, bindS. rewrite fn_check_duplicatedrecords_run.
  assert (Step : forall out,
             (let '(a, st') := deref (List.length st) (st ++ [out]) in
              match add_date_columns a with
              | Raise e => ret (Raise e)
              | Return dated =>
                  fun st0 =>
                    let '(_, st1) :=
                      modify (List.length st) (fun _ => dated) st0 in
                    (let '(final, st2) := deref (List.length st) st1 in
                     ret (category_analysis <-
                            _analyze_single_category self category final group_name ;;
                          Return (storage_key group_name category, List.length st,
                                  category_analysis)) st2)
              end st')
             = dated_analysis self group_name category st out).
  { intros out. unfold deref, modify, ret, dated_analysis. rewrite nth_fresh.
    destruct (add_date_columns out) as [dated|e]; [|reflexivity].
    rewrite update_at_replace, nth_fresh. reflexivity. }
  destruct (df_empty (nth df st empty_frame)).
  - apply Step.
  - destruct (accepts_str p category); [apply Step|reflexivity].
Qed.

(** X26.  One category of the quick analysis, on a table whose first column
    named like TRANSACTION DATE (in any case), when it has one, is a column
    of time stamps - the column [get_date_range] reads, and writes back as
    [pd.to_datetime] returns it: as it is.  The tables the store held are
    left as they are.  When the detector raises (the accessor [.str]
    refuses the configured column) or the date columns cannot be added (the
    column TRANSACTION DATE is no column of time stamps) the exception
    leaves the loop.  Otherwise the table registered under the storage key
    is the one new table of the store and, the date columns being assigned
    to that very table after it has been registered, it holds them too and
    is the table the analysis reads.  The analysis counts the records of the
    table the detector has returned and reports its duplicate summary, which
    the date columns do not change; it raises [AttributeError] when the
    accessor refuses the first column named like the status column. *)
Theorem quick_analysis_step (p : duplicate_params) (self : QuickAnalysisEngine)
    (group_name category : string) (st : store) (df : ref) :
  let table := nth df st empty_frame in
  let res := analyse_category p self group_name category df st in
  (forall c, find (is_column_named "TRANSACTION DATE") (column_names table) = Some c ->
             column_dtype table c = DDatetime) ->
  firstn (List.length st) (snd res) = st
  /\ match detect p table category with
     | Raise e => fst res = Raise e
     | Return out =>
         match add_date_columns out with
         | Raise e => fst res = Raise e /\ snd res = st ++ [out]
         | Return dated =>
             snd res = st ++ [dated]
             /\ match _analyze_single_category self category dated group_name with
                | Return a =>
                    fst res = Return (storage_key group_name category,
                                      List.length st, a)
                    /\ analysis_total_records a = List.length (rows out)
                    /\ analysis_duplicate_summary a = _get_duplicate_summary out
                | Raise e =>
                    fst res = Raise e /\ e = AttributeError
                    /\ status_accessor dated = false
                end
         end
     end.
Proof.
  intros table res _. unfold res. rewrite analyse_category_run, detect_eq.
  fold table.
  assert (F : forall d, firstn (List.length st) (st ++ [d]) = st).
  { intros d. rewrite firstn_app, Nat.sub_diag, firstn_all. cbn [firstn].
    apply app_nil_r. }
  assert (Body : forall out,
             let r := dated_analysis self group_name category st out in
             firstn (List.length st) (snd r) = st
             /\ match add_date_columns out with
                | Raise e => fst r = Raise e /\ snd r = st ++ [out]
                | Return dated =>
                    snd r = st ++ [dated]
                    /\ match _analyze_single_category self category dated group_name with
                       | Return a =>
                           fst r = Return (storage_key group_name category,
                                           List.length st, a)
                           /\ analysis_total_records a = List.length (rows out)
                           /\ analysis_duplicate_summary a = _get_duplicate_summary out
                       | Raise e =>
                           fst r = Raise e /\ e = AttributeError
                           /\ status_accessor dated = false
                       end
                end).
  { intros out. cbv zeta. unfold dated_analysis.
    destruct (add_date_columns out) as [dated|e] eqn:Ed; cbn [fst snd];
      [|split; [apply F|split; reflexivity]].
    split; [apply F|]. split; [reflexivity|].
    pose proof (analyze_single_category_cases self category dated group_name) as C.
    destruct (_analyze_single_category self category dated group_name) as [a|e];
      cbn [bind].
    - destruct C as [C1 C2]. split; [reflexivity|]. split.
      + rewrite C1. exact (date_columns_rows _ _ Ed).
      + rewrite C2. exact (SummaryFacts.summary_date_columns _ _ Ed).
    - destruct C as [C1 C2]. split; [reflexivity|]. split; assumption. }
  destruct (df_empty table).
  - exact (Body empty_frame).
  - destruct (accepts_str p category).
    + exact (Body (tagged p table category)).
    + cbn [fst snd]. split; [apply F|reflexivity].
Qed.

Lemma quick_analysis_step_witness :
  let table := mkDataFrame [mkColumn "TRANSACTION DATE" DDatetime;
                            mkColumn "BUYER NAME" DObject;
                            mkColumn "TOTAL AMOUNT" DNumeric]
                 [[CDate (Calendar.mkDatetime 738000 0); CStr "a"; CNum 50];
                  [CDate (Calendar.mkDatetime 738000 0); CStr "a"; CNum 50]] in
  let res := analyse_category empty_frame (init []) "SALES" "EBM SALES" 0 [table] in
  exists a,
    fst res = Return ("SALES_EBM SALES", 1, a)
    /\ analysis_total_records a = 2
    /\ analysis_duplicate_summary a = mkSummary 1 1 0 "checked"
    /\ firstn 1 (snd res) = [table].
Proof.
  intros table res.
  assert (H : forall c, find (is_column_named "TRANSACTION DATE")
                          (column_names (nth 0 [table] empty_frame)) = Some c ->
                        column_dtype (nth 0 [table] empty_frame) c = DDatetime).
  { intros c Hc. vm_compute in Hc. injection Hc as <-. reflexivity. }
  pose proof (quick_analysis_step empty_frame (init []) "SALES" "EBM SALES"
                [table] 0 H) as [F _].
  eexists. split; [vm_compute; reflexivity|].
  split; [reflexivity|]. split; [reflexivity|]. exact F.
Defined.

End QuickAnalysisFacts.

(** ** The tables of the quick analysis by group and category *)

Module OrganizeFacts.

Import Frame Analysis Invoices Groups Organize FrameFacts AnalysisFacts.

Local Open Scope nat_scope.

Lemma sum_cons (x : nat) (l : list nat) : list_sum (x :: l) = x + list_sum l.
Proof. reflexivity. Qed.

(** Setting a key of a dictionary: the weight of the new value replaces the
    weight of the old one. *)
Lemma weight_set {K V : Type} (eqb : K -> K -> bool) (w : V -> nat)
    (d : list (K * V)) (k : K) (v : V) :
  list_sum (map (fun kv => w (snd kv)) (alist_set eqb d k v))
  + match alist_get eqb d k with
    | Some old => w old
    | None => 0
    end
  = list_sum (map (fun kv => w (snd kv)) d) + w v.
Proof.
  induction d as [|[k' v'] d IH]; cbn [alist_set alist_get map].
  - rewrite !sum_cons. cbn [snd list_sum fold_right]. lia.
  - destruct (eqb k k'); cbn [map]; rewrite !sum_cons; cbn [snd]; lia.
Qed.

Lemma concat_rows (a b : DataFrame) :
  List.length (rows (concat a b)) = List.length (rows a) + List.length (rows b).
Proof. unfold concat. cbn [rows]. rewrite length_app, !length_map. reflexivity. Qed.

Lemma with_source_rows (df : DataFrame) (file_name : string) :
  List.length (rows (with_source df file_name)) = List.length (rows df).
Proof.
  unfold with_source. apply DateColumnFacts.set_column_rows_length.
  apply repeat_length.
Qed.

(** A table added brings its records, whether it starts a category or
    extends one. *)
Lemma add_table_records (data_groups : groups) (group : cell) (category : string)
    (df_group : DataFrame) :
  records_of_groups (add_table data_groups group category df_group)
  = records_of_groups data_groups + List.length (rows df_group).
Proof.
  unfold add_table, records_of_groups.
  set (of_group := match alist_get cell_eqb data_groups group with
                   | Some cats => cats
                   | None => []
                   end).
  set (table := match alist_get String.eqb of_group category with
                | Some existing => concat existing df_group
                | None => df_group
                end).
  pose proof (weight_set String.eqb (fun df => List.length (rows df))
                of_group category table) as Inner.
  cbv beta in Inner.
  pose proof (weight_set cell_eqb records_of_categories data_groups group
                (alist_set String.eqb of_group category table)) as Outer.
  assert (T : List.length (rows table)
              = match alist_get String.eqb of_group category with
                | Some old => List.length (rows old)
                | None => 0
                end + List.length (rows df_group)).
  { unfold table. destruct (alist_get String.eqb of_group category);
      [apply concat_rows | reflexivity]. }
  assert (G : match alist_get cell_eqb data_groups group with
              | Some old => records_of_categories old
              | None => 0
              end = records_of_categories of_group).
  { unfold of_group. destruct (alist_get cell_eqb data_groups group); reflexivity. }
  unfold records_of_categories in *.
  destruct (alist_get String.eqb of_group category); lia.
Qed.

Lemma py_eq_count (vals : list cell) (g : cell) :
  List.length (filter (fun c => py_eq c g) vals)
  = if negb (is_null g) then List.length (filter (cell_eqb g) vals) else 0.
Proof.
  destruct g as [|z|s|d]; cbn [is_null negb].
  - rewrite SummaryFacts.filter_nothing; [reflexivity|].
    intros c _. destruct c; reflexivity.
  - f_equal. apply filter_ext. intros c. destruct c; cbn [py_eq cell_eqb];
      try reflexivity. apply Z.eqb_sym.
  - f_equal. apply filter_ext. intros c. destruct c; cbn [py_eq cell_eqb];
      try reflexivity. apply String.eqb_sym.
  - f_equal. apply filter_ext. intros c. destruct c as [| | |d']; cbn [py_eq cell_eqb];
      try reflexivity.
    destruct (Calendar.dt_eqb d' d) eqn:E1, (Calendar.dt_eqb d d') eqn:E2;
      try reflexivity.
    + apply dt_eqb_eq in E1. subst d'.
      assert (X : Calendar.dt_eqb d d = true) by (apply dt_eqb_eq; reflexivity).
      congruence.
    + apply dt_eqb_eq in E2. subst d'.
      assert (X : Calendar.dt_eqb d d = true) by (apply dt_eqb_eq; reflexivity).
      congruence.
Qed.

(** The loop over the groups of a sheet. *)
Lemma groups_loop_records (df_cleaned : DataFrame) (file_name category : string)
    (gs : list cell) (data_groups : groups) :
  records_of_groups
    (fold_left (fun dg group =>
                  add_table dg group category
                    (with_source
                       (filter_rows df_cleaned
                          (fun r => py_eq (get_cell df_cleaned r FINANCIAL_STATEMENT_GROUP)
                                          group))
                       file_name))
               gs data_groups)
  = records_of_groups data_groups
    + list_sum (map (fun g =>
                       if negb (is_null g)
                       then List.length
                              (filter (cell_eqb g)
                                 (column_values df_cleaned FINANCIAL_STATEMENT_GROUP))
                       else 0) gs).
Proof.
  revert data_groups; induction gs as [|g gs IH]; intros data_groups;
    cbn [fold_left map].
  - cbn [list_sum fold_right]. lia.
  - rewrite IH, add_table_records, with_source_rows, sum_cons.
    unfold filter_rows. cbn [rows].
    rewrite <- py_eq_count. unfold column_values.
    rewrite SummaryFacts.filter_map_length. lia.
Qed.

Lemma organize_sheet_records (data_groups : groups) (file_name category : string)
    (df_cleaned : DataFrame) :
  records_of_groups (organize_sheet data_groups file_name category df_cleaned)
  = records_of_groups data_groups + records_taken category df_cleaned.
Proof.
  unfold organize_sheet, records_taken.
  destruct (Text.mem (Text.upper category) ["UNKNOWN"; ""]); [lia|].
  destruct (has_column df_cleaned FINANCIAL_STATEMENT_GROUP).
  - rewrite groups_loop_records. f_equal.
    rewrite (SummaryFacts.counts_by_value (fun g => negb (is_null g)))
      by apply NoDup_unique.
    unfold column_values. rewrite SummaryFacts.filter_map_length.
    f_equal. apply filter_ext_in. intros r Hr.
    assert (M : cell_mem (get_cell df_cleaned r FINANCIAL_STATEMENT_GROUP)
                  (unique (map (fun r => get_cell df_cleaned r FINANCIAL_STATEMENT_GROUP)
                             (rows df_cleaned))) = true).
    { apply cell_mem_In, In_unique.
      apply (in_map (fun r => get_cell df_cleaned r FINANCIAL_STATEMENT_GROUP)).
      exact Hr. }
    rewrite M. apply andb_true_r.
  - rewrite add_table_records, with_source_rows. reflexivity.
Qed.


Section Dictionaries.

Context {K V : Type} (eqb : K -> K -> bool).
Hypothesis eqb_eq : forall a b, eqb a b = true <-> a = b.

Lemma alist_get_set (d : list (K * V)) (k k' : K) (v : V) :
  alist_get eqb (alist_set eqb d k v) k'
  = if eqb k' k then Some v else alist_get eqb d k'.
Proof.
  induction d as [|[k0 v0] d IH]; cbn [alist_set alist_get].
  - reflexivity.
  - destruct (eqb k k0) eqn:E; cbn [alist_get].
    + apply eqb_eq in E. subst k0. destruct (eqb k' k); reflexivity.
    + rewrite IH. destruct (eqb k' k0) eqn:E0; [|reflexivity].
      apply eqb_eq in E0. subst k0.
      destruct (eqb k' k) eqn:E1; [|reflexivity].
      apply eqb_eq in E1. subst k'.
      assert (X : eqb k k = true) by (apply eqb_eq; reflexivity). congruence.
Qed.

End Dictionaries.

Lemma column_values_empty (col : string) : column_values empty_frame col = [].
Proof. reflexivity. Qed.

Lemma column_values_concat (a b : DataFrame) (col : string) :
  column_values (concat a b) col = column_values a col ++ column_values b col.
Proof.
  unfold column_values, concat. cbn [rows]. rewrite map_app, !map_map.
  set (names := column_names a
                ++ filter (fun c => negb (Text.mem c (column_names a))) (column_names b)).
  assert (Names : column_names
                    (mkDataFrame (map (fun c => mkColumn c (concat_dtype a b c)) names)
                       (map (fun r => map (get_cell a r) names) (rows a)
                        ++ map (fun r => map (get_cell b r) names) (rows b)))
                  = names).
  { unfold column_names. cbn [columns]. rewrite map_map. cbn [col_name].
    apply map_id. }
  assert (Cell : forall d r, (has_column d col = true -> Text.mem col names = true) ->
                   get_cell (mkDataFrame (map (fun c => mkColumn c (concat_dtype a b c)) names)
                       (map (fun r => map (get_cell a r) names) (rows a)
                        ++ map (fun r => map (get_cell b r) names) (rows b)))
                     (map (get_cell d r) names) col
                   = get_cell d r col).
  { intros d r Hd. unfold get_cell at 1. rewrite Names.
    destruct (index_of col names) as [j|] eqn:E.
    - apply MissingDatesMore.nth_map_names. exact E.
    - symmetry. apply InvoiceFacts.get_cell_absent.
      apply index_of_none in E.
      destruct (has_column d col); [|reflexivity].
      rewrite Hd in E by reflexivity. discriminate. }
  assert (MemA : has_column a col = true -> Text.mem col names = true).
  { unfold has_column, names, Text.mem. rewrite existsb_app. intros ->. reflexivity. }
  assert (MemB : has_column b col = true -> Text.mem col names = true).
  { unfold has_column, names, Text.mem. rewrite existsb_app. intros H.
    destruct (existsb (String.eqb col) (column_names a)) eqn:EA; [reflexivity|].
    cbn [orb]. apply existsb_exists in H. destruct H as [x [Hx Ex]].
    apply existsb_exists. exists x. split; [|exact Ex].
    apply filter_In. split; [exact Hx|].
    apply String.eqb_eq in Ex. subst x. rewrite EA. reflexivity. }
  f_equal; apply map_ext; intros r; apply Cell; assumption.
Qed.

Lemma column_values_with_source (df : DataFrame) (file_name col : string) :
  column_values (with_source df file_name) col
  = map (record_cell file_name df col) (rows df).
Proof.
  unfold with_source, record_cell.
  destruct (String.eqb_spec col SOURCE_FILE) as [->|Hc].
  - rewrite DateColumnFacts.column_values_set_column_same by apply repeat_length.
    rewrite DuplicateFacts.map_const. reflexivity.
  - rewrite DateColumnFacts.column_values_set_column_other;
      [reflexivity | exact Hc | apply repeat_length].
Qed.

(** A table added extends the column of its group and category and no
    other. *)
Lemma add_table_cells (data_groups : groups) (group' : cell) (category' : string)
    (df_group : DataFrame) (group : cell) (category col : string) :
  column_values (table_of (add_table data_groups group' category' df_group)
                   group category) col
  = column_values (table_of data_groups group category) col
    ++ (if cell_eqb group group' && (category =? category')%string
        then column_values df_group col else []).
Proof.
  unfold add_table, table_of.
  rewrite (alist_get_set cell_eqb cell_eqb_eq).
  destruct (cell_eqb group group') eqn:G; cbn [andb].
  - apply cell_eqb_eq in G. subst group'.
    rewrite (alist_get_set String.eqb String.eqb_eq).
    destruct (String.eqb_spec category category') as [->|Hc].
    + destruct (alist_get cell_eqb data_groups group) as [cats|].
      * destruct (alist_get String.eqb cats category') as [existing|].
        -- apply column_values_concat.
        -- reflexivity.
      * reflexivity.
    + rewrite app_nil_r.
      destruct (alist_get cell_eqb data_groups group) as [cats|]; reflexivity.
  - rewrite app_nil_r. reflexivity.
Qed.

(** Over values without repetition, the one equal to [g] is met once. *)
Lemma flat_map_one (F : cell -> list cell) (g : cell) (b : bool) (gs : list cell) :
  NoDup gs ->
  flat_map (fun g' => if cell_eqb g g' && b then F g' else []) gs
  = if cell_mem g gs && b then F g else [].
Proof.
  unfold cell_mem.
  induction 1 as [|x gs Hx Hgs IH]; cbn [flat_map existsb]; [reflexivity|].
  rewrite IH. destruct (cell_eqb g x) eqn:E; cbn [andb orb].
  - apply cell_eqb_eq in E. subst x.
    assert (M : existsb (cell_eqb g) gs = false).
    { destruct (existsb (cell_eqb g) gs) eqn:M; [|reflexivity].
      exfalso. apply Hx. apply cell_mem_In. exact M. }
    rewrite M. cbn [andb]. apply app_nil_r.
  - reflexivity.
Qed.

Lemma groups_loop_cells (df_cleaned : DataFrame) (file_name category' : string)
    (group : cell) (category col : string) (gs : list cell) (data_groups : groups) :
  column_values
    (table_of
       (fold_left (fun dg group' =>
                     add_table dg group' category'
                       (with_source
                          (filter_rows df_cleaned
                             (fun r => py_eq (get_cell df_cleaned r FINANCIAL_STATEMENT_GROUP)
                                             group'))
                          file_name))
                  gs data_groups)
       group category) col
  = column_values (table_of data_groups group category) col
    ++ flat_map (fun group' =>
                   if cell_eqb group group' && (category =? category')%string
                   then map (record_cell file_name df_cleaned col)
                          (filter (fun r => py_eq (get_cell df_cleaned r
                                                     FINANCIAL_STATEMENT_GROUP) group')
                             (rows df_cleaned))
                   else []) gs.
Proof.
  revert data_groups; induction gs as [|g gs IH]; intros data_groups;
    cbn [fold_left flat_map].
  - symmetry. apply app_nil_r.
  - rewrite IH, add_table_cells, column_values_with_source, <- app_assoc.
    reflexivity.
Qed.

Lemma py_eq_absent (vals : list cell) (g : cell) :
  cell_mem g vals = false -> forall v, In v vals -> py_eq v g = false.
Proof.
  intros M v Hv. destruct (py_eq v g) eqn:E; [|reflexivity].
  assert (X : cell_eqb v g = true).
  { destruct v, g; cbn [py_eq] in E; try discriminate; exact E. }
  apply cell_eqb_eq in X. subst v.
  apply cell_mem_In in Hv. congruence.
Qed.

(** One sheet: the table of a group and a category is extended by the
    records of the sheet that belong to them. *)
Lemma organize_sheet_cells (data_groups : groups) (file_name sheet_category : string)
    (df_cleaned : DataFrame) (group : cell) (category col : string) :
  column_values (table_of (organize_sheet data_groups file_name sheet_category
                             df_cleaned) group category) col
  = column_values (table_of data_groups group category) col
    ++ map (record_cell file_name df_cleaned col)
         (records_for group category sheet_category df_cleaned).
Proof.
  unfold organize_sheet, records_for.
  destruct (Text.mem (Text.upper sheet_category) ["UNKNOWN"; ""]);
    [symmetry; apply app_nil_r|].
  rewrite (String.eqb_sym sheet_category category).
  destruct (has_column df_cleaned FINANCIAL_STATEMENT_GROUP).
  - rewrite groups_loop_cells. f_equal.
    rewrite (flat_map_one
               (fun group' =>
                  map (record_cell file_name df_cleaned col)
                    (filter (fun r => py_eq (get_cell df_cleaned r
                                               FINANCIAL_STATEMENT_GROUP) group')
                       (rows df_cleaned))))
      by apply NoDup_unique.
    destruct (category =? sheet_category)%string; cbn [negb];
      [|rewrite andb_false_r; reflexivity].
    rewrite andb_true_r.
    destruct (cell_mem group (unique (column_values df_cleaned
                                        FINANCIAL_STATEMENT_GROUP))) eqn:M;
      [reflexivity|].
    rewrite SummaryFacts.filter_nothing; [reflexivity|].
    intros r Hr. apply (py_eq_absent (column_values df_cleaned FINANCIAL_STATEMENT_GROUP)).
    + destruct (cell_mem group (column_values df_cleaned FINANCIAL_STATEMENT_GROUP))
        eqn:M'; [|reflexivity].
      apply cell_mem_In, In_unique, cell_mem_In in M'. congruence.
    + unfold column_values.
      exact (in_map (fun r => get_cell df_cleaned r FINANCIAL_STATEMENT_GROUP) _ _ Hr).
  - rewrite add_table_cells, column_values_with_source.
    destruct (category =? sheet_category)%string; cbn [negb];
      [rewrite andb_true_r | rewrite andb_false_r; reflexivity].
    destruct (cell_eqb group OTHER_FINANCIAL_DATA); reflexivity.
Qed.

Lemma organize_cells (file_metadata : metadata) (group : cell) (category col : string)
    (data_groups : groups) :
  column_values
    (table_of
       (fold_left (fun dg (file : string * list (string * (string * DataFrame))) =>
                     fold_left (fun dg (sheet : string * (string * DataFrame)) =>
                                  organize_sheet dg (fst file) (fst (snd sheet))
                                    (snd (snd sheet)))
                               (snd file) dg)
                  file_metadata data_groups)
       group category) col
  = column_values (table_of data_groups group category) col
    ++ cells_of_metadata file_metadata group category col.
Proof.
  assert (Sheets : forall file_name (sheets : list (string * (string * DataFrame))) dg,
             column_values
               (table_of
                  (fold_left (fun dg (sheet : string * (string * DataFrame)) =>
                                organize_sheet dg file_name (fst (snd sheet))
                                  (snd (snd sheet))) sheets dg)
                  group category) col
             = column_values (table_of dg group category) col
               ++ flat_map (fun sheet : string * (string * DataFrame) =>
                              map (record_cell file_name (snd (snd sheet)) col)
                                (records_for group category (fst (snd sheet))
                                   (snd (snd sheet))))
                           sheets).
  { intros file_name sheets. induction sheets as [|sheet sheets IH]; intros dg;
      cbn [fold_left flat_map].
    - symmetry. apply app_nil_r.
    - rewrite IH, organize_sheet_cells, <- app_assoc. reflexivity. }
  unfold cells_of_metadata.
  revert data_groups. induction file_metadata as [|file files IH]; intros dg;
    cbn [fold_left flat_map].
  - symmetry. apply app_nil_r.
  - rewrite IH, Sheets, <- app_assoc. reflexivity.
Qed.

Lemma records_counted (file_metadata : metadata) :
  records_of_groups (_organize_by_groups file_metadata)
  = records_of_metadata file_metadata.
Proof.
  unfold _organize_by_groups, records_of_metadata.
  assert (Sheets : forall file_name sheets dg,
             records_of_groups
               (fold_left (fun dg (sheet : string * (string * DataFrame)) =>
                             organize_sheet dg file_name (fst (snd sheet))
                               (snd (snd sheet))) sheets dg)
             = records_of_groups dg
               + list_sum (map (fun sheet : string * (string * DataFrame) =>
                                  records_taken (fst (snd sheet)) (snd (snd sheet)))
                             sheets)).
  { intros file_name sheets. induction sheets as [|sheet sheets IH]; intros dg;
      cbn [fold_left map].
    - cbn [list_sum fold_right]. lia.
    - rewrite IH, organize_sheet_records, sum_cons. lia. }
  assert (Files : forall files dg,
             records_of_groups
               (fold_left (fun dg (file : string * list (string * (string * DataFrame))) =>
                             fold_left (fun dg (sheet : string * (string * DataFrame)) =>
                                          organize_sheet dg (fst file) (fst (snd sheet))
                                            (snd (snd sheet)))
                                       (snd file) dg) files dg)
             = records_of_groups dg
               + list_sum (map (fun file : string * list (string * (string * DataFrame)) =>
                                  list_sum (map (fun sheet : string * (string * DataFrame) =>
                                                   records_taken (fst (snd sheet))
                                                     (snd (snd sheet)))
                                              (snd file))) files)).
  { intros files. induction files as [|file files IH]; intros dg; cbn [fold_left map].
    - cbn [list_sum fold_right]. lia.
    - rewrite IH, Sheets, sum_cons. lia. }
  rewrite Files. reflexivity.
Qed.

(** A record of a sheet belongs to one group and one category only. *)
Lemma records_for_one_table (group group' : cell) (category category' : string)
    (sheet_category : string) (df_cleaned : DataFrame) (r : row) :
  In r (records_for group category sheet_category df_cleaned) ->
  In r (records_for group' category' sheet_category df_cleaned) ->
  group = group' /\ category = category'.
Proof.
  unfold records_for.
  destruct (Text.mem (Text.upper sheet_category) ["UNKNOWN"; ""]); [intros []|].
  destruct (String.eqb_spec sheet_category category) as [<-|]; [|intros []].
  destruct (String.eqb_spec sheet_category category') as [<-|]; [|intros _ []].
  cbn [negb].
  assert (Eq : forall v g, py_eq v g = true -> g = v).
  { intros v g E. symmetry. apply cell_eqb_eq.
    destruct v, g; cbn [py_eq] in E; try discriminate; exact E. }
  destruct (has_column df_cleaned FINANCIAL_STATEMENT_GROUP).
  - intros H1 H2. apply filter_In in H1, H2.
    destruct H1 as [_ H1], H2 as [_ H2].
    apply Eq in H1, H2. split; [congruence | reflexivity].
  - destruct (cell_eqb group OTHER_FINANCIAL_DATA) eqn:E1; [|intros []].
    destruct (cell_eqb group' OTHER_FINANCIAL_DATA) eqn:E2; [|intros _ []].
    apply cell_eqb_eq in E1, E2. intros _ _. split; [congruence | reflexivity].
Qed.

(** X27.  The table of a group and a category holds, column by column
    and in the order of the files and of their sheets, the records of the
    sheets of that category that belong to the group, each with the name of
    its file in the column [Source File]: the records whose group is the
    group of the table when the sheet has a column of groups, all the records
    of the sheet, for the group of the other financial data, when it has
    none, and none of a sheet whose category is unknown.  A record of a sheet
    belongs to one group and one category only, and the tables hold between
    them as many records as the sheets give. *)
Theorem organized_records_conserved (file_metadata : metadata) :
  (forall (group : cell) (category col : string),
      column_values (table_of (_organize_by_groups file_metadata) group category) col
      = cells_of_metadata file_metadata group category col)
  /\ (forall (group group' : cell) (category category' sheet_category : string)
             (df_cleaned : DataFrame) (r : row),
         In r (records_for group category sheet_category df_cleaned) ->
         In r (records_for group' category' sheet_category df_cleaned) ->
         group = group' /\ category = category')
  /\ records_of_groups (_organize_by_groups file_metadata)
     = records_of_metadata file_metadata.
Proof.
  split; [|split].
  - intros group category col. unfold _organize_by_groups.
    rewrite organize_cells. reflexivity.
  - intros group group' category category' sheet_category df_cleaned r.
    apply records_for_one_table.
  - apply records_counted.
Qed.

(** Two sheets of one category: the records with a group go to the table
    of their group, those of the second sheet after those of the first; the
    record without a group is in no table. *)
Example organize_two_sheets :
  let sales := mkDataFrame [mkColumn "FINANCIAL STATEMENT GROUP" DObject;
                            mkColumn "AMOUNT" DNumeric]
                 [[CStr "SALES"; CNum 10]; [CNull; CNum 5]] in
  let more := mkDataFrame [mkColumn "FINANCIAL STATEMENT GROUP" DObject;
                           mkColumn "AMOUNT" DNumeric]
                [[CStr "SALES"; CNum 7]] in
  let found := _organize_by_groups
                 [("a.xlsx", [("Sheet1", ("EBM SALES", sales))]);
                  ("b.xlsx", [("Sheet1", ("EBM SALES", more));
                              ("Notes", ("UNKNOWN", more))])] in
  option_map (fun cats => option_map rows (alist_get String.eqb cats "EBM SALES"))
    (alist_get cell_eqb found (CStr "SALES"))
  = Some (Some [[CStr "SALES"; CNum 10; CStr "a.xlsx"];
                [CStr "SALES"; CNum 7; CStr "b.xlsx"]])
  /\ records_of_groups found = 2.
Proof. split; reflexivity. Qed.

End OrganizeFacts.
